(** * Scoring and XP ledger of the Physics-club bot (src/lib/xpSystem.ts)

    A shallow embedding of the scoring core: the decay model, the user
    ledger, the attempt tracker and the finalize / unfinalize transaction,
    followed by the properties the specification states about them.

    Numbers.  The TypeScript code computes with IEEE doubles.  Integer
    columns ([xp], [attempts], [baseScore], ...) are modelled as [Z].
    Solve weights are the exact rationals [0.8 ^ k] with [0 <= k <= 5]
    ([Q]), and [Math.floor (base * weight)] is [Qfloor] of the exact
    product.  For a base from 0 to 2^31 - 1 (every score the curve
    yields, every 32-bit integer) the double computation gives the same
    integer: the doubles of the weights, 1, 0.8, 0.6400000000000001,
    0.5120000000000001, 0.4096000000000001 and 0.3276800000000001,
    exceed the exact ones by less than 2^-51 of their value, and an
    exact product that is not an integer lies at least 1/3125 below the
    next one.  Outside that range the two can differ by one: for a base
    of about 2^40 and beyond the double product can reach the next
    integer, and for a negative base whose exact product is an integer
    it falls just below it.  The curve of
    [getDynamicBaseFromWeightedSolves] uses [Math.exp] and is modelled
    over the real numbers; the values used below are far from a rounding
    boundary of [Math.round].

    Store.  The three tables are lists of rows; [findUnique] is the first
    match, [update] rewrites the matching rows and fails when there is
    none.  The key and uniqueness constraints the schema declares are the
    invariant [wf], which every reachable store satisfies. *)

From Stdlib Require Import ZArith QArith Qround Qpower Qreals.
From Stdlib Require Import Reals Zfloor Lra Lia.
From Stdlib Require Import List String Bool.
Import ListNotations.

Set Implicit Arguments.

Close Scope Q_scope.
Open Scope Z_scope.

(* ================================================================== *)
(** ** Decay model *)
(* ================================================================== *)

Definition SCORE_DECAY : Q := 0.8%Q.
Definition MAX_WRONG_ATTEMPTS : Z := 5.
Definition MIN_DYNAMIC_BASE_SCORE : Z := 25.

Definition CURVE_A1 : R := 8.90125.
Definition CURVE_a1 : R := - 0.0279323.
Definition CURVE_B1 : R := 24.6239.
Definition CURVE_b1 : R := - 0.402639.

(** [Math.max(0, Math.min(MAX_WRONG_ATTEMPTS, attempts - 1))] *)
Definition getWrongAttempts (attempts : Z) : Z :=
  Z.max 0 (Z.min MAX_WRONG_ATTEMPTS (attempts - 1)).

(** [Math.pow(SCORE_DECAY, getWrongAttempts(attempts))] *)
Definition getSolveWeight (attempts : Z) : Q :=
  Qpower SCORE_DECAY (getWrongAttempts attempts).

(** [Math.round]: the nearest integer, ties towards plus infinity. *)
Definition Math_round (x : R) : Z := Zfloor (x + / 2).

(** [Math.floor] of [base * weight] for an integer [base]. *)
Definition Math_floor_scaled (base : Z) (weight : Q) : Z :=
  Qfloor (inject_Z base * weight)%Q.

(** The two-exponential curve before rounding and clamping. *)
Definition curved (weightedSolves : Q) : R :=
  (CURVE_A1 * exp (CURVE_a1 * Q2R weightedSolves)
   + CURVE_B1 * exp (CURVE_b1 * Q2R weightedSolves))%R.

Definition getDynamicBaseFromWeightedSolves (weightedSolves : Q) : Z :=
  Z.max MIN_DYNAMIC_BASE_SCORE (Math_round (curved weightedSolves)).

(** [rows.reduce((sum, a) => sum + getSolveWeight(a.attempts), 0)], over
    the [attempts] column of the rows read. *)
Definition sumSolveWeights (attemptCounts : list Z) : Q :=
  fold_left (fun sum attempts => (sum + getSolveWeight attempts)%Q)
            attemptCounts 0%Q.


(* ================================================================== *)
(** ** Data model: the three tables *)
(* ================================================================== *)

(** Primary keys are generated by the store; they are modelled as
    numbers drawn from one counter ([nextId] below). *)
Definition Id := nat.
Bind Scope nat_scope with Id.

Module User.
Record t := mk { id : Id; discordId : string; xp : Z }.

(** [data: { xp: v }] *)
Definition set_xp (v : Z) (u : t) : t := mk (id u) (discordId u) v.
End User.

Module Problem.
Record t := mk {
  id : Id;
  number : string;
  originalBaseScore : Z;
  baseScore : Z;
  attempts : Z;
  solves : Z;
  isFinalized : bool;
  finalizedAt : option Z
}.

(** [data: { originalBaseScore: v }] *)
Definition set_originalBaseScore (v : Z) (p : t) : t :=
  mk (id p) (number p) v (baseScore p) (attempts p) (solves p)
     (isFinalized p) (finalizedAt p).

(** [data: { baseScore: v }] *)
Definition set_baseScore (v : Z) (p : t) : t :=
  mk (id p) (number p) (originalBaseScore p) v (attempts p) (solves p)
     (isFinalized p) (finalizedAt p).

(** [data: { attempts: a, solves: s }] *)
Definition set_counters (a s : Z) (p : t) : t :=
  mk (id p) (number p) (originalBaseScore p) (baseScore p) a s
     (isFinalized p) (finalizedAt p).

(** [data: { attempts: a, solves: s, baseScore: b }] *)
Definition set_stats (a s b : Z) (p : t) : t :=
  mk (id p) (number p) (originalBaseScore p) b a s
     (isFinalized p) (finalizedAt p).

(** [data: { baseScore: b, isFinalized: f, finalizedAt: at }] *)
Definition set_finalization (b : Z) (f : bool) (at_ : option Z) (p : t) : t :=
  mk (id p) (number p) (originalBaseScore p) b (attempts p) (solves p)
     f at_.
End Problem.

Module UserAttempt.
Record t := mk {
  id : Id;
  userId : Id;
  problemId : Id;
  attempts : Z;
  solved : bool;
  awardedXp : Z;
  preFinalizeAwardedXp : option Z;
  finalizeDelta : Z
}.

(** [data: { attempts: a, solved: s }] *)
Definition set_progress (a : Z) (s : bool) (r : t) : t :=
  mk (id r) (userId r) (problemId r) a s (awardedXp r)
     (preFinalizeAwardedXp r) (finalizeDelta r).

(** [data: { awardedXp: v }] *)
Definition set_awardedXp (v : Z) (r : t) : t :=
  mk (id r) (userId r) (problemId r) (attempts r) (solved r) v
     (preFinalizeAwardedXp r) (finalizeDelta r).

(** [data: { preFinalizeAwardedXp: pre, awardedXp: v, finalizeDelta: d }] *)
Definition set_pricing (pre : option Z) (v d : Z) (r : t) : t :=
  mk (id r) (userId r) (problemId r) (attempts r) (solved r) v pre d.
End UserAttempt.

(** The store. *)
Record DB := mkDB {
  users : list User.t;
  problems : list Problem.t;
  userAttempts : list UserAttempt.t;
  nextId : Id
}.

Definition initialDB : DB := mkDB [] [] [] 0%nat.

(** The external problem source as one call sees it:
    [parseInt ((await getProblemByNumber n).baseScore, 10)], or [None]
    when the lookup throws. *)
Definition Sheet := string -> option Z.

(* ================================================================== *)
(** ** Failures and the store monad *)
(* ================================================================== *)

(** The code throws [Error] objects that differ in their message; the
    constructors carry the names the specification gives them.
    [RecordNotFound] is the store's own failure of [update] on a key that
    matches no row. *)
Inductive Error : Type :=
| NotFound
| AlreadyFinalized
| NotFinalized
| FinalizedProblemError
| ExternalSourceError
| RecordNotFound.

Inductive result (A : Type) : Type :=
| Ok (a : A)
| Err (e : Error).
Arguments Err {A} e.

(** A computation reads and writes the store and may throw; a throw keeps
    the store as the writes so far left it. *)
Definition M (A : Type) : Type := DB -> result A * DB.

Definition ret {A} (a : A) : M A := fun db => (Ok a, db).

Definition bind {A B} (m : M A) (k : A -> M B) : M B :=
  fun db =>
    match m db with
    | (Ok a, db') => k a db'
    | (Err e, db') => (Err e, db')
    end.

Definition throw {A} (e : Error) : M A := fun db => (Err e, db).

Declare Scope store_scope.
Delimit Scope store_scope with store.
Notation "x <- m ;; k" := (bind m (fun x => k))
  (at level 61, m at next level, right associativity) : store_scope.
Notation "' pat <- m ;; k" := (bind m (fun x => match x with pat => k end))
  (at level 61, pat pattern, m at next level, right associativity) : store_scope.
Notation "m ;; k" := (bind m (fun _ => k))
  (at level 61, right associativity) : store_scope.
Open Scope store_scope.

(** [for (const a of l) { acc = body(a, acc) }] *)
Fixpoint forEach {A S} (l : list A) (body : A -> S -> M S) (acc : S) : M S :=
  match l with
  | [] => ret acc
  | a :: l' => acc' <- body a acc ;; forEach l' body acc'
  end.

(* ================================================================== *)
(** ** The store's operations (Prisma client calls) *)
(* ================================================================== *)

(** [update({ where, data })] on the rows of a table. *)
Definition updateWhere {T} (where_ : T -> bool) (data : T -> T)
  (rows : list T) : list T :=
  map (fun r => if where_ r then data r else r) rows.

(** [where: { key: k }] for a numeric key column. *)
Definition byKey {T} (key : T -> nat) (k : nat) (x : T) : bool :=
  Nat.eqb (key x) k.

Module Prisma.

Definition user_byId (i : Id) (u : User.t) : bool := Nat.eqb (User.id u) i.
Definition user_byDiscordId (d : string) (u : User.t) : bool :=
  String.eqb (User.discordId u) d.
Definition problem_byId (i : Id) (p : Problem.t) : bool :=
  Nat.eqb (Problem.id p) i.
Definition problem_byNumber (n : string) (p : Problem.t) : bool :=
  String.eqb (Problem.number p) n.
Definition attempt_byId (i : Id) (a : UserAttempt.t) : bool :=
  Nat.eqb (UserAttempt.id a) i.
(** [where: { userId_problemId: { userId, problemId } }] *)
Definition attempt_byUserProblem (u p : Id) (a : UserAttempt.t) : bool :=
  Nat.eqb (UserAttempt.userId a) u && Nat.eqb (UserAttempt.problemId a) p.
(** [where: { problemId }] *)
Definition attempt_ofProblem (p : Id) (a : UserAttempt.t) : bool :=
  Nat.eqb (UserAttempt.problemId a) p.
(** [where: { problemId, solved: true }] *)
Definition attempt_solvedOfProblem (p : Id) (a : UserAttempt.t) : bool :=
  Nat.eqb (UserAttempt.problemId a) p && UserAttempt.solved a.

(** [prisma.user.findUnique({ where })] *)
Definition user_findUnique (where_ : User.t -> bool) : M (option User.t) :=
  fun db => (Ok (find where_ (users db)), db).

(** Modelled from the spec: the schema is not among the sources; a user
    is created with the [xp] the call gives and a fresh key. *)
Definition user_create (discordId : string) (xp : Z) : M User.t :=
  fun db =>
    let u := User.mk (nextId db) discordId xp in
    (Ok u, mkDB (users db ++ [u]) (problems db) (userAttempts db)
                (S (nextId db))).

(** [prisma.user.update({ where, data })]: fails when no row matches. *)
Definition user_update (where_ : User.t -> bool) (data : User.t -> User.t)
  : M User.t :=
  fun db =>
    match find where_ (users db) with
    | None => (Err RecordNotFound, db)
    | Some u =>
        (Ok (data u),
         mkDB (updateWhere where_ data (users db)) (problems db)
              (userAttempts db) (nextId db))
    end.

(** [prisma.problem.findUnique({ where })] *)
Definition problem_findUnique (where_ : Problem.t -> bool)
  : M (option Problem.t) :=
  fun db => (Ok (find where_ (problems db)), db).

(** Modelled from the spec: the schema is not among the sources; a new
    problem starts with [attempts = 0], [solves = 0], not finalized and
    without a finalization time. *)
Definition problem_create (number : string) (originalBaseScore baseScore : Z)
  : M Problem.t :=
  fun db =>
    let p := Problem.mk (nextId db) number originalBaseScore baseScore
                        0 0 false None in
    (Ok p, mkDB (users db) (problems db ++ [p]) (userAttempts db)
                (S (nextId db))).

(** [prisma.problem.update({ where, data })] *)
Definition problem_update (where_ : Problem.t -> bool)
  (data : Problem.t -> Problem.t) : M Problem.t :=
  fun db =>
    match find where_ (problems db) with
    | None => (Err RecordNotFound, db)
    | Some p =>
        (Ok (data p),
         mkDB (users db) (updateWhere where_ data (problems db))
              (userAttempts db) (nextId db))
    end.

(** [prisma.userAttempt.findUnique({ where })] *)
Definition userAttempt_findUnique (where_ : UserAttempt.t -> bool)
  : M (option UserAttempt.t) :=
  fun db => (Ok (find where_ (userAttempts db)), db).

(** [prisma.userAttempt.findMany({ where })] *)
Definition userAttempt_findMany (where_ : UserAttempt.t -> bool)
  : M (list UserAttempt.t) :=
  fun db => (Ok (filter where_ (userAttempts db)), db).

(** Modelled from the spec: the schema is not among the sources; a new
    row starts with [attempts = 0], unsolved, [awardedXp = 0], no
    pre-finalize snapshot and [finalizeDelta = 0]. *)
Definition userAttempt_create (userId problemId : Id) : M UserAttempt.t :=
  fun db =>
    let a := UserAttempt.mk (nextId db) userId problemId 0 false 0 None 0 in
    (Ok a, mkDB (users db) (problems db) (userAttempts db ++ [a])
                (S (nextId db))).

(** [prisma.userAttempt.update({ where, data })] *)
Definition userAttempt_update (where_ : UserAttempt.t -> bool)
  (data : UserAttempt.t -> UserAttempt.t) : M UserAttempt.t :=
  fun db =>
    match find where_ (userAttempts db) with
    | None => (Err RecordNotFound, db)
    | Some a =>
        (Ok (data a),
         mkDB (users db) (problems db)
              (updateWhere where_ data (userAttempts db)) (nextId db))
    end.

(** [prisma.userAttempt.deleteMany({ where })], returning [count]. *)
Definition userAttempt_deleteMany (where_ : UserAttempt.t -> bool) : M Z :=
  fun db =>
    (Ok (Z.of_nat (List.length (filter where_ (userAttempts db)))),
     mkDB (users db) (problems db)
          (filter (fun a => negb (where_ a)) (userAttempts db)) (nextId db)).

End Prisma.

(** [getProblemByNumber] followed by [parseInt] on its [baseScore]. *)
Definition fetchOriginalBaseScore (sheet : Sheet) (problemNumber : string)
  : M Z :=
  match sheet problemNumber with
  | Some v => ret v
  | None => throw ExternalSourceError
  end.

(* ================================================================== *)
(** ** User ledger *)
(* ================================================================== *)

(** [getWeightedSolves(problemId)] *)
Definition getWeightedSolves (problemId : Id) : M Q :=
  solvedAttempts <-
    Prisma.userAttempt_findMany (Prisma.attempt_solvedOfProblem problemId) ;;
  ret (sumSolveWeights (map UserAttempt.attempts solvedAttempts)).

(** [adjustUserXPByDbId(userId, delta)] *)
Definition adjustUserXPByDbId (userId : Id) (delta : Z) : M unit :=
  if delta =? 0 then ret tt
  else
    user <- Prisma.user_findUnique (Prisma.user_byId userId) ;;
    match user with
    | None => ret tt
    | Some user =>
        let newXP := Z.max 0 (User.xp user + delta) in
        Prisma.user_update (Prisma.user_byId userId) (User.set_xp newXP) ;;
        ret tt
    end.

(** [getOrCreateUser(discordId)] *)
Definition getOrCreateUser (discordId : string) : M User.t :=
  user <- Prisma.user_findUnique (Prisma.user_byDiscordId discordId) ;;
  match user with
  | Some user => ret user
  | None => Prisma.user_create discordId 0
  end.

(** [addXP(discordId, amount, reason)]; the log line is left out. *)
Definition addXP (discordId : string) (amount : Z) : M Z :=
  user <- getOrCreateUser discordId ;;
  let newXP := Z.max 0 (User.xp user + amount) in
  Prisma.user_update (Prisma.user_byDiscordId discordId) (User.set_xp newXP) ;;
  ret newXP.

(** [removeXP(discordId, amount, reason)] *)
Definition removeXP (discordId : string) (amount : Z) : M Z :=
  user <- getOrCreateUser discordId ;;
  let newXP := Z.max 0 (User.xp user - amount) in
  Prisma.user_update (Prisma.user_byDiscordId discordId) (User.set_xp newXP) ;;
  ret newXP.

(* ================================================================== *)
(** ** Results *)
(* ================================================================== *)

Module AttemptResult.
Record t := mk {
  awardedXP : Z;
  userXP : Z;
  attemptNumber : Z;
  totalProblemAttempts : Z;
  totalProblemSolves : Z;
  weightedSolves : Q;
  originalBaseScore : Z;
  currentBaseScore : Z
}.
End AttemptResult.

Module ResetProblemResult.
Record t := mk {
  problemNumber : string;
  clearedUserAttempts : Z;
  originalBaseScore : Z;
  currentBaseScore : Z
}.
End ResetProblemResult.

Module FinalizeProblemResult.
Record t := mk {
  problemNumber : string;
  finalBaseScore : Z;
  weightedSolves : Q;
  adjustedUsers : Z;
  initializedUsers : Z
}.
End FinalizeProblemResult.

Module UnfinalizeProblemResult.
Record t := mk {
  problemNumber : string;
  restoredBaseScore : Z;
  revertedUsers : Z
}.
End UnfinalizeProblemResult.

(* ================================================================== *)
(** ** Reset, finalize, unfinalize *)
(* ================================================================== *)

(** [resetProblemStats(problemNumber)] *)
Definition resetProblemStats (problemNumber : string)
  : M ResetProblemResult.t :=
  problem <- Prisma.problem_findUnique (Prisma.problem_byNumber problemNumber) ;;
  match problem with
  | None => throw NotFound
  | Some problem =>
      deleted <-
        Prisma.userAttempt_deleteMany
          (Prisma.attempt_ofProblem (Problem.id problem)) ;;
      let resetBaseScore :=
        if 0 <? Problem.originalBaseScore problem
        then Problem.originalBaseScore problem
        else Problem.baseScore problem in
      updatedProblem <-
        Prisma.problem_update (Prisma.problem_byId (Problem.id problem))
          (Problem.set_stats 0 0 resetBaseScore) ;;
      ret (ResetProblemResult.mk
             (Problem.number updatedProblem)
             deleted
             (Problem.originalBaseScore updatedProblem)
             (Problem.baseScore updatedProblem))
  end.

(** [attempt.preFinalizeAwardedXp ?? attempt.awardedXp] *)
Definition baselineAward (attempt : UserAttempt.t) : Z :=
  match UserAttempt.preFinalizeAwardedXp attempt with
  | Some v => v
  | None => UserAttempt.awardedXp attempt
  end.

(** [Math.floor(finalBaseScore * getSolveWeight(attempt.attempts))] *)
Definition finalAward (finalBaseScore : Z) (attempt : UserAttempt.t) : Z :=
  Math_floor_scaled finalBaseScore
    (getSolveWeight (UserAttempt.attempts attempt)).

(** Body of the loop of [finalizeProblemScoring] over the solved rows
    read before the loop; the accumulator is
    [(adjustedUsers, initializedUsers)]. *)
Definition finalizeAttempt (finalBaseScore : Z) (attempt : UserAttempt.t)
  (counts : Z * Z) : M (Z * Z) :=
  let '(adjustedUsers, initializedUsers) := counts in
  let baseline := baselineAward attempt in
  let final := finalAward finalBaseScore attempt in
  '(delta, counts') <-
    (if baseline =? 0 then
       (* Legacy rows should be initialized without changing XP. *)
       ret (0, (adjustedUsers, initializedUsers + 1))
     else
       let delta := final - baseline in
       if negb (delta =? 0) then
         adjustUserXPByDbId (UserAttempt.userId attempt) delta ;;
         ret (delta, (adjustedUsers + 1, initializedUsers))
       else ret (delta, (adjustedUsers, initializedUsers))) ;;
  Prisma.userAttempt_update (Prisma.attempt_byId (UserAttempt.id attempt))
    (UserAttempt.set_pricing (Some baseline) final delta) ;;
  ret counts'.

(** [finalizeProblemScoring(problemNumber)]; [now] is [new Date()]. *)
Definition finalizeProblemScoring (now : Z) (problemNumber : string)
  : M FinalizeProblemResult.t :=
  problem <- Prisma.problem_findUnique (Prisma.problem_byNumber problemNumber) ;;
  match problem with
  | None => throw NotFound
  | Some problem =>
      if Problem.isFinalized problem then throw AlreadyFinalized
      else
        solvedAttempts <-
          Prisma.userAttempt_findMany
            (Prisma.attempt_solvedOfProblem (Problem.id problem)) ;;
        let weightedSolves :=
          sumSolveWeights (map UserAttempt.attempts solvedAttempts) in
        let finalBaseScore := getDynamicBaseFromWeightedSolves weightedSolves in
        '(adjustedUsers, initializedUsers) <-
          forEach solvedAttempts (finalizeAttempt finalBaseScore) (0, 0) ;;
        Prisma.problem_update (Prisma.problem_byId (Problem.id problem))
          (Problem.set_finalization finalBaseScore true (Some now)) ;;
        ret (FinalizeProblemResult.mk
               (Problem.number problem)
               finalBaseScore
               weightedSolves
               adjustedUsers
               initializedUsers)
  end.

(** Body of the loop of [unfinalizeProblemScoring]; the accumulator is
    [revertedUsers]. *)
Definition unfinalizeAttempt (attempt : UserAttempt.t) (revertedUsers : Z)
  : M Z :=
  match UserAttempt.preFinalizeAwardedXp attempt with
  | None => ret revertedUsers                              (* continue *)
  | Some pre =>
      let reverseDelta := - UserAttempt.finalizeDelta attempt in
      revertedUsers' <-
        (if negb (reverseDelta =? 0) then
           adjustUserXPByDbId (UserAttempt.userId attempt) reverseDelta ;;
           ret (revertedUsers + 1)
         else ret revertedUsers) ;;
      Prisma.userAttempt_update (Prisma.attempt_byId (UserAttempt.id attempt))
        (UserAttempt.set_pricing None pre 0) ;;
      ret revertedUsers'
  end.

(** [unfinalizeProblemScoring(problemNumber)] *)
Definition unfinalizeProblemScoring (problemNumber : string)
  : M UnfinalizeProblemResult.t :=
  problem <- Prisma.problem_findUnique (Prisma.problem_byNumber problemNumber) ;;
  match problem with
  | None => throw NotFound
  | Some problem =>
      if negb (Problem.isFinalized problem) then throw NotFinalized
      else
        solvedAttempts <-
          Prisma.userAttempt_findMany
            (Prisma.attempt_solvedOfProblem (Problem.id problem)) ;;
        revertedUsers <- forEach solvedAttempts unfinalizeAttempt 0 ;;
        weightedSolves <- getWeightedSolves (Problem.id problem) ;;
        let restoredBaseScore :=
          getDynamicBaseFromWeightedSolves weightedSolves in
        Prisma.problem_update (Prisma.problem_byId (Problem.id problem))
          (Problem.set_finalization restoredBaseScore false None) ;;
        ret (UnfinalizeProblemResult.mk
               (Problem.number problem)
               restoredBaseScore
               revertedUsers)
  end.

(* ================================================================== *)
(** ** Attempt tracker *)
(* ================================================================== *)

(** [recordAttempt(userId, problemNumber, isCorrect)]; [sheet] is what the
    external problem source answers during this call. *)
Definition recordAttempt (sheet : Sheet) (userId problemNumber : string)
  (isCorrect : bool) : M AttemptResult.t :=
  found <- Prisma.problem_findUnique (Prisma.problem_byNumber problemNumber) ;;
  problem <-
    match found with
    | Some problem => ret problem
    | None =>
        originalBaseScore <- fetchOriginalBaseScore sheet problemNumber ;;
        Prisma.problem_create problemNumber originalBaseScore originalBaseScore
    end ;;
  if Problem.isFinalized problem then throw FinalizedProblemError
  else
    (* Backfill originalBaseScore for older rows. *)
    problem <-
      (if Problem.originalBaseScore problem <=? 0 then
         fallbackOriginal <- fetchOriginalBaseScore sheet problemNumber ;;
         Prisma.problem_update (Prisma.problem_byId (Problem.id problem))
           (Problem.set_originalBaseScore fallbackOriginal)
       else ret problem) ;;
    dbUser <- getOrCreateUser userId ;;
    foundAttempt <-
      Prisma.userAttempt_findUnique
        (Prisma.attempt_byUserProblem (User.id dbUser) (Problem.id problem)) ;;
    userAttempt <-
      match foundAttempt with
      | Some userAttempt => ret userAttempt
      | None => Prisma.userAttempt_create (User.id dbUser) (Problem.id problem)
      end ;;
    (* Increment attempts *)
    let newAttempts := UserAttempt.attempts userAttempt + 1 in
    let solvedAfterReview := UserAttempt.solved userAttempt || isCorrect in
    Prisma.userAttempt_update
      (Prisma.attempt_byId (UserAttempt.id userAttempt))
      (UserAttempt.set_progress newAttempts solvedAfterReview) ;;
    (* Update global attempts/solves *)
    let newlySolved := isCorrect && negb (UserAttempt.solved userAttempt) in
    let newGlobalAttempts := Problem.attempts problem + 1 in
    let newGlobalSolves :=
      Problem.solves problem + (if newlySolved then 1 else 0) in
    Prisma.problem_update (Prisma.problem_byId (Problem.id problem))
      (Problem.set_counters newGlobalAttempts newGlobalSolves) ;;
    (* Weighted solves from all successful users for this problem. *)
    solvedAttempts <-
      Prisma.userAttempt_findMany
        (Prisma.attempt_solvedOfProblem (Problem.id problem)) ;;
    let weightedSolves :=
      sumSolveWeights (map UserAttempt.attempts solvedAttempts) in
    let newBaseScore := getDynamicBaseFromWeightedSolves weightedSolves in
    Prisma.problem_update (Prisma.problem_byId (Problem.id problem))
      (Problem.set_baseScore newBaseScore) ;;
    if newlySolved then
      (* Award XP from original base score with attempt decay. *)
      let baseForAward :=
        if 0 <? Problem.originalBaseScore problem
        then Problem.originalBaseScore problem
        else Problem.baseScore problem in
      let awardedXP :=
        Math_floor_scaled baseForAward (getSolveWeight newAttempts) in
      userXP <- addXP userId awardedXP ;;
      Prisma.userAttempt_update
        (Prisma.attempt_byId (UserAttempt.id userAttempt))
        (UserAttempt.set_awardedXp awardedXP) ;;
      ret (AttemptResult.mk awardedXP userXP newAttempts newGlobalAttempts
             newGlobalSolves weightedSolves
             (Problem.originalBaseScore problem) newBaseScore)
    else
      latestUser <- Prisma.user_findUnique (Prisma.user_byId (User.id dbUser)) ;;
      ret (AttemptResult.mk 0
             (match latestUser with
              | Some u => User.xp u
              | None => User.xp dbUser
              end)
             newAttempts newGlobalAttempts newGlobalSolves weightedSolves
             (Problem.originalBaseScore problem) newBaseScore).

(* ================================================================== *)
(** ** Reachable stores *)
(* ================================================================== *)

(** The calls the command layer makes into this module. *)
Inductive Op : Type :=
| OpGetOrCreateUser (discordId : string)
| OpAddXP (discordId : string) (amount : Z)
| OpRemoveXP (discordId : string) (amount : Z)
| OpResetProblemStats (problemNumber : string)
| OpFinalize (now : Z) (problemNumber : string)
| OpUnfinalize (problemNumber : string)
| OpRecordAttempt (sheet : Sheet) (userId problemNumber : string)
    (isCorrect : bool).

(** The store a call leaves behind, whether it returned or threw. *)
Definition exec (o : Op) (db : DB) : DB :=
  match o with
  | OpGetOrCreateUser d => snd (getOrCreateUser d db)
  | OpAddXP d amount => snd (addXP d amount db)
  | OpRemoveXP d amount => snd (removeXP d amount db)
  | OpResetProblemStats n => snd (resetProblemStats n db)
  | OpFinalize now n => snd (finalizeProblemScoring now n db)
  | OpUnfinalize n => snd (unfinalizeProblemScoring n db)
  | OpRecordAttempt sheet d n c => snd (recordAttempt sheet d n c db)
  end.

Inductive reachable : DB -> Prop :=
| reachable_init : reachable initialDB
| reachable_step (o : Op) (db : DB) :
    reachable db -> reachable (exec o db).

(* ================================================================== *)
(** ** Vocabulary of the statements *)
(* ================================================================== *)

(** The balance a signed delta leaves: [Math.max(0, xp + delta)]. *)
Definition clampAdd (delta : Z) (u : User.t) : User.t :=
  User.set_xp (Z.max 0 (User.xp u + delta)) u.

(** The [delta] the finalize loop computes for a row. *)
Definition finalizeDeltaOf (finalBaseScore : Z) (a : UserAttempt.t) : Z :=
  if baselineAward a =? 0 then 0
  else finalAward finalBaseScore a - baselineAward a.

(** The row as the finalize loop writes it back. *)
Definition repriced (finalBaseScore : Z) (a : UserAttempt.t) : UserAttempt.t :=
  UserAttempt.set_pricing (Some (baselineAward a))
    (finalAward finalBaseScore a) (finalizeDeltaOf finalBaseScore a) a.

(** The delta the unfinalize loop applies for a row. *)
Definition reverseDeltaOf (a : UserAttempt.t) : Z :=
  match UserAttempt.preFinalizeAwardedXp a with
  | None => 0
  | Some _ => - UserAttempt.finalizeDelta a
  end.

(** The row as the unfinalize loop writes it back. *)
Definition restored (a : UserAttempt.t) : UserAttempt.t :=
  match UserAttempt.preFinalizeAwardedXp a with
  | None => a
  | Some pre => UserAttempt.set_pricing None pre 0 a
  end.

(** The solved rows of a problem: what both loops read. *)
Definition solvedRows (db : DB) (problemId : Id) : list UserAttempt.t :=
  filter (Prisma.attempt_solvedOfProblem problemId) (userAttempts db).

Definition attempt_ofUser (userId : Id) (a : UserAttempt.t) : bool :=
  Nat.eqb (UserAttempt.userId a) userId.

(** The delta [d] of the row a user has among [rows], 0 without one. *)
Definition deltaFor (d : UserAttempt.t -> Z) (rows : list UserAttempt.t)
  (userId : Id) : Z :=
  match find (attempt_ofUser userId) rows with
  | Some a => d a
  | None => 0
  end.

(** The row of a user (external id) for a problem (number), if any. *)
Definition attemptOf (db : DB) (discordId problemNumber : string)
  : option UserAttempt.t :=
  match find (Prisma.user_byDiscordId discordId) (users db),
        find (Prisma.problem_byNumber problemNumber) (problems db) with
  | Some u, Some p =>
      find (Prisma.attempt_byUserProblem (User.id u) (Problem.id p))
           (userAttempts db)
  | _, _ => None
  end.

Definition solvedBefore (db : DB) (discordId problemNumber : string) : bool :=
  match attemptOf db discordId problemNumber with
  | Some a => UserAttempt.solved a
  | None => false
  end.

(** The balance of a user (external id); a user not yet created has 0. *)
Definition balanceOf (db : DB) (discordId : string) : Z :=
  match find (Prisma.user_byDiscordId discordId) (users db) with
  | Some u => User.xp u
  | None => 0
  end.

(** The base score a problem carries when an attempt begins; a problem
    the attempt creates starts from the sheet's score. *)
Definition baseScoreAtEntry (sheet : Sheet) (db : DB) (problemNumber : string)
  : Z :=
  match find (Prisma.problem_byNumber problemNumber) (problems db) with
  | Some p => Problem.baseScore p
  | None => match sheet problemNumber with Some v => v | None => 0 end
  end.

(** The store after [data: { xp: v }] is written on the rows of
    [discordId]. *)
Definition setBalance (d : string) (v : Z) (db : DB) : DB :=
  mkDB (updateWhere (Prisma.user_byDiscordId d) (User.set_xp v) (users db))
       (problems db) (userAttempts db) (nextId db).

Definition attemptKey (a : UserAttempt.t) : Id * Id :=
  (UserAttempt.userId a, UserAttempt.problemId a).

(** Integrity of the store: the key and uniqueness constraints of the
    three tables, the sign of balances, and the pricing state of rows. *)
Record wf (db : DB) : Prop := mkWf {
  wf_user_ids : NoDup (map User.id (users db));
  wf_problem_ids : NoDup (map Problem.id (problems db));
  wf_attempt_ids : NoDup (map UserAttempt.id (userAttempts db));
  wf_attempt_keys : NoDup (map attemptKey (userAttempts db));
  wf_user_fresh :
    Forall (fun u => (User.id u < nextId db)%nat) (users db);
  wf_problem_fresh :
    Forall (fun p => (Problem.id p < nextId db)%nat) (problems db);
  wf_attempt_fresh :
    Forall (fun a => (UserAttempt.id a < nextId db)%nat
                     /\ (UserAttempt.userId a < nextId db)%nat
                     /\ (UserAttempt.problemId a < nextId db)%nat)
           (userAttempts db);
  wf_xp : Forall (fun u => 0 <= User.xp u) (users db);
  wf_live :
    Forall (fun a => UserAttempt.preFinalizeAwardedXp a = None ->
                     UserAttempt.finalizeDelta a = 0)
           (userAttempts db);
  wf_unsolved :
    Forall (fun a => UserAttempt.solved a = false ->
                     UserAttempt.preFinalizeAwardedXp a = None)
           (userAttempts db);
  wf_frozen :
    forall a p, In a (userAttempts db) -> In p (problems db) ->
      UserAttempt.problemId a = Problem.id p ->
      Problem.isFinalized p = false ->
      UserAttempt.preFinalizeAwardedXp a = None
}.


(* ------------------------------------------------------------------ *)
(** *** The two loops as folds over the rows read *)

(** The ledger after the deltas [d a] of the rows [a] read are applied in
    order. *)
Definition applyDeltas (d : UserAttempt.t -> Z) (rows : list UserAttempt.t)
  (us : list User.t) : list User.t :=
  fold_left
    (fun us a =>
       updateWhere (Prisma.user_byId (UserAttempt.userId a)) (clampAdd (d a)) us)
    rows us.

(** The table after each row read is written back by key, [g a] being
    the [data] computed from the row [a] as read. *)
Definition writeBack (g : UserAttempt.t -> UserAttempt.t -> UserAttempt.t)
  (rows : list UserAttempt.t) (table : list UserAttempt.t)
  : list UserAttempt.t :=
  fold_left
    (fun table a =>
       updateWhere (Prisma.attempt_byId (UserAttempt.id a)) (g a) table)
    rows table.

(** [data] of the finalize loop, from the row as read. *)
Definition finalizeData (finalBaseScore : Z) (a : UserAttempt.t)
  : UserAttempt.t -> UserAttempt.t :=
  UserAttempt.set_pricing (Some (baselineAward a))
    (finalAward finalBaseScore a) (finalizeDeltaOf finalBaseScore a).

(** [data] of the unfinalize loop, from the row as read; a row without a
    snapshot is skipped. *)
Definition unfinalizeData (a : UserAttempt.t)
  : UserAttempt.t -> UserAttempt.t :=
  match UserAttempt.preFinalizeAwardedXp a with
  | None => fun r => r
  | Some pre => UserAttempt.set_pricing None pre 0
  end.

(** The counters of the finalize loop. *)
Definition isInitialized (a : UserAttempt.t) : bool := baselineAward a =? 0.
Definition isAdjusted (finalBaseScore : Z) (a : UserAttempt.t) : bool :=
  negb (baselineAward a =? 0)
  && negb (finalAward finalBaseScore a - baselineAward a =? 0).
Definition isReverted (a : UserAttempt.t) : bool :=
  match UserAttempt.preFinalizeAwardedXp a with
  | None => false
  | Some _ => negb (- UserAttempt.finalizeDelta a =? 0)
  end.

Definition countWhere {T} (q : T -> bool) (l : list T) : Z :=
  Z.of_nat (List.length (filter q l)).

(* ------------------------------------------------------------------ *)
(** *** The stores finalize and unfinalize leave *)

Definition weightedSolvesOf (db : DB) (problemId : Id) : Q :=
  sumSolveWeights (map UserAttempt.attempts (solvedRows db problemId)).

Definition dynamicScoreOf (db : DB) (problemId : Id) : Z :=
  getDynamicBaseFromWeightedSolves (weightedSolvesOf db problemId).

(** The delta finalize applies to a user for the problem [problemId]. *)
Definition finalizeDeltaFor (db : DB) (problemId : Id) (userId : Id) : Z :=
  deltaFor (finalizeDeltaOf (dynamicScoreOf db problemId))
           (solvedRows db problemId) userId.

Definition afterFinalize (now : Z) (p : Problem.t) (db : DB) : DB :=
  let final := dynamicScoreOf db (Problem.id p) in
  mkDB (map (fun u => clampAdd (finalizeDeltaFor db (Problem.id p) (User.id u)) u)
            (users db))
       (updateWhere (Prisma.problem_byId (Problem.id p))
                    (Problem.set_finalization final true (Some now))
                    (problems db))
       (updateWhere (Prisma.attempt_solvedOfProblem (Problem.id p))
                    (repriced final) (userAttempts db))
       (nextId db).

Definition afterUnfinalize (p : Problem.t) (db : DB) : DB :=
  mkDB (map (fun u =>
               clampAdd (deltaFor reverseDeltaOf (solvedRows db (Problem.id p))
                                  (User.id u)) u)
            (users db))
       (updateWhere (Prisma.problem_byId (Problem.id p))
                    (Problem.set_finalization
                       (dynamicScoreOf db (Problem.id p)) false None)
                    (problems db))
       (updateWhere (Prisma.attempt_solvedOfProblem (Problem.id p))
                    restored (userAttempts db))
       (nextId db).

(* ------------------------------------------------------------------ *)
(** *** Outcomes of a computation *)

(** [post m db Q E]: run from [db], [m] returns a value and a store in
    [Q], or throws leaving a store in [E]. *)
Definition post {A} (m : M A) (db : DB) (Q : A -> DB -> Prop)
  (E : DB -> Prop) : Prop :=
  match m db with
  | (Ok a, db') => Q a db'
  | (Err _, db') => E db'
  end.

(* ------------------------------------------------------------------ *)
(** *** What a recorded attempt returns and stores *)

Definition solvesAtEntry (db : DB) (problemNumber : string) : Z :=
  match find (Prisma.problem_byNumber problemNumber) (problems db) with
  | Some p => Problem.solves p
  | None => 0
  end.

(** The cases in which [recordAttempt] throws. *)
Definition recordAttemptFails (sheet : Sheet) (db : DB)
  (problemNumber : string) : Prop :=
  match find (Prisma.problem_byNumber problemNumber) (problems db) with
  | None => sheet problemNumber = None
  | Some p =>
      Problem.isFinalized p = true
      \/ (Problem.originalBaseScore p <= 0 /\ sheet problemNumber = None)
  end.

(** [isCorrect && !userAttempt.solved] *)
Definition newlySolved (isCorrect : bool) (a : UserAttempt.t) : bool :=
  isCorrect && negb (UserAttempt.solved a).

(** The award of a first-time solve, from the problem as the call holds
    it and the row as read. *)
Definition awardFor (p : Problem.t) (a : UserAttempt.t) : Z :=
  Math_floor_scaled
    (if 0 <? Problem.originalBaseScore p
     then Problem.originalBaseScore p else Problem.baseScore p)
    (getSolveWeight (UserAttempt.attempts a + 1)).

Definition attemptResultOf (isCorrect : bool) (p : Problem.t) (u : User.t)
  (a : UserAttempt.t) (ws : Q) : AttemptResult.t :=
  AttemptResult.mk
    (if newlySolved isCorrect a then awardFor p a else 0)
    (if newlySolved isCorrect a
     then Z.max 0 (User.xp u + awardFor p a) else User.xp u)
    (UserAttempt.attempts a + 1)
    (Problem.attempts p + 1)
    (Problem.solves p + (if newlySolved isCorrect a then 1 else 0))
    ws
    (Problem.originalBaseScore p)
    (getDynamicBaseFromWeightedSolves ws).

Definition storedProblemOf (isCorrect : bool) (p : Problem.t)
  (a : UserAttempt.t) (ws : Q) : Problem.t :=
  Problem.set_baseScore (getDynamicBaseFromWeightedSolves ws)
    (Problem.set_counters (Problem.attempts p + 1)
       (Problem.solves p + (if newlySolved isCorrect a then 1 else 0)) p).

Definition storedAttemptOf (isCorrect : bool) (p : Problem.t)
  (a : UserAttempt.t) : UserAttempt.t :=
  let r := UserAttempt.set_progress (UserAttempt.attempts a + 1)
             (UserAttempt.solved a || isCorrect) a in
  if newlySolved isCorrect a then UserAttempt.set_awardedXp (awardFor p a) r
  else r.

(** The outcome of a call of [recordAttempt] that returns: [p] is the
    problem as the call holds it after the backfill, [u] the user and [a]
    the row as read (or created). *)
Inductive recorded (sheet : Sheet) (d n : string) (isCorrect : bool)
  (db : DB) (res : AttemptResult.t) (db' : DB) : Prop :=
| Recorded (p : Problem.t) (u : User.t) (a : UserAttempt.t) (ws : Q)
    (Hopen : Problem.isFinalized p = false)
    (Hbase : Problem.baseScore p = baseScoreAtEntry sheet db n)
    (Hsheet : 0 < Problem.originalBaseScore p
              \/ sheet n = Some (Problem.originalBaseScore p))
    (Hsolves : Problem.solves p = solvesAtEntry db n)
    (Hxp : User.xp u = balanceOf db d)
    (Hsolved : UserAttempt.solved a = solvedBefore db d n)
    (Hres : res = attemptResultOf isCorrect p u a ws)
    (Hproblem : find (Prisma.problem_byNumber n) (problems db')
                = Some (storedProblemOf isCorrect p a ws))
    (Huser : find (Prisma.user_byDiscordId d) (users db')
             = Some (User.set_xp (AttemptResult.userXP res) u))
    (Hrow : find (Prisma.attempt_byUserProblem (User.id u) (Problem.id p))
                 (userAttempts db')
            = Some (storedAttemptOf isCorrect p a))
    (Hquiet : newlySolved isCorrect a = false ->
              find (Prisma.user_byDiscordId d) (users db) <> None ->
              users db' = users db).

(* ------------------------------------------------------------------ *)
(** *** The phases of [recordAttempt]

    What holds of the store [s] and of the values the call holds after
    each phase, relative to the store [db] the call started from. *)

(** A throw leaves the store as it was, in one of the failing cases. *)
Definition attemptFailed (sheet : Sheet) (n : string) (db : DB) (s : DB)
  : Prop :=
  s = db /\ recordAttemptFails sheet db n.

(** After the problem is found or created. *)
Definition problemResolved (sheet : Sheet) (n : string) (db : DB)
  (p0 : Problem.t) (s : DB) : Prop :=
  wf s /\ users s = users db /\ userAttempts s = userAttempts db
  /\ (nextId db <= nextId s)%nat
  /\ find (Prisma.problem_byNumber n) (problems s) = Some p0
  /\ Problem.baseScore p0 = baseScoreAtEntry sheet db n
  /\ Problem.solves p0 = solvesAtEntry db n
  /\ ((find (Prisma.problem_byNumber n) (problems db) = Some p0 /\ s = db)
      \/ (find (Prisma.problem_byNumber n) (problems db) = None
          /\ sheet n = Some (Problem.originalBaseScore p0)
          /\ Problem.isFinalized p0 = false
          /\ (nextId db <= Problem.id p0)%nat)).

(** After the backfill. *)
Definition problemBackfilled (sheet : Sheet) (n : string) (db : DB)
  (p : Problem.t) (s : DB) : Prop :=
  wf s /\ users s = users db /\ userAttempts s = userAttempts db
  /\ (nextId db <= nextId s)%nat
  /\ find (Prisma.problem_byNumber n) (problems s) = Some p
  /\ Problem.isFinalized p = false
  /\ Problem.baseScore p = baseScoreAtEntry sheet db n
  /\ Problem.solves p = solvesAtEntry db n
  /\ (0 < Problem.originalBaseScore p
      \/ sheet n = Some (Problem.originalBaseScore p))
  /\ ((exists q, find (Prisma.problem_byNumber n) (problems db) = Some q
                 /\ Problem.id q = Problem.id p)
      \/ (find (Prisma.problem_byNumber n) (problems db) = None
          /\ (nextId db <= Problem.id p)%nat)).

(** After the user is found or created. *)
Definition userResolved (d n : string) (db : DB)
  (p : Problem.t) (u : User.t) (s : DB) : Prop :=
  wf s /\ userAttempts s = userAttempts db
  /\ find (Prisma.problem_byNumber n) (problems s) = Some p
  /\ find (Prisma.user_byDiscordId d) (users s) = Some u
  /\ User.xp u = balanceOf db d
  /\ ((find (Prisma.user_byDiscordId d) (users db) = Some u
       /\ users s = users db)
      \/ (find (Prisma.user_byDiscordId d) (users db) = None
          /\ (nextId db <= User.id u)%nat)).

(** After the row is found or created. *)
Definition rowResolved (d n : string) (db : DB)
  (p : Problem.t) (u : User.t) (a : UserAttempt.t) (s : DB) : Prop :=
  wf s
  /\ find (Prisma.problem_byNumber n) (problems s) = Some p
  /\ find (Prisma.user_byDiscordId d) (users s) = Some u
  /\ find (Prisma.attempt_byUserProblem (User.id u) (Problem.id p))
           (userAttempts s) = Some a
  /\ UserAttempt.solved a = solvedBefore db d n
  /\ (find (Prisma.user_byDiscordId d) (users db) <> None ->
      users s = users db).


Arguments updateWhere : simpl never.
Arguments getDynamicBaseFromWeightedSolves : simpl never.
Arguments getSolveWeight : simpl never.
Arguments Math_floor_scaled : simpl never.

(* ------------------------------------------------------------------ *)
(** *** Example stores *)

Section Examples.
Local Open Scope string_scope.

(** Two users (external ids) and a problem number. *)
Definition userA : string := "A".
Definition userB : string := "B".
Definition problem7 : string := "7".

(** A sheet that lists problem "7" alone, with base score [v]. *)
Definition sheet7 (v : Z) : Sheet :=
  fun n => if String.eqb n problem7 then Some v else None.

(** User A solved problem "7" (sheet score 100) at the first attempt. *)
Definition dbSolvedByA : DB :=
  exec (OpRecordAttempt (sheet7 100) userA problem7 true) initialDB.

(** ... and a curator then removed 90 XP from A. *)
Definition dbDrained : DB := exec (OpRemoveXP userA 90) dbSolvedByA.

(** User A solved problem "7" while the sheet scored it 0. *)
Definition dbUnpriced : DB :=
  exec (OpRecordAttempt (sheet7 0) userA problem7 true) initialDB.

(** A store whose only problem is finalized. *)
Definition dbFrozen : DB :=
  mkDB [User.mk 1 userA 25]
       [Problem.mk 0 problem7 100 25 1 1 true (Some 0)]
       [UserAttempt.mk 2 1 0 1 true 25 (Some 100) (-75)]
       3.

(** The scenario of the specification: A solves "7" at once; B fails
    once, then solves. *)
Definition scenarioA : result AttemptResult.t * DB :=
  recordAttempt (sheet7 100) userA problem7 true initialDB.
Definition scenarioB1 : result AttemptResult.t * DB :=
  recordAttempt (sheet7 100) userB problem7 false (snd scenarioA).
Definition scenarioB2 : result AttemptResult.t * DB :=
  recordAttempt (sheet7 100) userB problem7 true (snd scenarioB1).

End Examples.

(* ------------------------------------------------------------------ *)
(** *** Stores beyond the reachable ones *)

(** What finalize relies on: the keys of the three tables, one row per
    user and problem, and no negative balance.  It says nothing of the
    pricing state of the rows, so it also holds of stores in which a row
    of an open problem carries a snapshot ([wf] excludes them). *)
Record keyConstraints (db : DB) : Prop := mkKeyConstraints {
  kc_user_ids : NoDup (map User.id (users db));
  kc_problem_ids : NoDup (map Problem.id (problems db));
  kc_attempt_ids : NoDup (map UserAttempt.id (userAttempts db));
  kc_attempt_keys : NoDup (map attemptKey (userAttempts db));
  kc_xp : Forall (fun u => 0 <= User.xp u) (users db)
}.

(** A holds 60 XP; the row of A for the open problem "7" carries the
    award 40 and the snapshot 0. *)
Definition dbSnapshot : DB :=
  mkDB [User.mk 1 userA 60]
       [Problem.mk 0 problem7 100 25 1 1 false None]
       [UserAttempt.mk 2 1 0 1 true 40 (Some 0) 0]
       3.

(* ================================================================== *)
(** ** Bookkeeping across the tables *)
(* ================================================================== *)

(** What the two counters of a problem count: the solved rows of the
    problem, and the attempts its rows add up to. *)
Definition solvedCount (rows : list UserAttempt.t) (problemId : Id) : Z :=
  countWhere (Prisma.attempt_solvedOfProblem problemId) rows.

Definition attemptSum (rows : list UserAttempt.t) (problemId : Id) : Z :=
  fold_right Z.add 0
    (map UserAttempt.attempts
         (filter (Prisma.attempt_ofProblem problemId) rows)).

(** The sum of [g] over the rows of a table. *)
Definition total {T} (g : T -> Z) (l : list T) : Z :=
  fold_right Z.add 0 (map g l).

(** What a row adds to the solved count and to the attempt sum of the
    problem [problemId]. *)
Definition solvedShare (problemId : Id) (a : UserAttempt.t) : Z :=
  if Prisma.attempt_solvedOfProblem problemId a then 1 else 0.

Definition attemptShare (problemId : Id) (a : UserAttempt.t) : Z :=
  if Prisma.attempt_ofProblem problemId a then UserAttempt.attempts a else 0.

(** Consistency of the three tables with one another. *)
Record consistent (db : DB) : Prop := mkConsistent {
  co_discordIds : NoDup (map User.discordId (users db));
  co_numbers : NoDup (map Problem.number (problems db));
  co_owner :
    Forall (fun a => In (UserAttempt.userId a) (map User.id (users db)))
           (userAttempts db);
  co_problem :
    Forall (fun a => In (UserAttempt.problemId a)
                        (map Problem.id (problems db)))
           (userAttempts db);
  co_attempts : Forall (fun a => 1 <= UserAttempt.attempts a) (userAttempts db);
  co_unawarded :
    Forall (fun a => UserAttempt.solved a = false ->
                     UserAttempt.awardedXp a = 0)
           (userAttempts db);
  co_solves :
    Forall (fun p => Problem.solves p
                     = solvedCount (userAttempts db) (Problem.id p))
           (problems db);
  co_attemptSum :
    Forall (fun p => Problem.attempts p
                     = attemptSum (userAttempts db) (Problem.id p))
           (problems db)
}.

(** The keys of a user and of a problem: the primary key and the
    external one. *)
Definition userKey (u : User.t) : Id * string :=
  (User.id u, User.discordId u).
Definition problemKey (p : Problem.t) : Id * string :=
  (Problem.id p, Problem.number p).

(** What a call may do to the users and problems it finds: neither is
    deleted nor re-keyed, and a positive [originalBaseScore] stays. *)
Record grows (db db' : DB) : Prop := mkGrows {
  g_users : exists l, map userKey (users db') = map userKey (users db) ++ l;
  g_problems :
    exists l, map problemKey (problems db') = map problemKey (problems db) ++ l;
  g_original :
    forall p, In p (problems db) -> 0 < Problem.originalBaseScore p ->
      exists p', find (Prisma.problem_byId (Problem.id p)) (problems db')
                 = Some p'
                 /\ Problem.originalBaseScore p' = Problem.originalBaseScore p;
  g_next : (nextId db <= nextId db')%nat
}.

(* ------------------------------------------------------------------ *)
(** *** The stores [recordAttempt] passes through *)

(** After the problem is found or created from the sheet. *)
Definition problemEnsured (sheet : Sheet) (n : string) (db : DB) : DB :=
  match find (Prisma.problem_byNumber n) (problems db), sheet n with
  | None, Some v =>
      mkDB (users db)
           (problems db ++ [Problem.mk (nextId db) n v v 0 0 false None])
           (userAttempts db) (S (nextId db))
  | _, _ => db
  end.

(** After the backfill of a missing [originalBaseScore]. *)
Definition originalEnsured (sheet : Sheet) (n : string) (db : DB) : DB :=
  match find (Prisma.problem_byNumber n) (problems db), sheet n with
  | Some p, Some v =>
      if Problem.originalBaseScore p <=? 0 then
        mkDB (users db)
             (updateWhere (Prisma.problem_byId (Problem.id p))
                          (Problem.set_originalBaseScore v) (problems db))
             (userAttempts db) (nextId db)
      else db
  | _, _ => db
  end.

(** After the user is found or created. *)
Definition userEnsured (d : string) (db : DB) : DB :=
  match find (Prisma.user_byDiscordId d) (users db) with
  | Some _ => db
  | None =>
      mkDB (users db ++ [User.mk (nextId db) d 0]) (problems db)
           (userAttempts db) (S (nextId db))
  end.

(** After the row of the user for the problem is found or created. *)
Definition rowEnsured (userId problemId : Id) (db : DB) : DB :=
  match find (Prisma.attempt_byUserProblem userId problemId)
             (userAttempts db) with
  | Some _ => db
  | None =>
      mkDB (users db) (problems db)
           (userAttempts db
            ++ [UserAttempt.mk (nextId db) userId problemId 0 false 0 None 0])
           (S (nextId db))
  end.

(** The rows once the attempt is counted on the row [a]. *)
Definition countedRows (isCorrect : bool) (a : UserAttempt.t)
  (rows : list UserAttempt.t) : list UserAttempt.t :=
  updateWhere (Prisma.attempt_byId (UserAttempt.id a))
    (UserAttempt.set_progress (UserAttempt.attempts a + 1)
                              (UserAttempt.solved a || isCorrect))
    rows.

(** The weighted solves the call computes for the problem [p]. *)
Definition countedSolves (isCorrect : bool) (p : Problem.t)
  (a : UserAttempt.t) (rows : list UserAttempt.t) : Q :=
  sumSolveWeights
    (map UserAttempt.attempts
         (filter (Prisma.attempt_solvedOfProblem (Problem.id p))
                 (countedRows isCorrect a rows))).

(** The store the writes of [recordAttempt] leave, from the store [s] in
    which the problem [p], the user [u] and the row [a] were resolved. *)
Definition recordedStore (isCorrect : bool) (d : string) (p : Problem.t)
  (u : User.t) (a : UserAttempt.t) (s : DB) : DB :=
  let rows1 := countedRows isCorrect a (userAttempts s) in
  let ws := countedSolves isCorrect p a (userAttempts s) in
  let ps :=
    updateWhere (Prisma.problem_byId (Problem.id p))
      (Problem.set_baseScore (getDynamicBaseFromWeightedSolves ws))
      (updateWhere (Prisma.problem_byId (Problem.id p))
         (Problem.set_counters (Problem.attempts p + 1)
            (Problem.solves p + (if newlySolved isCorrect a then 1 else 0)))
         (problems s)) in
  if newlySolved isCorrect a then
    mkDB (updateWhere (Prisma.user_byDiscordId d)
            (User.set_xp (Z.max 0 (User.xp u + awardFor p a))) (users s))
         ps
         (updateWhere (Prisma.attempt_byId (UserAttempt.id a))
            (UserAttempt.set_awardedXp (awardFor p a)) rows1)
         (nextId s)
  else mkDB (users s) ps rows1 (nextId s).

(** The store in which [recordAttempt] has resolved problem and user. *)
Definition resolvedStore (sheet : Sheet) (d n : string) (db : DB) : DB :=
  userEnsured d (originalEnsured sheet n (problemEnsured sheet n db)).

(** The problem [recordAttempt] holds after the backfill, when it gets
    that far. *)
Definition resolvedProblem (sheet : Sheet) (n : string) (db : DB)
  : option Problem.t :=
  match find (Prisma.problem_byNumber n) (problems db), sheet n with
  | Some q, Some v =>
      Some (if Problem.originalBaseScore q <=? 0
            then Problem.set_originalBaseScore v q else q)
  | Some q, None => if Problem.originalBaseScore q <=? 0 then None else Some q
  | None, Some v => Some (Problem.mk (nextId db) n v v 0 0 false None)
  | None, None => None
  end.

(** The user it resolves. *)
Definition resolvedUser (sheet : Sheet) (d n : string) (db : DB) : User.t :=
  match find (Prisma.user_byDiscordId d) (users db) with
  | Some u => u
  | None => User.mk (nextId (problemEnsured sheet n db)) d 0
  end.

(** The row it reads, or creates, in the store [s]. *)
Definition rowAsRead (userId problemId : Id) (s : DB) : UserAttempt.t :=
  match find (Prisma.attempt_byUserProblem userId problemId)
             (userAttempts s) with
  | Some a => a
  | None => UserAttempt.mk (nextId s) userId problemId 0 false 0 None 0
  end.

(** The attempts a user has on a problem before a call. *)
Definition attemptsBefore (db : DB) (d n : string) : Z :=
  match attemptOf db d n with
  | Some a => UserAttempt.attempts a
  | None => 0
  end.

(** What a returning call of [recordAttempt] resolved and what it left. *)
Definition recordedAs (sheet : Sheet) (d n : string) (c : bool) (db : DB)
  (res : AttemptResult.t) (db' : DB) : Prop :=
  exists p u a,
    let s := resolvedStore sheet d n db in
    let s' := rowEnsured (User.id u) (Problem.id p) s in
    wf s /\ wf s'
    /\ find (Prisma.problem_byNumber n) (problems s) = Some p
    /\ Problem.isFinalized p = false
    /\ find (Prisma.user_byDiscordId d) (users s) = Some u
    /\ find (Prisma.attempt_byUserProblem (User.id u) (Problem.id p))
            (userAttempts s') = Some a
    /\ UserAttempt.solved a = solvedBefore db d n
    /\ User.xp u = balanceOf db d
    /\ res = attemptResultOf c p u a (countedSolves c p a (userAttempts s'))
    /\ db' = recordedStore c d p u a s'.

(** The store [resetProblemStats] leaves for the problem [p]. *)
Definition afterReset (p : Problem.t) (db : DB) : DB :=
  mkDB (users db)
       (updateWhere (Prisma.problem_byId (Problem.id p))
          (Problem.set_stats 0 0
             (if 0 <? Problem.originalBaseScore p
              then Problem.originalBaseScore p else Problem.baseScore p))
          (problems db))
       (filter (fun a => negb (Prisma.attempt_ofProblem (Problem.id p) a))
               (userAttempts db))
       (nextId db).

(* ================================================================== *)
(** ** Ranks and progress (getRankAndProgress) *)
(* ================================================================== *)

From Stdlib Require Import Ascii DecimalString.
From Stdlib Require Floats Uint63.

Module Threshold.
Record t := mk { threshold : Z; display : string }.
End Threshold.

Definition XP_THRESHOLDS : list Threshold.t :=
  [ Threshold.mk 0 "Unranked";
    Threshold.mk 101 "Bronze";
    Threshold.mk 201 "Silver";
    Threshold.mk 351 "Gold";
    Threshold.mk 501 "Platinum";
    Threshold.mk 751 "Diamond";
    Threshold.mk 951 "Ascendant";
    Threshold.mk 1201 "Immortal";
    Threshold.mk 1501 "Radiant" ]%string.

(** *** Numbers of the display code

    [xp] is an integer column; the thresholds are integers, and sums and
    differences of them are computed on [Z] (doubles are exact on
    integers below 2^53 in absolute value).  The quotient and the
    product of the progress formula are computed on doubles, as
    JavaScript does. *)

(** The double of an integer (exact below 2^53 in absolute value). *)
Definition Number_ofZ (z : Z) : PrimFloat.float :=
  if z <? 0
  then PrimFloat.opp (PrimFloat.of_uint63 (Uint63.of_Z (- z)))
  else PrimFloat.of_uint63 (Uint63.of_Z z).

(** The greatest integer below or at a finite double. *)
Definition floorZ (x : PrimFloat.float) : option Z :=
  match FloatOps.Prim2SF x with
  | SpecFloat.S754_zero _ => Some 0
  | SpecFloat.S754_finite s m e =>
      let magnitude :=
        if 0 <=? e then Z.shiftl (Zpos m) e else Z.shiftr (Zpos m) (- e) in
      let integral :=
        if 0 <=? e then true else Z.land (Zpos m) (Z.ones (- e)) =? 0 in
      Some (if s then (if integral then - magnitude else - magnitude - 1)
            else magnitude)
  | _ => None
  end.

(** [Math.floor]; a double of magnitude 2^53 or more is an integer, NaN
    and the infinities are returned as they are. *)
Definition Math_floor (x : PrimFloat.float) : PrimFloat.float :=
  match floorZ x with
  | Some z => if Z.abs z <? 2 ^ 53 then Number_ofZ z else x
  | None => x
  end.

(** The decimal numeral of an integer, as a template literal prints it. *)
Definition Z_toString (z : Z) : string := NilZero.string_of_int (Z.to_int z).

(** A template literal on a double that [Math.floor] returned: the
    numeral of an integer, or the name of a non-number. *)
Definition Number_toString (x : PrimFloat.float) : string :=
  match FloatOps.Prim2SF x with
  | SpecFloat.S754_nan => "NaN"
  | SpecFloat.S754_infinity false => "Infinity"
  | SpecFloat.S754_infinity true => "-Infinity"
  | _ => match floorZ x with Some z => Z_toString z | None => "" end
  end%string.

(** *** The function *)

(** The [for] loop over adjacent thresholds, with its [break]. *)
Fixpoint scanThresholds (ts : list Threshold.t) (xp : Z)
  (rank : string) (nextThreshold : Z) : string * Z :=
  match ts with
  | t :: ((t' :: _) as rest) =>
      if (Threshold.threshold t <=? xp) && (xp <? Threshold.threshold t')
      then (Threshold.display t, Threshold.threshold t')
      else scanThresholds rest xp rank nextThreshold
  | _ => (rank, nextThreshold)
  end.

(** [rank] and [nextThreshold] after the loop and the test of the last
    threshold. *)
Definition rankAndNextThreshold (xp : Z) : string * Z :=
  let '(rank, nextThreshold) :=
    scanThresholds XP_THRESHOLDS xp "Unranked"%string 100 in
  let top := last XP_THRESHOLDS (Threshold.mk 0 "") in
  if Threshold.threshold top <=? xp
  then (Threshold.display top, xp + 100)
  else (rank, nextThreshold).

(** [XP_THRESHOLDS.find(t => t.display === rank)] *)
Definition thresholdOfRank (rank : string) : option Threshold.t :=
  find (fun t => String.eqb (Threshold.display t) rank) XP_THRESHOLDS.

(** [Math.floor(((xp - base) / (nextThreshold - base)) * 100)] *)
Definition progressOf (xp base nextThreshold : Z) : PrimFloat.float :=
  Math_floor
    (PrimFloat.mul
       (PrimFloat.div (Number_ofZ (xp - base))
                      (Number_ofZ (nextThreshold - base)))
       (Number_ofZ 100)).

(** [Math.floor(progress / 10)] *)
Definition filledOf (progress : PrimFloat.float) : PrimFloat.float :=
  Math_floor (PrimFloat.div progress (Number_ofZ 10)).

(** The two squares of the bar, U+1F7E6 and U+2B1C, in UTF-8. *)
Definition FILLED_SQUARE : string :=
  String "240" (String "159" (String "159" (String "166" EmptyString))).
Definition EMPTY_SQUARE : string :=
  String "226" (String "172" (String "156" EmptyString)).

(** The loop that fills [barArray]. *)
Definition barArray (filled : PrimFloat.float) : list string :=
  map (fun i => if PrimFloat.ltb (Number_ofZ i) filled
                then FILLED_SQUARE else EMPTY_SQUARE)
      [0; 1; 2; 3; 4; 5; 6; 7; 8; 9].

Module RankInfo.
Record t := mk {
  rank : string;
  progressToNext : string;
  levelProgress : string;
  nextMilestone : string
}.
End RankInfo.

(** [getRankAndProgress(xp)]; [None] is the [TypeError] of reading
    [threshold] of an undefined entry. *)
Definition getRankAndProgress (xp : Z) : option RankInfo.t :=
  let '(rank, nextThreshold) := rankAndNextThreshold xp in
  match thresholdOfRank rank with
  | None => None
  | Some entry =>
      let base := Threshold.threshold entry in
      let progress := progressOf xp base nextThreshold in
      let filled := filledOf progress in
      let bar := String.concat " " (barArray filled) in
      let milestone :=
        match find (fun t => Z.eqb (Threshold.threshold t) nextThreshold)
                   XP_THRESHOLDS with
        | Some t =>
            if String.eqb (Threshold.display t) "" then "Max"
            else Threshold.display t
        | None => "Max"
        end in
      Some (RankInfo.mk
              rank
              (Z_toString xp ++ " / " ++ Z_toString nextThreshold ++ " XP ("
               ++ Z_toString (nextThreshold - xp) ++ " remaining)")
              (bar ++ " " ++ Number_toString progress ++ "%")
              (milestone ++ " at " ++ Z_toString nextThreshold ++ " XP"))
  end%string.

(** *** Vocabulary *)

(** The position of a rank in the table. *)
Fixpoint rankIndex (ts : list Threshold.t) (rank : string) : nat :=
  match ts with
  | [] => 0
  | t :: ts' =>
      if String.eqb (Threshold.display t) rank then 0
      else S (rankIndex ts' rank)
  end.

(** The percentage of the way from [base] to [nextThreshold], exactly. *)
Definition exactPercent (xp base nextThreshold : Z) : Z :=
  (xp - base) * 100 / (nextThreshold - base).

(** The integers [from], ..., [from + count - 1]. *)
Fixpoint Zrange (count : nat) (from : Z) : list Z :=
  match count with
  | O => []
  | S k => from :: Zrange k (from + 1)
  end.

(** What the progress display promises of one balance; decided by
    running the double arithmetic. *)
Definition progressInRange (xp : Z) : bool :=
  let '(rank, nextThreshold) := rankAndNextThreshold xp in
  match thresholdOfRank rank with
  | None => false
  | Some entry =>
      let base := Threshold.threshold entry in
      match floorZ (progressOf xp base nextThreshold),
            floorZ (filledOf (progressOf xp base nextThreshold)) with
      | Some p, Some f =>
          (0 <=? p) && (p <=? 99)
          && (exactPercent xp base nextThreshold - 1 <=? p)
          && (p <=? exactPercent xp base nextThreshold)
          && (f =? p / 10)
          && Nat.eqb
               (List.length
                  (filter (String.eqb FILLED_SQUARE)
                     (barArray (filledOf (progressOf xp base nextThreshold)))))
               (Z.to_nat f)
      | _, _ => false
      end
  end.

(* ================================================================== *)
(** ** Rendering (src/lib/latexRenderer.ts) *)
(* ================================================================== *)

(** Strings are sequences of code units; the characters the functions
    below look for are single units in every encoding of the text. *)

Definition AMPERSAND : ascii := "&".
Definition LESS_THAN : ascii := "<".
Definition GREATER_THAN : ascii := ">".
Definition DOUBLE_QUOTE : ascii := "034".
Definition SINGLE_QUOTE : ascii := "'".

(** [s.replace(/c/g, replacement)] for a pattern of one character and a
    replacement without [$]. *)
Fixpoint replaceAll (c : ascii) (replacement : string) (s : string) : string :=
  match s with
  | EmptyString => EmptyString
  | String x s' =>
      if Ascii.eqb x c then replacement ++ replaceAll c replacement s'
      else String x (replaceAll c replacement s')
  end%string.

(** [escapeHtml(unsafe)] *)
Definition escapeHtml (unsafe : string) : string :=
  replaceAll SINGLE_QUOTE "&#039;"
    (replaceAll DOUBLE_QUOTE "&quot;"
       (replaceAll GREATER_THAN "&gt;"
          (replaceAll LESS_THAN "&lt;"
             (replaceAll AMPERSAND "&amp;" unsafe)))).

(** The font size [renderLatex] picks for a text of [textLength] code
    units, in [em]. *)
Definition fontSize (textLength : nat) : Q :=
  if (textLength <=? 20)%nat then 2.4
  else if (textLength <=? 40)%nat then 2.0
  else if (textLength <=? 80)%nat then 1.6
  else if (textLength <=? 150)%nat then 1.2
  else 0.9.

(** *** Vocabulary *)

(** The entity a character is written as, or the character itself. *)
Definition escapeChar (x : ascii) : string :=
  if Ascii.eqb x AMPERSAND then "&amp;"
  else if Ascii.eqb x LESS_THAN then "&lt;"
  else if Ascii.eqb x GREATER_THAN then "&gt;"
  else if Ascii.eqb x DOUBLE_QUOTE then "&quot;"
  else if Ascii.eqb x SINGLE_QUOTE then "&#039;"
  else String x EmptyString.

(** Each character of [s] written with [escapeChar]. *)
Fixpoint escapeEach (s : string) : string :=
  match s with
  | EmptyString => EmptyString
  | String x s' => (escapeChar x ++ escapeEach s')%string
  end.

(** [c] occurs in [s]. *)
Fixpoint occurs (c : ascii) (s : string) : bool :=
  match s with
  | EmptyString => false
  | String x s' => Ascii.eqb x c || occurs c s'
  end.

(** The five entities [escapeHtml] writes. *)
Definition ENTITIES : list string :=
  ["&amp;"; "&lt;"; "&gt;"; "&quot;"; "&#039;"]%string.

(** Every ampersand of [s] starts one of the five entities. *)
Fixpoint ampersandsStartEntities (s : string) : bool :=
  match s with
  | EmptyString => true
  | String x s' =>
      (if Ascii.eqb x AMPERSAND
       then existsb (fun e => String.prefix e (String x s')) ENTITIES
       else true)
      && ampersandsStartEntities s'
  end.

(* ================================================================== *)
(** ** Review buttons (src/index.ts) *)
(* ================================================================== *)

Definition UNDERSCORE : ascii := "_".

(** [s.split(sep)] for a separator of one character. *)
Fixpoint String_split (sep : ascii) (s : string) : list string :=
  match s with
  | EmptyString => [EmptyString]
  | String x s' =>
      if Ascii.eqb x sep then EmptyString :: String_split sep s'
      else match String_split sep s' with
           | [] => [String x EmptyString]
           | part :: parts => String x part :: parts
           end
  end.

(** [getCurrentProblemNumber()]: [activeProblemNumber || '1']. *)
Definition getCurrentProblemNumber (activeProblemNumber : option string)
  : string :=
  match activeProblemNumber with
  | Some n => if String.eqb n "" then "1" else n
  | None => "1"
  end%string.

(** The custom ids the bot puts on its buttons: the two review buttons
    of a forwarded submission, and the reset button of a fetched
    problem. *)
Definition correctButtonId (authorId currentProblemNumber : string) : string :=
  ("correct_" ++ authorId ++ "_" ++ currentProblemNumber)%string.
Definition wrongButtonId (authorId currentProblemNumber : string) : string :=
  ("wrong_" ++ authorId ++ "_" ++ currentProblemNumber)%string.
Definition resetButtonId (problemNumber : string) : string :=
  ("reset_" ++ problemNumber)%string.

(** What the button handler does with a click, up to its replies. *)
Inductive ButtonRoute : Type :=
| Ignored                       (* not handled: a 'done' button *)
| OnlyCurators                  (* 'Only Curators can use these buttons.' *)
| InvalidReset                  (* 'Invalid reset button payload.' *)
| ResetStats (problemNumber : string)
| UnknownAction                 (* 'Unknown review action.' *)
| InvalidReview                 (* 'Invalid review button payload.' *)
| Review (userId problemNumber : string) (isCorrect : bool).

(** The dispatch of the button handler on [customId]: which call into
    the scoring module it reaches, with which arguments.  [Review] is
    followed by the fetch of the Discord user and [recordAttempt],
    [ResetStats] by [resetProblemStats]. *)
Definition routeButton (activeProblemNumber : option string)
  (hasCuratorRole : bool) (customId : string) : ButtonRoute :=
  match String_split UNDERSCORE customId with
  | [] => Ignored
  | action :: parts =>
      if String.eqb action "done" then Ignored
      else if negb hasCuratorRole then OnlyCurators
      else if String.eqb action "reset" then
        let problemNumber := String.concat "_" parts in
        if String.eqb problemNumber "" then InvalidReset
        else ResetStats problemNumber
      else if negb (String.eqb action "correct")
              && negb (String.eqb action "wrong") then UnknownAction
      else
        let problemNumber :=
          let joined := String.concat "_" (tl parts) in
          if String.eqb joined "" then
            getCurrentProblemNumber activeProblemNumber
          else joined in
        match parts with
        | [] => InvalidReview
        | userId :: _ =>
            if String.eqb userId "" then InvalidReview
            else Review userId problemNumber (String.eqb action "correct")
        end
  end%string.

(* ================================================================== *)
(** ** The problem sheet (src/lib/sheetsClient.ts) *)
(* ================================================================== *)

(** *** Library functions on strings

    Text is held in UTF-8.  The code points [String.prototype.trim] and
    [parseInt] skip are the WhiteSpace and LineTerminator code points of
    ECMAScript: U+0009 to U+000D, U+0020, U+00A0, U+1680, U+2000 to
    U+200A, U+2028, U+2029, U+202F, U+205F, U+3000 and U+FEFF. *)

Definition isSpace1 (c : ascii) : bool :=
  let n := nat_of_ascii c in
  ((9 <=? n) && (n <=? 13) || (n =? 32))%nat.

(** U+00A0 *)
Definition isSpace2 (c1 c2 : ascii) : bool :=
  ((nat_of_ascii c1 =? 194) && (nat_of_ascii c2 =? 160))%nat.

Definition isSpace3 (c1 c2 c3 : ascii) : bool :=
  let n1 := nat_of_ascii c1 in
  let n2 := nat_of_ascii c2 in
  let n3 := nat_of_ascii c3 in
  ((n1 =? 225) && (n2 =? 154) && (n3 =? 128)          (* U+1680 *)
   || (n1 =? 226) && (n2 =? 128)
      && ((128 <=? n3) && (n3 <=? 138)                (* U+2000 to U+200A *)
          || (n3 =? 168) || (n3 =? 169)               (* U+2028, U+2029 *)
          || (n3 =? 175))                             (* U+202F *)
   || (n1 =? 226) && (n2 =? 129) && (n3 =? 159)       (* U+205F *)
   || (n1 =? 227) && (n2 =? 128) && (n3 =? 128)       (* U+3000 *)
   || (n1 =? 239) && (n2 =? 187) && (n3 =? 191))%nat.  (* U+FEFF *)

(** White space stripped from the head of a list of bytes; [sp1], [sp2]
    and [sp3] recognise the encodings of one, two and three bytes. *)
Fixpoint stripSpaces (sp1 : ascii -> bool) (sp2 : ascii -> ascii -> bool)
  (sp3 : ascii -> ascii -> ascii -> bool) (l : list ascii) : list ascii :=
  match l with
  | c1 :: l1 =>
      if sp1 c1 then stripSpaces sp1 sp2 sp3 l1
      else
        match l1 with
        | c2 :: l2 =>
            if sp2 c1 c2 then stripSpaces sp1 sp2 sp3 l2
            else
              match l2 with
              | c3 :: l3 =>
                  if sp3 c1 c2 c3 then stripSpaces sp1 sp2 sp3 l3 else l
              | [] => l
              end
        | [] => l
        end
  | [] => []
  end.

(** The bytes in reading order, and in reverse order. *)
Definition trimStartBytes : list ascii -> list ascii :=
  stripSpaces isSpace1 isSpace2 isSpace3.

Definition trimEndBytes : list ascii -> list ascii :=
  stripSpaces isSpace1 (fun c1 c2 => isSpace2 c2 c1)
              (fun c1 c2 c3 => isSpace3 c3 c2 c1).

(** [s.trimStart()] and [s.trimEnd()] *)
Definition trimStart (s : string) : string :=
  string_of_list_ascii (trimStartBytes (list_ascii_of_string s)).

Definition trimEnd (s : string) : string :=
  string_of_list_ascii
    (rev (trimEndBytes (rev (list_ascii_of_string s)))).

(** [s.trim()] *)
Definition trim (s : string) : string := trimEnd (trimStart s).

(** No white space at the head. *)
Definition headClean (sp1 : ascii -> bool) (sp2 : ascii -> ascii -> bool)
  (sp3 : ascii -> ascii -> ascii -> bool) (l : list ascii) : bool :=
  match l with
  | c1 :: l1 =>
      negb (sp1 c1)
      && match l1 with
         | c2 :: l2 =>
             negb (sp2 c1 c2)
             && match l2 with
                | c3 :: _ => negb (sp3 c1 c2 c3)
                | [] => true
                end
         | [] => true
         end
  | [] => true
  end.

Definition digitOf (c : ascii) : option Z :=
  let n := nat_of_ascii c in
  if ((48 <=? n) && (n <=? 57))%nat then Some (Z.of_nat n - 48) else None.

(** The value of the longest prefix of decimal digits; [acc] is [None]
    until a digit is read. *)
Fixpoint digitsValue (s : string) (acc : option Z) : option Z :=
  match s with
  | String c s' =>
      match digitOf c with
      | Some d =>
          digitsValue s'
            (Some (10 * (match acc with Some a => a | None => 0 end) + d))
      | None => acc
      end
  | EmptyString => acc
  end.

(** [parseInt(s, 10)]; [None] is [NaN].  (Exact; the double JavaScript
    returns equals it below 2^53.) *)
Definition parseInt (s : string) : option Z :=
  match trimStart s with
  | String "-" s' => option_map Z.opp (digitsValue s' None)
  | String "+" s' => digitsValue s' None
  | s' => digitsValue s' None
  end.

(** *** The lookup *)

(** A row of the sheet: [row.get(header)], [None] for [undefined]. *)
Definition Row := string -> option string.

Module SheetProblem.
Record t := mk {
  number : string;
  problemLatex : string;
  baseScore : string
}.
End SheetProblem.

(** [value || fallback] on a cell. *)
Definition orElse (value : option string) (fallback : string) : string :=
  match value with
  | Some v => if String.eqb v "" then fallback else v
  | None => fallback
  end.

(** [row.get('Number')?.toString().trim() === numStr] *)
Definition rowHasNumber (numStr : string) (row : Row) : bool :=
  match row "Number"%string with
  | Some v => String.eqb (trim v) numStr
  | None => false
  end.

(** [getProblemByNumber(problemNumber)] on the rows read from the sheet;
    [None] is the error thrown when no row matches. *)
Definition getProblemByNumber (rows : list Row) (problemNumber : string)
  : option SheetProblem.t :=
  let numStr := trim problemNumber in
  match find (rowHasNumber numStr) rows with
  | Some row =>
      Some (SheetProblem.mk numStr
              (orElse (row "Problem Statement") "")
              (orElse (row "Base Score") "10"))
  | None => None
  end%string.

(** What [recordAttempt] reads of the sheet [rows]:
    [parseInt(sheetProblem.baseScore, 10)] of the problem found; [None]
    when no row matches, or when the text is not a number ([NaN]). *)
Definition sheetBaseScore (rows : list Row) (problemNumber : string)
  : option Z :=
  match getProblemByNumber rows problemNumber with
  | Some sheetProblem => parseInt (SheetProblem.baseScore sheetProblem)
  | None => None
  end.

(* ------------------------------------------------------------------ *)
(** *** Further example stores *)

(** User A failed problem "7" (sheet score 100) once. *)
Definition dbFailedByA : DB :=
  exec (OpRecordAttempt (sheet7 100) userA problem7 false) initialDB.

(** What that call returned. *)
Definition resultFailedByA : AttemptResult.t :=
  AttemptResult.mk 0 0 1 1 0 0%Q 100 (getDynamicBaseFromWeightedSolves 0).

(** What A's correct first attempt returned (store [dbSolvedByA]). *)
Definition resultSolvedByA : AttemptResult.t :=
  AttemptResult.mk 100 100 1 1 1 1%Q 100 (getDynamicBaseFromWeightedSolves 1).

(** Problem "7" as [dbSolvedByA] stores it. *)
Definition problem7SolvedByA : Problem.t :=
  Problem.mk 0 problem7 100 (getDynamicBaseFromWeightedSolves 1) 1 1
             false None.

(** The row of A for problem "7" in [dbSolvedByA]. *)
Definition rowSolvedByA : UserAttempt.t :=
  UserAttempt.mk 2 1 0 1 true 100 None 0.

(** Problem "7" finalized after A solved it, and as that store holds
    it. *)
Definition dbFinalized : DB := exec (OpFinalize 5 problem7) dbSolvedByA.
Definition problem7Finalized : Problem.t :=
  Problem.mk 0 problem7 100 (getDynamicBaseFromWeightedSolves 1) 1 1
             true (Some 5).
(* ------------------------------------------------------------------ *)
(** *** Example rows of the sheet *)

(** Two rows of a sheet: problem "6" with the base score "40", and
    problem "7", written with spaces around the number and without a
    base score. *)
Definition rowOf6 : Row :=
  fun header =>
    if String.eqb header "Number" then Some "6"%string
    else if String.eqb header "Base Score" then Some "40"%string
    else None.

Definition rowOf7 : Row :=
  fun header =>
    if String.eqb header "Number" then Some " 7 "%string
    else if String.eqb header "Problem Statement" then Some "x^2"%string
    else None.
(* ================================================================== *)
(** * Properties *)
(* ================================================================== *)

Unset Implicit Arguments.

(* ------------------------------------------------------------------ *)
(** *** Facts about the curve *)

Section CurveFacts.
Local Open Scope Q_scope.

(** *** The solve weight *)

Lemma getWrongAttempts_range (attempts : Z) :
  (0 <= getWrongAttempts attempts <= 5)%Z.
Proof. unfold getWrongAttempts, MAX_WRONG_ATTEMPTS. lia. Qed.

Lemma getSolveWeight_first : getSolveWeight 1 = 1.
Proof. reflexivity. Qed.

Lemma getSolveWeight_clamped (attempts : Z) :
  (6 <= attempts)%Z -> getSolveWeight attempts = getSolveWeight 6.
Proof.
  intros H. unfold getSolveWeight. f_equal.
  unfold getWrongAttempts, MAX_WRONG_ATTEMPTS. lia.
Qed.

Lemma SCORE_DECAY_pow_antitone (i j : Z) :
  (0 <= i <= j)%Z -> (j <= 5)%Z ->
  Qpower SCORE_DECAY j <= Qpower SCORE_DECAY i.
Proof.
  intros Hij Hj.
  assert (Hi : i = 0%Z \/ i = 1%Z \/ i = 2%Z \/ i = 3%Z \/ i = 4%Z \/ i = 5%Z)
    by lia.
  assert (Hj' : j = 0%Z \/ j = 1%Z \/ j = 2%Z \/ j = 3%Z \/ j = 4%Z \/ j = 5%Z)
    by lia.
  destruct Hi as [->|[->|[->|[->|[->| ->]]]]];
    destruct Hj' as [->|[->|[->|[->|[->| ->]]]]];
    try lia; discriminate.
Qed.

(** More attempts never weigh more. *)
Lemma getSolveWeight_antitone (m n : Z) :
  (m <= n)%Z -> getSolveWeight n <= getSolveWeight m.
Proof.
  intros H. unfold getSolveWeight. apply SCORE_DECAY_pow_antitone.
  - pose proof (getWrongAttempts_range m). unfold getWrongAttempts in *.
    unfold MAX_WRONG_ATTEMPTS in *. lia.
  - apply getWrongAttempts_range.
Qed.

(** *** The curve *)

Lemma exp_neg_le_1 (x : R) : (x <= 0)%R -> (exp x <= 1)%R.
Proof.
  intros Hx. destruct (Req_dec x 0) as [->|Hne].
  - rewrite exp_0. lra.
  - rewrite <- exp_0. left. apply exp_increasing. lra.
Qed.

Lemma exp_mono (x y : R) : (x <= y)%R -> (exp x <= exp y)%R.
Proof.
  intros [Hlt | ->]; [left; now apply exp_increasing | lra].
Qed.

(** [exp x >= (1 + x/4)^4] for [x >= 0], from [exp x >= 1 + x]. *)
Lemma exp_quartic_lower (x : R) :
  (0 <= x)%R -> ((1 + x / 4) ^ 4 <= exp x)%R.
Proof.
  intros Hx.
  replace x with (x / 4 + x / 4 + (x / 4 + x / 4))%R at 2 by lra.
  rewrite !exp_plus.
  pose proof (exp_ineq1_le (x / 4)) as H.
  set (e := exp (x / 4)) in *. set (t := (1 + x / 4)%R) in *.
  assert (Ht : (1 <= t)%R) by (unfold t; lra).
  assert (H2 : (t * t <= e * e)%R) by (apply Rmult_le_compat; lra).
  assert (Htt : (0 <= t * t)%R) by nra.
  replace (t ^ 4)%R with ((t * t) * (t * t))%R by ring.
  apply Rmult_le_compat; lra.
Qed.

Lemma exp_neg_quartic_upper (x : R) :
  (0 <= x)%R -> (exp (- x) <= / (1 + x / 4) ^ 4)%R.
Proof.
  intros Hx. rewrite exp_Ropp.
  apply Rinv_le_contravar.
  - apply pow_lt. lra.
  - now apply exp_quartic_lower.
Qed.

Lemma curved_pos (w : Q) : (0 < curved w)%R.
Proof.
  unfold curved, CURVE_A1, CURVE_B1.
  pose proof (exp_pos (CURVE_a1 * Q2R w)).
  pose proof (exp_pos (CURVE_b1 * Q2R w)).
  nra.
Qed.

Lemma curved_at_0 : curved 0 = 33.52515%R.
Proof.
  unfold curved. replace (Q2R 0) with 0%R by (unfold Q2R; simpl; lra).
  rewrite !Rmult_0_r, exp_0. unfold CURVE_A1, CURVE_B1. lra.
Qed.

Lemma curved_proper (v w : Q) : v == w -> curved v = curved w.
Proof. intros H. unfold curved. now rewrite (Qeq_eqR _ _ H). Qed.

(** From one weighted solve on, the curve stays under 25.5. *)
Lemma curved_upper_from_1 (w : Q) : 1 <= w -> (curved w < 25.5)%R.
Proof.
  intros Hw. apply Qle_Rle in Hw.
  replace (Q2R 1) with 1%R in Hw by (unfold Q2R; simpl; lra).
  unfold curved, CURVE_A1, CURVE_B1, CURVE_a1, CURVE_b1.
  set (r := Q2R w) in *.
  assert (Ha : (exp (- 0.0279323 * r) <= / (1 + 0.0279323 / 4) ^ 4)%R).
  { eapply Rle_trans; [apply (exp_mono _ (Ropp 0.0279323)); nra|].
    apply exp_neg_quartic_upper. lra. }
  assert (Hb : (exp (- 0.402639 * r) <= / (1 + 0.402639 / 4) ^ 4)%R).
  { eapply Rle_trans; [apply (exp_mono _ (Ropp 0.402639)); nra|].
    apply exp_neg_quartic_upper. lra. }
  lra.
Qed.

(** At 1.8 weighted solves the curve is already below 22. *)
Lemma curved_upper_at_1_8 : (curved 1.8 < 22)%R.
Proof.
  unfold curved, CURVE_A1, CURVE_B1, CURVE_a1, CURVE_b1.
  replace (Q2R 1.8) with 1.8%R by (unfold Q2R; simpl; lra).
  assert (Ha : (exp (- 0.0279323 * 1.8) <= 1)%R)
    by (apply exp_neg_le_1; lra).
  assert (Hb : (exp (- 0.402639 * 1.8) <= / (1 + 0.402639 * 1.8 / 4) ^ 4)%R).
  { replace (- 0.402639 * 1.8)%R with (Ropp (0.402639 * 1.8)) by lra.
    apply exp_neg_quartic_upper. lra. }
  lra.
Qed.

Lemma Math_round_lt (x : R) (z : Z) :
  (x + / 2 < IZR z)%R -> (Math_round x < z)%Z.
Proof.
  intros H. unfold Math_round.
  pose proof (Zfloor_bound (x + / 2)) as [Hlo _].
  apply lt_IZR. lra.
Qed.

Lemma getDynamicBase_min (w : Q) :
  (MIN_DYNAMIC_BASE_SCORE <= getDynamicBaseFromWeightedSolves w)%Z.
Proof. unfold getDynamicBaseFromWeightedSolves. apply Z.le_max_l. Qed.

Lemma getDynamicBase_proper (v w : Q) :
  v == w ->
  getDynamicBaseFromWeightedSolves v = getDynamicBaseFromWeightedSolves w.
Proof.
  intros H. unfold getDynamicBaseFromWeightedSolves.
  now rewrite (curved_proper _ _ H).
Qed.

Lemma getDynamicBase_at_0 : getDynamicBaseFromWeightedSolves 0 = 34%Z.
Proof.
  unfold getDynamicBaseFromWeightedSolves, Math_round.
  rewrite curved_at_0.
  rewrite (Zfloor_eq 34); [reflexivity | lra].
Qed.

Lemma getDynamicBase_from_1 (w : Q) :
  1 <= w -> getDynamicBaseFromWeightedSolves w = 25%Z.
Proof.
  intros Hw. unfold getDynamicBaseFromWeightedSolves, MIN_DYNAMIC_BASE_SCORE.
  pose proof (curved_upper_from_1 _ Hw) as Hc.
  assert (Math_round (curved w) < 26)%Z by (apply Math_round_lt; lra).
  lia.
Qed.

Lemma getDynamicBase_upper (w : Q) :
  0 <= w -> (getDynamicBaseFromWeightedSolves w <= 34)%Z.
Proof.
  intros Hw. apply Qle_Rle in Hw.
  replace (Q2R 0) with 0%R in Hw by (unfold Q2R; simpl; lra).
  unfold getDynamicBaseFromWeightedSolves, MIN_DYNAMIC_BASE_SCORE.
  assert (Math_round (curved w) < 35)%Z; [|lia].
  apply Math_round_lt. unfold curved, CURVE_A1, CURVE_B1, CURVE_a1, CURVE_b1.
  assert (exp (- 0.0279323 * Q2R w) <= 1)%R by (apply exp_neg_le_1; nra).
  assert (exp (- 0.402639 * Q2R w) <= 1)%R by (apply exp_neg_le_1; nra).
  lra.
Qed.

End CurveFacts.

(* ================================================================== *)
(** ** Tables as lists: lookups and updates *)
(* ================================================================== *)

Section Tables.
Context {T : Type}.
Implicit Types (l : list T) (w q : T -> bool) (f : T -> T).

Lemma find_app q l l' :
  find q (l ++ l') =
  match find q l with Some x => Some x | None => find q l' end.
Proof.
  induction l as [|x l IH]; simpl; [reflexivity|].
  destruct (q x); [reflexivity | exact IH].
Qed.

Lemma find_none_iff q l :
  find q l = None <-> (forall x, In x l -> q x = false).
Proof.
  split; [apply find_none|].
  induction l as [|x l IH]; simpl; intros H; [reflexivity|].
  rewrite (H x (or_introl eq_refl)). apply IH. intros y Hy. apply H. now right.
Qed.

Lemma find_In_some q l x :
  In x l -> q x = true -> exists y, find q l = Some y.
Proof.
  intros Hin Hq. destruct (find q l) eqn:E; [eauto|].
  rewrite (find_none _ _ E _ Hin) in Hq. discriminate.
Qed.

Lemma updateWhere_length w f l :
  List.length (updateWhere w f l) = List.length l.
Proof. apply length_map. Qed.

Lemma updateWhere_app w f l l' :
  updateWhere w f (l ++ l') = updateWhere w f l ++ updateWhere w f l'.
Proof. apply map_app. Qed.

Lemma updateWhere_none w f l :
  (forall x, In x l -> w x = false) -> updateWhere w f l = l.
Proof.
  intros H. unfold updateWhere. rewrite <- (map_id l) at 2.
  apply map_ext_in. intros x Hx. now rewrite (H x Hx).
Qed.

Lemma updateWhere_ext w w' f f' l :
  (forall x, In x l -> w x = w' x) ->
  (forall x, In x l -> w x = true -> f x = f' x) ->
  updateWhere w f l = updateWhere w' f' l.
Proof.
  intros Hw Hf. apply map_ext_in. intros x Hx.
  rewrite <- (Hw x Hx). destruct (w x) eqn:E; [now apply Hf | reflexivity].
Qed.

Lemma In_updateWhere w f l y :
  In y (updateWhere w f l) <->
  exists x, In x l /\ y = (if w x then f x else x).
Proof.
  unfold updateWhere. rewrite in_map_iff.
  split; intros [x [H1 H2]]; exists x; auto.
Qed.

(** A lookup on a column the update leaves alone sees the same row,
    updated. *)
Lemma find_updateWhere q w f l :
  (forall x, q (f x) = q x) ->
  find q (updateWhere w f l) =
  option_map (fun x => if w x then f x else x) (find q l).
Proof.
  intros Hq. induction l as [|x l IH]; simpl; [reflexivity|].
  assert (Hx : q (if w x then f x else x) = q x)
    by (destruct (w x); [apply Hq | reflexivity]).
  rewrite Hx. destruct (q x); [reflexivity | exact IH].
Qed.

Lemma filter_updateWhere q w f l :
  (forall x, q (f x) = q x) ->
  filter q (updateWhere w f l) = updateWhere w f (filter q l).
Proof.
  intros Hq. induction l as [|x l IH]; simpl; [reflexivity|].
  assert (Hx : q (if w x then f x else x) = q x)
    by (destruct (w x); [apply Hq | reflexivity]).
  rewrite Hx. destruct (q x); simpl; now rewrite IH.
Qed.

Lemma map_updateWhere {K} (key : T -> K) w f l :
  (forall x, key (f x) = key x) ->
  map key (updateWhere w f l) = map key l.
Proof.
  intros Hk. unfold updateWhere. rewrite map_map.
  apply map_ext. intros x. destruct (w x); [apply Hk | reflexivity].
Qed.

Lemma Forall_updateWhere (P : T -> Prop) w f l :
  Forall P l -> (forall x, P x -> w x = true -> P (f x)) ->
  Forall P (updateWhere w f l).
Proof.
  intros Hl Hf. unfold updateWhere. rewrite Forall_map.
  eapply Forall_impl; [|exact Hl]. intros x Hx. simpl.
  destruct (w x) eqn:E; auto.
Qed.

Lemma updateWhere_updateWhere_same w f g l :
  (forall x, w (f x) = w x) ->
  updateWhere w g (updateWhere w f l) =
  updateWhere w (fun x => g (f x)) l.
Proof.
  intros Hw. unfold updateWhere. rewrite map_map.
  apply map_ext. intros x. destruct (w x) eqn:E.
  - now rewrite Hw, E.
  - now rewrite E.
Qed.

(** Rows addressed by a key column [key] without duplicates. *)
Section Keyed.
Context (key : T -> nat).

Local Abbreviation byKey := (byKey key).

Lemma find_byKey_NoDup l x :
  NoDup (map key l) -> In x l -> find (byKey (key x)) l = Some x.
Proof.
  induction l as [|y l IH]; simpl; intros Hnd Hin; [contradiction|].
  inversion Hnd as [|? ? Hy Hnd']; subst. unfold byKey at 1.
  destruct Hin as [->|Hin].
  - now rewrite Nat.eqb_refl.
  - destruct (Nat.eqb_spec (key y) (key x)) as [E|E].
    + exfalso. apply Hy. rewrite E. now apply in_map.
    + now apply IH.
Qed.

Lemma find_byKey_key l k x : find (byKey k) l = Some x -> key x = k.
Proof.
  intros H. apply find_some in H. destruct H as [_ H].
  now apply Nat.eqb_eq in H.
Qed.

Lemma NoDup_key_eq l x y :
  NoDup (map key l) -> In x l -> In y l -> key x = key y -> x = y.
Proof.
  intros Hnd Hx Hy E.
  pose proof (find_byKey_NoDup _ _ Hnd Hx) as H1.
  pose proof (find_byKey_NoDup _ _ Hnd Hy) as H2.
  rewrite E in H1. congruence.
Qed.

Lemma NoDup_key_snoc l x :
  NoDup (map key l) -> (forall y, In y l -> key y < key x)%nat ->
  NoDup (map key (l ++ [x])).
Proof.
  intros Hnd Hlt. rewrite map_app. simpl.
  apply NoDup_app; [exact Hnd | repeat constructor; simpl; tauto |].
  intros k Hk [<-|[]]. apply in_map_iff in Hk.
  destruct Hk as [y [E Hy]]. specialize (Hlt y Hy). lia.
Qed.
End Keyed.

End Tables.

(* ================================================================== *)
(** ** Running computations *)
(* ================================================================== *)

Ltac munfold :=
  unfold bind, ret, throw, fetchOriginalBaseScore,
    Prisma.user_findUnique, Prisma.user_create, Prisma.user_update,
    Prisma.problem_findUnique, Prisma.problem_create, Prisma.problem_update,
    Prisma.userAttempt_findUnique, Prisma.userAttempt_findMany,
    Prisma.userAttempt_create, Prisma.userAttempt_update,
    Prisma.userAttempt_deleteMany in *.

Lemma bind_ok {A B} {m : M A} (k : A -> M B) {db a db'} :
  m db = (Ok a, db') -> bind m k db = k a db'.
Proof. intros H. unfold bind. now rewrite H. Qed.

Lemma bind_err {A B} {m : M A} (k : A -> M B) {db e db'} :
  m db = (Err e, db') -> bind m k db = (Err e, db').
Proof. intros H. unfold bind. now rewrite H. Qed.

Lemma updateWhere_cons {T} (w : T -> bool) f x l :
  updateWhere w f (x :: l) = (if w x then f x else x) :: updateWhere w f l.
Proof. reflexivity. Qed.

Lemma updateWhere_nil {T} (w : T -> bool) f : updateWhere w f [] = [].
Proof. reflexivity. Qed.

Lemma updateWhere_id {T} (w : T -> bool) f l :
  (forall x, In x l -> w x = true -> f x = x) -> updateWhere w f l = l.
Proof.
  intros H. unfold updateWhere. rewrite <- (map_id l) at 2.
  apply map_ext_in. intros x Hx. destruct (w x) eqn:E; auto.
Qed.

(* ================================================================== *)
(** ** User ledger *)
(* ================================================================== *)

Lemma clampAdd_id (delta : Z) u : User.id (clampAdd delta u) = User.id u.
Proof. reflexivity. Qed.

Lemma clampAdd_xp_nonneg (delta : Z) u : 0 <= User.xp (clampAdd delta u).
Proof. simpl. lia. Qed.

Lemma clampAdd_0 u : 0 <= User.xp u -> clampAdd 0 u = u.
Proof.
  intros H. destruct u as [i d x]. unfold clampAdd, User.set_xp. simpl in *.
  f_equal. lia.
Qed.

(** The internal-key adjustment returns without a write when no user has
    the key. *)
Lemma adjustUserXPByDbId_missing db i delta :
  find (Prisma.user_byId i) (users db) = None ->
  adjustUserXPByDbId i delta db = (Ok tt, db).
Proof.
  intros H. unfold adjustUserXPByDbId. destruct (delta =? 0); [reflexivity|].
  munfold. now rewrite H.
Qed.

(** With unique keys and non-negative balances the adjustment is one
    clamped addition on the row of that key. *)
Lemma adjustUserXPByDbId_run db i delta :
  NoDup (map User.id (users db)) ->
  Forall (fun u => 0 <= User.xp u) (users db) ->
  adjustUserXPByDbId i delta db =
  (Ok tt, mkDB (updateWhere (Prisma.user_byId i) (clampAdd delta) (users db))
               (problems db) (userAttempts db) (nextId db)).
Proof.
  intros Hnd Hxp. rewrite Forall_forall in Hxp.
  unfold adjustUserXPByDbId. destruct (Z.eqb_spec delta 0) as [->|Hd].
  - rewrite updateWhere_id; [now destruct db|].
    intros u Hu _. apply clampAdd_0. now apply Hxp.
  - munfold. destruct (find (Prisma.user_byId i) (users db)) as [u|] eqn:E.
    + rewrite E. do 2 f_equal. apply updateWhere_ext; [reflexivity|].
      intros v Hv Hw. apply find_some in E. destruct E as [Hu Hi].
      unfold Prisma.user_byId in *. apply Nat.eqb_eq in Hw, Hi.
      assert (v = u) by (eapply (NoDup_key_eq User.id); eauto; congruence).
      now subst.
    + rewrite updateWhere_none; [now destruct db|]. now apply find_none_iff.
Qed.

Lemma getOrCreateUser_found db d u :
  find (Prisma.user_byDiscordId d) (users db) = Some u ->
  getOrCreateUser d db = (Ok u, db).
Proof. intros H. unfold getOrCreateUser. munfold. now rewrite H. Qed.

Lemma getOrCreateUser_missing db d :
  find (Prisma.user_byDiscordId d) (users db) = None ->
  getOrCreateUser d db =
  (Ok (User.mk (nextId db) d 0),
   mkDB (users db ++ [User.mk (nextId db) d 0]) (problems db)
        (userAttempts db) (S (nextId db))).
Proof. intros H. unfold getOrCreateUser. munfold. now rewrite H. Qed.

Lemma user_byDiscordId_mk i d x : Prisma.user_byDiscordId d (User.mk i d x) = true.
Proof. unfold Prisma.user_byDiscordId. simpl. apply String.eqb_refl. Qed.

Lemma addXP_found db d amount u :
  find (Prisma.user_byDiscordId d) (users db) = Some u ->
  addXP d amount db =
  (Ok (Z.max 0 (User.xp u + amount)),
   setBalance d (Z.max 0 (User.xp u + amount)) db).
Proof.
  intros H. unfold addXP. rewrite (bind_ok _ (getOrCreateUser_found _ _ _ H)).
  munfold. now rewrite H.
Qed.

Lemma addXP_missing db d amount :
  find (Prisma.user_byDiscordId d) (users db) = None ->
  addXP d amount db =
  (Ok (Z.max 0 amount),
   mkDB (users db ++ [User.mk (nextId db) d (Z.max 0 amount)])
        (problems db) (userAttempts db) (S (nextId db))).
Proof.
  intros H. unfold addXP. rewrite (bind_ok _ (getOrCreateUser_missing _ _ H)).
  munfold. simpl. rewrite find_app, H. simpl.
  rewrite user_byDiscordId_mk.
  rewrite updateWhere_app, updateWhere_cons, updateWhere_nil.
  rewrite user_byDiscordId_mk.
  rewrite updateWhere_none by (now apply find_none_iff).
  reflexivity.
Qed.

Lemma removeXP_found db d amount u :
  find (Prisma.user_byDiscordId d) (users db) = Some u ->
  removeXP d amount db =
  (Ok (Z.max 0 (User.xp u - amount)),
   setBalance d (Z.max 0 (User.xp u - amount)) db).
Proof.
  intros H. unfold removeXP. rewrite (bind_ok _ (getOrCreateUser_found _ _ _ H)).
  munfold. now rewrite H.
Qed.

Lemma removeXP_missing db d amount :
  find (Prisma.user_byDiscordId d) (users db) = None ->
  removeXP d amount db =
  (Ok (Z.max 0 (- amount)),
   mkDB (users db ++ [User.mk (nextId db) d (Z.max 0 (- amount))])
        (problems db) (userAttempts db) (S (nextId db))).
Proof.
  intros H. unfold removeXP. rewrite (bind_ok _ (getOrCreateUser_missing _ _ H)).
  munfold. simpl. rewrite find_app, H. simpl.
  rewrite user_byDiscordId_mk.
  rewrite updateWhere_app, updateWhere_cons, updateWhere_nil.
  rewrite user_byDiscordId_mk.
  rewrite updateWhere_none by (now apply find_none_iff).
  reflexivity.
Qed.

(* ================================================================== *)
(** ** Integrity is kept by every write *)
(* ================================================================== *)

Lemma Forall_snoc {T} (P : T -> Prop) l x :
  Forall P l -> P x -> Forall P (l ++ [x]).
Proof. intros. apply Forall_app. split; auto. Qed.

Lemma wf_initial : wf initialDB.
Proof. constructor; simpl; try constructor; intros; contradiction. Qed.

Section WfWrites.
Variables (us : list User.t) (ps : list Problem.t)
          (rs : list UserAttempt.t) (n : Id).
Hypothesis Hwf : wf (mkDB us ps rs n).

Lemma wf_users_update w f :
  (forall u, User.id (f u) = User.id u) ->
  (forall u, In u us -> w u = true -> 0 <= User.xp (f u)) ->
  wf (mkDB (updateWhere w f us) ps rs n).
Proof.
  intros Hid Hxp. destruct Hwf
    as [Hui Hpi Hai Hak Huf Hpf Haf Hxp0 Hlive Hunsolved Hfrozen].
  simpl in *.
  constructor; simpl; auto.
  - now rewrite map_updateWhere.
  - apply Forall_updateWhere; auto. intros u Hu _. now rewrite Hid.
  - unfold updateWhere. rewrite Forall_map. rewrite Forall_forall in *.
    intros u Hu. destruct (w u) eqn:E; auto.
Qed.

Lemma wf_users_snoc d x :
  0 <= x -> wf (mkDB (us ++ [User.mk n d x]) ps rs (S n)).
Proof.
  intros Hx. destruct Hwf
    as [Hui Hpi Hai Hak Huf Hpf Haf Hxp0 Hlive Hunsolved Hfrozen].
  simpl in *. rewrite Forall_forall in *.
  constructor; simpl; try (rewrite Forall_forall); auto.
  - apply (NoDup_key_snoc User.id); auto.
  - intros u Hu. apply in_app_or in Hu. destruct Hu as [Hu|[<-|[]]]; simpl.
    + specialize (Huf u Hu). lia.
    + lia.
  - intros p Hp. specialize (Hpf p Hp). lia.
  - intros a Ha. specialize (Haf a Ha). lia.
  - intros u Hu. apply in_app_or in Hu. destruct Hu as [Hu|[<-|[]]]; simpl; auto.
Qed.

Lemma wf_problems_update w f :
  (forall p, Problem.id (f p) = Problem.id p) ->
  (forall p, Problem.isFinalized (f p) = Problem.isFinalized p) ->
  wf (mkDB us (updateWhere w f ps) rs n).
Proof.
  intros Hid Hfin. destruct Hwf
    as [Hui Hpi Hai Hak Huf Hpf Haf Hxp0 Hlive Hunsolved Hfrozen].
  simpl in *.
  constructor; simpl; auto.
  - now rewrite map_updateWhere.
  - apply Forall_updateWhere; auto. intros p Hp _. now rewrite Hid.
  - intros a p' Ha Hp' E Hopen. apply In_updateWhere in Hp'.
    destruct Hp' as [p [Hp ->]].
    apply (Hfrozen a p Ha Hp).
    + rewrite E. destruct (w p); [apply Hid | reflexivity].
    + rewrite <- Hopen. destruct (w p); [now rewrite Hfin | reflexivity].
Qed.

Lemma wf_problems_snoc num o b a s at_ :
  wf (mkDB us (ps ++ [Problem.mk n num o b a s false at_]) rs (S n)).
Proof.
  destruct Hwf
    as [Hui Hpi Hai Hak Huf Hpf Haf Hxp0 Hlive Hunsolved Hfrozen].
  simpl in *. rewrite Forall_forall in *.
  constructor; simpl; try (rewrite Forall_forall); auto.
  - apply (NoDup_key_snoc Problem.id); auto.
  - intros u Hu. specialize (Huf u Hu). lia.
  - intros p Hp. apply in_app_or in Hp. destruct Hp as [Hp|[<-|[]]]; simpl.
    + specialize (Hpf p Hp). lia.
    + lia.
  - intros r Hr. specialize (Haf r Hr). lia.
  - intros r p Hr Hp E Hopen. apply in_app_or in Hp.
    destruct Hp as [Hp|[<-|[]]]; [eauto|]. simpl in E.
    specialize (Haf r Hr). lia.
Qed.

Lemma wf_attempts_update w f :
  (forall a, UserAttempt.id (f a) = UserAttempt.id a) ->
  (forall a, UserAttempt.userId (f a) = UserAttempt.userId a) ->
  (forall a, UserAttempt.problemId (f a) = UserAttempt.problemId a) ->
  (forall a, UserAttempt.preFinalizeAwardedXp (f a)
             = UserAttempt.preFinalizeAwardedXp a) ->
  (forall a, UserAttempt.finalizeDelta (f a) = UserAttempt.finalizeDelta a) ->
  (forall a, In a rs -> w a = true ->
             UserAttempt.solved (f a) = false -> UserAttempt.solved a = false) ->
  wf (mkDB us ps (updateWhere w f rs) n).
Proof.
  intros Hid Hu Hp Hpre Hd Hs. destruct Hwf
    as [Hui Hpi Hai Hak Huf Hpf Haf Hxp0 Hlive Hunsolved Hfrozen].
  simpl in *.
  constructor; simpl; auto.
  - now rewrite map_updateWhere.
  - rewrite map_updateWhere; auto. intros a. unfold attemptKey.
    now rewrite Hu, Hp.
  - apply Forall_updateWhere; auto. intros a Ha _. now rewrite Hid, Hu, Hp.
  - apply Forall_updateWhere; auto. intros a Ha _. now rewrite Hpre, Hd.
  - unfold updateWhere. rewrite Forall_map. rewrite Forall_forall in *.
    intros a Ha. destruct (w a) eqn:E; auto.
    intros Hf. rewrite Hpre. apply Hunsolved; auto.
  - intros a' p Ha' Hin E Hopen. apply In_updateWhere in Ha'.
    destruct Ha' as [a [Ha ->]].
    assert (UserAttempt.preFinalizeAwardedXp a = None) as Hnone.
    { apply (Hfrozen a p Ha Hin); auto.
      rewrite <- E. destruct (w a); [now rewrite Hp | reflexivity]. }
    destruct (w a); [now rewrite Hpre | assumption].
Qed.

Lemma wf_attempts_snoc u p :
  find (Prisma.attempt_byUserProblem u p) rs = None ->
  (u < n)%nat -> (p < n)%nat ->
  wf (mkDB us ps (rs ++ [UserAttempt.mk n u p 0 false 0 None 0]) (S n)).
Proof.
  intros Hnone Hu Hp. destruct Hwf
    as [Hui Hpi Hai Hak Huf Hpf Haf Hxp0 Hlive Hunsolved Hfrozen].
  simpl in *. rewrite Forall_forall in *.
  constructor; simpl; try (rewrite Forall_forall); auto.
  - apply (NoDup_key_snoc UserAttempt.id); auto.
    intros a Ha. simpl. now apply Haf.
  - rewrite map_app. simpl.
    apply NoDup_app; [assumption | repeat constructor; simpl; tauto |].
    intros k Hk [<-|[]]. apply in_map_iff in Hk. destruct Hk as [a [E Ha]].
    apply (find_none _ _ Hnone) in Ha. unfold attemptKey in E.
    injection E as E1 E2. unfold Prisma.attempt_byUserProblem in Ha.
    rewrite E1, E2, !Nat.eqb_refl in Ha. discriminate.
  - intros v Hv. specialize (Huf v Hv). lia.
  - intros q Hq. specialize (Hpf q Hq). lia.
  - intros a Ha. apply in_app_or in Ha. destruct Ha as [Ha|[<-|[]]]; simpl.
    + specialize (Haf a Ha). lia.
    + lia.
  - intros a Ha. apply in_app_or in Ha.
    destruct Ha as [Ha|[<-|[]]]; simpl; auto.
  - intros a Ha. apply in_app_or in Ha.
    destruct Ha as [Ha|[<-|[]]]; simpl; auto.
  - intros a q Ha Hq E Hopen. apply in_app_or in Ha.
    destruct Ha as [Ha|[<-|[]]]; simpl; eauto.
Qed.

Lemma wf_attempts_delete q : wf (mkDB us ps (filter q rs) n).
Proof.
  destruct Hwf
    as [Hui Hpi Hai Hak Huf Hpf Haf Hxp0 Hlive Hunsolved Hfrozen].
  simpl in *.
  assert (Hsub : forall a, In a (filter q rs) -> In a rs)
    by (intros a Ha; now apply filter_In in Ha).
  constructor; simpl; auto.
  - clear - Hai. induction rs as [|a l IH]; simpl; [constructor|].
    inversion Hai as [|? ? Hn Hnd]; subst.
    destruct (q a); simpl; auto. constructor; auto.
    intros Hin. apply Hn. apply in_map_iff in Hin.
    destruct Hin as [b [E Hb]]. apply filter_In in Hb.
    rewrite <- E. apply in_map. tauto.
  - clear - Hak. induction rs as [|a l IH]; simpl; [constructor|].
    inversion Hak as [|? ? Hn Hnd]; subst.
    destruct (q a); simpl; auto. constructor; auto.
    intros Hin. apply Hn. apply in_map_iff in Hin.
    destruct Hin as [b [E Hb]]. apply filter_In in Hb.
    rewrite <- E. apply in_map. tauto.
  - rewrite Forall_forall in *. auto.
  - rewrite Forall_forall in *. auto.
  - rewrite Forall_forall in *. auto.
  - eauto.
Qed.
End WfWrites.

(* ================================================================== *)
(** ** The finalize and unfinalize loops *)
(* ================================================================== *)

(** *** The ledger side *)

Lemma applyDeltas_ids d rows us :
  map User.id (applyDeltas d rows us) = map User.id us.
Proof.
  unfold applyDeltas. revert us.
  induction rows as [|a rows IH]; intros us; simpl; [reflexivity|].
  rewrite IH. now apply map_updateWhere.
Qed.

Lemma applyDeltas_xp d rows us :
  Forall (fun u => 0 <= User.xp u) us ->
  Forall (fun u => 0 <= User.xp u) (applyDeltas d rows us).
Proof.
  unfold applyDeltas. revert us.
  induction rows as [|a rows IH]; intros us H; simpl; [assumption|].
  apply IH. apply Forall_updateWhere; auto.
  intros u _ _. apply clampAdd_xp_nonneg.
Qed.

Lemma deltaFor_cons_same d a rows :
  deltaFor d (a :: rows) (UserAttempt.userId a) = d a.
Proof.
  unfold deltaFor. simpl. unfold attempt_ofUser at 1.
  now rewrite Nat.eqb_refl.
Qed.

Lemma deltaFor_cons_other d a rows i :
  UserAttempt.userId a <> i ->
  deltaFor d (a :: rows) i = deltaFor d rows i.
Proof.
  intros H. unfold deltaFor. simpl. unfold attempt_ofUser at 1.
  destruct (Nat.eqb_spec (UserAttempt.userId a) i); [contradiction|reflexivity].
Qed.

Lemma deltaFor_absent d rows i :
  ~ In i (map UserAttempt.userId rows) -> deltaFor d rows i = 0.
Proof.
  intros H. unfold deltaFor.
  destruct (find (attempt_ofUser i) rows) as [a|] eqn:E; [|reflexivity].
  apply find_some in E. destruct E as [Ha Hi].
  unfold attempt_ofUser in Hi. apply Nat.eqb_eq in Hi.
  exfalso. apply H. rewrite <- Hi. now apply in_map.
Qed.

(** When no user has two of the rows, every balance moves once, by the
    delta of the user's own row. *)
Lemma applyDeltas_closed d rows us :
  NoDup (map UserAttempt.userId rows) ->
  Forall (fun u => 0 <= User.xp u) us ->
  applyDeltas d rows us =
  map (fun u => clampAdd (deltaFor d rows (User.id u)) u) us.
Proof.
  revert us. induction rows as [|a rows IH]; intros us Hnd Hxp.
  - simpl. rewrite <- (map_id us) at 1. apply map_ext_in. intros u Hu.
    rewrite Forall_forall in Hxp. symmetry. apply clampAdd_0. auto.
  - inversion Hnd as [|? ? Hnot Hnd']; subst.
    change (applyDeltas d (a :: rows) us)
      with (applyDeltas d rows
              (updateWhere (Prisma.user_byId (UserAttempt.userId a))
                           (clampAdd (d a)) us)).
    rewrite IH; auto.
    + unfold updateWhere. rewrite map_map. apply map_ext. intros u.
      unfold Prisma.user_byId.
      destruct (Nat.eqb_spec (User.id u) (UserAttempt.userId a)) as [E|E].
      * rewrite clampAdd_id, E, deltaFor_cons_same, deltaFor_absent by assumption.
        apply clampAdd_0. apply clampAdd_xp_nonneg.
      * now rewrite deltaFor_cons_other by congruence.
    + apply Forall_updateWhere; auto. intros u _ _. apply clampAdd_xp_nonneg.
Qed.

(** *** The table side *)

Lemma writeBack_ids g rows table :
  (forall a r, UserAttempt.id (g a r) = UserAttempt.id r) ->
  map UserAttempt.id (writeBack g rows table) = map UserAttempt.id table.
Proof.
  intros Hg. unfold writeBack. revert table.
  induction rows as [|a rows IH]; intros table; simpl; [reflexivity|].
  rewrite IH. apply map_updateWhere. apply Hg.
Qed.

Lemma writeBack_find g rows table :
  (forall a r, UserAttempt.id (g a r) = UserAttempt.id r) ->
  NoDup (map UserAttempt.id rows) ->
  writeBack g rows table =
  map (fun r =>
         match find (Prisma.attempt_byId (UserAttempt.id r)) rows with
         | Some a => g a r
         | None => r
         end) table.
Proof.
  intros Hg. revert table. induction rows as [|a rows IH]; intros table Hnd.
  - simpl. now rewrite map_id.
  - inversion Hnd as [|? ? Hnot Hnd']; subst.
    change (writeBack g (a :: rows) table)
      with (writeBack g rows
              (updateWhere (Prisma.attempt_byId (UserAttempt.id a)) (g a) table)).
    rewrite IH by assumption. unfold updateWhere. rewrite map_map.
    apply map_ext. intros r. simpl.
    assert (Hsym : Prisma.attempt_byId (UserAttempt.id r) a
                   = Prisma.attempt_byId (UserAttempt.id a) r)
      by (unfold Prisma.attempt_byId; apply Nat.eqb_sym).
    rewrite Hsym.
    destruct (Prisma.attempt_byId (UserAttempt.id a) r) eqn:E; [|reflexivity].
    apply Nat.eqb_eq in E. rewrite Hg, E.
    destruct (find (Prisma.attempt_byId (UserAttempt.id a)) rows) as [b|] eqn:F;
      [|reflexivity].
    apply find_some in F. destruct F as [Hb Hi].
    apply Nat.eqb_eq in Hi.
    exfalso. apply Hnot. rewrite <- Hi. now apply in_map.
Qed.

Lemma filter_NoDup_map {T K} (key : T -> K) (q : T -> bool) l :
  NoDup (map key l) -> NoDup (map key (filter q l)).
Proof.
  induction l as [|x l IH]; simpl; intros Hnd; [constructor|].
  inversion Hnd as [|? ? Hn Hnd']; subst.
  destruct (q x); simpl; auto. constructor; auto.
  intros Hin. apply Hn. apply in_map_iff in Hin.
  destruct Hin as [y [E Hy]]. apply filter_In in Hy.
  rewrite <- E. apply in_map. tauto.
Qed.

Lemma find_byId_filter q table r :
  NoDup (map UserAttempt.id table) -> In r table ->
  find (Prisma.attempt_byId (UserAttempt.id r)) (filter q table) =
  if q r then Some r else None.
Proof.
  intros Hnd Hr. destruct (q r) eqn:E.
  - apply (find_byKey_NoDup UserAttempt.id).
    + now apply filter_NoDup_map.
    + apply filter_In. auto.
  - apply find_none_iff. intros x Hx. apply filter_In in Hx.
    destruct Hx as [Hx Hq]. unfold Prisma.attempt_byId.
    destruct (Nat.eqb_spec (UserAttempt.id x) (UserAttempt.id r)) as [Ei|]; auto.
    assert (x = r) by (eapply (NoDup_key_eq UserAttempt.id); eauto).
    congruence.
Qed.

(** Written back by key, the rows a filter read are each rewritten from
    their own columns. *)
Lemma writeBack_closed g q table :
  (forall a r, UserAttempt.id (g a r) = UserAttempt.id r) ->
  NoDup (map UserAttempt.id table) ->
  writeBack g (filter q table) table = updateWhere q (fun r => g r r) table.
Proof.
  intros Hg Hnd. rewrite writeBack_find; auto using filter_NoDup_map.
  apply map_ext_in. intros r Hr. rewrite find_byId_filter by assumption.
  destruct (q r); reflexivity.
Qed.

(** *** The loops run *)

Lemma countWhere_cons {T} (q : T -> bool) x l :
  countWhere q (x :: l) = (if q x then 1 else 0) + countWhere q l.
Proof.
  unfold countWhere. simpl. destruct (q x); simpl List.length; lia.
Qed.

Lemma countWhere_nil {T} (q : T -> bool) : countWhere q [] = 0.
Proof. reflexivity. Qed.

Lemma find_attempt_byId_In rows k :
  In k (map UserAttempt.id rows) ->
  exists r, find (Prisma.attempt_byId k) rows = Some r.
Proof.
  intros H. apply in_map_iff in H. destruct H as [r [E Hr]].
  apply (find_In_some _ _ r Hr). unfold Prisma.attempt_byId.
  rewrite E. apply Nat.eqb_refl.
Qed.

Lemma userAttempt_update_byId_run db k data :
  In k (map UserAttempt.id (userAttempts db)) ->
  exists r,
    Prisma.userAttempt_update (Prisma.attempt_byId k) data db =
    (Ok r, mkDB (users db) (problems db)
                (updateWhere (Prisma.attempt_byId k) data (userAttempts db))
                (nextId db)).
Proof.
  intros H. apply find_attempt_byId_In in H. destruct H as [r Hr].
  exists (data r). unfold Prisma.userAttempt_update. now rewrite Hr.
Qed.

Lemma updateWhere_clampAdd_0 w us :
  Forall (fun u => 0 <= User.xp u) us -> updateWhere w (clampAdd 0) us = us.
Proof.
  intros H. rewrite Forall_forall in H. apply updateWhere_id.
  intros u Hu _. apply clampAdd_0. auto.
Qed.

Lemma finalizeAttempt_run final a adj ini db :
  NoDup (map User.id (users db)) ->
  Forall (fun u => 0 <= User.xp u) (users db) ->
  In (UserAttempt.id a) (map UserAttempt.id (userAttempts db)) ->
  finalizeAttempt final a (adj, ini) db =
  (Ok (adj + (if isAdjusted final a then 1 else 0),
       ini + (if isInitialized a then 1 else 0)),
   mkDB (updateWhere (Prisma.user_byId (UserAttempt.userId a))
                     (clampAdd (finalizeDeltaOf final a)) (users db))
        (problems db)
        (updateWhere (Prisma.attempt_byId (UserAttempt.id a))
                     (finalizeData final a) (userAttempts db))
        (nextId db)).
Proof.
  intros Hnd Hxp Hin.
  pose proof (adjustUserXPByDbId_run db (UserAttempt.userId a)
                (finalizeDeltaOf final a) Hnd Hxp) as Hadj.
  apply find_attempt_byId_In in Hin. destruct Hin as [r Hr].
  unfold finalizeAttempt, finalizeData, isAdjusted, isInitialized.
  unfold finalizeDeltaOf in *.
  destruct (baselineAward a =? 0) eqn:Eb; simpl.
  - rewrite updateWhere_clampAdd_0 by assumption.
    munfold. rewrite Hr. repeat f_equal; lia.
  - destruct (finalAward final a - baselineAward a =? 0) eqn:Ed; simpl.
    + apply Z.eqb_eq in Ed. rewrite Ed.
      rewrite updateWhere_clampAdd_0 by assumption.
      munfold. rewrite Hr. repeat f_equal; lia.
    + rewrite (bind_ok _ (bind_ok _ Hadj)).
      munfold. simpl. rewrite Hr. repeat f_equal; lia.
Qed.

Lemma unfinalizeAttempt_run a reverted db :
  NoDup (map User.id (users db)) ->
  Forall (fun u => 0 <= User.xp u) (users db) ->
  In (UserAttempt.id a) (map UserAttempt.id (userAttempts db)) ->
  unfinalizeAttempt a reverted db =
  (Ok (reverted + (if isReverted a then 1 else 0)),
   mkDB (updateWhere (Prisma.user_byId (UserAttempt.userId a))
                     (clampAdd (reverseDeltaOf a)) (users db))
        (problems db)
        (updateWhere (Prisma.attempt_byId (UserAttempt.id a))
                     (unfinalizeData a) (userAttempts db))
        (nextId db)).
Proof.
  intros Hnd Hxp Hin.
  pose proof (adjustUserXPByDbId_run db (UserAttempt.userId a)
                (reverseDeltaOf a) Hnd Hxp) as Hadj.
  apply find_attempt_byId_In in Hin. destruct Hin as [r Hr].
  unfold unfinalizeAttempt, unfinalizeData, isReverted.
  unfold reverseDeltaOf in *.
  destruct (UserAttempt.preFinalizeAwardedXp a) as [pre|].
  - destruct (- UserAttempt.finalizeDelta a =? 0) eqn:Ed; simpl.
    + apply Z.eqb_eq in Ed. rewrite Ed.
      rewrite updateWhere_clampAdd_0 by assumption.
      munfold. rewrite Hr. repeat f_equal; lia.
    + rewrite (bind_ok _ (bind_ok _ Hadj)).
      munfold. simpl. rewrite Hr. reflexivity.
  - rewrite updateWhere_clampAdd_0 by assumption.
    rewrite updateWhere_id by reflexivity.
    unfold ret. destruct db; simpl. repeat f_equal; lia.
Qed.

Lemma finalize_loop final rows : forall adj ini db,
  NoDup (map User.id (users db)) ->
  Forall (fun u => 0 <= User.xp u) (users db) ->
  incl (map UserAttempt.id rows) (map UserAttempt.id (userAttempts db)) ->
  forEach rows (finalizeAttempt final) (adj, ini) db =
  (Ok (adj + countWhere (isAdjusted final) rows,
       ini + countWhere isInitialized rows),
   mkDB (applyDeltas (finalizeDeltaOf final) rows (users db))
        (problems db)
        (writeBack (finalizeData final) rows (userAttempts db))
        (nextId db)).
Proof.
  induction rows as [|a rows IH]; intros adj ini db Hnd Hxp Hin.
  - simpl. unfold ret. rewrite !countWhere_nil, !Z.add_0_r. now destruct db.
  - simpl forEach.
    rewrite (bind_ok _ (finalizeAttempt_run final a adj ini db Hnd Hxp
                          (Hin _ (or_introl eq_refl)))).
    rewrite IH; simpl.
    + rewrite !countWhere_cons, !Z.add_assoc. reflexivity.
    + now rewrite map_updateWhere.
    + apply Forall_updateWhere; auto. intros u _ _. apply clampAdd_xp_nonneg.
    + rewrite map_updateWhere by reflexivity.
      intros k Hk. apply Hin. now right.
Qed.

Lemma unfinalizeData_id a r :
  UserAttempt.id (unfinalizeData a r) = UserAttempt.id r.
Proof.
  unfold unfinalizeData. now destruct (UserAttempt.preFinalizeAwardedXp a).
Qed.

Lemma unfinalize_loop rows : forall reverted db,
  NoDup (map User.id (users db)) ->
  Forall (fun u => 0 <= User.xp u) (users db) ->
  incl (map UserAttempt.id rows) (map UserAttempt.id (userAttempts db)) ->
  forEach rows unfinalizeAttempt reverted db =
  (Ok (reverted + countWhere isReverted rows),
   mkDB (applyDeltas reverseDeltaOf rows (users db))
        (problems db)
        (writeBack unfinalizeData rows (userAttempts db))
        (nextId db)).
Proof.
  induction rows as [|a rows IH]; intros reverted db Hnd Hxp Hin.
  - simpl. unfold ret. rewrite !countWhere_nil, !Z.add_0_r. now destruct db.
  - simpl forEach.
    rewrite (bind_ok _ (unfinalizeAttempt_run a reverted db Hnd Hxp
                          (Hin _ (or_introl eq_refl)))).
    rewrite IH; simpl.
    + rewrite !countWhere_cons, !Z.add_assoc. reflexivity.
    + now rewrite map_updateWhere.
    + apply Forall_updateWhere; auto. intros u _ _. apply clampAdd_xp_nonneg.
    + rewrite map_updateWhere by (intros; apply unfinalizeData_id).
      intros k Hk. apply Hin. now right.
Qed.

(* ================================================================== *)
(** ** Finalize and unfinalize in closed form *)
(* ================================================================== *)

Lemma solvedOfProblem_spec pid a :
  Prisma.attempt_solvedOfProblem pid a = true <->
  UserAttempt.problemId a = pid /\ UserAttempt.solved a = true.
Proof.
  unfold Prisma.attempt_solvedOfProblem.
  rewrite andb_true_iff, Nat.eqb_eq. tauto.
Qed.

(** Among the rows of one problem no user appears twice. *)
Lemma solvedRows_users_NoDup rows pid :
  NoDup (map attemptKey rows) ->
  NoDup (map UserAttempt.userId
             (filter (Prisma.attempt_solvedOfProblem pid) rows)).
Proof.
  induction rows as [|a rows IH]; simpl; intros Hnd; [constructor|].
  inversion Hnd as [|? ? Hn Hnd']; subst.
  destruct (Prisma.attempt_solvedOfProblem pid a) eqn:Ea; simpl; auto.
  constructor; auto. intros Hin. apply Hn.
  apply in_map_iff in Hin. destruct Hin as [b [E Hb]].
  apply filter_In in Hb. destruct Hb as [Hb Hsel].
  apply solvedOfProblem_spec in Ea, Hsel.
  apply in_map_iff. exists b. split; [|assumption].
  unfold attemptKey. f_equal; [assumption | intuition congruence].
Qed.

Lemma filter_ids_incl (q : UserAttempt.t -> bool) rows :
  incl (map UserAttempt.id (filter q rows)) (map UserAttempt.id rows).
Proof.
  intros k Hk. apply in_map_iff in Hk. destruct Hk as [a [E Ha]].
  apply filter_In in Ha. rewrite <- E. apply in_map. tauto.
Qed.

Lemma writeBack_solvedRows g db pid :
  (forall a r, UserAttempt.id (g a r) = UserAttempt.id r) ->
  NoDup (map UserAttempt.id (userAttempts db)) ->
  writeBack g (solvedRows db pid) (userAttempts db) =
  updateWhere (Prisma.attempt_solvedOfProblem pid) (fun r => g r r)
              (userAttempts db).
Proof. apply writeBack_closed. Qed.

Lemma problem_byNumber_found db n p :
  wf db ->
  find (Prisma.problem_byNumber n) (problems db) = Some p ->
  find (Prisma.problem_byId (Problem.id p)) (problems db) = Some p
  /\ In p (problems db) /\ Problem.number p = n.
Proof.
  intros Hwf H. apply find_some in H. destruct H as [Hin Hn].
  repeat split; auto.
  - apply (find_byKey_NoDup Problem.id); auto. apply Hwf.
  - now apply String.eqb_eq in Hn.
Qed.

Lemma problem_update_byId_run db p data :
  find (Prisma.problem_byId (Problem.id p)) (problems db) = Some p ->
  Prisma.problem_update (Prisma.problem_byId (Problem.id p)) data db =
  (Ok (data p),
   mkDB (users db)
        (updateWhere (Prisma.problem_byId (Problem.id p)) data (problems db))
        (userAttempts db) (nextId db)).
Proof. intros H. unfold Prisma.problem_update. now rewrite H. Qed.

Lemma finalizeProblemScoring_run now n db p :
  wf db ->
  find (Prisma.problem_byNumber n) (problems db) = Some p ->
  Problem.isFinalized p = false ->
  finalizeProblemScoring now n db =
  (Ok (FinalizeProblemResult.mk
         (Problem.number p)
         (dynamicScoreOf db (Problem.id p))
         (weightedSolvesOf db (Problem.id p))
         (countWhere (isAdjusted (dynamicScoreOf db (Problem.id p)))
                     (solvedRows db (Problem.id p)))
         (countWhere isInitialized (solvedRows db (Problem.id p)))),
   afterFinalize now p db).
Proof.
  intros Hwf Hfind Hopen.
  destruct (problem_byNumber_found _ _ _ Hwf Hfind) as (Hid & Hin & Hnum).
  unfold finalizeProblemScoring.
  unfold Prisma.problem_findUnique at 1. unfold bind at 1. rewrite Hfind, Hopen.
  unfold Prisma.userAttempt_findMany at 1. unfold bind at 1.
  fold (solvedRows db (Problem.id p)).
  fold (weightedSolvesOf db (Problem.id p)).
  fold (dynamicScoreOf db (Problem.id p)).
  rewrite (bind_ok _ (finalize_loop (dynamicScoreOf db (Problem.id p))
                        (solvedRows db (Problem.id p)) 0 0 db
                        (wf_user_ids Hwf) (wf_xp Hwf)
                        (filter_ids_incl _ _))).
  cbv beta iota.
  match goal with
  | |- bind (Prisma.problem_update ?w ?data) ?k ?s = _ =>
      rewrite (bind_ok k (problem_update_byId_run s p data Hid))
  end.
  unfold ret, afterFinalize, finalizeDeltaFor. simpl.
  rewrite applyDeltas_closed;
    [| apply solvedRows_users_NoDup, Hwf | apply Hwf].
  rewrite writeBack_solvedRows; [reflexivity | reflexivity | apply Hwf].
Qed.

Lemma restored_sel pid a :
  Prisma.attempt_solvedOfProblem pid (restored a)
  = Prisma.attempt_solvedOfProblem pid a.
Proof.
  unfold restored. now destruct (UserAttempt.preFinalizeAwardedXp a).
Qed.

Lemma restored_attempts a :
  UserAttempt.attempts (restored a) = UserAttempt.attempts a.
Proof.
  unfold restored. now destruct (UserAttempt.preFinalizeAwardedXp a).
Qed.

Lemma unfinalizeProblemScoring_run n db p :
  wf db ->
  find (Prisma.problem_byNumber n) (problems db) = Some p ->
  Problem.isFinalized p = true ->
  unfinalizeProblemScoring n db =
  (Ok (UnfinalizeProblemResult.mk
         (Problem.number p)
         (dynamicScoreOf db (Problem.id p))
         (countWhere isReverted (solvedRows db (Problem.id p)))),
   afterUnfinalize p db).
Proof.
  intros Hwf Hfind Hfin.
  destruct (problem_byNumber_found _ _ _ Hwf Hfind) as (Hid & Hin & Hnum).
  unfold unfinalizeProblemScoring.
  unfold Prisma.problem_findUnique at 1. unfold bind at 1. rewrite Hfind, Hfin.
  change (negb true) with false. cbv iota.
  unfold Prisma.userAttempt_findMany at 1. unfold bind at 1. cbv beta iota.
  fold (solvedRows db (Problem.id p)).
  rewrite (bind_ok _ (unfinalize_loop (solvedRows db (Problem.id p)) 0 db
                        (wf_user_ids Hwf) (wf_xp Hwf)
                        (filter_ids_incl _ _))).
  rewrite applyDeltas_closed;
    [| apply solvedRows_users_NoDup, Hwf | apply Hwf].
  rewrite writeBack_solvedRows;
    [| intros; apply unfinalizeData_id | apply Hwf].
  unfold getWeightedSolves, Prisma.userAttempt_findMany. unfold bind at 2.
  unfold ret at 1. unfold bind at 1. simpl userAttempts.
  assert (Hrows :
    updateWhere (Prisma.attempt_solvedOfProblem (Problem.id p))
      (fun r => unfinalizeData r r) (userAttempts db)
    = updateWhere (Prisma.attempt_solvedOfProblem (Problem.id p))
        restored (userAttempts db)).
  { apply updateWhere_ext; [reflexivity|]. intros r _ _.
    unfold unfinalizeData, restored.
    now destruct (UserAttempt.preFinalizeAwardedXp r). }
  rewrite Hrows.
  assert (Hws :
    sumSolveWeights
      (map UserAttempt.attempts
         (filter (Prisma.attempt_solvedOfProblem (Problem.id p))
            (updateWhere (Prisma.attempt_solvedOfProblem (Problem.id p))
               restored (userAttempts db))))
    = weightedSolvesOf db (Problem.id p)).
  { unfold weightedSolvesOf, solvedRows. f_equal.
    rewrite filter_updateWhere by (intros; apply restored_sel).
    apply map_updateWhere. apply restored_attempts. }
  rewrite Hws. fold (dynamicScoreOf db (Problem.id p)).
  match goal with
  | |- bind (Prisma.problem_update ?w ?data) ?k ?s = _ =>
      rewrite (bind_ok k (problem_update_byId_run s p data Hid))
  end.
  reflexivity.
Qed.

(* ================================================================== *)
(** ** Every call keeps the store's integrity *)
(* ================================================================== *)

Lemma wf_eta db :
  wf db -> wf (mkDB (users db) (problems db) (userAttempts db) (nextId db)).
Proof. now destruct db. Qed.

Lemma wf_getOrCreateUser d db : wf db -> wf (snd (getOrCreateUser d db)).
Proof.
  intros Hwf.
  destruct (find (Prisma.user_byDiscordId d) (users db)) as [u|] eqn:E.
  - now rewrite (getOrCreateUser_found _ _ _ E).
  - rewrite (getOrCreateUser_missing _ _ E). simpl.
    apply wf_users_snoc; [now apply wf_eta | lia].
Qed.

Lemma wf_setBalance d v db : wf db -> 0 <= v -> wf (setBalance d v db).
Proof.
  intros Hwf Hv. unfold setBalance.
  apply wf_users_update; [now apply wf_eta | reflexivity | auto].
Qed.

Lemma wf_addXP d amount db : wf db -> wf (snd (addXP d amount db)).
Proof.
  intros Hwf.
  destruct (find (Prisma.user_byDiscordId d) (users db)) as [u|] eqn:E.
  - rewrite (addXP_found _ _ _ _ E). simpl. apply wf_setBalance; [auto|lia].
  - rewrite (addXP_missing _ _ _ E). simpl.
    apply wf_users_snoc; [now apply wf_eta | lia].
Qed.

Lemma wf_removeXP d amount db : wf db -> wf (snd (removeXP d amount db)).
Proof.
  intros Hwf.
  destruct (find (Prisma.user_byDiscordId d) (users db)) as [u|] eqn:E.
  - rewrite (removeXP_found _ _ _ _ E). simpl. apply wf_setBalance; [auto|lia].
  - rewrite (removeXP_missing _ _ _ E). simpl.
    apply wf_users_snoc; [now apply wf_eta | lia].
Qed.

Lemma wf_resetProblemStats n db : wf db -> wf (snd (resetProblemStats n db)).
Proof.
  intros Hwf. unfold resetProblemStats. munfold.
  destruct (find (Prisma.problem_byNumber n) (problems db)) as [p|] eqn:E;
    [|assumption].
  simpl.
  assert (Hdel :
    wf (mkDB (users db) (problems db)
             (filter (fun a => negb (Prisma.attempt_ofProblem (Problem.id p) a))
                     (userAttempts db))
             (nextId db)))
    by (apply wf_attempts_delete; now apply wf_eta).
  destruct (find (Prisma.problem_byId (Problem.id p)) (problems db)); simpl.
  - apply wf_problems_update; auto.
  - assumption.
Qed.

Lemma wf_afterFinalize now p db : wf db -> wf (afterFinalize now p db).
Proof.
  intros Hwf.
  destruct Hwf as [Hui Hpi Hai Hak Huf Hpf Haf Hxp0 Hlive Hunsolved Hfrozen].
  unfold afterFinalize. constructor; simpl.
  - rewrite map_map. exact Hui.
  - now rewrite map_updateWhere.
  - now rewrite map_updateWhere.
  - now rewrite map_updateWhere.
  - rewrite Forall_map. eapply Forall_impl; [|exact Huf]. auto.
  - apply Forall_updateWhere; auto.
  - apply Forall_updateWhere; auto.
  - rewrite Forall_map. rewrite Forall_forall. intros u _. apply clampAdd_xp_nonneg.
  - apply Forall_updateWhere; auto. intros a _ _. simpl. discriminate.
  - unfold updateWhere. rewrite Forall_map. rewrite Forall_forall in *.
    intros a Ha. destruct (Prisma.attempt_solvedOfProblem (Problem.id p) a) eqn:E;
      auto.
    apply solvedOfProblem_spec in E. simpl. intros Hs. destruct E. congruence.
  - intros a' p' Ha' Hp' E Hopen.
    apply In_updateWhere in Ha'. destruct Ha' as [a [Ha ->]].
    apply In_updateWhere in Hp'. destruct Hp' as [q [Hq ->]].
    destruct (Prisma.problem_byId (Problem.id p) q) eqn:Eq;
      [simpl in Hopen; discriminate|].
    destruct (Prisma.attempt_solvedOfProblem (Problem.id p) a) eqn:Ea.
    + apply solvedOfProblem_spec in Ea. simpl in E.
      unfold Prisma.problem_byId in Eq. apply Nat.eqb_neq in Eq.
      destruct Ea. congruence.
    + eauto.
Qed.

Lemma restored_pre a : UserAttempt.preFinalizeAwardedXp (restored a) = None.
Proof.
  unfold restored.
  destruct (UserAttempt.preFinalizeAwardedXp a) eqn:E; [reflexivity | exact E].
Qed.

Lemma restored_keys a :
  UserAttempt.id (restored a) = UserAttempt.id a
  /\ UserAttempt.userId (restored a) = UserAttempt.userId a
  /\ UserAttempt.problemId (restored a) = UserAttempt.problemId a
  /\ UserAttempt.solved (restored a) = UserAttempt.solved a.
Proof.
  unfold restored. destruct (UserAttempt.preFinalizeAwardedXp a); auto.
Qed.

Lemma wf_afterUnfinalize p db : wf db -> wf (afterUnfinalize p db).
Proof.
  intros Hwf.
  destruct Hwf as [Hui Hpi Hai Hak Huf Hpf Haf Hxp0 Hlive Hunsolved Hfrozen].
  unfold afterUnfinalize. constructor; simpl.
  - rewrite map_map. exact Hui.
  - now rewrite map_updateWhere.
  - rewrite map_updateWhere; auto. intros a. apply restored_keys.
  - rewrite map_updateWhere; auto. intros a. unfold attemptKey.
    destruct (restored_keys a) as (_ & -> & -> & _). reflexivity.
  - rewrite Forall_map. eapply Forall_impl; [|exact Huf]. auto.
  - apply Forall_updateWhere; auto.
  - apply Forall_updateWhere; auto. intros a Ha _.
    destruct (restored_keys a) as (-> & -> & -> & _). exact Ha.
  - rewrite Forall_map. rewrite Forall_forall. intros u _. apply clampAdd_xp_nonneg.
  - apply Forall_updateWhere; auto. intros a Ha _ _.
    unfold restored. destruct (UserAttempt.preFinalizeAwardedXp a) eqn:E; auto.
  - apply Forall_updateWhere; auto. intros a _ _ _. apply restored_pre.
  - intros a' p' Ha' Hp' E Hopen.
    apply In_updateWhere in Ha'. destruct Ha' as [a [Ha ->]].
    apply In_updateWhere in Hp'. destruct Hp' as [q [Hq ->]].
    rewrite Forall_forall in Hunsolved.
    destruct (Prisma.attempt_solvedOfProblem (Problem.id p) a) eqn:Ea;
      [apply restored_pre|].
    destruct (Prisma.problem_byId (Problem.id p) q) eqn:Eq.
    + simpl in E. apply Nat.eqb_eq in Eq.
      apply Hunsolved; auto.
      unfold Prisma.attempt_solvedOfProblem in Ea.
      rewrite E, Eq, Nat.eqb_refl in Ea. exact Ea.
    + eauto.
Qed.

Lemma wf_finalizeProblemScoring now n db :
  wf db -> wf (snd (finalizeProblemScoring now n db)).
Proof.
  intros Hwf.
  destruct (find (Prisma.problem_byNumber n) (problems db)) as [p|] eqn:E.
  - destruct (Problem.isFinalized p) eqn:F.
    + unfold finalizeProblemScoring. munfold. now rewrite E, F.
    + rewrite (finalizeProblemScoring_run now n db p Hwf E F). simpl.
      now apply wf_afterFinalize.
  - unfold finalizeProblemScoring. munfold. now rewrite E.
Qed.

Lemma wf_unfinalizeProblemScoring n db :
  wf db -> wf (snd (unfinalizeProblemScoring n db)).
Proof.
  intros Hwf.
  destruct (find (Prisma.problem_byNumber n) (problems db)) as [p|] eqn:E.
  - destruct (Problem.isFinalized p) eqn:F.
    + rewrite (unfinalizeProblemScoring_run n db p Hwf E F). simpl.
      now apply wf_afterUnfinalize.
    + unfold unfinalizeProblemScoring. munfold. now rewrite E, F.
  - unfold unfinalizeProblemScoring. munfold. now rewrite E.
Qed.

(* ================================================================== *)
(** ** Outcomes compose along [bind] *)
(* ================================================================== *)

Lemma post_bind {A B} (m : M A) (k : A -> M B) db
  (Qm : A -> DB -> Prop) (Q : B -> DB -> Prop) (E : DB -> Prop) :
  post m db Qm E ->
  (forall a db', Qm a db' -> post (k a) db' Q E) ->
  post (bind m k) db Q E.
Proof.
  unfold post, bind. intros Hm Hk.
  destruct (m db) as [[a|e] db']; [now apply Hk | assumption].
Qed.

Lemma post_ret {A} (a : A) db (Q : A -> DB -> Prop) E :
  Q a db -> post (ret a) db Q E.
Proof. auto. Qed.

Lemma post_throw {A} e db (Q : A -> DB -> Prop) (E : DB -> Prop) :
  E db -> post (throw e) db Q E.
Proof. auto. Qed.

Lemma post_weaken {A} (m : M A) db (Q Q' : A -> DB -> Prop) (E E' : DB -> Prop) :
  post m db Q E ->
  (forall a db', Q a db' -> Q' a db') -> (forall db', E db' -> E' db') ->
  post m db Q' E'.
Proof.
  unfold post. intros H HQ HE. destruct (m db) as [[a|e] db']; auto.
Qed.

Lemma post_snd {A} (m : M A) db (I : DB -> Prop) :
  post m db (fun _ => I) I <-> I (snd (m db)).
Proof. unfold post. destruct (m db) as [[a|e] db']; simpl; tauto. Qed.

Lemma post_run {A} (m : M A) db a db' (Q : A -> DB -> Prop) E :
  m db = (Ok a, db') -> Q a db' -> post m db Q E.
Proof. unfold post. now intros ->. Qed.

(** *** Integrity along the store's operations *)

Lemma wf_problem_create num o b db :
  wf db ->
  post (Prisma.problem_create num o b) db
       (fun p db' => wf db' /\ (Problem.id p < nextId db')%nat
                     /\ Problem.isFinalized p = false) wf.
Proof.
  intros Hwf. unfold post, Prisma.problem_create. simpl.
  split; [|split; [lia | reflexivity]].
  apply wf_problems_snoc. now apply wf_eta.
Qed.

Lemma wf_problem_update w f db :
  (forall p, Problem.id (f p) = Problem.id p) ->
  (forall p, Problem.isFinalized (f p) = Problem.isFinalized p) ->
  wf db ->
  post (Prisma.problem_update w f) db
       (fun p db' => wf db' /\ nextId db' = nextId db
                     /\ userAttempts db' = userAttempts db
                     /\ exists q, In q (problems db) /\ p = f q)
       wf.
Proof.
  intros Hid Hfin Hwf. unfold post, Prisma.problem_update.
  destruct (find w (problems db)) as [q|] eqn:E; [|assumption].
  split; [|split; [reflexivity|split; [reflexivity|]]].
  - apply wf_problems_update; auto. now apply wf_eta.
  - exists q. split; [|reflexivity]. now apply find_some in E.
Qed.

Lemma wf_userAttempt_create u p db :
  wf db ->
  find (Prisma.attempt_byUserProblem u p) (userAttempts db) = None ->
  (u < nextId db)%nat -> (p < nextId db)%nat ->
  post (Prisma.userAttempt_create u p) db
       (fun a db' => wf db' /\ In a (userAttempts db')
                     /\ (nextId db <= nextId db')%nat) wf.
Proof.
  intros Hwf Hnone Hu Hp. unfold post, Prisma.userAttempt_create. simpl.
  split; [|split; [|lia]].
  - apply wf_attempts_snoc; auto. now apply wf_eta.
  - apply in_or_app. right. now left.
Qed.

Lemma wf_userAttempt_update_byId a f db :
  (forall r, UserAttempt.id (f r) = UserAttempt.id r) ->
  (forall r, UserAttempt.userId (f r) = UserAttempt.userId r) ->
  (forall r, UserAttempt.problemId (f r) = UserAttempt.problemId r) ->
  (forall r, UserAttempt.preFinalizeAwardedXp (f r)
             = UserAttempt.preFinalizeAwardedXp r) ->
  (forall r, UserAttempt.finalizeDelta (f r) = UserAttempt.finalizeDelta r) ->
  (UserAttempt.solved (f a) = false -> UserAttempt.solved a = false) ->
  wf db -> In a (userAttempts db) ->
  post (Prisma.userAttempt_update (Prisma.attempt_byId (UserAttempt.id a)) f) db
       (fun _ db' => wf db' /\ In (f a) (userAttempts db')
                     /\ nextId db' = nextId db) wf.
Proof.
  intros Hid Hu Hp Hpre Hd Hs Hwf Hin. unfold post, Prisma.userAttempt_update.
  destruct (find (Prisma.attempt_byId (UserAttempt.id a)) (userAttempts db))
    as [r|] eqn:E; [|assumption].
  split; [|split; [|reflexivity]].
  - apply wf_attempts_update; auto; [now apply wf_eta|].
    intros r' Hr' Hw. apply Nat.eqb_eq in Hw.
    assert (r' = a)
      by (eapply (NoDup_key_eq UserAttempt.id); eauto; apply Hwf).
    now subst.
  - apply In_updateWhere. exists a. split; [assumption|].
    unfold Prisma.attempt_byId. now rewrite Nat.eqb_refl.
Qed.

Lemma wf_getOrCreateUser_post d db :
  wf db ->
  post (getOrCreateUser d) db
       (fun u db' => wf db' /\ (nextId db <= nextId db')%nat
                     /\ (User.id u < nextId db')%nat) wf.
Proof.
  intros Hwf. pose proof (wf_getOrCreateUser d db Hwf) as H.
  unfold post.
  destruct (find (Prisma.user_byDiscordId d) (users db)) as [u|] eqn:E.
  - pose proof (find_some _ _ E) as [Hin _].
    pose proof (wf_user_fresh Hwf) as Hf. rewrite Forall_forall in Hf.
    rewrite (getOrCreateUser_found _ _ _ E) in *. simpl in *. auto.
  - rewrite (getOrCreateUser_missing _ _ E) in *. simpl in *. auto.
Qed.

Lemma post_fetchOriginalBaseScore sheet n db (I : DB -> Prop) :
  I db -> post (fetchOriginalBaseScore sheet n) db (fun _ => I) I.
Proof.
  intros H. unfold post, fetchOriginalBaseScore.
  destruct (sheet n); assumption.
Qed.

Lemma wf_addXP_post d v db :
  wf db ->
  post (addXP d v) db
       (fun _ db' => wf db' /\ userAttempts db' = userAttempts db) wf.
Proof.
  intros Hwf. pose proof (wf_addXP d v db Hwf) as H. unfold post.
  destruct (find (Prisma.user_byDiscordId d) (users db)) as [u|] eqn:E.
  - rewrite (addXP_found _ _ _ _ E) in *. auto.
  - rewrite (addXP_missing _ _ _ E) in *. simpl in *. auto.
Qed.

Lemma wf_recordAttempt sheet d n c db :
  wf db -> wf (snd (recordAttempt sheet d n c db)).
Proof.
  intros Hwf. apply post_snd. unfold recordAttempt.
  (* the problem *)
  apply post_bind with
    (Qm := fun found db' =>
             db' = db
             /\ found = find (Prisma.problem_byNumber n) (problems db));
    [unfold post; simpl; auto|].
  intros found ? [-> ->].
  apply post_bind with
    (Qm := fun problem db' => wf db' /\ (Problem.id problem < nextId db')%nat).
  { destruct (find (Prisma.problem_byNumber n) (problems db)) as [p|] eqn:E.
    - apply post_ret. split; [assumption|].
      apply find_some in E. destruct E as [Hin _].
      pose proof (wf_problem_fresh Hwf) as Hf. rewrite Forall_forall in Hf. auto.
    - eapply post_bind; [apply post_fetchOriginalBaseScore; exact Hwf|].
      intros v db' Hwf'. simpl in Hwf'.
      eapply post_weaken; [apply wf_problem_create; exact Hwf'| |auto].
      simpl. tauto. }
  clear db Hwf. intros problem db [Hwf Hfresh].
  destruct (Problem.isFinalized problem); [now apply post_throw|].
  (* backfill *)
  apply post_bind with
    (Qm := fun problem db' => wf db' /\ (Problem.id problem < nextId db')%nat).
  { destruct (Problem.originalBaseScore problem <=? 0).
    - eapply post_bind; [apply post_fetchOriginalBaseScore; exact Hwf|].
      intros v db' Hwf'. simpl in Hwf'.
      eapply post_weaken;
        [apply wf_problem_update; [reflexivity | reflexivity | exact Hwf'] | |auto].
      simpl. intros p' db'' (Hwf'' & Hn & _ & q & Hq & ->). split; [assumption|].
      simpl. rewrite Hn.
      pose proof (wf_problem_fresh Hwf') as Hf. rewrite Forall_forall in Hf. auto.
    - apply post_ret. auto. }
  clear problem db Hwf Hfresh. intros problem db [Hwf Hfresh].
  (* the user *)
  eapply post_bind; [apply wf_getOrCreateUser_post; exact Hwf|].
  simpl. intros dbUser db' (Hwf' & Hle & Hufresh).
  assert (Hfresh' : (Problem.id problem < nextId db')%nat) by lia.
  revert Hufresh. clear db Hwf Hfresh Hle. intros Hufresh.
  rename db' into db, Hwf' into Hwf, Hfresh' into Hfresh.
  (* the row *)
  apply post_bind with
    (Qm := fun found db' =>
             db' = db
             /\ found = find (Prisma.attempt_byUserProblem (User.id dbUser)
                                (Problem.id problem))
                             (userAttempts db));
    [unfold post; simpl; auto|].
  intros foundAttempt ? [-> ->].
  apply post_bind with
    (Qm := fun a db' => wf db' /\ In a (userAttempts db')).
  { destruct (find (Prisma.attempt_byUserProblem (User.id dbUser)
                      (Problem.id problem))
                   (userAttempts db)) as [a|] eqn:E.
    - apply post_ret. apply find_some in E. tauto.
    - eapply post_weaken; [apply wf_userAttempt_create; eassumption| |auto].
      simpl. tauto. }
  clear db Hwf Hfresh Hufresh. intros userAttempt db (Hwf & Hin).
  (* the writes *)
  eapply post_bind.
  { apply wf_userAttempt_update_byId; try reflexivity; try assumption.
    simpl. intros H. apply orb_false_iff in H. tauto. }
  simpl. intros _ db0 (Hwf0 & Hin0 & _).
  eapply post_bind;
    [apply wf_problem_update; [reflexivity | reflexivity | exact Hwf0]|].
  simpl. intros _ db1 (Hwf1 & _ & Hrows1 & _).
  eapply post_bind with (Qm := fun _ db2 => db2 = db1);
    [unfold post; simpl; auto|].
  intros solvedAttempts ? ->.
  eapply post_bind;
    [apply wf_problem_update; [reflexivity | reflexivity | exact Hwf1]|].
  simpl. intros _ db2 (Hwf2 & _ & Hrows2 & _).
  rewrite <- Hrows1, <- Hrows2 in Hin0.
  destruct (c && negb (UserAttempt.solved userAttempt)).
  - eapply post_bind; [apply wf_addXP_post; exact Hwf2|].
    simpl. intros userXP db3 [Hwf3 Hrows3]. rewrite <- Hrows3 in Hin0.
    eapply post_bind.
    { match goal with
      | |- post (Prisma.userAttempt_update _ ?f) _ _ _ =>
          apply (wf_userAttempt_update_byId
                   (UserAttempt.set_progress (UserAttempt.attempts userAttempt + 1)
                      (UserAttempt.solved userAttempt || c) userAttempt) f db3);
            try reflexivity; auto
      end. }
    simpl. intros _ db4 (Hwf4 & _). now apply post_ret.
  - eapply post_bind with (Qm := fun _ db3 => db3 = db2);
      [unfold post; simpl; auto|].
    intros latest ? ->. now apply post_ret.
Qed.

Lemma wf_exec o db : wf db -> wf (exec o db).
Proof.
  intros Hwf. destruct o; simpl.
  - now apply wf_getOrCreateUser.
  - now apply wf_addXP.
  - now apply wf_removeXP.
  - now apply wf_resetProblemStats.
  - now apply wf_finalizeProblemScoring.
  - now apply wf_unfinalizeProblemScoring.
  - now apply wf_recordAttempt.
Qed.

(** Every reachable store satisfies the integrity constraints. *)
Lemma reachable_wf db : reachable db -> wf db.
Proof.
  induction 1 as [|o db _ IH]; [apply wf_initial | now apply wf_exec].
Qed.

(* ================================================================== *)
(** ** The attempt tracker, phase by phase *)
(* ================================================================== *)

Ltac splits := repeat match goal with |- _ /\ _ => split end.

Lemma post_bind_run {A B} (m : M A) (k : A -> M B) db a db'
  (Q : B -> DB -> Prop) (E : DB -> Prop) :
  m db = (Ok a, db') -> post (k a) db' Q E -> post (bind m k) db Q E.
Proof. unfold post, bind. now intros ->. Qed.

Lemma problem_byId_self p : Prisma.problem_byId (Problem.id p) p = true.
Proof. apply Nat.eqb_refl. Qed.

Lemma attempt_byId_self a : Prisma.attempt_byId (UserAttempt.id a) a = true.
Proof. apply Nat.eqb_refl. Qed.

Lemma find_problem_updated n w f ps p :
  (forall q, Problem.number (f q) = Problem.number q) ->
  find (Prisma.problem_byNumber n) ps = Some p ->
  find (Prisma.problem_byNumber n) (updateWhere w f ps)
  = Some (if w p then f p else p).
Proof.
  intros Hnum H. rewrite find_updateWhere; [now rewrite H|].
  intros q. unfold Prisma.problem_byNumber. now rewrite Hnum.
Qed.

Lemma find_attempt_updated u p w f rs a :
  (forall r, UserAttempt.userId (f r) = UserAttempt.userId r) ->
  (forall r, UserAttempt.problemId (f r) = UserAttempt.problemId r) ->
  find (Prisma.attempt_byUserProblem u p) rs = Some a ->
  find (Prisma.attempt_byUserProblem u p) (updateWhere w f rs)
  = Some (if w a then f a else a).
Proof.
  intros Hu Hp H. rewrite find_updateWhere; [now rewrite H|].
  intros r. unfold Prisma.attempt_byUserProblem. now rewrite Hu, Hp.
Qed.

Lemma attempt_byKey_found db u p a :
  wf db ->
  find (Prisma.attempt_byUserProblem u p) (userAttempts db) = Some a ->
  find (Prisma.attempt_byId (UserAttempt.id a)) (userAttempts db) = Some a
  /\ In a (userAttempts db)
  /\ UserAttempt.userId a = u /\ UserAttempt.problemId a = p.
Proof.
  intros Hwf H. apply find_some in H. destruct H as [Hin Hk].
  unfold Prisma.attempt_byUserProblem in Hk.
  apply andb_true_iff in Hk. destruct Hk as [Hu Hp].
  apply Nat.eqb_eq in Hu, Hp. repeat split; auto.
  apply (find_byKey_NoDup UserAttempt.id); auto. apply Hwf.
Qed.

Lemma userAttempt_update_run db a data :
  find (Prisma.attempt_byId (UserAttempt.id a)) (userAttempts db) = Some a ->
  Prisma.userAttempt_update (Prisma.attempt_byId (UserAttempt.id a)) data db =
  (Ok (data a),
   mkDB (users db) (problems db)
        (updateWhere (Prisma.attempt_byId (UserAttempt.id a)) data
                     (userAttempts db))
        (nextId db)).
Proof. intros H. unfold Prisma.userAttempt_update. now rewrite H. Qed.

Section RecordAttempt.
Variables (sheet : Sheet) (d n : string) (c : bool) (db : DB).
Hypothesis Hwf : wf db.

Local Abbreviation failed := (attemptFailed sheet n db).
Local Abbreviation resolved := (problemResolved sheet n db).
Local Abbreviation backfilled := (problemBackfilled sheet n db).
Local Abbreviation withUser := (userResolved d n db).
Local Abbreviation withRow := (rowResolved d n db).

Lemma recordAttempt_resolve :
  post (match find (Prisma.problem_byNumber n) (problems db) with
        | Some problem => ret problem
        | None =>
            originalBaseScore <- fetchOriginalBaseScore sheet n ;;
            Prisma.problem_create n originalBaseScore originalBaseScore
        end) db resolved failed.
Proof.
  unfold problemResolved, attemptFailed, baseScoreAtEntry, solvesAtEntry, recordAttemptFails.
  destruct (find (Prisma.problem_byNumber n) (problems db)) as [p0|] eqn:E.
  - apply post_ret. splits; auto.
  - unfold fetchOriginalBaseScore.
    destruct (sheet n) as [v|] eqn:Es; [|now apply post_throw].
    unfold post, bind, ret, Prisma.problem_create. simpl.
    splits; auto.
    + apply wf_problems_snoc. now apply wf_eta.
    + rewrite find_app, E. simpl. unfold Prisma.problem_byNumber. simpl.
      now rewrite String.eqb_refl.
Qed.

Lemma recordAttempt_backfill p0 s :
  resolved p0 s -> Problem.isFinalized p0 = false ->
  post (if Problem.originalBaseScore p0 <=? 0 then
          fallbackOriginal <- fetchOriginalBaseScore sheet n ;;
          Prisma.problem_update (Prisma.problem_byId (Problem.id p0))
            (Problem.set_originalBaseScore fallbackOriginal)
        else ret p0) s backfilled failed.
Proof.
  intros (Hwfs & Hus & Hrs & Hnext & Hfind & Hbase & Hsolves & Hcase) Hopen.
  unfold problemBackfilled, attemptFailed.
  destruct (problem_byNumber_found _ _ _ Hwfs Hfind) as (Hid & Hin & Hnum).
  assert (Horigin :
    (exists q, find (Prisma.problem_byNumber n) (problems db) = Some q
               /\ Problem.id q = Problem.id p0)
    \/ (find (Prisma.problem_byNumber n) (problems db) = None
        /\ (nextId db <= Problem.id p0)%nat)).
  { destruct Hcase as [[H _]|(H & _ & _ & Hle)]; [left; eauto | right; auto]. }
  destruct (Z.leb_spec (Problem.originalBaseScore p0) 0) as [Hle|Hlt].
  - unfold fetchOriginalBaseScore.
    destruct (sheet n) as [v|] eqn:Es.
    + apply post_bind_run with (a := v) (db' := s); [reflexivity|].
      eapply post_run; [apply (problem_update_byId_run _ _ _ Hid)|].
      simpl. splits; auto.
      * apply wf_problems_update; auto. now apply wf_eta.
      * rewrite (find_problem_updated _ _ _ _ p0); auto.
        now rewrite problem_byId_self.
    + apply post_throw.
      destruct Hcase as [[H ->]|(_ & H & _)]; [|congruence].
      split; [reflexivity|]. unfold recordAttemptFails. rewrite H. auto.
  - apply post_ret. splits; auto.
Qed.

Lemma recordAttempt_user p s :
  backfilled p s -> post (getOrCreateUser d) s (withUser p) failed.
Proof.
  intros (Hwfs & Hus & Hrs & Hnext & Hfind & _). unfold userResolved, balanceOf.
  destruct (find (Prisma.user_byDiscordId d) (users s)) as [u|] eqn:E.
  - eapply post_run; [apply (getOrCreateUser_found _ _ _ E)|].
    rewrite <- Hus, E. splits; auto.
  - eapply post_run; [apply (getOrCreateUser_missing _ _ E)|].
    rewrite <- Hus, E. simpl. splits; auto.
    + apply wf_users_snoc; [now apply wf_eta | lia].
    + rewrite find_app, E. simpl. now rewrite user_byDiscordId_mk.
Qed.

Lemma recordAttempt_row p u s :
  ((exists q, find (Prisma.problem_byNumber n) (problems db) = Some q
              /\ Problem.id q = Problem.id p)
   \/ (find (Prisma.problem_byNumber n) (problems db) = None
       /\ (nextId db <= Problem.id p)%nat)) ->
  withUser p u s ->
  post (match find (Prisma.attempt_byUserProblem (User.id u) (Problem.id p))
                   (userAttempts s) with
        | Some userAttempt => ret userAttempt
        | None => Prisma.userAttempt_create (User.id u) (Problem.id p)
        end) s (withRow p u) failed.
Proof.
  intros Horigin (Hwfs & Hrs & Hfindp & Hfindu & Hxp & Hucase).
  unfold rowResolved, solvedBefore, attemptOf.
  assert (Hquiet : find (Prisma.user_byDiscordId d) (users db) <> None ->
                   users s = users db).
  { intros Hsome. destruct Hucase as [[_ H]|[H _]]; [exact H | contradiction]. }
  destruct (find (Prisma.attempt_byUserProblem (User.id u) (Problem.id p))
                 (userAttempts s)) as [a|] eqn:E.
  - apply post_ret. splits; auto.
    destruct (attempt_byKey_found _ _ _ _ Hwfs E) as (_ & Hin & Hau & Hap).
    rewrite Hrs in Hin, E.
    pose proof (wf_attempt_fresh Hwf) as Hfresh.
    rewrite Forall_forall in Hfresh. destruct (Hfresh a Hin) as (_ & Hlu & Hlp).
    destruct Hucase as [[Hu _]|[_ Hle]]; [|lia].
    destruct Horigin as [(q & Hq & Hqid)|[_ Hle]]; [|lia].
    now rewrite Hu, Hq, Hqid, E.
  - pose proof (find_some _ _ Hfindp) as [Hinp _].
    pose proof (find_some _ _ Hfindu) as [Hinu _].
    pose proof (wf_problem_fresh Hwfs) as Hpf. rewrite Forall_forall in Hpf.
    pose proof (wf_user_fresh Hwfs) as Huf. rewrite Forall_forall in Huf.
    unfold post, Prisma.userAttempt_create. simpl. splits; auto.
    + apply wf_attempts_snoc; auto. now apply wf_eta.
    + rewrite find_app, E. simpl. unfold Prisma.attempt_byUserProblem. simpl.
      now rewrite !Nat.eqb_refl.
    + rewrite Hrs in E.
      destruct (find (Prisma.user_byDiscordId d) (users db)) as [u'|] eqn:Eu;
        [|reflexivity].
      destruct (find (Prisma.problem_byNumber n) (problems db)) as [q|] eqn:Eq;
        [|reflexivity].
      destruct Hucase as [[Hu _]|[Hu _]]; [|discriminate].
      destruct Horigin as [(q' & Hq & Hqid)|[Hq _]]; [|discriminate].
      injection Hu as ->. injection Hq as <-. now rewrite Hqid, E.
Qed.

Lemma find_user_byId_found s u :
  wf s -> find (Prisma.user_byDiscordId d) (users s) = Some u ->
  find (Prisma.user_byId (User.id u)) (users s) = Some u.
Proof.
  intros Hwfs H. apply find_some in H. destruct H as [Hin _].
  apply (find_byKey_NoDup User.id); auto. apply Hwfs.
Qed.

(** The call either throws on an unchanged store, or returns the
    outcome [recorded] describes. *)
Lemma recordAttempt_post :
  post (recordAttempt sheet d n c) db (recorded sheet d n c db) failed.
Proof.
  unfold recordAttempt.
  apply post_bind_run
    with (a := find (Prisma.problem_byNumber n) (problems db)) (db' := db);
    [reflexivity|].
  eapply post_bind; [apply recordAttempt_resolve|].
  intros p0 s0 Hres.
  destruct (Problem.isFinalized p0) eqn:Hfin0.
  { apply post_throw. destruct Hres as (_ & _ & _ & _ & _ & _ & _ & Hcase).
    destruct Hcase as [[H ->]|(_ & _ & H & _)]; [|congruence].
    split; [reflexivity|]. unfold recordAttemptFails. rewrite H. auto. }
  eapply post_bind; [apply (recordAttempt_backfill p0 s0 Hres Hfin0)|].
  intros p s1 Hback.
  eapply post_bind; [apply (recordAttempt_user p s1 Hback)|].
  intros u s2 Huser.
  destruct Hback
    as (_ & _ & _ & _ & _ & Hopen & Hbase & Hsolves & Hsheet & Horigin).
  apply post_bind_run
    with (a := find (Prisma.attempt_byUserProblem (User.id u) (Problem.id p))
                    (userAttempts s2)) (db' := s2);
    [reflexivity|].
  eapply post_bind; [apply (recordAttempt_row p u s2 Horigin Huser)|].
  destruct Huser as (_ & _ & _ & _ & Hxp & _).
  clear s0 s1 s2 Hres.
  intros a s (Hwfs & Hfindp & Hfindu & Hrow & Hsolved & Hquiet).
  destruct (attempt_byKey_found _ _ _ _ Hwfs Hrow) as (Haid & Hain & Hau & Hap).
  destruct (problem_byNumber_found _ _ _ Hwfs Hfindp) as (Hpid & Hpin & Hnum).
  pose proof (find_user_byId_found s u Hwfs Hfindu) as Huid.
  (* the row and the counters *)
  eapply post_bind_run; [apply (userAttempt_update_run s a _ Haid)|].
  match goal with
  | |- post (bind (Prisma.problem_update _ ?f) ?k) ?st _ _ =>
      apply (post_bind_run _ k st _ _ _ _ (problem_update_byId_run st p f Hpid))
  end.
  eapply post_bind_run; [reflexivity|].
  simpl userAttempts.
  set (rows1 := updateWhere (Prisma.attempt_byId (UserAttempt.id a))
                  (UserAttempt.set_progress (UserAttempt.attempts a + 1)
                     (UserAttempt.solved a || c)) (userAttempts s)).
  set (ws := sumSolveWeights
               (map UserAttempt.attempts
                  (filter (Prisma.attempt_solvedOfProblem (Problem.id p))
                          rows1))).
  set (g1 := Problem.set_counters (Problem.attempts p + 1)
               (Problem.solves p
                + (if c && negb (UserAttempt.solved a) then 1 else 0))).
  assert (Hpid1 :
    find (Prisma.problem_byId (Problem.id (g1 p)))
         (updateWhere (Prisma.problem_byId (Problem.id p)) g1 (problems s))
    = Some (g1 p)).
  { rewrite find_updateWhere by reflexivity.
    change (Problem.id (g1 p)) with (Problem.id p).
    rewrite Hpid. cbn [option_map]. now rewrite problem_byId_self. }
  match goal with
  | |- post (bind (Prisma.problem_update _ ?f) ?k) ?st _ _ =>
      apply (post_bind_run _ k st _ _ _ _
               (problem_update_byId_run st (g1 p) f Hpid1))
  end.
  assert (Hstored :
    find (Prisma.problem_byNumber n)
      (updateWhere (Prisma.problem_byId (Problem.id p))
         (Problem.set_baseScore (getDynamicBaseFromWeightedSolves ws))
         (updateWhere (Prisma.problem_byId (Problem.id p)) g1 (problems s)))
    = Some (storedProblemOf c p a ws)).
  { rewrite (find_problem_updated _ _ _ _ (g1 p)); [|reflexivity|].
    - change (Prisma.problem_byId (Problem.id p) (g1 p))
        with (Prisma.problem_byId (Problem.id p) p).
      now rewrite problem_byId_self.
    - rewrite (find_problem_updated _ _ _ _ p); auto.
      now rewrite problem_byId_self. }
  assert (Hrow1 :
    find (Prisma.attempt_byUserProblem (User.id u) (Problem.id p)) rows1
    = Some (UserAttempt.set_progress (UserAttempt.attempts a + 1)
              (UserAttempt.solved a || c) a)).
  { unfold rows1. rewrite (find_attempt_updated _ _ _ _ _ a); auto.
    now rewrite attempt_byId_self. }
  simpl Problem.id.
  destruct (c && negb (UserAttempt.solved a)) eqn:Enew.
  - (* first-time solve *)
    match goal with
    | |- post (bind (addXP _ ?v) ?k) ?st _ _ =>
        apply (post_bind_run _ k st _ _ _ _ (addXP_found st d v u Hfindu))
    end.
    assert (Haid1 :
      find (Prisma.attempt_byId
              (UserAttempt.id
                 (UserAttempt.set_progress (UserAttempt.attempts a + 1)
                    (UserAttempt.solved a || c) a))) rows1
      = Some (UserAttempt.set_progress (UserAttempt.attempts a + 1)
                (UserAttempt.solved a || c) a)).
    { unfold rows1. rewrite find_updateWhere by reflexivity.
      cbn [UserAttempt.id UserAttempt.set_progress].
      rewrite Haid. cbn [option_map]. now rewrite attempt_byId_self. }
    match goal with
    | |- post (bind (Prisma.userAttempt_update _ ?f) ?k) ?st _ _ =>
        apply (post_bind_run _ k st _ _ _ _
                 (userAttempt_update_run st
                    (UserAttempt.set_progress (UserAttempt.attempts a + 1)
                       (UserAttempt.solved a || c) a) f Haid1))
    end.
    apply post_ret.
    apply Recorded with (p := p) (u := u) (a := a) (ws := ws); auto.
    + unfold attemptResultOf, newlySolved, awardFor. now rewrite Enew.
    + simpl. rewrite find_updateWhere by reflexivity.
      rewrite Hfindu. simpl.
      pose proof (find_some _ _ Hfindu) as [_ Hd]. now rewrite Hd.
    + simpl. fold rows1.
      erewrite find_attempt_updated;
        [|intros; reflexivity|intros; reflexivity|exact Hrow1].
      change (Prisma.attempt_byId (UserAttempt.id a)
                (UserAttempt.set_progress (UserAttempt.attempts a + 1)
                   (UserAttempt.solved a || c) a))
        with (Prisma.attempt_byId (UserAttempt.id a) a).
      rewrite attempt_byId_self.
      unfold storedAttemptOf, newlySolved, awardFor. now rewrite Enew.
    + unfold newlySolved. rewrite Enew. discriminate.
  - (* no award *)
    eapply post_bind_run; [reflexivity|].
    apply post_ret. simpl users. rewrite Huid.
    apply Recorded with (p := p) (u := u) (a := a) (ws := ws); auto.
    + unfold attemptResultOf, newlySolved. now rewrite Enew.
    + simpl. rewrite Hfindu. f_equal. now destruct u.
    + simpl. fold rows1. rewrite Hrow1.
      unfold storedAttemptOf, newlySolved. now rewrite Enew.
Qed.

End RecordAttempt.

(* ================================================================== *)
(** ** Finalize followed by unfinalize *)
(* ================================================================== *)

Lemma find_map_preserved {T} (q : T -> bool) (f : T -> T) l :
  (forall x, q (f x) = q x) -> find q (map f l) = option_map f (find q l).
Proof.
  intros Hq. induction l as [|x l IH]; simpl; [reflexivity|].
  rewrite Hq. destruct (q x); [reflexivity | exact IH].
Qed.

Lemma NoDup_map_inj {T K} (key : T -> K) l x y :
  NoDup (map key l) -> In x l -> In y l -> key x = key y -> x = y.
Proof.
  induction l as [|z l IH]; simpl; intros Hnd Hx Hy E; [contradiction|].
  inversion Hnd as [|? ? Hn Hnd']; subst.
  destruct Hx as [->|Hx], Hy as [->|Hy]; auto.
  - exfalso. apply Hn. rewrite E. now apply in_map.
  - exfalso. apply Hn. rewrite <- E. now apply in_map.
Qed.

Lemma find_user_byId_In db u :
  wf db -> In u (users db) ->
  find (Prisma.user_byId (User.id u)) (users db) = Some u.
Proof.
  intros Hwf Hu. apply (find_byKey_NoDup User.id); auto. apply Hwf.
Qed.

Lemma find_attempt_byId_own db a :
  wf db -> In a (userAttempts db) ->
  find (Prisma.attempt_byId (UserAttempt.id a)) (userAttempts db) = Some a.
Proof.
  intros Hwf Ha. apply (find_byKey_NoDup UserAttempt.id); auto. apply Hwf.
Qed.

Lemma updateWhere_filter_same {T} (w : T -> bool) f l :
  updateWhere w f (filter w l) = map f (filter w l).
Proof.
  apply map_ext_in. intros x Hx. apply filter_In in Hx.
  destruct Hx as [_ ->]. reflexivity.
Qed.

(** The row a user has among the solved rows of a problem. *)
Lemma solvedRows_find_own db pid a :
  wf db -> In a (userAttempts db) ->
  Prisma.attempt_solvedOfProblem pid a = true ->
  find (attempt_ofUser (UserAttempt.userId a)) (solvedRows db pid) = Some a.
Proof.
  intros Hwf Ha Hsel.
  assert (Hin : In a (solvedRows db pid)) by (apply filter_In; auto).
  destruct (find_In_some (attempt_ofUser (UserAttempt.userId a))
              (solvedRows db pid) a Hin (Nat.eqb_refl _)) as [b Hb].
  rewrite Hb. f_equal.
  pose proof (find_some _ _ Hb) as [Hbin Hbu].
  apply filter_In in Hbin. destruct Hbin as [Hbin Hbsel].
  apply Nat.eqb_eq in Hbu.
  apply solvedOfProblem_spec in Hsel, Hbsel.
  apply (NoDup_map_inj attemptKey (userAttempts db)); auto; [apply Hwf|].
  unfold attemptKey. f_equal; [assumption | intuition congruence].
Qed.

Lemma repriced_sel final pid a :
  Prisma.attempt_solvedOfProblem pid (repriced final a)
  = Prisma.attempt_solvedOfProblem pid a.
Proof. reflexivity. Qed.

Lemma restored_repriced final a :
  UserAttempt.preFinalizeAwardedXp a = None ->
  UserAttempt.finalizeDelta a = 0 ->
  restored (repriced final a) = a.
Proof.
  intros Hpre Hd. destruct a as [i u p att s aw pre dl]. simpl in *. subst.
  reflexivity.
Qed.

Lemma reverseDeltaOf_repriced final a :
  reverseDeltaOf (repriced final a) = - finalizeDeltaOf final a.
Proof. reflexivity. Qed.

Lemma deltaFor_reverse final rows i :
  deltaFor reverseDeltaOf (map (repriced final) rows) i
  = - deltaFor (finalizeDeltaOf final) rows i.
Proof.
  unfold deltaFor. rewrite find_map_preserved by reflexivity.
  destruct (find (attempt_ofUser i) rows); reflexivity.
Qed.

Lemma clampAdd_back delta u :
  0 <= User.xp u ->
  clampAdd (- delta) (clampAdd delta u)
  = User.set_xp (Z.max (User.xp u) (- delta)) u.
Proof.
  intros H. destruct u as [i d x]. unfold clampAdd, User.set_xp. simpl in *.
  f_equal. lia.
Qed.

Lemma afterFinalize_problem now n db p :
  find (Prisma.problem_byNumber n) (problems db) = Some p ->
  find (Prisma.problem_byNumber n) (problems (afterFinalize now p db))
  = Some (Problem.set_finalization (dynamicScoreOf db (Problem.id p)) true
            (Some now) p).
Proof.
  intros H. unfold afterFinalize. simpl.
  rewrite (find_problem_updated _ _ _ _ p) by auto.
  now rewrite problem_byId_self.
Qed.

Lemma afterFinalize_solvedRows now db p :
  solvedRows (afterFinalize now p db) (Problem.id p)
  = map (repriced (dynamicScoreOf db (Problem.id p)))
        (solvedRows db (Problem.id p)).
Proof.
  unfold solvedRows, afterFinalize. simpl.
  rewrite filter_updateWhere by reflexivity.
  apply updateWhere_filter_same.
Qed.

(** Finalize then unfinalize: both return; the rows come back as they
    were; a balance comes back unless finalize clamped it. *)
Lemma finalize_unfinalize_roundtrip now n db p :
  wf db ->
  find (Prisma.problem_byNumber n) (problems db) = Some p ->
  Problem.isFinalized p = false ->
  exists r1 r2 db2,
    finalizeProblemScoring now n db = (Ok r1, afterFinalize now p db)
    /\ unfinalizeProblemScoring n (afterFinalize now p db) = (Ok r2, db2)
    /\ userAttempts db2 = userAttempts db
    /\ users db2
       = map (fun u =>
                User.set_xp
                  (Z.max (User.xp u)
                         (- finalizeDeltaFor db (Problem.id p) (User.id u))) u)
             (users db).
Proof.
  intros Hwf Hfind Hopen.
  pose proof (find_some _ _ Hfind) as [Hpin _].
  pose proof (wf_afterFinalize now p db Hwf) as Hwf1.
  pose proof (afterFinalize_problem now n db p Hfind) as Hfind1.
  eexists. eexists. eexists.
  split; [apply (finalizeProblemScoring_run now n db p Hwf Hfind Hopen)|].
  split; [apply (unfinalizeProblemScoring_run n _ _ Hwf1 Hfind1 eq_refl)|].
  unfold afterUnfinalize.
  cbn [users userAttempts Problem.id Problem.set_finalization].
  split.
  - unfold afterFinalize. cbn [userAttempts].
    rewrite updateWhere_updateWhere_same by reflexivity.
    apply updateWhere_id. intros a Ha Hsel.
    apply solvedOfProblem_spec in Hsel. destruct Hsel as [Hp _].
    assert (Hpre : UserAttempt.preFinalizeAwardedXp a = None)
      by (apply (wf_frozen Hwf a p); auto).
    pose proof (wf_live Hwf) as Hlive. rewrite Forall_forall in Hlive.
    apply restored_repriced; auto.
  - rewrite afterFinalize_solvedRows.
    unfold afterFinalize at 1. cbn [users]. rewrite map_map.
    apply map_ext_in. intros u Hu.
    pose proof (wf_xp Hwf) as Hxp. rewrite Forall_forall in Hxp.
    rewrite clampAdd_id, deltaFor_reverse.
    fold (finalizeDeltaFor db (Problem.id p) (User.id u)).
    apply clampAdd_back. auto.
Qed.

(** ** Consequences for a call of [recordAttempt] *)

Lemma recordAttempt_returns sheet d n c db res db' :
  wf db -> recordAttempt sheet d n c db = (Ok res, db') ->
  recorded sheet d n c db res db'.
Proof.
  intros Hwf Hrun. pose proof (recordAttempt_post sheet d n c db Hwf) as H.
  unfold post in H. now rewrite Hrun in H.
Qed.

Lemma recordAttempt_throws sheet d n c db e db' :
  wf db -> recordAttempt sheet d n c db = (Err e, db') ->
  db' = db /\ recordAttemptFails sheet db n.
Proof.
  intros Hwf Hrun. pose proof (recordAttempt_post sheet d n c db Hwf) as H.
  unfold post in H. now rewrite Hrun in H.
Qed.

(** The row of the user for the problem after the call. *)
Lemma recorded_attemptOf sheet d n c db res db' :
  recorded sheet d n c db res db' ->
  exists p u a ws,
    res = attemptResultOf c p u a ws
    /\ UserAttempt.solved a = solvedBefore db d n
    /\ attemptOf db' d n = Some (storedAttemptOf c p a)
    /\ Problem.baseScore p = baseScoreAtEntry sheet db n
    /\ User.xp u = balanceOf db d
    /\ balanceOf db' d = AttemptResult.userXP res.
Proof.
  intros [p u a ws Hopen Hbase Hsheet Hsolves Hxp Hsolved Hres Hproblem Huser
            Hrow Hquiet].
  exists p, u, a, ws. splits; auto.
  - unfold attemptOf. rewrite Huser, Hproblem. exact Hrow.
  - unfold balanceOf. now rewrite Huser.
Qed.

(* ================================================================== *)
(** * The claims *)
(* ================================================================== *)

(** ** C3: the two call paths for a missing user *)

(** C3, as stated, fails: on a store without any user the internal-key
    adjustment by 5 of key 0 returns normally and leaves the store as it
    was; it does not fail with NotFound. *)
Lemma C3_counterexample :
  find (Prisma.user_byId 0) (users initialDB) = None
  /\ adjustUserXPByDbId 0 5 initialDB = (Ok tt, initialDB)
  /\ fst (adjustUserXPByDbId 0 5 initialDB) <> Err NotFound.
Proof. repeat split. discriminate. Qed.

(** C3, amended: neither path throws for a missing user.  [addXP] and
    [removeXP] create the user with balance 0 and write the clamped
    balance; the internal-key adjustment returns silently and leaves the
    store unchanged, for every delta and every key without a user. *)
Theorem C3_missing_user_is_never_an_error
  (db : DB) (d : string) (amount : Z) (i : Id) (delta : Z)
  (Hd : find (Prisma.user_byDiscordId d) (users db) = None)
  (Hi : find (Prisma.user_byId i) (users db) = None) :
  addXP d amount db =
    (Ok (Z.max 0 amount),
     mkDB (users db ++ [User.mk (nextId db) d (Z.max 0 amount)])
          (problems db) (userAttempts db) (S (nextId db)))
  /\ removeXP d amount db =
    (Ok (Z.max 0 (- amount)),
     mkDB (users db ++ [User.mk (nextId db) d (Z.max 0 (- amount))])
          (problems db) (userAttempts db) (S (nextId db)))
  /\ adjustUserXPByDbId i delta db = (Ok tt, db).
Proof.
  split; [|split].
  - now apply addXP_missing.
  - now apply removeXP_missing.
  - now apply adjustUserXPByDbId_missing.
Qed.

Lemma C3_witness :
  addXP userA 7 initialDB =
    (Ok 7, mkDB [User.mk 0 userA 7] [] [] 1)
  /\ removeXP userA 7 initialDB =
    (Ok 0, mkDB [User.mk 0 userA 0] [] [] 1)
  /\ adjustUserXPByDbId 3 (-4) initialDB = (Ok tt, initialDB).
Proof.
  exact (C3_missing_user_is_never_an_error initialDB userA 7 3 (-4)
           eq_refl eq_refl).
Defined.

(** ** C4: operations in the wrong state *)

(** C4: on a finalized problem [recordAttempt] fails with
    FinalizedProblemError and [finalizeProblemScoring] with
    AlreadyFinalized; on a problem that is not finalized
    [unfinalizeProblemScoring] fails with NotFinalized; each failure
    leaves the whole store (problems, rows, users) as it was. *)
Theorem C4_wrong_state_is_rejected_without_change
  (db : DB) (sheet : Sheet) (userId n : string) (isCorrect : bool) (now : Z)
  (p : Problem.t)
  (Hfind : find (Prisma.problem_byNumber n) (problems db) = Some p) :
  if Problem.isFinalized p then
    recordAttempt sheet userId n isCorrect db = (Err FinalizedProblemError, db)
    /\ finalizeProblemScoring now n db = (Err AlreadyFinalized, db)
  else
    unfinalizeProblemScoring n db = (Err NotFinalized, db).
Proof.
  destruct (Problem.isFinalized p) eqn:Hf.
  - split.
    + unfold recordAttempt, bind, Prisma.problem_findUnique.
      rewrite Hfind. unfold ret. now rewrite Hf.
    + unfold finalizeProblemScoring, bind, Prisma.problem_findUnique.
      now rewrite Hfind, Hf.
  - unfold unfinalizeProblemScoring, bind, Prisma.problem_findUnique.
    now rewrite Hfind, Hf.
Qed.

Lemma C4_witness :
  (recordAttempt (sheet7 100) userB problem7 true dbFrozen
     = (Err FinalizedProblemError, dbFrozen)
   /\ finalizeProblemScoring 1 problem7 dbFrozen
      = (Err AlreadyFinalized, dbFrozen))
  /\ unfinalizeProblemScoring problem7 dbSolvedByA
     = (Err NotFinalized, dbSolvedByA).
Proof.
  split.
  - exact (C4_wrong_state_is_rejected_without_change dbFrozen (sheet7 100)
             userB problem7 true 1
             (Problem.mk 0 problem7 100 25 1 1 true (Some 0)) eq_refl).
  - exact (C4_wrong_state_is_rejected_without_change dbSolvedByA (sheet7 100)
             userB problem7 true 1
             (Problem.mk 0 problem7 100 (getDynamicBaseFromWeightedSolves 1)
                1 1 false None) eq_refl).
Defined.

(** ** C8: balances are never negative *)

(** C8: in every reachable store every balance is non-negative, and each
    XP-mutating call writes [max(0, current + delta)]: [addXP] with
    [delta = amount], [removeXP] with [delta = - amount], and the
    internal-key adjustment (used by finalize and unfinalize) with its
    [delta]. *)
Theorem C8_balances_are_clamped_at_zero (db : DB) (Hreach : reachable db) :
  Forall (fun u => 0 <= User.xp u) (users db)
  /\ (forall d amount,
        fst (addXP d amount db) = Ok (Z.max 0 (balanceOf db d + amount))
        /\ balanceOf (snd (addXP d amount db)) d
           = Z.max 0 (balanceOf db d + amount))
  /\ (forall d amount,
        fst (removeXP d amount db) = Ok (Z.max 0 (balanceOf db d - amount))
        /\ balanceOf (snd (removeXP d amount db)) d
           = Z.max 0 (balanceOf db d - amount))
  /\ (forall i delta u,
        find (Prisma.user_byId i) (users db) = Some u ->
        fst (adjustUserXPByDbId i delta db) = Ok tt
        /\ find (Prisma.user_byId i) (users (snd (adjustUserXPByDbId i delta db)))
           = Some (User.set_xp (Z.max 0 (User.xp u + delta)) u)).
Proof.
  pose proof (reachable_wf db Hreach) as Hwf.
  split; [apply Hwf|]. split; [|split].
  - intros d amount. unfold balanceOf.
    destruct (find (Prisma.user_byDiscordId d) (users db)) as [u|] eqn:E.
    + rewrite (addXP_found _ _ _ _ E). simpl. split; [reflexivity|].
      rewrite find_updateWhere by reflexivity. rewrite E. simpl.
      pose proof (find_some _ _ E) as [_ Hd]. now rewrite Hd.
    + rewrite (addXP_missing _ _ _ E). simpl. split; [reflexivity|].
      rewrite find_app, E. simpl. now rewrite user_byDiscordId_mk.
  - intros d amount. unfold balanceOf.
    destruct (find (Prisma.user_byDiscordId d) (users db)) as [u|] eqn:E.
    + rewrite (removeXP_found _ _ _ _ E). simpl. split; [reflexivity|].
      rewrite find_updateWhere by reflexivity. rewrite E. simpl.
      pose proof (find_some _ _ E) as [_ Hd]. now rewrite Hd.
    + rewrite (removeXP_missing _ _ _ E). simpl. split; [reflexivity|].
      rewrite find_app, E. simpl. now rewrite user_byDiscordId_mk.
  - intros i delta u E.
    rewrite (adjustUserXPByDbId_run db i delta (wf_user_ids Hwf) (wf_xp Hwf)).
    simpl. split; [reflexivity|].
    rewrite find_updateWhere by reflexivity. rewrite E. simpl.
    pose proof (find_some _ _ E) as [_ Hi]. now rewrite Hi.
Qed.

Lemma C8_witness :
  reachable (exec (OpRemoveXP userA 50) initialDB)
  /\ Forall (fun u => 0 <= User.xp u)
            (users (exec (OpRemoveXP userA 50) initialDB))
  /\ balanceOf (snd (removeXP userA 30 (exec (OpRemoveXP userA 50) initialDB)))
               userA
     = 0.
Proof.
  assert (H : reachable (exec (OpRemoveXP userA 50) initialDB))
    by (apply reachable_step, reachable_init).
  split; [exact H|]. split.
  - exact (proj1 (C8_balances_are_clamped_at_zero _ H)).
  - exact (proj2 (proj1 (proj2 (proj2 (C8_balances_are_clamped_at_zero _ H)))
                    userA 30)).
Defined.

(** ** C9: reset *)

(** C9: for an existing problem [resetProblemStats] returns, deletes
    every row of that problem and no other row, sets the problem's
    [attempts] and [solves] to 0 and its [baseScore] to
    [originalBaseScore] when that is positive and to the current
    [baseScore] otherwise, and leaves the users (hence every balance)
    untouched. *)
Theorem C9_reset_clears_rows_and_keeps_ledgers
  (db : DB) (n : string) (p : Problem.t)
  (Hfind : find (Prisma.problem_byNumber n) (problems db) = Some p) :
  let resetBaseScore :=
    if 0 <? Problem.originalBaseScore p
    then Problem.originalBaseScore p else Problem.baseScore p in
  exists res db',
    resetProblemStats n db = (Ok res, db')
    /\ users db' = users db
    /\ userAttempts db'
       = filter (fun a => negb (Prisma.attempt_ofProblem (Problem.id p) a))
                (userAttempts db)
    /\ (forall a, In a (userAttempts db') ->
                  UserAttempt.problemId a <> Problem.id p)
    /\ ResetProblemResult.clearedUserAttempts res
       = countWhere (Prisma.attempt_ofProblem (Problem.id p)) (userAttempts db)
    /\ find (Prisma.problem_byNumber n) (problems db')
       = Some (Problem.mk (Problem.id p) (Problem.number p)
                 (Problem.originalBaseScore p) resetBaseScore 0 0
                 (Problem.isFinalized p) (Problem.finalizedAt p)).
Proof.
  intros resetBaseScore.
  pose proof (find_some _ _ Hfind) as [Hin _].
  destruct (find_In_some (Prisma.problem_byId (Problem.id p)) (problems db) p
              Hin (problem_byId_self p)) as [q Hq].
  unfold resetProblemStats. munfold. rewrite Hfind. simpl. rewrite Hq.
  eexists. eexists. split; [reflexivity|]. simpl.
  split; [reflexivity|]. split; [reflexivity|]. split; [|split].
  - intros a Ha. apply filter_In in Ha. destruct Ha as [_ Ha].
    unfold Prisma.attempt_ofProblem in Ha.
    apply negb_true_iff, Nat.eqb_neq in Ha. exact Ha.
  - reflexivity.
  - rewrite (find_problem_updated _ _ _ _ p) by auto.
    now rewrite problem_byId_self.
Qed.

Lemma C9_witness :
  exists res db',
    resetProblemStats problem7 dbSolvedByA = (Ok res, db')
    /\ users db' = users dbSolvedByA
    /\ userAttempts db' = []
    /\ find (Prisma.problem_byNumber problem7) (problems db')
       = Some (Problem.mk 0 problem7 100 100 0 0 false None).
Proof.
  destruct (C9_reset_clears_rows_and_keeps_ledgers dbSolvedByA problem7
              (Problem.mk 0 problem7 100 (getDynamicBaseFromWeightedSolves 1)
                 1 1 false None) eq_refl)
    as (res & db' & Hrun & Hu & Hr & _ & _ & Hp).
  exists res, db'. repeat split; assumption.
Defined.

(** ** C10: finalizing a problem nobody solved *)

(** C10: on a problem that exists, is not finalized and has no solved
    row, [finalizeProblemScoring] returns with [weightedSolves = 0],
    [adjustedUsers = 0], [initializedUsers = 0] and the base score of the
    curve at 0 (which is 34); the stored problem becomes finalized with
    that base score, and neither a row nor a user is touched. *)
Theorem C10_finalize_without_solvers
  (db : DB) (now : Z) (n : string) (p : Problem.t)
  (Hfind : find (Prisma.problem_byNumber n) (problems db) = Some p)
  (Hopen : Problem.isFinalized p = false)
  (Hnone : forall a, In a (userAttempts db) ->
                     UserAttempt.problemId a = Problem.id p ->
                     UserAttempt.solved a = false) :
  exists db',
    finalizeProblemScoring now n db =
      (Ok (FinalizeProblemResult.mk (Problem.number p)
             (getDynamicBaseFromWeightedSolves 0) 0%Q 0 0), db')
    /\ users db' = users db
    /\ userAttempts db' = userAttempts db
    /\ find (Prisma.problem_byNumber n) (problems db')
       = Some (Problem.mk (Problem.id p) (Problem.number p)
                 (Problem.originalBaseScore p)
                 (getDynamicBaseFromWeightedSolves 0)
                 (Problem.attempts p) (Problem.solves p) true (Some now))
    /\ getDynamicBaseFromWeightedSolves 0 = 34.
Proof.
  pose proof (find_some _ _ Hfind) as [Hin _].
  destruct (find_In_some (Prisma.problem_byId (Problem.id p)) (problems db) p
              Hin (problem_byId_self p)) as [q Hq].
  assert (Hrows : filter (Prisma.attempt_solvedOfProblem (Problem.id p))
                         (userAttempts db) = []).
  { destruct (filter (Prisma.attempt_solvedOfProblem (Problem.id p))
                     (userAttempts db)) as [|a l] eqn:E; [reflexivity|].
    assert (Ha : In a (a :: l)) by now left.
    rewrite <- E in Ha. apply filter_In in Ha. destruct Ha as [Ha Hs].
    apply solvedOfProblem_spec in Hs. destruct Hs as [Hp Hs].
    rewrite (Hnone a Ha Hp) in Hs. discriminate. }
  unfold finalizeProblemScoring. munfold. rewrite Hfind, Hopen, Hrows.
  simpl. rewrite Hq.
  eexists. split; [reflexivity|]. simpl.
  split; [reflexivity|]. split; [reflexivity|]. split.
  - rewrite (find_problem_updated _ _ _ _ p) by auto.
    now rewrite problem_byId_self.
  - apply getDynamicBase_at_0.
Qed.

Lemma C10_witness :
  exists db',
    finalizeProblemScoring 5 problem7
      (exec (OpRecordAttempt (sheet7 100) userA problem7 false) initialDB)
    = (Ok (FinalizeProblemResult.mk problem7 34 0%Q 0 0), db')
    /\ find (Prisma.problem_byNumber problem7) (problems db')
       = Some (Problem.mk 0 problem7 100 34 1 0 true (Some 5)).
Proof.
  destruct (C10_finalize_without_solvers
              (exec (OpRecordAttempt (sheet7 100) userA problem7 false)
                    initialDB)
              5 problem7
              (Problem.mk 0 problem7 100 (getDynamicBaseFromWeightedSolves 0)
                 1 0 false None) eq_refl eq_refl)
    as (db' & Hrun & _ & _ & Hp & H34).
  { simpl. intros a [<-|[]] _. reflexivity. }
  exists db'. rewrite H34 in Hrun, Hp. split; assumption.
Defined.

(** ** C1: the round trip *)

Lemma reachable_dbSolvedByA : reachable dbSolvedByA.
Proof. apply reachable_step, reachable_init. Qed.

Lemma reachable_dbDrained : reachable dbDrained.
Proof. apply reachable_step, reachable_dbSolvedByA. Qed.

Lemma reachable_dbUnpriced : reachable dbUnpriced.
Proof. apply reachable_step, reachable_init. Qed.

Lemma getDynamicBase_at_1 : getDynamicBaseFromWeightedSolves 1 = 25.
Proof. apply getDynamicBase_from_1. apply Qle_refl. Qed.

(** C1, as stated, fails: A solved problem "7" for 100 XP and was then
    drained to 10 XP.  Finalize re-prices the solve at 25, a delta of -75
    that the clamp cuts at 0; unfinalize adds 75 back.  A ends with 75,
    not with the 10 held before. *)
Lemma C1_counterexample :
  reachable dbDrained
  /\ balanceOf dbDrained userA = 10
  /\ finalizeDeltaFor dbDrained 0 1 = -75
  /\ exists r1 db1 r2 db2,
       finalizeProblemScoring 0 problem7 dbDrained = (Ok r1, db1)
       /\ unfinalizeProblemScoring problem7 db1 = (Ok r2, db2)
       /\ balanceOf db2 userA = 75.
Proof.
  assert (Hdelta : finalizeDeltaFor dbDrained 0 1 = -75).
  { unfold finalizeDeltaFor, dynamicScoreOf.
    replace (weightedSolvesOf dbDrained 0) with 1%Q by reflexivity.
    rewrite getDynamicBase_at_1. reflexivity. }
  split; [apply reachable_dbDrained|]. split; [reflexivity|].
  split; [exact Hdelta|].
  destruct (finalize_unfinalize_roundtrip 0 problem7 dbDrained
              (Problem.mk 0 problem7 100 (getDynamicBaseFromWeightedSolves 1)
                 1 1 false None)
              (reachable_wf _ reachable_dbDrained) eq_refl eq_refl)
    as (r1 & r2 & db2 & H1 & H2 & _ & Husers).
  exists r1. eexists. exists r2, db2. split; [exact H1|]. split; [exact H2|].
  unfold balanceOf. rewrite Husers.
  rewrite find_map_preserved by reflexivity.
  replace (find (Prisma.user_byDiscordId userA) (users dbDrained))
    with (Some (User.mk 1 userA 10)) by reflexivity.
  cbn [option_map User.xp User.set_xp User.id Problem.id].
  now rewrite Hdelta.
Qed.

(** C1, amended: for a problem of a reachable store that is not
    finalized, finalize followed by unfinalize (no attempt in between)
    both return, and every row is again exactly as before, so every
    solved row has its pre-finalize [awardedXp].  A user's balance is
    again the pre-finalize balance whenever that balance plus the delta
    finalize applies to the user is not negative; in general it ends as
    the greater of the pre-finalize balance and minus that delta. *)
Theorem C1_finalize_unfinalize_roundtrip
  (db : DB) (now : Z) (n : string) (p : Problem.t)
  (Hreach : reachable db)
  (Hfind : find (Prisma.problem_byNumber n) (problems db) = Some p)
  (Hopen : Problem.isFinalized p = false) :
  exists r1 db1 r2 db2,
    finalizeProblemScoring now n db = (Ok r1, db1)
    /\ unfinalizeProblemScoring n db1 = (Ok r2, db2)
    /\ userAttempts db2 = userAttempts db
    /\ users db2
       = map (fun u =>
                User.set_xp
                  (Z.max (User.xp u)
                         (- finalizeDeltaFor db (Problem.id p) (User.id u))) u)
             (users db)
    /\ (forall u, In u (users db) ->
          0 <= User.xp u + finalizeDeltaFor db (Problem.id p) (User.id u) ->
          find (Prisma.user_byId (User.id u)) (users db2) = Some u).
Proof.
  pose proof (reachable_wf db Hreach) as Hwf.
  destruct (finalize_unfinalize_roundtrip now n db p Hwf Hfind Hopen)
    as (r1 & r2 & db2 & H1 & H2 & Hrows & Husers).
  exists r1. eexists. exists r2, db2.
  split; [exact H1|]. split; [exact H2|]. splits; auto.
  intros u Hu Hnoclamp. rewrite Husers.
  rewrite find_map_preserved by reflexivity.
  rewrite (find_user_byId_In db u Hwf Hu).
  cbn [option_map]. f_equal.
  destruct u as [i d x]. unfold User.set_xp. simpl in *. f_equal. lia.
Qed.

Lemma C1_witness :
  reachable dbSolvedByA
  /\ exists r1 db1 r2 db2,
       finalizeProblemScoring 0 problem7 dbSolvedByA = (Ok r1, db1)
       /\ unfinalizeProblemScoring problem7 db1 = (Ok r2, db2)
       /\ userAttempts db2 = userAttempts dbSolvedByA
       /\ find (Prisma.user_byId 1) (users db2) = Some (User.mk 1 userA 100).
Proof.
  split; [apply reachable_dbSolvedByA|].
  destruct (C1_finalize_unfinalize_roundtrip dbSolvedByA 0 problem7
              (Problem.mk 0 problem7 100 (getDynamicBaseFromWeightedSolves 1)
                 1 1 false None)
              reachable_dbSolvedByA eq_refl eq_refl)
    as (r1 & db1 & r2 & db2 & H1 & H2 & Hrows & _ & Hkeep).
  exists r1, db1, r2, db2.
  split; [exact H1|]. split; [exact H2|]. split; [exact Hrows|].
  apply (Hkeep (User.mk 1 userA 100)); [now left|].
  assert (Hdelta : finalizeDeltaFor dbSolvedByA 0 1 = -75).
  { unfold finalizeDeltaFor, dynamicScoreOf.
    replace (weightedSolvesOf dbSolvedByA 0) with 1%Q by reflexivity.
    rewrite getDynamicBase_at_1. reflexivity. }
  cbn [User.xp User.id Problem.id]. rewrite Hdelta. lia.
Defined.

(** ** C7: rows with a zero baseline *)

Lemma wf_keyConstraints db : wf db -> keyConstraints db.
Proof. intros H. constructor; apply H. Qed.

Lemma reachable_keyConstraints db : reachable db -> keyConstraints db.
Proof. intros H. apply wf_keyConstraints, reachable_wf, H. Qed.

Lemma keyConstraints_dbSnapshot : keyConstraints dbSnapshot.
Proof.
  constructor; simpl; repeat constructor; simpl;
    solve [lia | intuition discriminate].
Qed.

(** The closed form of finalize needs the key constraints only. *)
Lemma finalizeProblemScoring_keyed now n db p :
  keyConstraints db ->
  find (Prisma.problem_byNumber n) (problems db) = Some p ->
  Problem.isFinalized p = false ->
  finalizeProblemScoring now n db =
  (Ok (FinalizeProblemResult.mk
         (Problem.number p)
         (dynamicScoreOf db (Problem.id p))
         (weightedSolvesOf db (Problem.id p))
         (countWhere (isAdjusted (dynamicScoreOf db (Problem.id p)))
                     (solvedRows db (Problem.id p)))
         (countWhere isInitialized (solvedRows db (Problem.id p)))),
   afterFinalize now p db).
Proof.
  intros Hk Hfind Hopen.
  assert (Hid : find (Prisma.problem_byId (Problem.id p)) (problems db)
                = Some p).
  { apply (find_byKey_NoDup Problem.id); [apply Hk|].
    now apply find_some in Hfind. }
  unfold finalizeProblemScoring.
  unfold Prisma.problem_findUnique at 1. unfold bind at 1. rewrite Hfind, Hopen.
  unfold Prisma.userAttempt_findMany at 1. unfold bind at 1.
  fold (solvedRows db (Problem.id p)).
  fold (weightedSolvesOf db (Problem.id p)).
  fold (dynamicScoreOf db (Problem.id p)).
  rewrite (bind_ok _ (finalize_loop (dynamicScoreOf db (Problem.id p))
                        (solvedRows db (Problem.id p)) 0 0 db
                        (kc_user_ids Hk) (kc_xp Hk)
                        (filter_ids_incl _ _))).
  cbv beta iota.
  match goal with
  | |- bind (Prisma.problem_update ?w ?data) ?k ?s = _ =>
      rewrite (bind_ok k (problem_update_byId_run s p data Hid))
  end.
  unfold ret, afterFinalize, finalizeDeltaFor. simpl.
  rewrite applyDeltas_closed;
    [| apply solvedRows_users_NoDup, Hk | apply Hk].
  rewrite writeBack_solvedRows; [reflexivity | reflexivity | apply Hk].
Qed.

(** The row a user has among the solved rows of a problem, from the key
    of the rows alone. *)
Lemma solvedRows_find_keyed db pid a :
  NoDup (map attemptKey (userAttempts db)) -> In a (userAttempts db) ->
  Prisma.attempt_solvedOfProblem pid a = true ->
  find (attempt_ofUser (UserAttempt.userId a)) (solvedRows db pid) = Some a.
Proof.
  intros Hnd Ha Hsel.
  assert (Hin : In a (solvedRows db pid)) by (apply filter_In; auto).
  destruct (find_In_some (attempt_ofUser (UserAttempt.userId a))
              (solvedRows db pid) a Hin (Nat.eqb_refl _)) as [b Hb].
  rewrite Hb. f_equal.
  pose proof (find_some _ _ Hb) as [Hbin Hbu].
  apply filter_In in Hbin. destruct Hbin as [Hbin Hbsel].
  apply Nat.eqb_eq in Hbu.
  apply solvedOfProblem_spec in Hsel, Hbsel.
  apply (NoDup_map_inj attemptKey (userAttempts db)); auto.
  unfold attemptKey. f_equal; [assumption | intuition congruence].
Qed.

(** C7: when finalize runs on an open problem, a solved row of the
    problem whose baseline award ([preFinalizeAwardedXp] if it is not
    null, else [awardedXp]) is 0 is written back with
    [preFinalizeAwardedXp = 0],
    [awardedXp = Math.floor(finalBaseScore * getSolveWeight(attempts))]
    and [finalizeDelta = 0], [finalBaseScore] being the dynamic base
    score of the weighted solves of the problem; the balance of the
    row's user is left as it was; [initializedUsers] counts exactly the
    solved rows with baseline 0 and [adjustedUsers] exactly those with a
    non-zero baseline and a non-zero delta, so the row is counted in the
    first and not in the second.  This holds on every store that keeps
    the key constraints and has no negative balance: the reachable
    stores, where the row of an open problem has no snapshot, and also
    stores in which it has one. *)
Theorem C7_zero_baseline_rows_are_initialized
  (db : DB) (now : Z) (n : string) (p : Problem.t) (a : UserAttempt.t)
  (Hkeys : keyConstraints db)
  (Hfind : find (Prisma.problem_byNumber n) (problems db) = Some p)
  (Hopen : Problem.isFinalized p = false)
  (Ha : In a (userAttempts db))
  (Hp : UserAttempt.problemId a = Problem.id p)
  (Hs : UserAttempt.solved a = true)
  (Hb : match UserAttempt.preFinalizeAwardedXp a with
        | Some snapshot => snapshot = 0
        | None => UserAttempt.awardedXp a = 0
        end) :
  exists res db',
    finalizeProblemScoring now n db = (Ok res, db')
    /\ FinalizeProblemResult.finalBaseScore res
       = getDynamicBaseFromWeightedSolves
           (sumSolveWeights
              (map UserAttempt.attempts (solvedRows db (Problem.id p))))
    /\ find (Prisma.attempt_byId (UserAttempt.id a)) (userAttempts db')
       = Some (UserAttempt.mk
                 (UserAttempt.id a) (UserAttempt.userId a)
                 (UserAttempt.problemId a) (UserAttempt.attempts a) true
                 (Math_floor_scaled
                    (FinalizeProblemResult.finalBaseScore res)
                    (getSolveWeight (UserAttempt.attempts a)))
                 (Some 0) 0)
    /\ (forall u, find (Prisma.user_byId (UserAttempt.userId a)) (users db)
                  = Some u ->
                  find (Prisma.user_byId (UserAttempt.userId a)) (users db')
                  = Some u)
    /\ FinalizeProblemResult.initializedUsers res
       = countWhere
           (fun r =>
              match UserAttempt.preFinalizeAwardedXp r with
              | Some snapshot => snapshot =? 0
              | None => UserAttempt.awardedXp r =? 0
              end)
           (solvedRows db (Problem.id p))
    /\ FinalizeProblemResult.adjustedUsers res
       = countWhere
           (fun r =>
              match UserAttempt.preFinalizeAwardedXp r with
              | Some snapshot =>
                  negb (snapshot =? 0)
                  && negb (Math_floor_scaled
                             (FinalizeProblemResult.finalBaseScore res)
                             (getSolveWeight (UserAttempt.attempts r))
                           - snapshot =? 0)
              | None =>
                  negb (UserAttempt.awardedXp r =? 0)
                  && negb (Math_floor_scaled
                             (FinalizeProblemResult.finalBaseScore res)
                             (getSolveWeight (UserAttempt.attempts r))
                           - UserAttempt.awardedXp r =? 0)
              end)
           (solvedRows db (Problem.id p))
    /\ In a (solvedRows db (Problem.id p)).
Proof.
  assert (Hbase : baselineAward a = 0).
  { unfold baselineAward.
    now destruct (UserAttempt.preFinalizeAwardedXp a). }
  assert (Hsel : Prisma.attempt_solvedOfProblem (Problem.id p) a = true)
    by (apply solvedOfProblem_spec; auto).
  eexists. eexists.
  split; [apply (finalizeProblemScoring_keyed now n db p Hkeys Hfind Hopen)|].
  cbn [FinalizeProblemResult.finalBaseScore
       FinalizeProblemResult.initializedUsers
       FinalizeProblemResult.adjustedUsers].
  unfold afterFinalize. cbn [users userAttempts]. splits.
  - reflexivity.
  - rewrite find_updateWhere by reflexivity.
    assert (Hown : find (Prisma.attempt_byId (UserAttempt.id a))
                        (userAttempts db) = Some a)
      by (apply (find_byKey_NoDup UserAttempt.id); [apply Hkeys | exact Ha]).
    rewrite Hown.
    cbn [option_map]. rewrite Hsel. unfold repriced, finalizeDeltaOf.
    rewrite Hbase. cbn [Z.eqb]. unfold UserAttempt.set_pricing, finalAward.
    now rewrite Hs.
  - intros u Hu. rewrite find_map_preserved by reflexivity.
    rewrite Hu. cbn [option_map]. f_equal.
    pose proof (find_some _ _ Hu) as [Hin Hid]. apply Nat.eqb_eq in Hid.
    unfold finalizeDeltaFor, deltaFor. rewrite Hid.
    rewrite (solvedRows_find_keyed db (Problem.id p) a
               (kc_attempt_keys Hkeys) Ha Hsel).
    unfold finalizeDeltaOf. rewrite Hbase. cbn [Z.eqb].
    apply clampAdd_0. pose proof (kc_xp Hkeys) as Hxp.
    rewrite Forall_forall in Hxp. auto.
  - unfold countWhere. do 2 f_equal. apply filter_ext. intros r.
    unfold isInitialized, baselineAward.
    now destruct (UserAttempt.preFinalizeAwardedXp r).
  - unfold countWhere. do 2 f_equal. apply filter_ext. intros r.
    unfold isAdjusted, baselineAward, finalAward.
    now destruct (UserAttempt.preFinalizeAwardedXp r).
  - apply filter_In. auto.
Qed.

(** Two rows with baseline 0, after A solved "7" at the first attempt:
    in [dbSnapshot] the row carries the award 40 and the snapshot 0, in
    the reachable [dbUnpriced] the award 0 and no snapshot.  Either is
    written back with the award 25 and the snapshot 0, A keeps 60 and 0
    XP, and the row is the one initialized user. *)
Lemma C7_witness :
  (exists res db',
     finalizeProblemScoring 9 problem7 dbSnapshot = (Ok res, db')
     /\ FinalizeProblemResult.finalBaseScore res = 25
     /\ find (Prisma.attempt_byId 2) (userAttempts db')
        = Some (UserAttempt.mk 2 1 0 1 true 25 (Some 0) 0)
     /\ find (Prisma.user_byId 1) (users db') = Some (User.mk 1 userA 60)
     /\ FinalizeProblemResult.initializedUsers res = 1
     /\ FinalizeProblemResult.adjustedUsers res = 0)
  /\ (reachable dbUnpriced
      /\ exists res db',
           finalizeProblemScoring 9 problem7 dbUnpriced = (Ok res, db')
           /\ FinalizeProblemResult.finalBaseScore res = 25
           /\ find (Prisma.attempt_byId 2) (userAttempts db')
              = Some (UserAttempt.mk 2 1 0 1 true 25 (Some 0) 0)
           /\ find (Prisma.user_byId 1) (users db') = Some (User.mk 1 userA 0)
           /\ FinalizeProblemResult.initializedUsers res = 1
           /\ FinalizeProblemResult.adjustedUsers res = 0).
Proof.
  split; [|split; [apply reachable_dbUnpriced|]].
  - destruct (C7_zero_baseline_rows_are_initialized dbSnapshot 9 problem7
                (Problem.mk 0 problem7 100 25 1 1 false None)
                (UserAttempt.mk 2 1 0 1 true 40 (Some 0) 0)
                keyConstraints_dbSnapshot eq_refl eq_refl
                (or_introl eq_refl) eq_refl eq_refl eq_refl)
      as (res & db' & Hrun & Hfinal & Hrow & Hkeep & Hini & Hadj & _).
    replace (sumSolveWeights _) with 1%Q in Hfinal by reflexivity.
    rewrite getDynamicBase_at_1 in Hfinal.
    rewrite Hfinal in Hrow, Hadj.
    exists res, db'. split; [exact Hrun|]. split; [exact Hfinal|].
    split; [exact Hrow|]. split; [exact (Hkeep (User.mk 1 userA 60) eq_refl)|].
    split; [exact Hini | exact Hadj].
  - destruct (C7_zero_baseline_rows_are_initialized dbUnpriced 9 problem7
                (Problem.mk 0 problem7 0 (getDynamicBaseFromWeightedSolves 1)
                   1 1 false None)
                (UserAttempt.mk 2 1 0 1 true 0 None 0)
                (reachable_keyConstraints _ reachable_dbUnpriced)
                eq_refl eq_refl
                (or_introl eq_refl) eq_refl eq_refl eq_refl)
      as (res & db' & Hrun & Hfinal & Hrow & Hkeep & Hini & Hadj & _).
    replace (sumSolveWeights _) with 1%Q in Hfinal by reflexivity.
    rewrite getDynamicBase_at_1 in Hfinal.
    rewrite Hfinal in Hrow, Hadj.
    exists res, db'. split; [exact Hrun|]. split; [exact Hfinal|].
    split; [exact Hrow|]. split; [exact (Hkeep (User.mk 1 userA 0) eq_refl)|].
    split; [exact Hini | exact Hadj].
Defined.

(** ** C6: the award of a first-time solve *)

(** C6, as stated, fails where the fallback applies: with a sheet that
    scores problem "7" at 0, A's first-time solve stores the recomputed
    base score 25 and reports [originalBaseScore = 0], yet awards
    [floor (0 * 1) = 0], not [floor (25 * 1) = 25]: the fallback is the
    base score held when the call began, not the recomputed one. *)
Lemma C6_counterexample :
  exists res db',
    recordAttempt (sheet7 0) userA problem7 true initialDB = (Ok res, db')
    /\ solvedBefore initialDB userA problem7 = false
    /\ AttemptResult.originalBaseScore res = 0
    /\ AttemptResult.currentBaseScore res = 25
    /\ (exists p, find (Prisma.problem_byNumber problem7) (problems db') = Some p
                  /\ Problem.baseScore p = 25)
    /\ AttemptResult.awardedXP res = 0
    /\ Math_floor_scaled
         (if 0 <? AttemptResult.originalBaseScore res
          then AttemptResult.originalBaseScore res
          else AttemptResult.currentBaseScore res)
         (getSolveWeight (AttemptResult.attemptNumber res)) = 25.
Proof.
  exists (AttemptResult.mk 0 0 1 1 1 1%Q 0 (getDynamicBaseFromWeightedSolves 1)),
         dbUnpriced.
  split; [reflexivity|]. split; [reflexivity|]. split; [reflexivity|].
  cbn [AttemptResult.currentBaseScore AttemptResult.originalBaseScore
       AttemptResult.attemptNumber AttemptResult.awardedXP].
  rewrite getDynamicBase_at_1.
  split; [reflexivity|]. split; [|split; reflexivity].
  exists (Problem.mk 0 problem7 0 (getDynamicBaseFromWeightedSolves 1)
            1 1 false None).
  split; [reflexivity|]. apply getDynamicBase_at_1.
Qed.

(** C6, amended: when a user who had not solved the problem submits a
    correct answer and the call returns, the award is
    [floor (baseForAward * solveWeight attemptNumber)], where
    [baseForAward] is the problem's [originalBaseScore] (after the
    backfill) when positive, and otherwise the [baseScore] the problem
    carried when the call began (the sheet's score for a problem the call
    creates).  The ledger gets [max (0, balance + award)], which is
    [balance + award] for an award that is not negative; the result
    reports both, and the row stores the award, solved, with the attempt
    number. *)
Theorem C6_first_solve_award
  (sheet : Sheet) (d n : string) (db : DB) (res : AttemptResult.t) (db' : DB)
  (Hreach : reachable db)
  (Hfirst : solvedBefore db d n = false)
  (Hrun : recordAttempt sheet d n true db = (Ok res, db')) :
  let baseForAward :=
    if 0 <? AttemptResult.originalBaseScore res
    then AttemptResult.originalBaseScore res
    else baseScoreAtEntry sheet db n in
  AttemptResult.awardedXP res
    = Math_floor_scaled baseForAward
        (getSolveWeight (AttemptResult.attemptNumber res))
  /\ AttemptResult.userXP res
     = Z.max 0 (balanceOf db d + AttemptResult.awardedXP res)
  /\ (0 <= AttemptResult.awardedXP res ->
      AttemptResult.userXP res = balanceOf db d + AttemptResult.awardedXP res)
  /\ balanceOf db' d = AttemptResult.userXP res
  /\ exists a,
       attemptOf db' d n = Some a
       /\ UserAttempt.awardedXp a = AttemptResult.awardedXP res
       /\ UserAttempt.solved a = true
       /\ UserAttempt.attempts a = AttemptResult.attemptNumber res.
Proof.
  intros baseForAward. subst baseForAward.
  pose proof (reachable_wf db Hreach) as Hwf.
  pose proof (recordAttempt_returns sheet d n true db res db' Hwf Hrun) as Hrec.
  destruct (recorded_attemptOf sheet d n true db res db' Hrec)
    as (p & u & a & ws & Hres & Hsolved & Hrow & Hbase & Hxp & Hbal).
  assert (Hnew : newlySolved true a = true)
    by (unfold newlySolved; rewrite Hsolved, Hfirst; reflexivity).
  assert (Hnonneg : 0 <= balanceOf db d).
  { unfold balanceOf.
    destruct (find (Prisma.user_byDiscordId d) (users db)) as [v|] eqn:E;
      [|lia].
    pose proof (wf_xp Hwf) as Hx. rewrite Forall_forall in Hx.
    apply Hx. now apply find_some in E. }
  rewrite Hbal. rewrite Hres in *. unfold attemptResultOf in *.
  rewrite Hnew in *.
  cbn [AttemptResult.awardedXP AttemptResult.userXP AttemptResult.attemptNumber
       AttemptResult.originalBaseScore] in *.
  rewrite <- Hbase, <- Hxp. splits; auto.
  - lia.
  - exists (storedAttemptOf true p a). split; [exact Hrow|].
    unfold storedAttemptOf. rewrite Hnew. simpl. rewrite orb_true_r. auto.
Qed.

Lemma C6_witness :
  reachable initialDB
  /\ AttemptResult.awardedXP
       (AttemptResult.mk 100 100 1 1 1 1%Q 100 (getDynamicBaseFromWeightedSolves 1))
     = Math_floor_scaled 100 (getSolveWeight 1)
  /\ balanceOf dbSolvedByA userA = 100.
Proof.
  pose proof (C6_first_solve_award (sheet7 100) userA problem7 initialDB
                (AttemptResult.mk 100 100 1 1 1 1%Q 100
                   (getDynamicBaseFromWeightedSolves 1))
                dbSolvedByA reachable_init eq_refl eq_refl) as H.
  cbv zeta in H. destruct H as (Haward & _ & _ & Hbal & _).
  split; [apply reachable_init|]. split; [exact Haward | exact Hbal].
Defined.

(** ** C5: solving twice *)

(** C5: after a call with [isCorrect = true] has returned in a reachable
    store (so the row is solved), a second call with [isCorrect = true]
    never awards again, whatever the sheet answers then ([sheet'] need
    not be the sheet of the first call, and matters only while the
    stored [originalBaseScore] is not positive).  The first call has left
    the problem stored with the [originalBaseScore] it returned.  When
    that is positive or the sheet still answers for the problem, as it
    does when the sheet is that of the first call, the second call
    returns with [awardedXP = 0], the same [totalProblemSolves] and the
    same [userXP] as the first, and leaves the users, hence every
    balance, as the first call left them.  Otherwise it throws on the
    sheet before any write and leaves the store as it was. *)
Theorem C5_second_correct_attempt_awards_nothing
  (sheet sheet' : Sheet) (d n : string) (db : DB)
  (r1 : AttemptResult.t) (db1 : DB)
  (Hreach : reachable db)
  (Hrun : recordAttempt sheet d n true db = (Ok r1, db1)) :
  exists p1,
    find (Prisma.problem_byNumber n) (problems db1) = Some p1
    /\ Problem.originalBaseScore p1 = AttemptResult.originalBaseScore r1
    /\ (0 < Problem.originalBaseScore p1 \/ sheet n <> None)
    /\ (0 < Problem.originalBaseScore p1 \/ sheet' n <> None ->
        exists r2 db2,
          recordAttempt sheet' d n true db1 = (Ok r2, db2)
          /\ AttemptResult.awardedXP r2 = 0
          /\ AttemptResult.totalProblemSolves r2
             = AttemptResult.totalProblemSolves r1
          /\ AttemptResult.userXP r2 = AttemptResult.userXP r1
          /\ users db2 = users db1)
    /\ (Problem.originalBaseScore p1 <= 0 -> sheet' n = None ->
        recordAttempt sheet' d n true db1 = (Err ExternalSourceError, db1)).
Proof.
  pose proof (reachable_wf db Hreach) as Hwf.
  assert (Hwf1 : wf db1).
  { pose proof (wf_recordAttempt sheet d n true db Hwf) as H.
    now rewrite Hrun in H. }
  destruct (recordAttempt_returns sheet d n true db r1 db1 Hwf Hrun)
    as [p u a ws Hopen Hbase Hsheet Hsolves Hxp Hsolved Hres Hproblem Huser
          Hrow Hquiet].
  assert (Hbefore1 : solvedBefore db1 d n = true).
  { unfold solvedBefore, attemptOf. rewrite Huser, Hproblem.
    cbn [User.id User.set_xp Problem.id storedProblemOf
         Problem.set_baseScore Problem.set_counters].
    rewrite Hrow. unfold storedAttemptOf.
    destruct (newlySolved true a); simpl; apply orb_true_r. }
  exists (storedProblemOf true p a ws).
  split; [exact Hproblem|].
  split; [rewrite Hres; reflexivity|].
  split; [destruct Hsheet as [Hpos|Hsome]; [now left | right; congruence]|].
  split.
  - intros Hanswer.
    destruct (recordAttempt sheet' d n true db1) as [[r2|e] db2] eqn:Hrun2.
    + exists r2, db2. split; [reflexivity|].
      destruct (recordAttempt_returns sheet' d n true db1 r2 db2 Hwf1 Hrun2)
        as [p2 u2 a2 ws2 Hopen2 Hbase2 Hsheet2 Hsolves2 Hxp2 Hsolved2 Hres2
              Hproblem2 Huser2 Hrow2 Hquiet2].
      assert (Hnew2 : newlySolved true a2 = false)
        by (unfold newlySolved; rewrite Hsolved2, Hbefore1; reflexivity).
      rewrite Hres2. unfold attemptResultOf. rewrite Hnew2.
      cbn [AttemptResult.awardedXP AttemptResult.totalProblemSolves
           AttemptResult.userXP].
      splits.
      * reflexivity.
      * rewrite Hsolves2. unfold solvesAtEntry. rewrite Hproblem.
        rewrite Hres. simpl. lia.
      * rewrite Hxp2. unfold balanceOf. now rewrite Huser.
      * apply Hquiet2; [exact Hnew2|]. now rewrite Huser.
    + exfalso.
      destruct (recordAttempt_throws sheet' d n true db1 e db2 Hwf1 Hrun2)
        as [_ Hfail].
      unfold recordAttemptFails in Hfail. rewrite Hproblem in Hfail.
      simpl in Hfail. destruct Hfail as [Hfin | [Hle Hnone]]; [congruence|].
      simpl in Hanswer. destruct Hanswer as [Hpos | Hsome]; [lia | congruence].
  - intros Hle Hnone. unfold recordAttempt. munfold. rewrite Hproblem.
    simpl in Hle |- *. rewrite Hopen. apply Z.leb_le in Hle. rewrite Hle.
    now rewrite Hnone.
Qed.

(** A solved "7" while the sheet scored it 0, so the problem is stored
    with [originalBaseScore = 0] and the sheet is read again.  A second
    correct attempt returns without an award when the sheet now scores
    the problem 100 and when it still scores it 0, and throws without a
    write when the sheet has lost the problem. *)
Lemma C5_witness :
  (exists r2 db2,
     recordAttempt (sheet7 100) userA problem7 true dbUnpriced = (Ok r2, db2)
     /\ AttemptResult.awardedXP r2 = 0
     /\ AttemptResult.totalProblemSolves r2 = 1
     /\ AttemptResult.userXP r2 = 0
     /\ users db2 = users dbUnpriced)
  /\ (exists r2 db2,
        recordAttempt (sheet7 0) userA problem7 true dbUnpriced = (Ok r2, db2)
        /\ AttemptResult.awardedXP r2 = 0
        /\ AttemptResult.totalProblemSolves r2 = 1
        /\ AttemptResult.userXP r2 = 0
        /\ users db2 = users dbUnpriced)
  /\ recordAttempt (fun _ => None) userA problem7 true dbUnpriced
     = (Err ExternalSourceError, dbUnpriced).
Proof.
  split; [|split].
  - destruct (C5_second_correct_attempt_awards_nothing (sheet7 0) (sheet7 100)
                userA problem7 initialDB
                (AttemptResult.mk 0 0 1 1 1 1%Q 0
                   (getDynamicBaseFromWeightedSolves 1))
                dbUnpriced reachable_init eq_refl)
      as (p1 & _ & _ & _ & Hreturns & _).
    apply Hreturns. right. discriminate.
  - destruct (C5_second_correct_attempt_awards_nothing (sheet7 0) (sheet7 0)
                userA problem7 initialDB
                (AttemptResult.mk 0 0 1 1 1 1%Q 0
                   (getDynamicBaseFromWeightedSolves 1))
                dbUnpriced reachable_init eq_refl)
      as (p1 & _ & _ & _ & Hreturns & _).
    apply Hreturns. right. discriminate.
  - destruct (C5_second_correct_attempt_awards_nothing (sheet7 0)
                (fun _ => None)
                userA problem7 initialDB
                (AttemptResult.mk 0 0 1 1 1 1%Q 0
                   (getDynamicBaseFromWeightedSolves 1))
                dbUnpriced reachable_init eq_refl)
      as (p1 & _ & Horiginal & _ & _ & Hthrows).
    apply Hthrows; [rewrite Horiginal; simpl; lia | reflexivity].
Defined.

(** ** C2: the scenario of the specification *)

Lemma getDynamicBase_at_1_8 : getDynamicBaseFromWeightedSolves 1.8%Q = 25.
Proof. apply getDynamicBase_from_1. discriminate. Qed.

Lemma scenarioA_run :
  scenarioA
  = (Ok (AttemptResult.mk 100 100 1 1 1 1%Q 100
           (getDynamicBaseFromWeightedSolves 1)),
     dbSolvedByA).
Proof. reflexivity. Qed.

Lemma scenarioB2_run :
  fst scenarioB2
  = Ok (AttemptResult.mk 80 80 2 3 2 1.8%Q 100
          (getDynamicBaseFromWeightedSolves 1.8%Q)).
Proof. reflexivity. Qed.

(** C2, as stated, fails in its last part: in the scenario the
    recomputed base score is [dynamicBaseScore 1.8 = 25], the floor of the
    curve; the curve itself is below 22 there.  It is 7 away from 32. *)
Lemma C2_counterexample :
  exists rB2,
    fst scenarioB2 = Ok rB2
    /\ AttemptResult.currentBaseScore rB2
       = getDynamicBaseFromWeightedSolves 1.8%Q
    /\ AttemptResult.currentBaseScore rB2 = 25
    /\ Z.abs (AttemptResult.currentBaseScore rB2 - 32) = 7
    /\ (curved 1.8%Q < 22)%R.
Proof.
  eexists. split; [apply scenarioB2_run|].
  cbn [AttemptResult.currentBaseScore]. rewrite getDynamicBase_at_1_8.
  splits; try reflexivity. apply curved_upper_at_1_8.
Qed.

(** C2, amended: in the scenario (problem "7" with original base score
    100 and no attempts yet) A's correct first attempt is awarded 100; B,
    after one wrong attempt, is awarded [floor (100 * 0.8) = 80] on the
    second; the weighted solves are then [1.0 + 0.8 = 1.8], and the
    recomputed base score, stored on the problem and returned, is
    [dynamicBaseScore 1.8], which is 25. *)
Theorem C2_scenario_awards_and_base_score :
  exists rA rB1 rB2 pStored,
    fst scenarioA = Ok rA
    /\ fst scenarioB1 = Ok rB1
    /\ fst scenarioB2 = Ok rB2
    /\ AttemptResult.awardedXP rA = 100
    /\ AttemptResult.attemptNumber rA = 1
    /\ AttemptResult.awardedXP rB1 = 0
    /\ AttemptResult.attemptNumber rB2 = 2
    /\ AttemptResult.awardedXP rB2 = 80
    /\ Math_floor_scaled 100 0.8%Q = 80
    /\ AttemptResult.weightedSolves rB2 = (0 + 1 + 0.8)%Q
    /\ (AttemptResult.weightedSolves rB2 == 1.8)%Q
    /\ AttemptResult.currentBaseScore rB2
       = getDynamicBaseFromWeightedSolves (AttemptResult.weightedSolves rB2)
    /\ find (Prisma.problem_byNumber problem7) (problems (snd scenarioB2))
       = Some pStored
    /\ Problem.baseScore pStored = AttemptResult.currentBaseScore rB2
    /\ AttemptResult.currentBaseScore rB2 = 25.
Proof.
  exists (AttemptResult.mk 100 100 1 1 1 1%Q 100
            (getDynamicBaseFromWeightedSolves 1)).
  exists (AttemptResult.mk 0 0 1 2 1 1%Q 100
            (getDynamicBaseFromWeightedSolves 1)).
  exists (AttemptResult.mk 80 80 2 3 2 1.8%Q 100
            (getDynamicBaseFromWeightedSolves 1.8%Q)).
  exists (Problem.mk 0 problem7 100 (getDynamicBaseFromWeightedSolves 1.8%Q)
            3 2 false None).
  splits; try reflexivity.
  apply getDynamicBase_at_1_8.
Qed.

(* ================================================================== *)
(** * Further properties *)
(* ================================================================== *)

(** ** The store a recorded attempt leaves *)

Lemma post_with_store {A} (m : M A) db (Q : A -> DB -> Prop) (E : DB -> Prop)
  (F : DB) :
  post m db Q E -> snd (m db) = F ->
  post m db (fun a s => Q a s /\ s = F) (fun _ => True).
Proof. unfold post. destruct (m db) as [[a|e] s]; auto. Qed.

Lemma problemEnsured_run sheet n db :
  snd ((match find (Prisma.problem_byNumber n) (problems db) with
        | Some problem => ret problem
        | None =>
            originalBaseScore <- fetchOriginalBaseScore sheet n ;;
            Prisma.problem_create n originalBaseScore originalBaseScore
        end) db)
  = problemEnsured sheet n db.
Proof.
  unfold problemEnsured.
  destruct (find (Prisma.problem_byNumber n) (problems db)); [reflexivity|].
  munfold. now destruct (sheet n).
Qed.

Lemma originalEnsured_run sheet n p0 s :
  find (Prisma.problem_byNumber n) (problems s) = Some p0 ->
  find (Prisma.problem_byId (Problem.id p0)) (problems s) = Some p0 ->
  snd ((if Problem.originalBaseScore p0 <=? 0 then
          fallbackOriginal <- fetchOriginalBaseScore sheet n ;;
          Prisma.problem_update (Prisma.problem_byId (Problem.id p0))
            (Problem.set_originalBaseScore fallbackOriginal)
        else ret p0) s)
  = originalEnsured sheet n s.
Proof.
  intros Hn Hid. unfold originalEnsured. rewrite Hn.
  destruct (Problem.originalBaseScore p0 <=? 0).
  - munfold. destruct (sheet n); [|reflexivity]. simpl. now rewrite Hid.
  - now destruct (sheet n).
Qed.

Lemma userEnsured_run d s : snd (getOrCreateUser d s) = userEnsured d s.
Proof.
  unfold userEnsured.
  destruct (find (Prisma.user_byDiscordId d) (users s)) as [u|] eqn:E.
  - now rewrite (getOrCreateUser_found _ _ _ E).
  - now rewrite (getOrCreateUser_missing _ _ E).
Qed.

Lemma rowEnsured_run u p s :
  snd ((match find (Prisma.attempt_byUserProblem u p) (userAttempts s) with
        | Some userAttempt => ret userAttempt
        | None => Prisma.userAttempt_create u p
        end) s)
  = rowEnsured u p s.
Proof.
  unfold rowEnsured.
  now destruct (find (Prisma.attempt_byUserProblem u p) (userAttempts s)).
Qed.

Lemma recordAttempt_store_post sheet d n c db :
  wf db ->
  post (recordAttempt sheet d n c) db (recordedAs sheet d n c db)
       (fun _ => True).
Proof.
  intros Hwf. unfold recordAttempt.
  apply post_bind_run
    with (a := find (Prisma.problem_byNumber n) (problems db)) (db' := db);
    [reflexivity|].
  eapply post_bind.
  { eapply post_with_store;
      [apply (recordAttempt_resolve sheet n db Hwf)
      |apply problemEnsured_run]. }
  cbv beta. intros p0 s0 [Hres ->].
  destruct (Problem.isFinalized p0) eqn:Hfin0; [now apply post_throw|].
  assert (Hp0 := Hres).
  destruct Hp0 as (Hwf0 & _ & _ & _ & Hfind0 & _).
  destruct (problem_byNumber_found _ _ _ Hwf0 Hfind0) as (Hid0 & _ & _).
  eapply post_bind.
  { eapply post_with_store;
      [apply (recordAttempt_backfill sheet n db p0 _ Hres Hfin0)
      |apply (originalEnsured_run sheet n p0 _ Hfind0 Hid0)]. }
  cbv beta. intros p s1 [Hback ->].
  eapply post_bind.
  { eapply post_with_store;
      [apply (recordAttempt_user sheet d n db p _ Hback)
      |apply userEnsured_run]. }
  cbv beta. intros u s2 [Huser Hs2].
  fold (resolvedStore sheet d n db) in Hs2.
  destruct Hback
    as (_ & _ & _ & _ & _ & Hopen & _ & _ & _ & Horigin).
  apply post_bind_run
    with (a := find (Prisma.attempt_byUserProblem (User.id u) (Problem.id p))
                    (userAttempts s2)) (db' := s2);
    [reflexivity|].
  eapply post_bind.
  { eapply post_with_store;
      [apply (recordAttempt_row sheet d n db Hwf p u s2 Horigin Huser)
      |apply rowEnsured_run]. }
  cbv beta.
  destruct Huser as (Hwf2 & _ & Hfindp2 & Hfindu2 & Hxp & _).
  intros a s [(Hwfs & Hfindp & Hfindu & Hrow & Hsolved & Hquiet) Hs].
  destruct (attempt_byKey_found _ _ _ _ Hwfs Hrow) as (Haid & Hain & Hau & Hap).
  destruct (problem_byNumber_found _ _ _ Hwfs Hfindp) as (Hpid & Hpin & Hnum).
  pose proof (find_user_byId_found d s u Hwfs Hfindu) as Huid.
  assert (Hfinal : forall res db',
    res = attemptResultOf c p u a (countedSolves c p a (userAttempts s)) ->
    db' = recordedStore c d p u a s ->
    recordedAs sheet d n c db res db').
  { intros res db' Hr Hd. exists p, u, a. cbv zeta.
    rewrite <- Hs2, <- Hs. splits; auto. }
  clear Hs Hs2 Hfindp2 Hfindu2 Hwf2.
  (* the row and the counters *)
  eapply post_bind_run; [apply (userAttempt_update_run s a _ Haid)|].
  match goal with
  | |- post (bind (Prisma.problem_update _ ?f) ?k) ?st _ _ =>
      apply (post_bind_run _ k st _ _ _ _ (problem_update_byId_run st p f Hpid))
  end.
  eapply post_bind_run; [reflexivity|].
  simpl userAttempts.
  fold (countedRows c a (userAttempts s)).
  fold (countedSolves c p a (userAttempts s)).
  set (rows1 := countedRows c a (userAttempts s)).
  set (ws := countedSolves c p a (userAttempts s)).
  set (g1 := Problem.set_counters (Problem.attempts p + 1)
               (Problem.solves p
                + (if c && negb (UserAttempt.solved a) then 1 else 0))).
  assert (Hpid1 :
    find (Prisma.problem_byId (Problem.id (g1 p)))
         (updateWhere (Prisma.problem_byId (Problem.id p)) g1 (problems s))
    = Some (g1 p)).
  { rewrite find_updateWhere by reflexivity.
    change (Problem.id (g1 p)) with (Problem.id p).
    rewrite Hpid. cbn [option_map]. now rewrite problem_byId_self. }
  match goal with
  | |- post (bind (Prisma.problem_update _ ?f) ?k) ?st _ _ =>
      apply (post_bind_run _ k st _ _ _ _
               (problem_update_byId_run st (g1 p) f Hpid1))
  end.
  simpl Problem.id.
  destruct (c && negb (UserAttempt.solved a)) eqn:Enew.
  - match goal with
    | |- post (bind (addXP _ ?v) ?k) ?st _ _ =>
        apply (post_bind_run _ k st _ _ _ _ (addXP_found st d v u Hfindu))
    end.
    assert (Haid1 :
      find (Prisma.attempt_byId
              (UserAttempt.id
                 (UserAttempt.set_progress (UserAttempt.attempts a + 1)
                    (UserAttempt.solved a || c) a))) rows1
      = Some (UserAttempt.set_progress (UserAttempt.attempts a + 1)
                (UserAttempt.solved a || c) a)).
    { unfold rows1, countedRows. rewrite find_updateWhere by reflexivity.
      cbn [UserAttempt.id UserAttempt.set_progress].
      rewrite Haid. cbn [option_map]. now rewrite attempt_byId_self. }
    match goal with
    | |- post (bind (Prisma.userAttempt_update _ ?f) ?k) ?st _ _ =>
        apply (post_bind_run _ k st _ _ _ _
                 (userAttempt_update_run st
                    (UserAttempt.set_progress (UserAttempt.attempts a + 1)
                       (UserAttempt.solved a || c) a) f Haid1))
    end.
    apply post_ret. apply Hfinal.
    + unfold attemptResultOf, newlySolved, awardFor. now rewrite Enew.
    + unfold recordedStore, newlySolved. rewrite Enew. reflexivity.
  - eapply post_bind_run; [reflexivity|].
    apply post_ret. simpl users. rewrite Huid. apply Hfinal.
    + unfold attemptResultOf, newlySolved. now rewrite Enew.
    + unfold recordedStore, newlySolved. rewrite Enew. reflexivity.
Qed.

Lemma recordAttempt_store sheet d n c db res db' :
  wf db -> recordAttempt sheet d n c db = (Ok res, db') ->
  recordedAs sheet d n c db res db'.
Proof.
  intros Hwf Hrun. pose proof (recordAttempt_store_post sheet d n c db Hwf) as H.
  unfold post in H. now rewrite Hrun in H.
Qed.

(** A call that does not fall in one of the failing cases returns. *)
Lemma recordAttempt_total sheet d n c db :
  wf db -> ~ recordAttemptFails sheet db n ->
  exists res db', recordAttempt sheet d n c db = (Ok res, db').
Proof.
  intros Hwf Hok.
  destruct (recordAttempt sheet d n c db) as [[res|e] db'] eqn:E; [eauto|].
  destruct (recordAttempt_throws _ _ _ _ _ _ _ Hwf E) as [_ H]. contradiction.
Qed.

(* ================================================================== *)
(** ** Sums over a table *)
(* ================================================================== *)

Lemma total_nil {T} (g : T -> Z) : total g [] = 0.
Proof. reflexivity. Qed.

Lemma total_cons {T} (g : T -> Z) x l : total g (x :: l) = g x + total g l.
Proof. reflexivity. Qed.

Lemma total_app {T} (g : T -> Z) l l' :
  total g (l ++ l') = total g l + total g l'.
Proof.
  induction l as [|x l IH]; [reflexivity|].
  simpl app. rewrite !total_cons, IH. lia.
Qed.

Lemma total_zero {T} (g : T -> Z) l :
  (forall x, In x l -> g x = 0) -> total g l = 0.
Proof.
  induction l as [|x l IH]; intros H; [reflexivity|].
  rewrite total_cons, (H x (or_introl eq_refl)), IH; [reflexivity|].
  intros y Hy. apply H. now right.
Qed.

Lemma total_ext {T} (g h : T -> Z) l :
  (forall x, In x l -> g x = h x) -> total g l = total h l.
Proof.
  induction l as [|x l IH]; intros H; [reflexivity|].
  rewrite !total_cons, (H x (or_introl eq_refl)), IH; [reflexivity|].
  intros y Hy. apply H. now right.
Qed.

Lemma total_updateWhere_same {T} (g : T -> Z) w f l :
  (forall x, In x l -> w x = true -> g (f x) = g x) ->
  total g (updateWhere w f l) = total g l.
Proof.
  induction l as [|x l IH]; intros H; [reflexivity|].
  rewrite updateWhere_cons, !total_cons, IH
    by (intros y Hy; apply H; now right).
  destruct (w x) eqn:E; [|reflexivity].
  now rewrite (H x (or_introl eq_refl) E).
Qed.

Lemma total_filter {T} (g : T -> Z) q l :
  (forall x, In x l -> q x = false -> g x = 0) ->
  total g (filter q l) = total g l.
Proof.
  induction l as [|x l IH]; intros H; [reflexivity|].
  simpl filter. rewrite total_cons.
  assert (IH' : total g (filter q l) = total g l)
    by (apply IH; intros y Hy; apply H; now right).
  destruct (q x) eqn:E.
  - rewrite total_cons. lia.
  - rewrite (H x (or_introl eq_refl) E). lia.
Qed.

(** An update by primary key changes the share of one row. *)
Lemma total_update_one (g : UserAttempt.t -> Z) a f rows :
  NoDup (map UserAttempt.id rows) -> In a rows ->
  total g (updateWhere (Prisma.attempt_byId (UserAttempt.id a)) f rows)
  = total g rows - g a + g (f a).
Proof.
  induction rows as [|x rows IH]; intros Hnd Hin; [contradiction|].
  simpl in Hnd. inversion Hnd as [|? ? Hx Hnd']; subst.
  rewrite updateWhere_cons, !total_cons.
  destruct Hin as [->|Hin].
  - rewrite attempt_byId_self.
    rewrite updateWhere_none; [lia|].
    intros y Hy. unfold Prisma.attempt_byId. apply Nat.eqb_neq.
    intros E. apply Hx. rewrite <- E. now apply in_map.
  - assert (Hne : Prisma.attempt_byId (UserAttempt.id a) x = false).
    { unfold Prisma.attempt_byId. apply Nat.eqb_neq.
      intros E. apply Hx. rewrite E. now apply in_map. }
    rewrite Hne, IH by assumption. lia.
Qed.

Lemma solvedCount_total rows pid :
  solvedCount rows pid = total (solvedShare pid) rows.
Proof.
  unfold solvedCount, solvedShare.
  induction rows as [|x rows IH]; [reflexivity|].
  rewrite countWhere_cons, total_cons, IH. reflexivity.
Qed.

Lemma attemptSum_total rows pid :
  attemptSum rows pid = total (attemptShare pid) rows.
Proof.
  unfold attemptSum, attemptShare, total.
  induction rows as [|x rows IH]; [reflexivity|].
  simpl. destruct (Prisma.attempt_ofProblem pid x); simpl; rewrite IH; lia.
Qed.

Lemma solvedShare_other pid a :
  UserAttempt.problemId a <> pid -> solvedShare pid a = 0.
Proof.
  intros H. unfold solvedShare, Prisma.attempt_solvedOfProblem.
  apply Nat.eqb_neq in H. now rewrite H.
Qed.

Lemma attemptShare_other pid a :
  UserAttempt.problemId a <> pid -> attemptShare pid a = 0.
Proof.
  intros H. unfold attemptShare, Prisma.attempt_ofProblem.
  apply Nat.eqb_neq in H. now rewrite H.
Qed.

Lemma solvedShare_own pid a :
  UserAttempt.problemId a = pid ->
  solvedShare pid a = if UserAttempt.solved a then 1 else 0.
Proof.
  intros <-. unfold solvedShare, Prisma.attempt_solvedOfProblem.
  now rewrite Nat.eqb_refl.
Qed.

Lemma attemptShare_own pid a :
  UserAttempt.problemId a = pid -> attemptShare pid a = UserAttempt.attempts a.
Proof.
  intros <-. unfold attemptShare, Prisma.attempt_ofProblem.
  now rewrite Nat.eqb_refl.
Qed.

(* ================================================================== *)
(** ** Consistency along the writes *)
(* ================================================================== *)

Lemma consistent_initial : consistent initialDB.
Proof. constructor; simpl; constructor. Qed.

Lemma consistent_eta db :
  consistent db ->
  consistent (mkDB (users db) (problems db) (userAttempts db) (nextId db)).
Proof. now destruct db. Qed.

Lemma find_none_notin {T K} (key : T -> K) (q : T -> bool) (k : K) l :
  (forall x, key x = k -> q x = true) ->
  find q l = None -> ~ In k (map key l).
Proof.
  intros Hq Hnone Hin. apply in_map_iff in Hin. destruct Hin as [x [Hk Hx]].
  specialize (Hq x Hk). rewrite (find_none _ _ Hnone x Hx) in Hq. discriminate.
Qed.

Lemma NoDup_snoc {K} (l : list K) k : NoDup l -> ~ In k l -> NoDup (l ++ [k]).
Proof.
  intros Hnd Hk. apply NoDup_app; [assumption | repeat constructor; simpl; tauto|].
  intros x Hx [<-|[]]. contradiction.
Qed.

Lemma Forall_updateWhere_in {T} (P : T -> Prop) w f l :
  Forall P l -> (forall x, In x l -> P x -> w x = true -> P (f x)) ->
  Forall P (updateWhere w f l).
Proof.
  intros Hl Hf. unfold updateWhere. rewrite Forall_map.
  rewrite Forall_forall in *. intros x Hx.
  destruct (w x) eqn:E; auto.
Qed.

Section ConsistentWrites.
Variables (us : list User.t) (ps : list Problem.t)
          (rs : list UserAttempt.t) (n : Id).
Hypothesis Hwf : wf (mkDB us ps rs n).
Hypothesis Hco : consistent (mkDB us ps rs n).

Lemma consistent_users_same us' n' :
  map User.id us' = map User.id us ->
  map User.discordId us' = map User.discordId us ->
  consistent (mkDB us' ps rs n').
Proof.
  intros Hid Hd. destruct Hco as [H1 H2 H3 H4 H5 H6 H7 H8]. simpl in *.
  constructor; simpl; auto; [now rewrite Hd | now rewrite Hid].
Qed.

Lemma consistent_users_update w f :
  (forall u, User.id (f u) = User.id u) ->
  (forall u, User.discordId (f u) = User.discordId u) ->
  consistent (mkDB (updateWhere w f us) ps rs n).
Proof.
  intros Hid Hd. apply consistent_users_same; now apply map_updateWhere.
Qed.

Lemma consistent_users_snoc d x :
  find (Prisma.user_byDiscordId d) us = None ->
  consistent (mkDB (us ++ [User.mk n d x]) ps rs (S n)).
Proof.
  intros Hnone. destruct Hco as [H1 H2 H3 H4 H5 H6 H7 H8]. simpl in *.
  constructor; simpl; auto.
  - rewrite map_app. simpl. apply NoDup_snoc; [assumption|].
    apply (find_none_notin User.discordId _ d _) in Hnone; [assumption|].
    intros u <-. apply String.eqb_refl.
  - eapply Forall_impl; [|exact H3]. simpl. intros a Ha.
    rewrite map_app. apply in_or_app. now left.
Qed.

Lemma consistent_problems_update w f :
  (forall p, Problem.id (f p) = Problem.id p) ->
  (forall p, Problem.number (f p) = Problem.number p) ->
  (forall p, Problem.solves (f p) = Problem.solves p) ->
  (forall p, Problem.attempts (f p) = Problem.attempts p) ->
  consistent (mkDB us (updateWhere w f ps) rs n).
Proof.
  intros Hid Hnum Hs Ha. destruct Hco as [H1 H2 H3 H4 H5 H6 H7 H8].
  simpl in *. constructor; simpl; auto.
  - now rewrite map_updateWhere.
  - now rewrite map_updateWhere.
  - apply Forall_updateWhere; [assumption|]. intros p Hp _.
    now rewrite Hs, Hid.
  - apply Forall_updateWhere; [assumption|]. intros p Hp _.
    now rewrite Ha, Hid.
Qed.

Lemma fresh_problem_shares (g : Id -> UserAttempt.t -> Z) :
  (forall a, UserAttempt.problemId a <> n -> g n a = 0) ->
  total (g n) rs = 0.
Proof.
  intros Hg. apply total_zero. intros a Ha. apply Hg.
  pose proof (wf_attempt_fresh Hwf) as Hf. rewrite Forall_forall in Hf.
  specialize (Hf a Ha). simpl in Hf. lia.
Qed.

Lemma consistent_problems_snoc num o b at_ :
  find (Prisma.problem_byNumber num) ps = None ->
  consistent
    (mkDB us (ps ++ [Problem.mk n num o b 0 0 false at_]) rs (S n)).
Proof.
  intros Hnone. destruct Hco as [H1 H2 H3 H4 H5 H6 H7 H8]. simpl in *.
  constructor; simpl; auto.
  - rewrite map_app. simpl. apply NoDup_snoc; [assumption|].
    apply (find_none_notin Problem.number _ num _) in Hnone; [assumption|].
    intros p <-. apply String.eqb_refl.
  - eapply Forall_impl; [|exact H4]. simpl. intros a Ha.
    rewrite map_app. apply in_or_app. now left.
  - apply Forall_snoc; [assumption|]. simpl.
    rewrite solvedCount_total.
    symmetry. apply (fresh_problem_shares solvedShare).
    intros a. apply solvedShare_other.
  - apply Forall_snoc; [assumption|]. simpl.
    rewrite attemptSum_total.
    symmetry. apply (fresh_problem_shares attemptShare).
    intros a. apply attemptShare_other.
Qed.

(** A write to the rows that leaves the counted columns alone. *)
Lemma consistent_attempts_update w f :
  (forall a, UserAttempt.userId (f a) = UserAttempt.userId a) ->
  (forall a, UserAttempt.problemId (f a) = UserAttempt.problemId a) ->
  (forall a, UserAttempt.attempts (f a) = UserAttempt.attempts a) ->
  (forall a, UserAttempt.solved (f a) = UserAttempt.solved a) ->
  (forall a, In a rs -> w a = true -> UserAttempt.solved a = false ->
             UserAttempt.awardedXp (f a) = 0) ->
  consistent (mkDB us ps (updateWhere w f rs) n).
Proof.
  intros Hu Hp Ha Hs Haw. destruct Hco as [H1 H2 H3 H4 H5 H6 H7 H8].
  simpl in *. constructor; simpl; auto.
  - apply Forall_updateWhere; [assumption|]. intros a Hin _. now rewrite Hu.
  - apply Forall_updateWhere; [assumption|]. intros a Hin _. now rewrite Hp.
  - apply Forall_updateWhere; [assumption|]. intros a Hin _. now rewrite Ha.
  - unfold updateWhere. rewrite Forall_map. rewrite Forall_forall in *.
    intros a Hin. destruct (w a) eqn:E; [|auto].
    rewrite Hs. intros Hsol. auto.
  - eapply Forall_impl; [|exact H7]. simpl. intros p ->.
    rewrite !solvedCount_total. symmetry. apply total_updateWhere_same.
    intros a _ _. unfold solvedShare, Prisma.attempt_solvedOfProblem.
    now rewrite Hp, Hs.
  - eapply Forall_impl; [|exact H8]. simpl. intros p ->.
    rewrite !attemptSum_total. symmetry. apply total_updateWhere_same.
    intros a _ _. unfold attemptShare, Prisma.attempt_ofProblem.
    now rewrite Hp, Ha.
Qed.

(** [resetProblemStats]: the rows of the problem go, its counters are
    cleared. *)
Lemma consistent_reset p b :
  consistent
    (mkDB us
       (updateWhere (Prisma.problem_byId (Problem.id p))
                    (Problem.set_stats 0 0 b) ps)
       (filter (fun a => negb (Prisma.attempt_ofProblem (Problem.id p) a)) rs)
       n).
Proof.
  destruct Hco as [H1 H2 H3 H4 H5 H6 H7 H8]. simpl in *.
  set (keep := fun a => negb (Prisma.attempt_ofProblem (Problem.id p) a)).
  assert (Hincl : forall (P : UserAttempt.t -> Prop),
             Forall P rs -> Forall P (filter keep rs)).
  { intros P HP. rewrite Forall_forall in *. intros a Ha.
    apply filter_In in Ha. now apply HP. }
  constructor; simpl; auto.
  - now rewrite map_updateWhere.
  - rewrite map_updateWhere by reflexivity. now apply Hincl.
  - unfold updateWhere. rewrite Forall_map. rewrite Forall_forall in *.
    intros q Hq. rewrite solvedCount_total.
    destruct (Prisma.problem_byId (Problem.id p) q) eqn:E.
    + simpl. apply Nat.eqb_eq in E. rewrite E. symmetry.
      apply total_zero. intros a Ha. apply filter_In in Ha.
      destruct Ha as [_ Ha]. apply solvedShare_other.
      unfold keep, Prisma.attempt_ofProblem in Ha.
      now apply negb_true_iff, Nat.eqb_neq in Ha.
    + rewrite (H7 q Hq), solvedCount_total. symmetry. apply total_filter.
      intros a _ Ha. apply solvedShare_other.
      unfold keep, Prisma.attempt_ofProblem in Ha.
      apply negb_false_iff, Nat.eqb_eq in Ha. rewrite Ha.
      unfold Prisma.problem_byId in E. apply Nat.eqb_neq in E. congruence.
  - unfold updateWhere. rewrite Forall_map. rewrite Forall_forall in *.
    intros q Hq. rewrite attemptSum_total.
    destruct (Prisma.problem_byId (Problem.id p) q) eqn:E.
    + simpl. apply Nat.eqb_eq in E. rewrite E. symmetry.
      apply total_zero. intros a Ha. apply filter_In in Ha.
      destruct Ha as [_ Ha]. apply attemptShare_other.
      unfold keep, Prisma.attempt_ofProblem in Ha.
      now apply negb_true_iff, Nat.eqb_neq in Ha.
    + rewrite (H8 q Hq), attemptSum_total. symmetry. apply total_filter.
      intros a _ Ha. apply attemptShare_other.
      unfold keep, Prisma.attempt_ofProblem in Ha.
      apply negb_false_iff, Nat.eqb_eq in Ha. rewrite Ha.
      unfold Prisma.problem_byId in E. apply Nat.eqb_neq in E. congruence.
Qed.

End ConsistentWrites.

(** *** Counting an attempt *)

Section ConsistentCount.
Variables (us : list User.t) (ps : list Problem.t)
          (rs : list UserAttempt.t) (n : Id).
Hypothesis Hwf : wf (mkDB us ps rs n).
Hypothesis Hco : consistent (mkDB us ps rs n).
Variables (p : Problem.t) (b : Z).
Hypothesis Hp : In p ps.

(** The two writes to the problem, as one. *)
Lemma counters_then_score (da ds : Z) :
  updateWhere (Prisma.problem_byId (Problem.id p)) (Problem.set_baseScore b)
    (updateWhere (Prisma.problem_byId (Problem.id p))
       (Problem.set_counters da ds) ps)
  = updateWhere (Prisma.problem_byId (Problem.id p))
      (fun q => Problem.set_baseScore b (Problem.set_counters da ds q)) ps.
Proof. now apply updateWhere_updateWhere_same. Qed.

Lemma problem_byId_is q :
  In q ps -> Prisma.problem_byId (Problem.id p) q = true -> q = p.
Proof.
  intros Hq E. apply Nat.eqb_eq in E.
  apply (NoDup_key_eq Problem.id ps); auto. apply Hwf.
Qed.

(** The shares of the other problems are those of the rows [rs], the
    shares of [p] grow by [ds] and [da]. *)
Lemma consistent_counters rows' (da ds : Z) :
  (forall q, In q ps -> Problem.id q <> Problem.id p ->
     total (solvedShare (Problem.id q)) rows'
     = total (solvedShare (Problem.id q)) rs
     /\ total (attemptShare (Problem.id q)) rows'
        = total (attemptShare (Problem.id q)) rs) ->
  total (solvedShare (Problem.id p)) rows'
  = total (solvedShare (Problem.id p)) rs + ds ->
  total (attemptShare (Problem.id p)) rows'
  = total (attemptShare (Problem.id p)) rs + da ->
  let ps' :=
    updateWhere (Prisma.problem_byId (Problem.id p))
      (Problem.set_baseScore b)
      (updateWhere (Prisma.problem_byId (Problem.id p))
         (Problem.set_counters (Problem.attempts p + da)
                               (Problem.solves p + ds)) ps) in
  NoDup (map Problem.number ps')
  /\ map Problem.id ps' = map Problem.id ps
  /\ Forall (fun q => Problem.solves q = solvedCount rows' (Problem.id q)) ps'
  /\ Forall (fun q => Problem.attempts q = attemptSum rows' (Problem.id q))
            ps'.
Proof.
  intros Hother Hs Ha ps'. unfold ps'. rewrite counters_then_score.
  destruct Hco as [H1 H2 H3 H4 H5 H6 H7 H8]. simpl in *.
  rewrite Forall_forall in H7, H8.
  splits.
  - now rewrite map_updateWhere.
  - now rewrite map_updateWhere.
  - unfold updateWhere. rewrite Forall_map, Forall_forall. intros q Hq.
    rewrite solvedCount_total.
    destruct (Prisma.problem_byId (Problem.id p) q) eqn:E.
    + rewrite (problem_byId_is q Hq E). simpl.
      rewrite Hs, <- solvedCount_total, <- (H7 p Hp). reflexivity.
    + apply Nat.eqb_neq in E.
      destruct (Hother q Hq) as [-> _]; [congruence|].
      rewrite <- solvedCount_total. now apply H7.
  - unfold updateWhere. rewrite Forall_map, Forall_forall. intros q Hq.
    rewrite attemptSum_total.
    destruct (Prisma.problem_byId (Problem.id p) q) eqn:E.
    + rewrite (problem_byId_is q Hq E). simpl.
      rewrite Ha, <- attemptSum_total, <- (H8 p Hp). reflexivity.
    + apply Nat.eqb_neq in E.
      destruct (Hother q Hq) as [_ ->]; [congruence|].
      rewrite <- attemptSum_total. now apply H8.
Qed.

(** The attempt is counted on a row that exists. *)
Lemma consistent_counted c a :
  In a rs -> UserAttempt.problemId a = Problem.id p ->
  consistent
    (mkDB us
       (updateWhere (Prisma.problem_byId (Problem.id p))
          (Problem.set_baseScore b)
          (updateWhere (Prisma.problem_byId (Problem.id p))
             (Problem.set_counters (Problem.attempts p + 1)
                (Problem.solves p + (if newlySolved c a then 1 else 0)))
             ps))
       (countedRows c a rs) n).
Proof.
  intros Ha Hap.
  pose proof (wf_attempt_ids Hwf) as Hids. simpl in Hids.
  destruct (consistent_counters (countedRows c a rs) 1
              (if newlySolved c a then 1 else 0))
    as (Hnum & Hpid & Hsol & Hsum).
  - intros q Hq Hne. unfold countedRows.
    rewrite !total_update_one by assumption.
    rewrite !solvedShare_other, !attemptShare_other
      by (simpl; congruence). lia.
  - unfold countedRows. rewrite total_update_one by assumption.
    rewrite !solvedShare_own by (simpl; congruence). simpl.
    unfold newlySolved. destruct (UserAttempt.solved a), c; simpl; lia.
  - unfold countedRows. rewrite total_update_one by assumption.
    rewrite !attemptShare_own by (simpl; congruence). simpl. lia.
  - destruct Hco as [H1 H2 H3 H4 H5 H6 H7 H8]. simpl in *.
    constructor; simpl; auto.
    + apply Forall_updateWhere; auto.
    + rewrite Hpid. apply Forall_updateWhere; auto.
    + apply Forall_updateWhere_in; [assumption|]. intros r Hin Hr _.
      simpl. rewrite Forall_forall in H5. specialize (H5 a Ha). lia.
    + apply Forall_updateWhere_in; [assumption|]. intros r Hin Hr E.
      simpl. apply Nat.eqb_eq in E.
      assert (r = a)
        by (apply (NoDup_key_eq UserAttempt.id rs); auto).
      subst r. intros Hsolved. apply orb_false_iff in Hsolved.
      now apply Hr.
Qed.

(** The attempt is counted on the row the call created. *)
Lemma consistent_counted_new (c : bool) (u : Id) :
  In u (map User.id us) ->
  let a := UserAttempt.mk n u (Problem.id p) 0 false 0 None 0 in
  countedRows c a (rs ++ [a])
  = rs ++ [UserAttempt.mk n u (Problem.id p) 1 c 0 None 0]
  /\ consistent
       (mkDB us
          (updateWhere (Prisma.problem_byId (Problem.id p))
             (Problem.set_baseScore b)
             (updateWhere (Prisma.problem_byId (Problem.id p))
                (Problem.set_counters (Problem.attempts p + 1)
                   (Problem.solves p + (if newlySolved c a then 1 else 0)))
                ps))
          (countedRows c a (rs ++ [a])) (S n)).
Proof.
  intros Hu a.
  assert (Hrows : countedRows c a (rs ++ [a])
                  = rs ++ [UserAttempt.mk n u (Problem.id p) 1 c 0 None 0]).
  { unfold countedRows. rewrite updateWhere_app. f_equal.
    - apply updateWhere_none. intros r Hr.
      pose proof (wf_attempt_fresh Hwf) as Hf. rewrite Forall_forall in Hf.
      specialize (Hf r Hr). simpl in Hf.
      unfold Prisma.attempt_byId. apply Nat.eqb_neq. simpl. lia.
    - rewrite updateWhere_cons, updateWhere_nil, attempt_byId_self.
      reflexivity. }
  split; [exact Hrows|]. rewrite Hrows.
  set (a1 := UserAttempt.mk n u (Problem.id p) 1 c 0 None 0).
  destruct (consistent_counters (rs ++ [a1]) 1
              (if newlySolved c a then 1 else 0))
    as (Hnum & Hpid & Hsol & Hsum).
  - intros q Hq Hne. rewrite !total_app, !total_cons, !total_nil.
    rewrite solvedShare_other, attemptShare_other
      by (simpl; congruence). lia.
  - rewrite total_app, total_cons, total_nil.
    rewrite solvedShare_own by reflexivity. simpl. destruct c; simpl; lia.
  - rewrite total_app, total_cons, total_nil.
    rewrite attemptShare_own by reflexivity. simpl. lia.
  - destruct Hco as [H1 H2 H3 H4 H5 H6 H7 H8]. simpl in *.
    constructor; simpl; auto.
    + apply Forall_snoc; auto.
    + rewrite Hpid. apply Forall_snoc; [assumption|]. simpl.
      now apply in_map.
    + apply Forall_snoc; [assumption|]. simpl. lia.
    + apply Forall_snoc; [assumption|]. simpl. reflexivity.
Qed.

End ConsistentCount.

(** *** Consistency along the calls *)

Lemma consistent_userEnsured d db :
  consistent db -> consistent (userEnsured d db).
Proof.
  intros Hco. unfold userEnsured.
  destruct (find (Prisma.user_byDiscordId d) (users db)) eqn:E; [assumption|].
  destruct db as [us ps rs n]. now apply consistent_users_snoc.
Qed.

Lemma consistent_setBalance d v db :
  consistent db -> consistent (setBalance d v db).
Proof.
  intros Hco. destruct db as [us ps rs n]. unfold setBalance. simpl.
  now apply consistent_users_update.
Qed.

Lemma consistent_addXP d amount db :
  consistent db -> consistent (snd (addXP d amount db)).
Proof.
  intros Hco.
  destruct (find (Prisma.user_byDiscordId d) (users db)) as [u|] eqn:E.
  - rewrite (addXP_found _ _ _ _ E). now apply consistent_setBalance.
  - rewrite (addXP_missing _ _ _ E). destruct db as [us ps rs n].
    now apply consistent_users_snoc.
Qed.

Lemma consistent_removeXP d amount db :
  consistent db -> consistent (snd (removeXP d amount db)).
Proof.
  intros Hco.
  destruct (find (Prisma.user_byDiscordId d) (users db)) as [u|] eqn:E.
  - rewrite (removeXP_found _ _ _ _ E). now apply consistent_setBalance.
  - rewrite (removeXP_missing _ _ _ E). destruct db as [us ps rs n].
    now apply consistent_users_snoc.
Qed.

Lemma resetProblemStats_run n db p :
  wf db -> find (Prisma.problem_byNumber n) (problems db) = Some p ->
  resetProblemStats n db =
  (Ok (ResetProblemResult.mk (Problem.number p)
         (countWhere (Prisma.attempt_ofProblem (Problem.id p))
                     (userAttempts db))
         (Problem.originalBaseScore p)
         (if 0 <? Problem.originalBaseScore p
          then Problem.originalBaseScore p else Problem.baseScore p)),
   afterReset p db).
Proof.
  intros Hwf Hfind.
  destruct (problem_byNumber_found _ _ _ Hwf Hfind) as (Hid & _ & _).
  unfold resetProblemStats. munfold. rewrite Hfind. simpl. rewrite Hid.
  reflexivity.
Qed.

Lemma resetProblemStats_missing n db :
  find (Prisma.problem_byNumber n) (problems db) = None ->
  resetProblemStats n db = (Err NotFound, db).
Proof. intros H. unfold resetProblemStats. munfold. now rewrite H. Qed.

Lemma consistent_afterReset p db :
  consistent db -> consistent (afterReset p db).
Proof.
  intros Hco. destruct db as [us ps rs n]. unfold afterReset. simpl.
  now apply consistent_reset.
Qed.

Lemma consistent_resetProblemStats n db :
  wf db -> consistent db -> consistent (snd (resetProblemStats n db)).
Proof.
  intros Hwf Hco.
  destruct (find (Prisma.problem_byNumber n) (problems db)) as [p|] eqn:E.
  - rewrite (resetProblemStats_run _ _ _ Hwf E). now apply consistent_afterReset.
  - now rewrite (resetProblemStats_missing _ _ E).
Qed.

(** A re-pricing of solved rows keeps the tables consistent. *)
Lemma consistent_pricing db us' (w : Problem.t -> bool) b f at_ pid
  (g : UserAttempt.t -> UserAttempt.t) :
  consistent db ->
  map User.id us' = map User.id (users db) ->
  map User.discordId us' = map User.discordId (users db) ->
  (forall a, exists pre v dl, g a = UserAttempt.set_pricing pre v dl a) ->
  consistent
    (mkDB us'
       (updateWhere w (Problem.set_finalization b f at_) (problems db))
       (updateWhere (Prisma.attempt_solvedOfProblem pid) g (userAttempts db))
       (nextId db)).
Proof.
  intros Hco Hid Hd Hg. destruct db as [us ps rs n]. simpl in *.
  assert (H1 : consistent (mkDB us' ps rs n))
    by now apply (consistent_users_same us ps rs n).
  assert (H2 : consistent
                 (mkDB us' (updateWhere w (Problem.set_finalization b f at_) ps)
                       rs n))
    by now apply consistent_problems_update.
  apply consistent_attempts_update; auto.
  - intros a. destruct (Hg a) as (? & ? & ? & ->). reflexivity.
  - intros a. destruct (Hg a) as (? & ? & ? & ->). reflexivity.
  - intros a. destruct (Hg a) as (? & ? & ? & ->). reflexivity.
  - intros a. destruct (Hg a) as (? & ? & ? & ->). reflexivity.
  - intros a _ Hw Hs. apply solvedOfProblem_spec in Hw. destruct Hw. congruence.
Qed.

Lemma consistent_afterFinalize now p db :
  consistent db -> consistent (afterFinalize now p db).
Proof.
  intros Hco. unfold afterFinalize. apply consistent_pricing; auto.
  - rewrite map_map. reflexivity.
  - rewrite map_map. reflexivity.
  - intros a. unfold repriced. eauto.
Qed.

Lemma consistent_afterUnfinalize p db :
  consistent db -> consistent (afterUnfinalize p db).
Proof.
  intros Hco. unfold afterUnfinalize. apply consistent_pricing; auto.
  - rewrite map_map. reflexivity.
  - rewrite map_map. reflexivity.
  - intros a. unfold restored.
    destruct (UserAttempt.preFinalizeAwardedXp a) eqn:E; [eauto|].
    exists None, (UserAttempt.awardedXp a), (UserAttempt.finalizeDelta a).
    destruct a. simpl in *. now subst.
Qed.

Lemma finalizeProblemScoring_store now n db :
  wf db ->
  snd (finalizeProblemScoring now n db)
  = match find (Prisma.problem_byNumber n) (problems db) with
    | Some p => if Problem.isFinalized p then db else afterFinalize now p db
    | None => db
    end.
Proof.
  intros Hwf.
  destruct (find (Prisma.problem_byNumber n) (problems db)) as [p|] eqn:E.
  - destruct (Problem.isFinalized p) eqn:F.
    + unfold finalizeProblemScoring. munfold. now rewrite E, F.
    + now rewrite (finalizeProblemScoring_run now n db p Hwf E F).
  - unfold finalizeProblemScoring. munfold. now rewrite E.
Qed.

Lemma unfinalizeProblemScoring_store n db :
  wf db ->
  snd (unfinalizeProblemScoring n db)
  = match find (Prisma.problem_byNumber n) (problems db) with
    | Some p => if Problem.isFinalized p then afterUnfinalize p db else db
    | None => db
    end.
Proof.
  intros Hwf.
  destruct (find (Prisma.problem_byNumber n) (problems db)) as [p|] eqn:E.
  - destruct (Problem.isFinalized p) eqn:F.
    + now rewrite (unfinalizeProblemScoring_run n db p Hwf E F).
    + unfold unfinalizeProblemScoring. munfold. now rewrite E, F.
  - unfold unfinalizeProblemScoring. munfold. now rewrite E.
Qed.

Lemma consistent_problemEnsured sheet n db :
  wf db -> consistent db -> consistent (problemEnsured sheet n db).
Proof.
  intros Hwf Hco. unfold problemEnsured.
  destruct (find (Prisma.problem_byNumber n) (problems db)) eqn:E;
    [assumption|].
  destruct (sheet n); [|assumption].
  destruct db as [us ps rs k]. now apply consistent_problems_snoc.
Qed.

Lemma consistent_originalEnsured sheet n db :
  consistent db -> consistent (originalEnsured sheet n db).
Proof.
  intros Hco. unfold originalEnsured.
  destruct (find (Prisma.problem_byNumber n) (problems db)); [|assumption].
  destruct (sheet n); [|assumption].
  destruct (Problem.originalBaseScore t <=? 0); [|assumption].
  destruct db as [us ps rs k]. now apply consistent_problems_update.
Qed.

Lemma wf_problemEnsured sheet n db : wf db -> wf (problemEnsured sheet n db).
Proof.
  intros Hwf. unfold problemEnsured.
  destruct (find (Prisma.problem_byNumber n) (problems db)); [assumption|].
  destruct (sheet n); [|assumption].
  destruct db as [us ps rs k]. now apply wf_problems_snoc.
Qed.

Lemma consistent_resolvedStore sheet d n db :
  wf db -> consistent db -> consistent (resolvedStore sheet d n db).
Proof.
  intros Hwf Hco. unfold resolvedStore.
  apply consistent_userEnsured, consistent_originalEnsured.
  now apply consistent_problemEnsured.
Qed.

Lemma consistent_recordedStore c d p u a s :
  wf s -> consistent s ->
  find (Prisma.problem_byNumber (Problem.number p)) (problems s) = Some p ->
  In u (users s) ->
  find (Prisma.attempt_byUserProblem (User.id u) (Problem.id p))
       (userAttempts (rowEnsured (User.id u) (Problem.id p) s)) = Some a ->
  consistent
    (recordedStore c d p u a (rowEnsured (User.id u) (Problem.id p) s)).
Proof.
  intros Hwf Hco Hp Hu Hrow.
  apply find_some in Hp. destruct Hp as [Hp _].
  assert (Hcounted :
    consistent
      (mkDB (users (rowEnsured (User.id u) (Problem.id p) s))
         (updateWhere (Prisma.problem_byId (Problem.id p))
            (Problem.set_baseScore
               (getDynamicBaseFromWeightedSolves
                  (countedSolves c p a
                     (userAttempts
                        (rowEnsured (User.id u) (Problem.id p) s)))))
            (updateWhere (Prisma.problem_byId (Problem.id p))
               (Problem.set_counters (Problem.attempts p + 1)
                  (Problem.solves p + (if newlySolved c a then 1 else 0)))
               (problems (rowEnsured (User.id u) (Problem.id p) s))))
         (countedRows c a
            (userAttempts (rowEnsured (User.id u) (Problem.id p) s)))
         (nextId (rowEnsured (User.id u) (Problem.id p) s)))
    /\ forall r,
         In r (countedRows c a
                 (userAttempts (rowEnsured (User.id u) (Problem.id p) s))) ->
         Prisma.attempt_byId (UserAttempt.id a) r = true ->
         UserAttempt.solved r = UserAttempt.solved a || c).
  { revert Hrow. unfold rowEnsured.
    destruct (find (Prisma.attempt_byUserProblem (User.id u) (Problem.id p))
                   (userAttempts s)) as [a'|] eqn:E.
    - intros Hrow. rewrite E in Hrow. injection Hrow as ->.
      destruct (attempt_byKey_found _ _ _ _ Hwf E) as (_ & Ha & _ & Hap).
      destruct s as [us ps rs k]. simpl in *. split.
      + now apply consistent_counted.
      + intros r Hr Er. unfold countedRows in Hr.
        apply In_updateWhere in Hr. destruct Hr as (x & Hx & ->).
        destruct (Prisma.attempt_byId (UserAttempt.id a) x) eqn:Ex;
          [reflexivity|]. congruence.
    - simpl. intros Hrow. rewrite find_app, E in Hrow. simpl in Hrow.
      unfold Prisma.attempt_byUserProblem in Hrow. simpl in Hrow.
      rewrite !Nat.eqb_refl in Hrow. simpl in Hrow. injection Hrow as <-.
      destruct s as [us ps rs k]. simpl in *.
      destruct (consistent_counted_new us ps rs k Hwf Hco p
                  (getDynamicBaseFromWeightedSolves
                     (countedSolves c p
                        (UserAttempt.mk k (User.id u) (Problem.id p)
                           0 false 0 None 0)
                        (rs ++ [UserAttempt.mk k (User.id u) (Problem.id p)
                                  0 false 0 None 0])))
                  Hp c (User.id u) (in_map User.id us u Hu))
        as [Hrows Hcons].
      split; [exact Hcons|].
      intros r Hr Er. rewrite Hrows in Hr. apply in_app_or in Hr.
      destruct Hr as [Hr|[<-|[]]]; [|reflexivity].
      pose proof (wf_attempt_fresh Hwf) as Hf. rewrite Forall_forall in Hf.
      specialize (Hf r Hr). simpl in Hf. unfold Prisma.attempt_byId in Er.
      simpl in Er. apply Nat.eqb_eq in Er. lia. }
  destruct Hcounted as [Hcounted Hsolved].
  unfold recordedStore. cbv zeta.
  destruct (newlySolved c a) eqn:Enew; [|exact Hcounted].
  match type of Hcounted with
  | consistent (mkDB ?us ?ps ?rs ?k) =>
      assert (H1 : consistent
                     (mkDB (updateWhere (Prisma.user_byDiscordId d)
                              (User.set_xp (Z.max 0 (User.xp u + awardFor p a)))
                              us) ps rs k))
        by now apply consistent_users_update
  end.
  apply consistent_attempts_update; auto.
  intros r Hr Er Hs. rewrite (Hsolved r Hr Er) in Hs.
  unfold newlySolved in Enew. apply andb_true_iff in Enew.
  destruct Enew as [-> _]. rewrite orb_true_r in Hs. discriminate.
Qed.

Lemma consistent_recordAttempt sheet d n c db :
  wf db -> consistent db -> consistent (snd (recordAttempt sheet d n c db)).
Proof.
  intros Hwf Hco.
  destruct (recordAttempt sheet d n c db) as [[res|e] db'] eqn:E.
  - destruct (recordAttempt_store _ _ _ _ _ _ _ Hwf E)
      as (p & u & a & Hwfs & _ & Hp & _ & Hu & Hrow & _ & _ & _ & ->).
    simpl. apply consistent_recordedStore; auto.
    + now apply consistent_resolvedStore.
    + destruct (problem_byNumber_found _ _ _ Hwfs Hp) as (_ & _ & ->).
      exact Hp.
    + now apply find_some in Hu.
  - destruct (recordAttempt_throws _ _ _ _ _ _ _ Hwf E) as [-> _]. exact Hco.
Qed.

Lemma consistent_exec o db :
  wf db -> consistent db -> consistent (exec o db).
Proof.
  intros Hwf Hco. destruct o; simpl.
  - rewrite userEnsured_run. now apply consistent_userEnsured.
  - now apply consistent_addXP.
  - now apply consistent_removeXP.
  - now apply consistent_resetProblemStats.
  - rewrite (finalizeProblemScoring_store _ _ _ Hwf).
    destruct (find (Prisma.problem_byNumber problemNumber) (problems db));
      [|assumption].
    destruct (Problem.isFinalized t); [assumption|].
    now apply consistent_afterFinalize.
  - rewrite (unfinalizeProblemScoring_store _ _ Hwf).
    destruct (find (Prisma.problem_byNumber problemNumber) (problems db));
      [|assumption].
    destruct (Problem.isFinalized t); [|assumption].
    now apply consistent_afterUnfinalize.
  - now apply consistent_recordAttempt.
Qed.

(** Every reachable store is consistent. *)
Lemma reachable_consistent db : reachable db -> consistent db.
Proof.
  induction 1 as [|o db Hr IH]; [apply consistent_initial|].
  apply consistent_exec; [now apply reachable_wf | assumption].
Qed.

(* ================================================================== *)
(** ** What a call keeps of the users and problems it finds *)
(* ================================================================== *)

Lemma grows_refl db : wf db -> grows db db.
Proof.
  intros Hwf. constructor; try (exists []; now rewrite app_nil_r); [|lia].
  intros p Hp _. exists p. splits; auto.
  apply (find_byKey_NoDup Problem.id); auto. apply Hwf.
Qed.

Lemma grows_trans db1 db2 db3 : grows db1 db2 -> grows db2 db3 -> grows db1 db3.
Proof.
  intros [[l1 A1] [l2 A2] A3 A4] [[k1 B1] [k2 B2] B3 B4].
  constructor.
  - exists (l1 ++ k1). now rewrite B1, A1, app_assoc.
  - exists (l2 ++ k2). now rewrite B2, A2, app_assoc.
  - intros p Hp Hpos. destruct (A3 p Hp Hpos) as (p' & Hf & Ho).
    pose proof (find_some _ _ Hf) as [Hin Hk].
    apply Nat.eqb_eq in Hk.
    destruct (B3 p' Hin) as (p'' & Hf' & Ho'); [lia|].
    exists p''. rewrite <- Hk. splits; auto; congruence.
  - lia.
Qed.

Section GrowsWrites.
Variables (us : list User.t) (ps : list Problem.t)
          (rs : list UserAttempt.t) (n : Id).
Hypothesis Hwf : wf (mkDB us ps rs n).

Lemma grows_users_same us' rs' :
  map userKey us' = map userKey us ->
  grows (mkDB us ps rs n) (mkDB us' ps rs' n).
Proof.
  intros Hk. destruct (grows_refl _ Hwf) as [_ G2 G3 G4].
  constructor; simpl in *; auto.
  exists []. now rewrite app_nil_r.
Qed.

Lemma grows_users_snoc u rs' :
  grows (mkDB us ps rs n) (mkDB (us ++ [u]) ps rs' (S n)).
Proof.
  destruct (grows_refl _ Hwf) as [_ G2 G3 G4].
  constructor; simpl in *; auto.
  exists [userKey u]. now rewrite map_app.
Qed.

Lemma grows_problems_snoc p rs' :
  grows (mkDB us ps rs n) (mkDB us (ps ++ [p]) rs' (S n)).
Proof.
  destruct (grows_refl _ Hwf) as [G1 _ G3 _].
  constructor; simpl in *; auto.
  - exists [problemKey p]. now rewrite map_app.
  - intros q Hq Hpos. destruct (G3 q Hq Hpos) as (q' & Hf & Hrest).
    exists q'. split; [|exact Hrest]. now rewrite find_app, Hf.
Qed.

Lemma grows_problems_update w f us' rs' :
  map userKey us' = map userKey us ->
  (forall q, problemKey (f q) = problemKey q) ->
  (forall q, In q ps -> w q = true -> 0 < Problem.originalBaseScore q ->
             Problem.originalBaseScore (f q) = Problem.originalBaseScore q) ->
  grows (mkDB us ps rs n) (mkDB us' (updateWhere w f ps) rs' n).
Proof.
  intros Hu Hkey Ho.
  constructor; simpl; auto.
  - exists []. now rewrite app_nil_r.
  - exists []. rewrite app_nil_r. now apply map_updateWhere.
  - intros q Hq Hpos.
    assert (Hf : find (Prisma.problem_byId (Problem.id q)) ps = Some q)
      by (apply (find_byKey_NoDup Problem.id); auto; apply Hwf).
    rewrite find_updateWhere.
    + rewrite Hf. simpl. destruct (w q) eqn:E.
      * exists (f q). splits; auto.
      * exists q. splits; auto.
    + intros x. unfold Prisma.problem_byId.
      specialize (Hkey x). unfold problemKey in Hkey.
      injection Hkey as -> _. reflexivity.
Qed.

End GrowsWrites.

Lemma map_userKey_clamp (g : User.t -> Z) us :
  map userKey (map (fun u => clampAdd (g u) u) us) = map userKey us.
Proof. rewrite map_map. reflexivity. Qed.

Lemma grows_userEnsured d db : wf db -> grows db (userEnsured d db).
Proof.
  intros Hwf. unfold userEnsured.
  destruct (find (Prisma.user_byDiscordId d) (users db));
    [now apply grows_refl|].
  destruct db as [us ps rs n]. now apply grows_users_snoc.
Qed.

Lemma grows_setBalance d v db : wf db -> grows db (setBalance d v db).
Proof.
  intros Hwf. destruct db as [us ps rs n]. unfold setBalance. simpl.
  apply grows_users_same; auto. now apply map_updateWhere.
Qed.

Lemma grows_addXP d amount db : wf db -> grows db (snd (addXP d amount db)).
Proof.
  intros Hwf.
  destruct (find (Prisma.user_byDiscordId d) (users db)) as [u|] eqn:E.
  - rewrite (addXP_found _ _ _ _ E). now apply grows_setBalance.
  - rewrite (addXP_missing _ _ _ E). destruct db as [us ps rs n].
    now apply grows_users_snoc.
Qed.

Lemma grows_removeXP d amount db :
  wf db -> grows db (snd (removeXP d amount db)).
Proof.
  intros Hwf.
  destruct (find (Prisma.user_byDiscordId d) (users db)) as [u|] eqn:E.
  - rewrite (removeXP_found _ _ _ _ E). now apply grows_setBalance.
  - rewrite (removeXP_missing _ _ _ E). destruct db as [us ps rs n].
    now apply grows_users_snoc.
Qed.

Lemma grows_afterReset p db : wf db -> grows db (afterReset p db).
Proof.
  intros Hwf. destruct db as [us ps rs n]. unfold afterReset. simpl.
  now apply grows_problems_update.
Qed.

Lemma grows_afterFinalize now p db : wf db -> grows db (afterFinalize now p db).
Proof.
  intros Hwf. destruct db as [us ps rs n]. unfold afterFinalize. simpl.
  apply grows_problems_update; auto. apply map_userKey_clamp.
Qed.

Lemma grows_afterUnfinalize p db : wf db -> grows db (afterUnfinalize p db).
Proof.
  intros Hwf. destruct db as [us ps rs n]. unfold afterUnfinalize. simpl.
  apply grows_problems_update; auto. apply map_userKey_clamp.
Qed.

Lemma grows_problemEnsured sheet n db :
  wf db -> grows db (problemEnsured sheet n db).
Proof.
  intros Hwf. unfold problemEnsured.
  destruct (find (Prisma.problem_byNumber n) (problems db));
    [now apply grows_refl|].
  destruct (sheet n); [|now apply grows_refl].
  destruct db as [us ps rs k]. now apply grows_problems_snoc.
Qed.

Lemma grows_originalEnsured sheet n db :
  wf db -> grows db (originalEnsured sheet n db).
Proof.
  intros Hwf. unfold originalEnsured.
  destruct (find (Prisma.problem_byNumber n) (problems db)) as [p|] eqn:E;
    [|now apply grows_refl].
  destruct (sheet n); [|now apply grows_refl].
  destruct (Z.leb_spec (Problem.originalBaseScore p) 0) as [Hle|Hlt];
    [|now apply grows_refl].
  apply find_some in E. destruct E as [Hp _].
  destruct db as [us ps rs k]. simpl in *.
  apply grows_problems_update; auto.
  intros q Hq Hw Hpos. apply Nat.eqb_eq in Hw.
  assert (q = p)
    by (apply (NoDup_key_eq Problem.id ps); auto; apply Hwf).
  subst q. lia.
Qed.

Lemma wf_originalEnsured sheet n db : wf db -> wf (originalEnsured sheet n db).
Proof.
  intros Hwf. unfold originalEnsured.
  destruct (find (Prisma.problem_byNumber n) (problems db)); [|assumption].
  destruct (sheet n); [|assumption].
  destruct (Problem.originalBaseScore t <=? 0); [|assumption].
  destruct db as [us ps rs k]. now apply wf_problems_update.
Qed.

Lemma grows_resolvedStore sheet d n db :
  wf db -> grows db (resolvedStore sheet d n db).
Proof.
  intros Hwf. unfold resolvedStore.
  eapply grows_trans; [apply grows_problemEnsured; exact Hwf|].
  eapply grows_trans;
    [apply grows_originalEnsured; now apply wf_problemEnsured|].
  apply grows_userEnsured. now apply wf_originalEnsured, wf_problemEnsured.
Qed.

Lemma grows_rowEnsured u p db : wf db -> grows db (rowEnsured u p db).
Proof.
  intros Hwf. unfold rowEnsured.
  destruct (find (Prisma.attempt_byUserProblem u p) (userAttempts db));
    [now apply grows_refl|].
  destruct (grows_refl _ Hwf) as [G1 G2 G3 G4].
  constructor; simpl; auto.
Qed.

Lemma grows_recordedStore c d p u a s : wf s -> grows s (recordedStore c d p u a s).
Proof.
  intros Hwf. unfold recordedStore. cbv zeta.
  destruct s as [us ps rs k]. simpl.
  rewrite updateWhere_updateWhere_same by reflexivity.
  destruct (newlySolved c a);
    apply grows_problems_update; auto. now apply map_updateWhere.
Qed.

Lemma grows_recordAttempt sheet d n c db :
  wf db -> grows db (snd (recordAttempt sheet d n c db)).
Proof.
  intros Hwf.
  destruct (recordAttempt sheet d n c db) as [[res|e] db'] eqn:E.
  - destruct (recordAttempt_store _ _ _ _ _ _ _ Hwf E)
      as (p & u & a & Hwfs & Hwfs' & _ & _ & _ & _ & _ & _ & _ & ->).
    simpl.
    eapply grows_trans; [apply grows_resolvedStore; exact Hwf|].
    eapply grows_trans; [apply grows_rowEnsured; exact Hwfs|].
    now apply grows_recordedStore.
  - destruct (recordAttempt_throws _ _ _ _ _ _ _ Hwf E) as [-> _].
    now apply grows_refl.
Qed.

Lemma grows_exec o db : wf db -> grows db (exec o db).
Proof.
  intros Hwf. destruct o; simpl.
  - rewrite userEnsured_run. now apply grows_userEnsured.
  - now apply grows_addXP.
  - now apply grows_removeXP.
  - destruct (find (Prisma.problem_byNumber problemNumber) (problems db))
      as [p|] eqn:E.
    + rewrite (resetProblemStats_run _ _ _ Hwf E). now apply grows_afterReset.
    + rewrite (resetProblemStats_missing _ _ E). now apply grows_refl.
  - rewrite (finalizeProblemScoring_store _ _ _ Hwf).
    destruct (find (Prisma.problem_byNumber problemNumber) (problems db));
      [|now apply grows_refl].
    destruct (Problem.isFinalized t); [now apply grows_refl|].
    now apply grows_afterFinalize.
  - rewrite (unfinalizeProblemScoring_store _ _ Hwf).
    destruct (find (Prisma.problem_byNumber problemNumber) (problems db));
      [|now apply grows_refl].
    destruct (Problem.isFinalized t); [|now apply grows_refl].
    now apply grows_afterUnfinalize.
  - now apply grows_recordAttempt.
Qed.

(* ================================================================== *)
(** ** A recorded attempt, in closed form *)
(* ================================================================== *)

Lemma userEnsured_problems d db : problems (userEnsured d db) = problems db.
Proof.
  unfold userEnsured. now destruct (find (Prisma.user_byDiscordId d) (users db)).
Qed.

Lemma userEnsured_rows d db : userAttempts (userEnsured d db) = userAttempts db.
Proof.
  unfold userEnsured. now destruct (find (Prisma.user_byDiscordId d) (users db)).
Qed.

Lemma originalEnsured_users sheet n db :
  users (originalEnsured sheet n db) = users db
  /\ userAttempts (originalEnsured sheet n db) = userAttempts db
  /\ nextId (originalEnsured sheet n db) = nextId db.
Proof.
  unfold originalEnsured.
  destruct (find (Prisma.problem_byNumber n) (problems db)); [|auto].
  destruct (sheet n); [|auto].
  destruct (Problem.originalBaseScore t <=? 0); auto.
Qed.

Lemma problemEnsured_users sheet n db :
  users (problemEnsured sheet n db) = users db
  /\ userAttempts (problemEnsured sheet n db) = userAttempts db
  /\ (nextId db <= nextId (problemEnsured sheet n db))%nat.
Proof.
  unfold problemEnsured.
  destruct (find (Prisma.problem_byNumber n) (problems db)); [auto|].
  destruct (sheet n); simpl; auto.
Qed.

Lemma resolvedStore_rows sheet d n db :
  userAttempts (resolvedStore sheet d n db) = userAttempts db.
Proof.
  unfold resolvedStore. rewrite userEnsured_rows.
  destruct (originalEnsured_users sheet n (problemEnsured sheet n db))
    as (_ & -> & _).
  apply problemEnsured_users.
Qed.

Lemma resolvedStore_next sheet d n db :
  (nextId db <= nextId (resolvedStore sheet d n db))%nat.
Proof.
  unfold resolvedStore, userEnsured.
  destruct (originalEnsured_users sheet n (problemEnsured sheet n db))
    as (_ & _ & Hn).
  destruct (problemEnsured_users sheet n db) as (_ & _ & Hle).
  destruct (find _ _); simpl; lia.
Qed.

Lemma find_problem_resolved sheet d n db p :
  wf db -> resolvedProblem sheet n db = Some p ->
  find (Prisma.problem_byNumber n) (problems (resolvedStore sheet d n db))
  = Some p.
Proof.
  intros Hwf. unfold resolvedStore, resolvedProblem.
  rewrite userEnsured_problems. unfold originalEnsured, problemEnsured.
  destruct (find (Prisma.problem_byNumber n) (problems db)) as [q|] eqn:E.
  - destruct (problem_byNumber_found _ _ _ Hwf E) as (Hid & _ & _).
    destruct (sheet n) as [v|]; rewrite E.
    + destruct (Problem.originalBaseScore q <=? 0); intros [= <-];
        [|exact E].
      simpl. rewrite (find_problem_updated _ _ _ _ q) by auto.
      now rewrite problem_byId_self.
    + destruct (Problem.originalBaseScore q <=? 0); [discriminate|].
      now intros [= <-].
  - destruct (sheet n) as [v|]; [|discriminate]. intros [= <-].
    assert (Hnew :
      find (Prisma.problem_byNumber n)
           (problems db ++ [Problem.mk (nextId db) n v v 0 0 false None])
      = Some (Problem.mk (nextId db) n v v 0 0 false None)).
    { rewrite find_app, E. simpl. unfold Prisma.problem_byNumber. simpl.
      now rewrite String.eqb_refl. }
    simpl. rewrite Hnew. simpl.
    destruct (v <=? 0); [|exact Hnew].
    simpl.
    rewrite (find_problem_updated n _ (Problem.set_originalBaseScore v) _ _
               (fun _ => eq_refl) Hnew).
    now destruct (Prisma.problem_byId _ _).
Qed.

Lemma find_user_resolved sheet d n db :
  find (Prisma.user_byDiscordId d) (users (resolvedStore sheet d n db))
  = Some (resolvedUser sheet d n db).
Proof.
  unfold resolvedStore, resolvedUser, userEnsured.
  destruct (originalEnsured_users sheet n (problemEnsured sheet n db))
    as (Hu & _ & Hn).
  destruct (problemEnsured_users sheet n db) as (Hu' & _ & _).
  rewrite Hu, Hu', Hn.
  destruct (find (Prisma.user_byDiscordId d) (users db)) as [u|] eqn:E.
  - now rewrite Hu, Hu'.
  - simpl. rewrite find_app, E. simpl.
    now rewrite user_byDiscordId_mk.
Qed.

Lemma find_row_ensured u p s :
  find (Prisma.attempt_byUserProblem u p) (userAttempts (rowEnsured u p s))
  = Some (rowAsRead u p s).
Proof.
  unfold rowEnsured, rowAsRead.
  destruct (find (Prisma.attempt_byUserProblem u p) (userAttempts s)) eqn:E;
    [exact E|].
  simpl. rewrite find_app, E. simpl. unfold Prisma.attempt_byUserProblem.
  simpl. now rewrite !Nat.eqb_refl.
Qed.

(** The call returns exactly when it resolves a problem that is open. *)
Lemma recordAttemptFails_iff sheet n db :
  recordAttemptFails sheet db n <->
  match resolvedProblem sheet n db with
  | Some p => Problem.isFinalized p = true
  | None => True
  end.
Proof.
  unfold recordAttemptFails, resolvedProblem.
  destruct (find (Prisma.problem_byNumber n) (problems db)) as [q|].
  - destruct (sheet n) as [v|];
      destruct (Z.leb_spec (Problem.originalBaseScore q) 0); simpl;
      intuition (try congruence; try lia).
  - destruct (sheet n); simpl; intuition congruence.
Qed.

Lemma recordAttempt_run sheet d n c db p :
  wf db -> resolvedProblem sheet n db = Some p ->
  Problem.isFinalized p = false ->
  let u := resolvedUser sheet d n db in
  let s := resolvedStore sheet d n db in
  let a := rowAsRead (User.id u) (Problem.id p) s in
  let s' := rowEnsured (User.id u) (Problem.id p) s in
  recordAttempt sheet d n c db
  = (Ok (attemptResultOf c p u a (countedSolves c p a (userAttempts s'))),
     recordedStore c d p u a s').
Proof.
  intros Hwf Hp Hopen. cbv zeta.
  destruct (recordAttempt_total sheet d n c db Hwf) as (res & db' & Hrun).
  { rewrite recordAttemptFails_iff, Hp. congruence. }
  destruct (recordAttempt_store _ _ _ _ _ _ _ Hwf Hrun)
    as (p' & u' & a' & _ & _ & Hp' & _ & Hu' & Ha' & _ & _ & -> & ->).
  rewrite (find_problem_resolved sheet d n db p Hwf Hp) in Hp'.
  injection Hp' as <-.
  rewrite find_user_resolved in Hu'. injection Hu' as <-.
  rewrite find_row_ensured in Ha'. injection Ha' as <-.
  exact Hrun.
Qed.

(** The row read is the row the user had, or a fresh one. *)
Lemma rowAsRead_before sheet d n db p :
  wf db -> resolvedProblem sheet n db = Some p ->
  let u := resolvedUser sheet d n db in
  let s := resolvedStore sheet d n db in
  match attemptOf db d n with
  | Some a0 => rowAsRead (User.id u) (Problem.id p) s = a0
               /\ rowEnsured (User.id u) (Problem.id p) s = s
  | None => rowAsRead (User.id u) (Problem.id p) s
            = UserAttempt.mk (nextId s) (User.id u) (Problem.id p)
                             0 false 0 None 0
  end.
Proof.
  intros Hwf Hp u s.
  pose proof (resolvedStore_rows sheet d n db) as Hrows. fold s in Hrows.
  pose proof (wf_attempt_fresh Hwf) as Hfresh. rewrite Forall_forall in Hfresh.
  assert (Hnone : forall i j,
             (nextId db <= i)%nat \/ (nextId db <= j)%nat ->
             find (Prisma.attempt_byUserProblem i j) (userAttempts db) = None).
  { intros i j Hij. apply find_none_iff. intros r Hr.
    destruct (Hfresh r Hr) as (_ & Hu & Hq).
    unfold Prisma.attempt_byUserProblem. apply andb_false_iff.
    destruct Hij; [left|right]; apply Nat.eqb_neq; lia. }
  assert (Hpid :
    match find (Prisma.problem_byNumber n) (problems db) with
    | Some q => Problem.id p = Problem.id q
    | None => (nextId db <= Problem.id p)%nat
    end).
  { revert Hp. unfold resolvedProblem.
    destruct (find (Prisma.problem_byNumber n) (problems db)) as [q|].
    - destruct (sheet n);
        destruct (Problem.originalBaseScore q <=? 0); intros [= <-];
        reflexivity.
    - destruct (sheet n); intros [= <-]. simpl. lia. }
  assert (Huid :
    match find (Prisma.user_byDiscordId d) (users db) with
    | Some u0 => u = u0
    | None => (nextId db <= User.id u)%nat
    end).
  { unfold u, resolvedUser.
    destruct (find (Prisma.user_byDiscordId d) (users db)); [reflexivity|].
    simpl. apply problemEnsured_users. }
  unfold attemptOf, rowAsRead, rowEnsured. rewrite Hrows.
  destruct (find (Prisma.user_byDiscordId d) (users db)) as [u0|].
  - destruct (find (Prisma.problem_byNumber n) (problems db)) as [q|].
    + rewrite Huid, Hpid.
      destruct (find (Prisma.attempt_byUserProblem (User.id u0) (Problem.id q))
                     (userAttempts db)); auto.
    + now rewrite (Hnone _ _ (or_intror Hpid)).
  - now rewrite (Hnone _ _ (or_introl Huid)).
Qed.

Lemma rowAsRead_attempts sheet d n db p :
  wf db -> resolvedProblem sheet n db = Some p ->
  UserAttempt.attempts
    (rowAsRead (User.id (resolvedUser sheet d n db)) (Problem.id p)
               (resolvedStore sheet d n db))
  = attemptsBefore db d n
  /\ UserAttempt.solved
       (rowAsRead (User.id (resolvedUser sheet d n db)) (Problem.id p)
                  (resolvedStore sheet d n db))
     = solvedBefore db d n.
Proof.
  intros Hwf Hp. pose proof (rowAsRead_before sheet d n db p Hwf Hp) as H.
  cbv zeta in H. unfold attemptsBefore, solvedBefore.
  destruct (attemptOf db d n) as [a0|].
  - destruct H as [-> _]. auto.
  - rewrite H. auto.
Qed.

Lemma resolvedUser_xp sheet d n db :
  User.xp (resolvedUser sheet d n db) = balanceOf db d.
Proof.
  unfold resolvedUser, balanceOf.
  now destruct (find (Prisma.user_byDiscordId d) (users db)).
Qed.

(* ================================================================== *)
(** ** The decay model, further *)
(* ================================================================== *)

Section DecayFacts.
Local Open Scope Q_scope.

Lemma getSolveWeight_le_1 (attempts : Z) : getSolveWeight attempts <= 1.
Proof.
  destruct (Z.le_gt_cases 1 attempts) as [H|H].
  - rewrite <- getSolveWeight_first. now apply getSolveWeight_antitone.
  - unfold getSolveWeight, getWrongAttempts, MAX_WRONG_ATTEMPTS.
    replace (Z.max 0 (Z.min 5 (attempts - 1))) with 0%Z by lia.
    apply Qle_refl.
Qed.

Lemma getSolveWeight_floor (attempts : Z) :
  0.32768 <= getSolveWeight attempts.
Proof.
  assert (H6 : 0.32768 <= getSolveWeight 6) by (vm_compute; discriminate).
  destruct (Z.le_gt_cases 6 attempts) as [H|H].
  - now rewrite (getSolveWeight_clamped attempts H).
  - eapply Qle_trans; [exact H6|]. apply getSolveWeight_antitone. lia.
Qed.

Lemma Math_floor_scaled_mono (base : Z) (v w : Q) :
  (0 <= base)%Z -> v <= w ->
  (Math_floor_scaled base v <= Math_floor_scaled base w)%Z.
Proof.
  intros Hb Hvw. unfold Math_floor_scaled. apply Qfloor_resp_le.
  rewrite !(Qmult_comm (inject_Z base)).
  apply Qmult_le_compat_r; [assumption|].
  change 0 with (inject_Z 0). now rewrite <- Zle_Qle.
Qed.

Lemma Math_floor_scaled_1 (base : Z) : Math_floor_scaled base 1 = base.
Proof.
  unfold Math_floor_scaled.
  rewrite <- (Qfloor_Z base) at 2. apply Qfloor_comp. ring.
Qed.

Lemma sumSolveWeights_from (l : list Z) (acc : Q) :
  fold_left (fun sum attempts => sum + getSolveWeight attempts) l acc
  == acc + sumSolveWeights l.
Proof.
  unfold sumSolveWeights. revert acc.
  induction l as [|x l IH]; intros acc; simpl.
  - ring.
  - rewrite IH, (IH (0 + getSolveWeight x)). ring.
Qed.

Lemma sumSolveWeights_cons (x : Z) (l : list Z) :
  sumSolveWeights (x :: l) == getSolveWeight x + sumSolveWeights l.
Proof.
  unfold sumSolveWeights at 1. simpl. rewrite sumSolveWeights_from. ring.
Qed.

Lemma sumSolveWeights_bounds (l : list Z) :
  0.32768 * inject_Z (Z.of_nat (List.length l)) <= sumSolveWeights l
  /\ sumSolveWeights l <= inject_Z (Z.of_nat (List.length l)).
Proof.
  induction l as [|x l [IHlo IHhi]].
  - split; vm_compute; discriminate.
  - rewrite sumSolveWeights_cons.
    replace (Z.of_nat (List.length (x :: l)))
      with (1 + Z.of_nat (List.length l))%Z by (simpl List.length; lia).
    rewrite inject_Z_plus.
    pose proof (getSolveWeight_le_1 x) as H1.
    pose proof (getSolveWeight_floor x) as H0.
    split.
    + setoid_replace (0.32768 * (inject_Z 1 + inject_Z (Z.of_nat (List.length l))))
        with (0.32768 + 0.32768 * inject_Z (Z.of_nat (List.length l)))
        by ring.
      now apply Qplus_le_compat.
    + now apply Qplus_le_compat.
Qed.

Lemma sumSolveWeights_nonneg (l : list Z) : 0 <= sumSolveWeights l.
Proof.
  eapply Qle_trans; [|apply sumSolveWeights_bounds].
  apply Qmult_le_0_compat; [discriminate|].
  change 0 with (inject_Z 0). rewrite <- Zle_Qle. lia.
Qed.

Lemma curved_antitone (v w : Q) : v <= w -> (curved w <= curved v)%R.
Proof.
  intros Hvw. apply Qle_Rle in Hvw. unfold curved.
  assert (HA : (0 <= CURVE_A1)%R) by (unfold CURVE_A1; lra).
  assert (HB : (0 <= CURVE_B1)%R) by (unfold CURVE_B1; lra).
  apply Rplus_le_compat; apply Rmult_le_compat_l; try assumption;
    apply exp_mono.
  - unfold CURVE_a1. nra.
  - unfold CURVE_b1. nra.
Qed.

Lemma getDynamicBase_antitone (v w : Q) :
  v <= w ->
  (getDynamicBaseFromWeightedSolves w
   <= getDynamicBaseFromWeightedSolves v)%Z.
Proof.
  intros Hvw. unfold getDynamicBaseFromWeightedSolves, Math_round.
  apply Z.max_le_compat_l. apply Zfloor_le.
  apply Rplus_le_compat_r. now apply curved_antitone.
Qed.

End DecayFacts.

(** X1: for a base score that is not negative, the award
    [Math.floor(base * getSolveWeight(attempts))] is at most [base] and at
    least [Math.floor(base * 0.32768)] (the weight after five wrong
    attempts); it is [base] itself on a first attempt, it never grows
    with the number of attempts, and it is the same from the sixth
    attempt on. *)
Theorem X1_award_is_bounded_and_never_grows (base attempts : Z)
  (Hbase : 0 <= base) :
  Math_floor_scaled base 0.32768%Q
    <= Math_floor_scaled base (getSolveWeight attempts) <= base
  /\ Math_floor_scaled base (getSolveWeight 1) = base
  /\ Math_floor_scaled base (getSolveWeight (attempts + 1))
     <= Math_floor_scaled base (getSolveWeight attempts)
  /\ (6 <= attempts ->
      Math_floor_scaled base (getSolveWeight attempts)
      = Math_floor_scaled base (getSolveWeight 6)).
Proof.
  splits.
  - apply Math_floor_scaled_mono; [assumption | apply getSolveWeight_floor].
  - rewrite <- (Math_floor_scaled_1 base) at 2.
    apply Math_floor_scaled_mono; [assumption | apply getSolveWeight_le_1].
  - rewrite getSolveWeight_first. apply Math_floor_scaled_1.
  - apply Math_floor_scaled_mono; [assumption|].
    apply getSolveWeight_antitone. lia.
  - intros H. now rewrite (getSolveWeight_clamped attempts H).
Qed.

Lemma X1_witness :
  Math_floor_scaled 100 0.32768%Q
    <= Math_floor_scaled 100 (getSolveWeight 3) <= 100
  /\ Math_floor_scaled 100 (getSolveWeight 1) = 100
  /\ Math_floor_scaled 100 (getSolveWeight (3 + 1))
     <= Math_floor_scaled 100 (getSolveWeight 3)
  /\ (6 <= 3 ->
      Math_floor_scaled 100 (getSolveWeight 3)
      = Math_floor_scaled 100 (getSolveWeight 6)).
Proof. apply (X1_award_is_bounded_and_never_grows 100 3). lia. Defined.

(** X2: the dynamic base score never grows with the weighted solves: for
    [v <= w] the score at [w] is at most the score at [v]; from no solve
    on it stays between the minimum 25 and 34, and from one full solve
    on it is the minimum. *)
Theorem X2_dynamic_base_never_grows (v w : Q) (Hv : (0 <= v)%Q)
  (Hvw : (v <= w)%Q) :
  25 <= getDynamicBaseFromWeightedSolves w
     <= getDynamicBaseFromWeightedSolves v
  /\ getDynamicBaseFromWeightedSolves v <= 34
  /\ ((1 <= v)%Q -> getDynamicBaseFromWeightedSolves w = 25).
Proof.
  splits.
  - apply getDynamicBase_min.
  - now apply getDynamicBase_antitone.
  - now apply getDynamicBase_upper.
  - intros H1. apply getDynamicBase_from_1. eapply Qle_trans; eassumption.
Qed.

Lemma X2_witness :
  25 <= getDynamicBaseFromWeightedSolves 1.8%Q
     <= getDynamicBaseFromWeightedSolves 1%Q
  /\ getDynamicBaseFromWeightedSolves 1%Q <= 34
  /\ ((1 <= 1)%Q -> getDynamicBaseFromWeightedSolves 1.8%Q = 25).
Proof.
  apply (X2_dynamic_base_never_grows 1%Q 1.8%Q); vm_compute; discriminate.
Defined.

(** X3: [getWeightedSolves] returns without touching the store, and the
    sum it returns for [k] solved rows of the problem lies between
    [0.32768 * k] and [k]: every solve weighs at most one and at least
    [0.8 ^ 5]. *)
Theorem X3_weighted_solves_are_bounded_by_the_solve_count
  (db : DB) (problemId : Id) :
  exists ws,
    getWeightedSolves problemId db = (Ok ws, db)
    /\ ws = weightedSolvesOf db problemId
    /\ (0.32768 * inject_Z (solvedCount (userAttempts db) problemId) <= ws)%Q
    /\ (ws <= inject_Z (solvedCount (userAttempts db) problemId))%Q.
Proof.
  exists (weightedSolvesOf db problemId).
  split; [reflexivity|]. split; [reflexivity|].
  unfold weightedSolvesOf, solvedRows, solvedCount, countWhere.
  rewrite <- (length_map UserAttempt.attempts).
  apply sumSolveWeights_bounds.
Qed.

(** *** What the store of a recorded attempt holds *)

Lemma rowEnsured_users u p s :
  users (rowEnsured u p s) = users s
  /\ problems (rowEnsured u p s) = problems s.
Proof.
  unfold rowEnsured.
  now destruct (find (Prisma.attempt_byUserProblem u p) (userAttempts s)).
Qed.

(** The values a returning call holds, in the store where it resolved
    them. *)
Lemma recordAttempt_resolved sheet d n db p :
  wf db -> resolvedProblem sheet n db = Some p ->
  Problem.isFinalized p = false ->
  let u := resolvedUser sheet d n db in
  let s := resolvedStore sheet d n db in
  let a := rowAsRead (User.id u) (Problem.id p) s in
  let s' := rowEnsured (User.id u) (Problem.id p) s in
  wf s /\ wf s'
  /\ find (Prisma.problem_byNumber n) (problems s') = Some p
  /\ find (Prisma.user_byDiscordId d) (users s') = Some u
  /\ find (Prisma.attempt_byUserProblem (User.id u) (Problem.id p))
          (userAttempts s') = Some a.
Proof.
  intros Hwf Hp Hopen. cbv zeta.
  destruct (recordAttempt_total sheet d n true db Hwf) as (res & db' & Hrun).
  { rewrite recordAttemptFails_iff, Hp. congruence. }
  destruct (recordAttempt_store _ _ _ _ _ _ _ Hwf Hrun)
    as (p' & u' & a' & Hwfs & Hwfs' & Hp' & _ & Hu' & Ha' & _).
  rewrite (find_problem_resolved sheet d n db p Hwf Hp) in Hp'.
  injection Hp' as <-.
  rewrite find_user_resolved in Hu'. injection Hu' as <-.
  destruct (rowEnsured_users (User.id (resolvedUser sheet d n db))
              (Problem.id p) (resolvedStore sheet d n db)) as [-> ->].
  splits; auto.
  - now apply find_problem_resolved.
  - apply find_user_resolved.
  - apply find_row_ensured.
Qed.

Lemma set_xp_same u : User.set_xp (User.xp u) u = u.
Proof. now destruct u. Qed.

Section RecordedStore.
Variables (c : bool) (d n : string) (p : Problem.t) (u : User.t)
          (a : UserAttempt.t) (s : DB).
Hypothesis Hp : find (Prisma.problem_byNumber n) (problems s) = Some p.
Hypothesis Hu : find (Prisma.user_byDiscordId d) (users s) = Some u.
Hypothesis Ha :
  find (Prisma.attempt_byUserProblem (User.id u) (Problem.id p))
       (userAttempts s) = Some a.

Lemma recordedStore_problem :
  find (Prisma.problem_byNumber n) (problems (recordedStore c d p u a s))
  = Some (storedProblemOf c p a (countedSolves c p a (userAttempts s))).
Proof.
  unfold recordedStore. cbv zeta.
  match goal with
  | |- find _ (problems (if _ then mkDB _ ?ps _ _ else mkDB _ ?ps _ _)) = _ =>
      assert (H : find (Prisma.problem_byNumber n) ps
                  = Some (storedProblemOf c p a
                            (countedSolves c p a (userAttempts s))))
  end.
  { rewrite (find_problem_updated _ _ _ _
               (Problem.set_counters (Problem.attempts p + 1)
                  (Problem.solves p
                   + (if newlySolved c a then 1 else 0)) p));
      [|reflexivity|].
    - change (Prisma.problem_byId (Problem.id p)
                (Problem.set_counters (Problem.attempts p + 1)
                   (Problem.solves p
                    + (if newlySolved c a then 1 else 0)) p))
        with (Prisma.problem_byId (Problem.id p) p).
      now rewrite problem_byId_self.
    - rewrite (find_problem_updated _ _ _ _ p); auto.
      now rewrite problem_byId_self. }
  now destruct (newlySolved c a).
Qed.

Lemma recordedStore_user :
  find (Prisma.user_byDiscordId d) (users (recordedStore c d p u a s))
  = Some (User.set_xp
            (if newlySolved c a then Z.max 0 (User.xp u + awardFor p a)
             else User.xp u) u).
Proof.
  unfold recordedStore. cbv zeta. destruct (newlySolved c a); simpl.
  - rewrite find_updateWhere by reflexivity. rewrite Hu. simpl.
    pose proof (find_some _ _ Hu) as [_ Hd]. now rewrite Hd.
  - rewrite Hu. f_equal. symmetry. apply set_xp_same.
Qed.

Lemma recordedStore_row :
  find (Prisma.attempt_byUserProblem (User.id u) (Problem.id p))
       (userAttempts (recordedStore c d p u a s))
  = Some (storedAttemptOf c p a).
Proof.
  assert (H1 :
    find (Prisma.attempt_byUserProblem (User.id u) (Problem.id p))
         (countedRows c a (userAttempts s))
    = Some (UserAttempt.set_progress (UserAttempt.attempts a + 1)
              (UserAttempt.solved a || c) a)).
  { unfold countedRows. rewrite (find_attempt_updated _ _ _ _ _ a); auto.
    now rewrite attempt_byId_self. }
  unfold recordedStore, storedAttemptOf. cbv zeta.
  destruct (newlySolved c a); simpl; [|exact H1].
  erewrite find_attempt_updated;
    [|intros; reflexivity|intros; reflexivity|exact H1].
  change (Prisma.attempt_byId (UserAttempt.id a)
            (UserAttempt.set_progress (UserAttempt.attempts a + 1)
               (UserAttempt.solved a || c) a))
    with (Prisma.attempt_byId (UserAttempt.id a) a).
  now rewrite attempt_byId_self.
Qed.

Lemma recordedStore_attemptOf :
  attemptOf (recordedStore c d p u a s) d n = Some (storedAttemptOf c p a).
Proof.
  unfold attemptOf.
  rewrite recordedStore_user, recordedStore_problem. simpl.
  apply recordedStore_row.
Qed.

Lemma recordedStore_balance :
  balanceOf (recordedStore c d p u a s) d
  = if newlySolved c a then Z.max 0 (User.xp u + awardFor p a)
    else User.xp u.
Proof. unfold balanceOf. now rewrite recordedStore_user. Qed.

(** The solved rows of the problem, after the call. *)
Lemma recordedStore_solvedRows :
  map UserAttempt.attempts
      (solvedRows (recordedStore c d p u a s) (Problem.id p))
  = map UserAttempt.attempts
        (filter (Prisma.attempt_solvedOfProblem (Problem.id p))
                (countedRows c a (userAttempts s))).
Proof.
  unfold solvedRows, recordedStore. cbv zeta.
  destruct (newlySolved c a); simpl; [|reflexivity].
  rewrite filter_updateWhere by reflexivity.
  now rewrite map_updateWhere.
Qed.

End RecordedStore.

(* ================================================================== *)
(** ** The ledger and the tables, further *)
(* ================================================================== *)

(** X4: [getOrCreateUser] always returns a user with the external id
    asked for, and is idempotent: a second call returns the same user and
    changes nothing.  A user that was missing is appended with a balance
    of 0; a user that exists leaves the store as it was. *)
Theorem X4_getOrCreateUser_is_idempotent (db : DB) (d : string) :
  exists u db1,
    getOrCreateUser d db = (Ok u, db1)
    /\ User.discordId u = d
    /\ getOrCreateUser d db1 = (Ok u, db1)
    /\ match find (Prisma.user_byDiscordId d) (users db) with
       | Some u0 => u = u0 /\ db1 = db
       | None => User.xp u = 0 /\ users db1 = users db ++ [u]
                 /\ problems db1 = problems db
                 /\ userAttempts db1 = userAttempts db
       end.
Proof.
  destruct (find (Prisma.user_byDiscordId d) (users db)) as [u0|] eqn:E.
  - exists u0, db. rewrite (getOrCreateUser_found _ _ _ E). splits; auto.
    apply find_some in E. destruct E as [_ E]. now apply String.eqb_eq in E.
  - rewrite (getOrCreateUser_missing _ _ E).
    eexists. eexists. split; [reflexivity|]. splits; auto.
    apply getOrCreateUser_found. simpl. rewrite find_app, E. simpl.
    now rewrite user_byDiscordId_mk.
Qed.

Lemma balanceOf_addXP d amount db :
  balanceOf (snd (addXP d amount db)) d = Z.max 0 (balanceOf db d + amount).
Proof.
  unfold balanceOf at 2.
  destruct (find (Prisma.user_byDiscordId d) (users db)) as [u|] eqn:E.
  - rewrite (addXP_found _ _ _ _ E). unfold balanceOf, setBalance. simpl.
    rewrite find_updateWhere by reflexivity. rewrite E. simpl.
    apply find_some in E. destruct E as [_ E]. now rewrite E.
  - rewrite (addXP_missing _ _ _ E). unfold balanceOf. simpl.
    rewrite find_app, E. simpl. now rewrite user_byDiscordId_mk.
Qed.

(** X5: [removeXP] is [addXP] of the negated amount.  On a store whose
    balances are not negative and for an amount that is not negative,
    removing what was just added gives the balance back; adding what was
    just removed gives it back only when the balance covered the amount,
    and gives the amount otherwise. *)
Theorem X5_removeXP_undoes_addXP (db : DB) (d : string) (amount : Z)
  (Hreach : reachable db) (Hamount : 0 <= amount) :
  removeXP d amount db = addXP d (- amount) db
  /\ balanceOf (snd (removeXP d amount (snd (addXP d amount db)))) d
     = balanceOf db d
  /\ balanceOf (snd (addXP d amount (snd (removeXP d amount db)))) d
     = Z.max (balanceOf db d) amount.
Proof.
  assert (Hsame : forall s, removeXP d amount s = addXP d (- amount) s)
    by reflexivity.
  assert (Hbal : 0 <= balanceOf db d).
  { unfold balanceOf.
    destruct (find (Prisma.user_byDiscordId d) (users db)) as [u|] eqn:E;
      [|lia].
    apply find_some in E. destruct E as [Hin _].
    pose proof (wf_xp (reachable_wf _ Hreach)) as Hxp.
    rewrite Forall_forall in Hxp. now apply Hxp. }
  split; [apply Hsame|].
  rewrite !Hsame, !balanceOf_addXP. lia.
Qed.

Lemma X5_witness :
  removeXP userA 30 dbSolvedByA = addXP userA (- 30) dbSolvedByA
  /\ balanceOf (snd (removeXP userA 30 (snd (addXP userA 30 dbSolvedByA))))
               userA
     = balanceOf dbSolvedByA userA
  /\ balanceOf (snd (addXP userA 30 (snd (removeXP userA 30 dbSolvedByA))))
               userA
     = Z.max (balanceOf dbSolvedByA userA) 30.
Proof.
  apply (X5_removeXP_undoes_addXP dbSolvedByA userA 30);
    [apply reachable_dbSolvedByA | lia].
Defined.

(** X6: in every reachable store a Discord id names at most one user and
    a problem number at most one problem: the external keys of the two
    tables have no duplicates, although [getOrCreateUser] and
    [recordAttempt] create rows on demand. *)
Theorem X6_external_keys_are_unique (db : DB) (Hreach : reachable db) :
  NoDup (map User.discordId (users db))
  /\ NoDup (map Problem.number (problems db))
  /\ (forall u u', In u (users db) -> In u' (users db) ->
        User.discordId u = User.discordId u' -> u = u')
  /\ (forall p p', In p (problems db) -> In p' (problems db) ->
        Problem.number p = Problem.number p' -> p = p').
Proof.
  destruct (reachable_consistent db Hreach) as [Hd Hn _ _ _ _ _ _].
  splits; auto.
  - intros u u'. now apply NoDup_map_inj.
  - intros p p'. now apply NoDup_map_inj.
Qed.

Lemma X6_witness :
  NoDup (map User.discordId (users dbDrained))
  /\ NoDup (map Problem.number (problems dbDrained))
  /\ (forall u u', In u (users dbDrained) -> In u' (users dbDrained) ->
        User.discordId u = User.discordId u' -> u = u')
  /\ (forall p p', In p (problems dbDrained) -> In p' (problems dbDrained) ->
        Problem.number p = Problem.number p' -> p = p').
Proof. exact (X6_external_keys_are_unique dbDrained reachable_dbDrained). Defined.

(** X7: in every reachable store each attempt row belongs to a user and
    to a problem of the store, counts at least one attempt, and carries
    no award, no snapshot and no delta as long as it is unsolved. *)
Theorem X7_rows_belong_to_a_user_and_a_problem (db : DB) (a : UserAttempt.t)
  (Hreach : reachable db) (Ha : In a (userAttempts db)) :
  (exists u, In u (users db) /\ User.id u = UserAttempt.userId a)
  /\ (exists p, In p (problems db) /\ Problem.id p = UserAttempt.problemId a)
  /\ 1 <= UserAttempt.attempts a
  /\ (UserAttempt.solved a = false ->
      UserAttempt.awardedXp a = 0
      /\ UserAttempt.preFinalizeAwardedXp a = None
      /\ UserAttempt.finalizeDelta a = 0).
Proof.
  destruct (reachable_consistent db Hreach) as [_ _ Ho Hp Hat Hun _ _].
  pose proof (reachable_wf db Hreach) as Hwf.
  pose proof (wf_unsolved Hwf) as Hpre. pose proof (wf_live Hwf) as Hlive.
  rewrite Forall_forall in *.
  splits.
  - specialize (Ho a Ha). apply in_map_iff in Ho. destruct Ho as (u & E & Hu).
    eauto.
  - specialize (Hp a Ha). apply in_map_iff in Hp. destruct Hp as (p & E & Hp).
    eauto.
  - auto.
  - intros Hs. splits; auto.
Qed.

Lemma X7_witness :
  (exists u, In u (users dbSolvedByA)
             /\ User.id u
                = UserAttempt.userId rowSolvedByA)
  /\ (exists p, In p (problems dbSolvedByA)
                /\ Problem.id p
                   = UserAttempt.problemId
                       rowSolvedByA)
  /\ 1 <= UserAttempt.attempts rowSolvedByA
  /\ (UserAttempt.solved rowSolvedByA = false ->
      UserAttempt.awardedXp rowSolvedByA = 0
      /\ UserAttempt.preFinalizeAwardedXp
           rowSolvedByA = None
      /\ UserAttempt.finalizeDelta rowSolvedByA
         = 0).
Proof.
  apply (X7_rows_belong_to_a_user_and_a_problem dbSolvedByA
           rowSolvedByA reachable_dbSolvedByA).
  left. reflexivity.
Defined.

Lemma total_le {T} (g h : T -> Z) l :
  (forall x, In x l -> g x <= h x) -> total g l <= total h l.
Proof.
  induction l as [|x l IH]; intros H; [reflexivity|].
  rewrite !total_cons.
  assert (g x <= h x) by (apply H; now left).
  assert (total g l <= total h l) by (apply IH; intros y Hy; apply H; now right).
  lia.
Qed.

(** X8: in every reachable store the two counters of each problem agree
    with the attempt rows: [solves] is the number of solved rows of the
    problem and [attempts] is the sum of the attempts of its rows; in
    particular [0 <= solves <= attempts]. *)
Theorem X8_problem_counters_match_the_rows (db : DB) (p : Problem.t)
  (Hreach : reachable db) (Hp : In p (problems db)) :
  Problem.solves p
  = countWhere (Prisma.attempt_solvedOfProblem (Problem.id p))
               (userAttempts db)
  /\ Problem.attempts p
     = fold_right Z.add 0
         (map UserAttempt.attempts
              (filter (Prisma.attempt_ofProblem (Problem.id p))
                      (userAttempts db)))
  /\ 0 <= Problem.solves p <= Problem.attempts p.
Proof.
  destruct (reachable_consistent db Hreach) as [_ _ _ _ Hat _ Hs Hsum].
  rewrite Forall_forall in *. specialize (Hs p Hp). specialize (Hsum p Hp).
  split; [exact Hs|]. split; [exact Hsum|].
  rewrite Hs, Hsum, solvedCount_total, attemptSum_total. split.
  - unfold solvedCount, countWhere in Hs.
    rewrite <- solvedCount_total. unfold solvedCount, countWhere. lia.
  - apply total_le. intros a Ha. specialize (Hat a Ha).
    unfold solvedShare, attemptShare, Prisma.attempt_solvedOfProblem,
      Prisma.attempt_ofProblem.
    destruct (Nat.eqb (UserAttempt.problemId a) (Problem.id p));
      destruct (UserAttempt.solved a); simpl; lia.
Qed.

Lemma X8_witness :
  Problem.solves
    problem7SolvedByA
  = countWhere (Prisma.attempt_solvedOfProblem 0) (userAttempts dbSolvedByA)
  /\ Problem.attempts
       problem7SolvedByA
     = fold_right Z.add 0
         (map UserAttempt.attempts
              (filter (Prisma.attempt_ofProblem 0) (userAttempts dbSolvedByA)))
  /\ 0 <= 1 <= 1.
Proof.
  apply (X8_problem_counters_match_the_rows dbSolvedByA
           problem7SolvedByA reachable_dbSolvedByA).
  left. reflexivity.
Defined.

(** X9: no call deletes or re-keys a user or a problem: after any of the
    seven calls on a reachable store, every user is still there with its
    id and Discord id, every problem with its id and number, a positive
    [originalBaseScore] is what it was, and the key counter has not
    moved back. *)
Theorem X9_users_and_problems_are_never_deleted (db : DB) (o : Op)
  (Hreach : reachable db) :
  (forall u, In u (users db) ->
     exists u', In u' (users (exec o db))
                /\ User.id u' = User.id u
                /\ User.discordId u' = User.discordId u)
  /\ (forall p, In p (problems db) ->
        exists p', In p' (problems (exec o db))
                   /\ Problem.id p' = Problem.id p
                   /\ Problem.number p' = Problem.number p
                   /\ (0 < Problem.originalBaseScore p ->
                       Problem.originalBaseScore p'
                       = Problem.originalBaseScore p))
  /\ (nextId db <= nextId (exec o db))%nat.
Proof.
  pose proof (reachable_wf db Hreach) as Hwf.
  pose proof (wf_exec o db Hwf) as Hwf'.
  destruct (grows_exec o db Hwf) as [[l1 G1] [l2 G2] G3 G4].
  splits; auto.
  - intros u Hu.
    assert (Hk : In (userKey u) (map userKey (users (exec o db)))).
    { rewrite G1. apply in_or_app. left. now apply in_map. }
    apply in_map_iff in Hk. destruct Hk as (u' & E & Hu').
    injection E as E1 E2. eauto.
  - intros p Hp.
    assert (Hk : In (problemKey p) (map problemKey (problems (exec o db)))).
    { rewrite G2. apply in_or_app. left. now apply in_map. }
    apply in_map_iff in Hk. destruct Hk as (p' & E & Hp').
    injection E as E1 E2. exists p'. splits; auto.
    intros Hpos. destruct (G3 p Hp Hpos) as (q & Hf & Ho).
    apply find_some in Hf. destruct Hf as [Hq Hid]. apply Nat.eqb_eq in Hid.
    assert (q = p')
      by (apply (NoDup_key_eq Problem.id (problems (exec o db))); auto;
          [apply Hwf' | congruence]).
    now subst q.
Qed.

Lemma X9_witness :
  (forall u, In u (users dbSolvedByA) ->
     exists u', In u' (users (exec (OpResetProblemStats problem7) dbSolvedByA))
                /\ User.id u' = User.id u
                /\ User.discordId u' = User.discordId u)
  /\ (forall p, In p (problems dbSolvedByA) ->
        exists p',
          In p' (problems (exec (OpResetProblemStats problem7) dbSolvedByA))
          /\ Problem.id p' = Problem.id p
          /\ Problem.number p' = Problem.number p
          /\ (0 < Problem.originalBaseScore p ->
              Problem.originalBaseScore p' = Problem.originalBaseScore p))
  /\ (nextId dbSolvedByA
      <= nextId (exec (OpResetProblemStats problem7) dbSolvedByA))%nat.
Proof.
  exact (X9_users_and_problems_are_never_deleted dbSolvedByA
           (OpResetProblemStats problem7) reachable_dbSolvedByA).
Defined.

(* ================================================================== *)
(** ** The attempt tracker, further *)
(* ================================================================== *)

Lemma recordAttempt_unknown sheet d n c db :
  find (Prisma.problem_byNumber n) (problems db) = None -> sheet n = None ->
  recordAttempt sheet d n c db = (Err ExternalSourceError, db).
Proof.
  intros Hf Hs. unfold recordAttempt. munfold. now rewrite Hf, Hs.
Qed.

Lemma recordAttempt_finalized sheet d n c db p :
  find (Prisma.problem_byNumber n) (problems db) = Some p ->
  Problem.isFinalized p = true ->
  recordAttempt sheet d n c db = (Err FinalizedProblemError, db).
Proof.
  intros Hf Hfin. unfold recordAttempt. munfold. rewrite Hf. simpl.
  now rewrite Hfin.
Qed.

Lemma recordAttempt_legacy sheet d n c db p :
  find (Prisma.problem_byNumber n) (problems db) = Some p ->
  Problem.isFinalized p = false -> Problem.originalBaseScore p <= 0 ->
  sheet n = None ->
  recordAttempt sheet d n c db = (Err ExternalSourceError, db).
Proof.
  intros Hf Hopen Hle Hs. unfold recordAttempt. munfold. rewrite Hf. simpl.
  rewrite Hopen. apply Z.leb_le in Hle. rewrite Hle. now rewrite Hs.
Qed.

Lemma recordAttempt_fails sheet d n c db :
  recordAttemptFails sheet db n ->
  exists e, recordAttempt sheet d n c db = (Err e, db).
Proof.
  unfold recordAttemptFails.
  destruct (find (Prisma.problem_byNumber n) (problems db)) as [p|] eqn:E.
  - destruct (Problem.isFinalized p) eqn:F.
    + intros _. eexists. now apply (recordAttempt_finalized _ _ _ _ _ p).
    + intros [H|[Hle Hs]]; [discriminate|].
      eexists. now apply (recordAttempt_legacy _ _ _ _ _ p).
  - intros Hs. eexists. now apply recordAttempt_unknown.
Qed.

(** A call that returns has resolved an open problem, and is the closed
    form. *)
Lemma recordAttempt_ok sheet d n c db res db' :
  wf db -> recordAttempt sheet d n c db = (Ok res, db') ->
  exists p,
    resolvedProblem sheet n db = Some p
    /\ Problem.isFinalized p = false
    /\ res = attemptResultOf c p (resolvedUser sheet d n db)
               (rowAsRead (User.id (resolvedUser sheet d n db)) (Problem.id p)
                          (resolvedStore sheet d n db))
               (countedSolves c p
                  (rowAsRead (User.id (resolvedUser sheet d n db))
                             (Problem.id p) (resolvedStore sheet d n db))
                  (userAttempts
                     (rowEnsured (User.id (resolvedUser sheet d n db))
                                 (Problem.id p) (resolvedStore sheet d n db))))
    /\ db' = recordedStore c d p (resolvedUser sheet d n db)
               (rowAsRead (User.id (resolvedUser sheet d n db)) (Problem.id p)
                          (resolvedStore sheet d n db))
               (rowEnsured (User.id (resolvedUser sheet d n db)) (Problem.id p)
                           (resolvedStore sheet d n db)).
Proof.
  intros Hwf Hrun.
  assert (Hok : ~ recordAttemptFails sheet db n).
  { intros Hf. destruct (recordAttempt_fails sheet d n c db Hf) as [e He].
    congruence. }
  rewrite recordAttemptFails_iff in Hok.
  destruct (resolvedProblem sheet n db) as [p|] eqn:Hp; [|tauto].
  destruct (Problem.isFinalized p) eqn:Hopen; [tauto|].
  exists p. split; [reflexivity|]. split; [exact Hopen|].
  pose proof (recordAttempt_run sheet d n c db p Hwf Hp Hopen) as H.
  cbv zeta in H. rewrite Hrun in H. injection H as -> ->. auto.
Qed.

Lemma resolvedProblem_entry sheet n db p :
  resolvedProblem sheet n db = Some p ->
  Problem.solves p = solvesAtEntry db n
  /\ Problem.attempts p
     = match find (Prisma.problem_byNumber n) (problems db) with
       | Some q => Problem.attempts q
       | None => 0
       end.
Proof.
  unfold resolvedProblem, solvesAtEntry.
  destruct (find (Prisma.problem_byNumber n) (problems db)) as [q|].
  - destruct (sheet n); destruct (Problem.originalBaseScore q <=? 0);
      intros [= <-]; auto.
  - destruct (sheet n); intros [= <-]; auto.
Qed.

Lemma resolvedStore_users_found sheet d n db :
  find (Prisma.user_byDiscordId d) (users db) <> None ->
  users (resolvedStore sheet d n db) = users db.
Proof.
  intros Hsome. unfold resolvedStore, userEnsured.
  destruct (originalEnsured_users sheet n (problemEnsured sheet n db))
    as (Hu & _ & _).
  destruct (problemEnsured_users sheet n db) as (Hu' & _ & _).
  rewrite Hu, Hu'.
  destruct (find (Prisma.user_byDiscordId d) (users db)); [|contradiction].
  now rewrite Hu, Hu'.
Qed.

(** X10: a problem that is stored with a positive [originalBaseScore] is
    recorded without the sheet: whatever the sheet answers, or even if
    it cannot be reached, [recordAttempt] returns or throws the same and
    leaves the same store. *)
Theorem X10_sheet_is_not_read_for_a_priced_problem
  (sheet sheet' : Sheet) (d n : string) (c : bool) (db : DB) (p : Problem.t)
  (Hfind : find (Prisma.problem_byNumber n) (problems db) = Some p)
  (Hpos : 0 < Problem.originalBaseScore p) :
  recordAttempt sheet d n c db = recordAttempt sheet' d n c db.
Proof.
  unfold recordAttempt. munfold. rewrite Hfind. simpl.
  destruct (Problem.isFinalized p); [reflexivity|].
  destruct (Z.leb_spec (Problem.originalBaseScore p) 0); [lia|].
  reflexivity.
Qed.

Lemma X10_witness :
  recordAttempt (sheet7 100) userB problem7 true dbSolvedByA
  = recordAttempt (fun _ => None) userB problem7 true dbSolvedByA.
Proof.
  apply (X10_sheet_is_not_read_for_a_priced_problem _ _ _ _ _ dbSolvedByA
           problem7SolvedByA);
    [reflexivity | reflexivity].
Defined.

(** X11: when the sheet cannot answer for the problem, an attempt on a
    problem that is not stored, or on an open stored problem without a
    positive [originalBaseScore], fails with the error of the sheet and
    stores nothing: no problem, no user and no row is created. *)
Theorem X11_sheet_failure_stores_nothing
  (sheet : Sheet) (d n : string) (c : bool) (db : DB)
  (Hsheet : sheet n = None)
  (Hneeded : match find (Prisma.problem_byNumber n) (problems db) with
             | Some p => Problem.isFinalized p = false
                         /\ Problem.originalBaseScore p <= 0
             | None => True
             end) :
  recordAttempt sheet d n c db = (Err ExternalSourceError, db).
Proof.
  destruct (find (Prisma.problem_byNumber n) (problems db)) as [p|] eqn:E.
  - destruct Hneeded as [Hopen Hle].
    now apply (recordAttempt_legacy _ _ _ _ _ p).
  - now apply recordAttempt_unknown.
Qed.

Lemma X11_witness :
  recordAttempt (sheet7 100) userA userB true initialDB
  = (Err ExternalSourceError, initialDB).
Proof.
  apply X11_sheet_failure_stores_nothing; [reflexivity | exact I].
Defined.

(** X12: an attempt judged wrong never moves XP: on a reachable store a
    returning [recordAttempt(.., false)] reports [awardedXP = 0] and the
    balance the user had, leaves that balance, the solved flag of the
    user's row and the problem's solve count as they were, and leaves
    the whole users table untouched when the user already existed. *)
Theorem X12_wrong_attempt_moves_no_xp
  (sheet : Sheet) (d n : string) (db : DB) (res : AttemptResult.t) (db' : DB)
  (Hreach : reachable db)
  (Hrun : recordAttempt sheet d n false db = (Ok res, db')) :
  AttemptResult.awardedXP res = 0
  /\ AttemptResult.userXP res = balanceOf db d
  /\ balanceOf db' d = balanceOf db d
  /\ solvedBefore db' d n = solvedBefore db d n
  /\ AttemptResult.totalProblemSolves res = solvesAtEntry db n
  /\ (find (Prisma.user_byDiscordId d) (users db) <> None ->
      users db' = users db).
Proof.
  pose proof (reachable_wf db Hreach) as Hwf.
  destruct (recordAttempt_ok _ _ _ _ _ _ _ Hwf Hrun)
    as (p & Hp & Hopen & -> & ->).
  destruct (recordAttempt_resolved sheet d n db p Hwf Hp Hopen)
    as (Hwfs & Hwfs' & Hfp & Hfu & Hfa).
  destruct (rowAsRead_attempts sheet d n db p Hwf Hp) as [Hatt Hsol].
  destruct (resolvedProblem_entry sheet n db p Hp) as [Hsolves _].
  assert (Hnew : forall a, newlySolved false a = false) by reflexivity.
  unfold attemptResultOf. rewrite !Hnew. simpl. splits.
  - reflexivity.
  - apply resolvedUser_xp.
  - rewrite (recordedStore_balance false d p _ _ _ Hfu), Hnew.
    apply resolvedUser_xp.
  - unfold solvedBefore at 1.
    rewrite (recordedStore_attemptOf false d n p _ _ _ Hfp Hfu Hfa).
    unfold storedAttemptOf, newlySolved. simpl. rewrite orb_false_r.
    exact Hsol.
  - rewrite Hsolves. lia.
  - intros Hsome. unfold recordedStore, newlySolved. simpl.
    destruct (rowEnsured_users (User.id (resolvedUser sheet d n db))
                (Problem.id p) (resolvedStore sheet d n db)) as [-> _].
    now apply resolvedStore_users_found.
Qed.

Lemma X12_witness :
  AttemptResult.awardedXP resultFailedByA = 0
  /\ AttemptResult.userXP resultFailedByA = balanceOf initialDB userA
  /\ balanceOf dbFailedByA userA = balanceOf initialDB userA
  /\ solvedBefore dbFailedByA userA problem7
     = solvedBefore initialDB userA problem7
  /\ AttemptResult.totalProblemSolves resultFailedByA
     = solvesAtEntry initialDB problem7
  /\ (find (Prisma.user_byDiscordId userA) (users initialDB) <> None ->
      users dbFailedByA = users initialDB).
Proof.
  exact (X12_wrong_attempt_moves_no_xp (sheet7 100) userA problem7 initialDB
           resultFailedByA dbFailedByA reachable_init eq_refl).
Defined.

(** X13: every attempt that is recorded counts, also after the problem
    was solved: the attempt number returned is one more than the attempts
    the user's row had (0 without a row), the row is stored with that
    number, the problem's attempt counter grows by one, and the row is
    solved afterwards exactly when it was solved before or the attempt
    is correct. *)
Theorem X13_every_recorded_attempt_counts
  (sheet : Sheet) (d n : string) (c : bool) (db : DB)
  (res : AttemptResult.t) (db' : DB)
  (Hreach : reachable db)
  (Hrun : recordAttempt sheet d n c db = (Ok res, db')) :
  AttemptResult.attemptNumber res = attemptsBefore db d n + 1
  /\ attemptsBefore db' d n = attemptsBefore db d n + 1
  /\ solvedBefore db' d n = solvedBefore db d n || c
  /\ AttemptResult.totalProblemAttempts res
     = match find (Prisma.problem_byNumber n) (problems db) with
       | Some q => Problem.attempts q + 1
       | None => 1
       end.
Proof.
  pose proof (reachable_wf db Hreach) as Hwf.
  destruct (recordAttempt_ok _ _ _ _ _ _ _ Hwf Hrun)
    as (p & Hp & Hopen & -> & ->).
  destruct (recordAttempt_resolved sheet d n db p Hwf Hp Hopen)
    as (Hwfs & Hwfs' & Hfp & Hfu & Hfa).
  destruct (rowAsRead_attempts sheet d n db p Hwf Hp) as [Hatt Hsol].
  destruct (resolvedProblem_entry sheet n db p Hp) as [_ Hattempts].
  unfold attemptsBefore at 2, solvedBefore at 1.
  rewrite (recordedStore_attemptOf c d n p _ _ _ Hfp Hfu Hfa).
  unfold attemptResultOf, storedAttemptOf.
  cbn [AttemptResult.attemptNumber AttemptResult.totalProblemAttempts].
  splits.
  - now rewrite Hatt.
  - rewrite <- Hatt. now destruct (newlySolved c _).
  - rewrite <- Hsol. now destruct (newlySolved c _).
  - rewrite Hattempts.
    now destruct (find (Prisma.problem_byNumber n) (problems db)).
Qed.

Lemma X13_witness :
  AttemptResult.attemptNumber resultSolvedByA
  = attemptsBefore initialDB userA problem7 + 1
  /\ attemptsBefore dbSolvedByA userA problem7
     = attemptsBefore initialDB userA problem7 + 1
  /\ solvedBefore dbSolvedByA userA problem7
     = solvedBefore initialDB userA problem7 || true
  /\ AttemptResult.totalProblemAttempts resultSolvedByA
     = match find (Prisma.problem_byNumber problem7) (problems initialDB) with
       | Some q => Problem.attempts q + 1
       | None => 1
       end.
Proof.
  exact (X13_every_recorded_attempt_counts (sheet7 100) userA problem7 true
           initialDB resultSolvedByA dbSolvedByA reachable_init eq_refl).
Defined.

(** X14: what [recordAttempt] returns about the problem is what it left
    in the store: the stored problem carries the returned attempt and
    solve totals, original and current base score; the returned
    [weightedSolves] is the sum of the solve weights over the solved rows
    of the problem as stored, and [currentBaseScore] is the dynamic base
    score of that sum, between 25 and 34. *)
Theorem X14_returned_totals_are_the_stored_ones
  (sheet : Sheet) (d n : string) (c : bool) (db : DB)
  (res : AttemptResult.t) (db' : DB)
  (Hreach : reachable db)
  (Hrun : recordAttempt sheet d n c db = (Ok res, db')) :
  exists p',
    find (Prisma.problem_byNumber n) (problems db') = Some p'
    /\ Problem.attempts p' = AttemptResult.totalProblemAttempts res
    /\ Problem.solves p' = AttemptResult.totalProblemSolves res
    /\ Problem.originalBaseScore p' = AttemptResult.originalBaseScore res
    /\ Problem.baseScore p' = AttemptResult.currentBaseScore res
    /\ AttemptResult.weightedSolves res = weightedSolvesOf db' (Problem.id p')
    /\ AttemptResult.currentBaseScore res
       = getDynamicBaseFromWeightedSolves (AttemptResult.weightedSolves res)
    /\ 25 <= AttemptResult.currentBaseScore res <= 34.
Proof.
  pose proof (reachable_wf db Hreach) as Hwf.
  destruct (recordAttempt_ok _ _ _ _ _ _ _ Hwf Hrun)
    as (p & Hp & Hopen & -> & ->).
  destruct (recordAttempt_resolved sheet d n db p Hwf Hp Hopen)
    as (Hwfs & Hwfs' & Hfp & Hfu & Hfa).
  eexists. split; [apply (recordedStore_problem c d n p _ _ _ Hfp)|].
  unfold attemptResultOf, storedProblemOf. simpl. splits; auto.
  - unfold weightedSolvesOf. rewrite recordedStore_solvedRows. reflexivity.
  - apply getDynamicBase_min.
  - apply getDynamicBase_upper. apply sumSolveWeights_nonneg.
Qed.

Lemma X14_witness :
  exists p',
    find (Prisma.problem_byNumber problem7) (problems dbSolvedByA) = Some p'
    /\ Problem.attempts p' = AttemptResult.totalProblemAttempts resultSolvedByA
    /\ Problem.solves p' = AttemptResult.totalProblemSolves resultSolvedByA
    /\ Problem.originalBaseScore p'
       = AttemptResult.originalBaseScore resultSolvedByA
    /\ Problem.baseScore p' = AttemptResult.currentBaseScore resultSolvedByA
    /\ AttemptResult.weightedSolves resultSolvedByA
       = weightedSolvesOf dbSolvedByA (Problem.id p')
    /\ AttemptResult.currentBaseScore resultSolvedByA
       = getDynamicBaseFromWeightedSolves
           (AttemptResult.weightedSolves resultSolvedByA)
    /\ 25 <= AttemptResult.currentBaseScore resultSolvedByA <= 34.
Proof.
  exact (X14_returned_totals_are_the_stored_ones (sheet7 100) userA problem7
           true initialDB resultSolvedByA dbSolvedByA reachable_init eq_refl).
Defined.

(* ================================================================== *)
(** ** Reset, finalize and unfinalize, further *)
(* ================================================================== *)

Lemma afterReset_rows p db a :
  In a (userAttempts (afterReset p db)) ->
  In a (userAttempts db) /\ UserAttempt.problemId a <> Problem.id p.
Proof.
  unfold afterReset. simpl. intros H. apply filter_In in H.
  destruct H as [Hin H]. split; [assumption|].
  unfold Prisma.attempt_ofProblem in H.
  now apply negb_true_iff, Nat.eqb_neq in H.
Qed.

Lemma afterReset_problem n p db :
  find (Prisma.problem_byNumber n) (problems db) = Some p ->
  find (Prisma.problem_byNumber n) (problems (afterReset p db))
  = Some (Problem.set_stats 0 0
            (if 0 <? Problem.originalBaseScore p
             then Problem.originalBaseScore p else Problem.baseScore p) p).
Proof.
  intros Hf. unfold afterReset. simpl.
  rewrite (find_problem_updated _ _ _ _ p) by auto.
  now rewrite problem_byId_self.
Qed.

Lemma afterReset_solvedRows p db : solvedRows (afterReset p db) (Problem.id p) = [].
Proof.
  unfold solvedRows.
  destruct (filter _ _) as [|a l] eqn:E; [reflexivity|].
  assert (Ha : In a (filter (Prisma.attempt_solvedOfProblem (Problem.id p))
                            (userAttempts (afterReset p db))))
    by (rewrite E; now left).
  apply filter_In in Ha. destruct Ha as [Hin Hsel].
  apply afterReset_rows in Hin. apply solvedOfProblem_spec in Hsel. tauto.
Qed.

Lemma afterReset_attemptOf n p db d :
  find (Prisma.problem_byNumber n) (problems db) = Some p ->
  attemptOf (afterReset p db) d n = None.
Proof.
  intros Hf. unfold attemptOf. rewrite (afterReset_problem n p db Hf).
  destruct (find (Prisma.user_byDiscordId d) (users (afterReset p db)))
    as [u|]; [|reflexivity].
  apply find_none_iff. intros a Ha. apply afterReset_rows in Ha.
  destruct Ha as [_ Hne]. unfold Prisma.attempt_byUserProblem.
  apply andb_false_iff. right. now apply Nat.eqb_neq.
Qed.

Lemma wf_afterReset n p db :
  wf db -> find (Prisma.problem_byNumber n) (problems db) = Some p ->
  wf (afterReset p db).
Proof.
  intros Hwf Hf. pose proof (wf_resetProblemStats n db Hwf) as H.
  now rewrite (resetProblemStats_run n db p Hwf Hf) in H.
Qed.

Lemma balance_nonneg db d : wf db -> 0 <= balanceOf db d.
Proof.
  intros Hwf. unfold balanceOf.
  destruct (find (Prisma.user_byDiscordId d) (users db)) as [u|] eqn:E; [|lia].
  apply find_some in E. destruct E as [Hin _].
  pose proof (wf_xp Hwf) as Hxp. rewrite Forall_forall in Hxp. now apply Hxp.
Qed.

(** X15: [resetProblemStats] forgets who solved the problem but not what
    they were paid.  After a reset of an open problem with a positive
    [originalBaseScore], the next correct attempt of any user, also of
    one who had solved it before, is attempt number 1 and is awarded the
    full [originalBaseScore] on top of the balance the user holds. *)
Theorem X15_reset_lets_a_solver_be_awarded_again
  (sheet : Sheet) (d n : string) (db : DB) (p : Problem.t)
  (Hreach : reachable db)
  (Hfind : find (Prisma.problem_byNumber n) (problems db) = Some p)
  (Hopen : Problem.isFinalized p = false)
  (Hpos : 0 < Problem.originalBaseScore p) :
  exists r db1 res db2,
    resetProblemStats n db = (Ok r, db1)
    /\ balanceOf db1 d = balanceOf db d
    /\ recordAttempt sheet d n true db1 = (Ok res, db2)
    /\ AttemptResult.attemptNumber res = 1
    /\ AttemptResult.awardedXP res = Problem.originalBaseScore p
    /\ AttemptResult.userXP res = balanceOf db d + Problem.originalBaseScore p
    /\ balanceOf db2 d = balanceOf db d + Problem.originalBaseScore p.
Proof.
  pose proof (reachable_wf db Hreach) as Hwf.
  pose proof (wf_afterReset n p db Hwf Hfind) as Hwf1.
  pose proof (afterReset_problem n p db Hfind) as Hfind1.
  apply Z.ltb_lt in Hpos. rewrite Hpos in Hfind1. apply Z.ltb_lt in Hpos.
  set (p1 := Problem.set_stats 0 0 (Problem.originalBaseScore p) p) in *.
  assert (Hp1 : resolvedProblem sheet n (afterReset p db) = Some p1).
  { unfold resolvedProblem. rewrite Hfind1.
    destruct (Z.leb_spec (Problem.originalBaseScore p1) 0) as [H|H];
      [simpl in H; lia|].
    now destruct (sheet n). }
  eexists. exists (afterReset p db). eexists. eexists.
  split; [apply (resetProblemStats_run n db p Hwf Hfind)|].
  split; [reflexivity|].
  split; [apply (recordAttempt_run sheet d n true _ p1 Hwf1 Hp1 Hopen)|].
  destruct (recordAttempt_resolved sheet d n _ p1 Hwf1 Hp1 Hopen)
    as (_ & _ & Hfp & Hfu & Hfa).
  destruct (rowAsRead_attempts sheet d n _ p1 Hwf1 Hp1) as [Hatt Hsol].
  unfold attemptsBefore, solvedBefore in Hatt, Hsol.
  rewrite (afterReset_attemptOf n p db d Hfind) in Hatt, Hsol.
  assert (Hxp : User.xp (resolvedUser sheet d n (afterReset p db))
                = balanceOf db d)
    by (rewrite resolvedUser_xp; reflexivity).
  assert (Haward :
    awardFor p1 (rowAsRead (User.id (resolvedUser sheet d n (afterReset p db)))
                   (Problem.id p1) (resolvedStore sheet d n (afterReset p db)))
    = Problem.originalBaseScore p).
  { unfold awardFor. rewrite Hatt. simpl Problem.originalBaseScore.
    apply Z.ltb_lt in Hpos. rewrite Hpos.
    change (0 + 1) with 1. rewrite getSolveWeight_first.
    apply Math_floor_scaled_1. }
  pose proof (balance_nonneg db d Hwf) as Hbal.
  rewrite (recordedStore_balance true d p1 _ _ _ Hfu).
  unfold attemptResultOf, newlySolved.
  cbn [AttemptResult.attemptNumber AttemptResult.awardedXP
       AttemptResult.userXP].
  rewrite Hsol, Hatt, Haward, Hxp. simpl andb. cbv iota.
  splits; try reflexivity; lia.
Qed.

Lemma X15_witness :
  exists r db1 res db2,
    resetProblemStats problem7 dbSolvedByA = (Ok r, db1)
    /\ balanceOf db1 userA = balanceOf dbSolvedByA userA
    /\ recordAttempt (sheet7 100) userA problem7 true db1 = (Ok res, db2)
    /\ AttemptResult.attemptNumber res = 1
    /\ AttemptResult.awardedXP res
       = Problem.originalBaseScore problem7SolvedByA
    /\ AttemptResult.userXP res
       = balanceOf dbSolvedByA userA
         + Problem.originalBaseScore problem7SolvedByA
    /\ balanceOf db2 userA
       = balanceOf dbSolvedByA userA
         + Problem.originalBaseScore problem7SolvedByA.
Proof.
  apply (X15_reset_lets_a_solver_be_awarded_again (sheet7 100) userA problem7
           dbSolvedByA problem7SolvedByA reachable_dbSolvedByA);
    reflexivity.
Defined.

Lemma reachable_dbFinalized : reachable dbFinalized.
Proof. apply reachable_step, reachable_dbSolvedByA. Qed.

Lemma dbFinalized_problem :
  find (Prisma.problem_byNumber problem7) (problems dbFinalized)
  = Some problem7Finalized.
Proof.
  unfold dbFinalized. simpl exec.
  rewrite (finalizeProblemScoring_run 5 problem7 dbSolvedByA problem7SolvedByA
             (reachable_wf _ reachable_dbSolvedByA) eq_refl eq_refl).
  simpl snd.
  rewrite (afterFinalize_problem 5 problem7 dbSolvedByA problem7SolvedByA
             eq_refl).
  unfold dynamicScoreOf.
  replace (weightedSolvesOf dbSolvedByA (Problem.id problem7SolvedByA))
    with 1%Q by reflexivity.
  reflexivity.
Qed.

(** X16: [resetProblemStats] does not reopen a finalized problem, and the
    XP that finalize moved stays moved: after a reset of a finalized
    problem [recordAttempt] still refuses it, and [unfinalizeProblemScoring]
    finds no row to revert; it returns [revertedUsers = 0], leaves every
    user and row as the reset left them, and restores the base score of
    a problem nobody solved, 34. *)
Theorem X16_reset_of_a_finalized_problem_keeps_the_deltas
  (sheet : Sheet) (d n : string) (c : bool) (db : DB) (p : Problem.t)
  (Hreach : reachable db)
  (Hfind : find (Prisma.problem_byNumber n) (problems db) = Some p)
  (Hfin : Problem.isFinalized p = true) :
  exists r db1 db2,
    resetProblemStats n db = (Ok r, db1)
    /\ users db1 = users db
    /\ recordAttempt sheet d n c db1 = (Err FinalizedProblemError, db1)
    /\ unfinalizeProblemScoring n db1
       = (Ok (UnfinalizeProblemResult.mk (Problem.number p) 34 0), db2)
    /\ users db2 = users db
    /\ userAttempts db2 = userAttempts db1.
Proof.
  pose proof (reachable_wf db Hreach) as Hwf.
  pose proof (wf_afterReset n p db Hwf Hfind) as Hwf1.
  pose proof (afterReset_problem n p db Hfind) as Hfind1.
  set (p1 := Problem.set_stats 0 0
               (if 0 <? Problem.originalBaseScore p
                then Problem.originalBaseScore p else Problem.baseScore p) p)
    in *.
  eexists. exists (afterReset p db). eexists.
  split; [apply (resetProblemStats_run n db p Hwf Hfind)|].
  split; [reflexivity|].
  split; [now apply (recordAttempt_finalized _ _ _ _ _ p1)|].
  rewrite (unfinalizeProblemScoring_run n _ p1 Hwf1 Hfind1 Hfin).
  assert (Hrows : solvedRows (afterReset p db) (Problem.id p1) = [])
    by exact (afterReset_solvedRows p db).
  unfold dynamicScoreOf, weightedSolvesOf. rewrite Hrows.
  change (sumSolveWeights (map UserAttempt.attempts [])) with 0%Q.
  rewrite getDynamicBase_at_0.
  split; [reflexivity|].
  unfold afterUnfinalize. rewrite Hrows. simpl. split.
  - rewrite <- (map_id (users db)) at 2. apply map_ext_in. intros u Hu.
    apply clampAdd_0. pose proof (wf_xp Hwf) as Hxp.
    rewrite Forall_forall in Hxp. now apply Hxp.
  - apply updateWhere_none. intros a Ha.
    destruct (Prisma.attempt_solvedOfProblem (Problem.id p) a) eqn:E;
      [|reflexivity].
    apply solvedOfProblem_spec in E. apply filter_In in Ha.
    destruct Ha as [_ Ha]. unfold Prisma.attempt_ofProblem in Ha.
    apply negb_true_iff, Nat.eqb_neq in Ha. tauto.
Qed.

Lemma X16_witness :
  exists r db1 db2,
    resetProblemStats problem7 dbFinalized = (Ok r, db1)
    /\ users db1 = users dbFinalized
    /\ recordAttempt (sheet7 100) userA problem7 true db1
       = (Err FinalizedProblemError, db1)
    /\ unfinalizeProblemScoring problem7 db1
       = (Ok (UnfinalizeProblemResult.mk (Problem.number problem7Finalized)
                34 0), db2)
    /\ users db2 = users dbFinalized
    /\ userAttempts db2 = userAttempts db1.
Proof.
  apply (X16_reset_of_a_finalized_problem_keeps_the_deltas (sheet7 100) userA
           problem7 true dbFinalized problem7Finalized reachable_dbFinalized);
    [apply dbFinalized_problem | reflexivity].
Defined.

Lemma dynamicScore_range db pid : 25 <= dynamicScoreOf db pid <= 34.
Proof.
  unfold dynamicScoreOf, weightedSolvesOf. split.
  - apply getDynamicBase_min.
  - apply getDynamicBase_upper, sumSolveWeights_nonneg.
Qed.

(** X17: finalize re-prices every paid solve.  On an open problem of a
    reachable store, a solved row with a non-zero award is written back
    with the old award as snapshot, the award
    [Math.floor(finalBaseScore * getSolveWeight(attempts))] and their
    difference as delta; the owner's balance moves by that difference,
    clamped at 0; and [finalBaseScore], between 25 and 34, is the dynamic
    base score of the problem's weighted solves. *)
Theorem X17_finalize_reprices_a_paid_solve
  (db : DB) (now : Z) (n : string) (p : Problem.t) (a : UserAttempt.t)
  (Hreach : reachable db)
  (Hfind : find (Prisma.problem_byNumber n) (problems db) = Some p)
  (Hopen : Problem.isFinalized p = false)
  (Ha : In a (userAttempts db))
  (Hp : UserAttempt.problemId a = Problem.id p)
  (Hs : UserAttempt.solved a = true)
  (Hpaid : UserAttempt.awardedXp a <> 0) :
  exists res db',
    finalizeProblemScoring now n db = (Ok res, db')
    /\ FinalizeProblemResult.finalBaseScore res
       = getDynamicBaseFromWeightedSolves
           (FinalizeProblemResult.weightedSolves res)
    /\ FinalizeProblemResult.weightedSolves res
       = weightedSolvesOf db (Problem.id p)
    /\ 25 <= FinalizeProblemResult.finalBaseScore res <= 34
    /\ find (Prisma.attempt_byId (UserAttempt.id a)) (userAttempts db')
       = Some (UserAttempt.mk
                 (UserAttempt.id a) (UserAttempt.userId a)
                 (UserAttempt.problemId a) (UserAttempt.attempts a) true
                 (Math_floor_scaled
                    (FinalizeProblemResult.finalBaseScore res)
                    (getSolveWeight (UserAttempt.attempts a)))
                 (Some (UserAttempt.awardedXp a))
                 (Math_floor_scaled
                    (FinalizeProblemResult.finalBaseScore res)
                    (getSolveWeight (UserAttempt.attempts a))
                  - UserAttempt.awardedXp a))
    /\ (forall u,
          find (Prisma.user_byId (UserAttempt.userId a)) (users db) = Some u ->
          find (Prisma.user_byId (UserAttempt.userId a)) (users db')
          = Some (User.mk (User.id u) (User.discordId u)
                    (Z.max 0
                       (User.xp u
                        + (Math_floor_scaled
                             (FinalizeProblemResult.finalBaseScore res)
                             (getSolveWeight (UserAttempt.attempts a))
                           - UserAttempt.awardedXp a))))).
Proof.
  pose proof (reachable_wf db Hreach) as Hwf.
  assert (Hsel : Prisma.attempt_solvedOfProblem (Problem.id p) a = true)
    by (apply solvedOfProblem_spec; auto).
  assert (Hpre : UserAttempt.preFinalizeAwardedXp a = None).
  { apply find_some in Hfind. destruct Hfind as [Hin _].
    exact (wf_frozen Hwf a p Ha Hin Hp Hopen). }
  assert (Hbase : baselineAward a = UserAttempt.awardedXp a)
    by (unfold baselineAward; now rewrite Hpre).
  assert (Hdelta : forall final,
             finalizeDeltaOf final a
             = Math_floor_scaled final
                 (getSolveWeight (UserAttempt.attempts a))
               - UserAttempt.awardedXp a).
  { intros final. unfold finalizeDeltaOf. rewrite Hbase.
    destruct (Z.eqb_spec (UserAttempt.awardedXp a) 0); [contradiction|].
    reflexivity. }
  eexists. eexists.
  split; [apply (finalizeProblemScoring_run now n db p Hwf Hfind Hopen)|].
  cbn [FinalizeProblemResult.finalBaseScore
       FinalizeProblemResult.weightedSolves].
  split; [reflexivity|]. split; [reflexivity|].
  split; [apply dynamicScore_range|].
  unfold afterFinalize. cbn [users userAttempts]. split.
  - rewrite find_updateWhere by reflexivity.
    rewrite (find_attempt_byId_own db a Hwf Ha).
    cbn [option_map]. rewrite Hsel. unfold repriced.
    rewrite Hdelta, Hbase. unfold UserAttempt.set_pricing, finalAward.
    now rewrite Hs.
  - intros u Hu. rewrite find_map_preserved by reflexivity.
    rewrite Hu. cbn [option_map]. f_equal.
    pose proof (find_some _ _ Hu) as [Hin Hid]. apply Nat.eqb_eq in Hid.
    unfold finalizeDeltaFor, deltaFor. rewrite Hid.
    rewrite (solvedRows_find_own db (Problem.id p) a Hwf Ha Hsel).
    rewrite Hdelta. unfold clampAdd, User.set_xp. now rewrite Hid.
Qed.

(** A solved "7" at the first attempt for 100 XP; finalize prices the
    solve at 25: the row keeps 100 as snapshot, the delta is -75, and A
    is left with 25 XP. *)
Lemma X17_witness :
  exists res db',
    finalizeProblemScoring 5 problem7 dbSolvedByA = (Ok res, db')
    /\ FinalizeProblemResult.weightedSolves res = 1%Q
    /\ FinalizeProblemResult.finalBaseScore res = 25
    /\ find (Prisma.attempt_byId 2) (userAttempts db')
       = Some (UserAttempt.mk 2 1 0 1 true 25 (Some 100) (-75))
    /\ find (Prisma.user_byId 1) (users db') = Some (User.mk 1 userA 25).
Proof.
  destruct (X17_finalize_reprices_a_paid_solve dbSolvedByA 5 problem7
              problem7SolvedByA rowSolvedByA reachable_dbSolvedByA
              eq_refl eq_refl (or_introl eq_refl) eq_refl eq_refl
              ltac:(discriminate))
    as (res & db' & Hrun & Hfinal & Hws & _ & Hrow & Huser).
  replace (weightedSolvesOf dbSolvedByA _) with 1%Q in Hws by reflexivity.
  rewrite Hws, getDynamicBase_at_1 in Hfinal.
  rewrite Hfinal in Hrow, Huser.
  exists res, db'. split; [exact Hrun|]. split; [exact Hws|].
  split; [exact Hfinal|]. split; [exact Hrow|].
  exact (Huser (User.mk 1 userA 100) eq_refl).
Defined.

(** X18: finalize touches nothing but the problem and its solved rows:
    on an open problem of a reachable store it returns, marks the problem
    finalized at the time of the call with the final base score and
    leaves its counters and [originalBaseScore]; every other problem,
    every row that is not a solved row of the problem and every user
    without such a row is left exactly as it was, and no row is added or
    removed. *)
Theorem X18_finalize_leaves_the_rest_alone
  (db : DB) (now : Z) (n : string) (p : Problem.t)
  (Hreach : reachable db)
  (Hfind : find (Prisma.problem_byNumber n) (problems db) = Some p)
  (Hopen : Problem.isFinalized p = false) :
  exists res db',
    finalizeProblemScoring now n db = (Ok res, db')
    /\ find (Prisma.problem_byNumber n) (problems db')
       = Some (Problem.mk (Problem.id p) (Problem.number p)
                 (Problem.originalBaseScore p)
                 (FinalizeProblemResult.finalBaseScore res)
                 (Problem.attempts p) (Problem.solves p) true (Some now))
    /\ (forall q, In q (problems db) -> Problem.id q <> Problem.id p ->
                  In q (problems db'))
    /\ map UserAttempt.id (userAttempts db')
       = map UserAttempt.id (userAttempts db)
    /\ (forall r, In r (userAttempts db) ->
                  Prisma.attempt_solvedOfProblem (Problem.id p) r = false ->
                  In r (userAttempts db'))
    /\ (forall u, In u (users db) ->
          (forall r, In r (userAttempts db) ->
                     UserAttempt.userId r = User.id u ->
                     Prisma.attempt_solvedOfProblem (Problem.id p) r = false) ->
          In u (users db')).
Proof.
  pose proof (reachable_wf db Hreach) as Hwf.
  eexists. eexists.
  split; [apply (finalizeProblemScoring_run now n db p Hwf Hfind Hopen)|].
  cbn [FinalizeProblemResult.finalBaseScore].
  split; [apply (afterFinalize_problem now n db p Hfind)|].
  unfold afterFinalize. cbn [users problems userAttempts]. splits.
  - intros q Hq Hne. apply In_updateWhere. exists q. split; [assumption|].
    unfold Prisma.problem_byId. apply Nat.eqb_neq in Hne. now rewrite Hne.
  - now apply map_updateWhere.
  - intros r Hr Hsel. apply In_updateWhere. exists r. split; [assumption|].
    now rewrite Hsel.
  - intros u Hu Hnone. apply in_map_iff. exists u. split; [|assumption].
    unfold finalizeDeltaFor. rewrite deltaFor_absent.
    + apply clampAdd_0. pose proof (wf_xp Hwf) as Hxp.
      rewrite Forall_forall in Hxp. now apply Hxp.
    + intros Hin. apply in_map_iff in Hin. destruct Hin as (r & Hru & Hr).
      unfold solvedRows in Hr. apply filter_In in Hr. destruct Hr as [Hr Hsel].
      rewrite (Hnone r Hr Hru) in Hsel. discriminate.
Qed.

Lemma X18_witness :
  exists res db',
    finalizeProblemScoring 5 problem7 dbSolvedByA = (Ok res, db')
    /\ find (Prisma.problem_byNumber problem7) (problems db')
       = Some (Problem.mk (Problem.id problem7SolvedByA)
                 (Problem.number problem7SolvedByA)
                 (Problem.originalBaseScore problem7SolvedByA)
                 (FinalizeProblemResult.finalBaseScore res)
                 (Problem.attempts problem7SolvedByA)
                 (Problem.solves problem7SolvedByA) true (Some 5))
    /\ (forall q, In q (problems dbSolvedByA) ->
                  Problem.id q <> Problem.id problem7SolvedByA ->
                  In q (problems db'))
    /\ map UserAttempt.id (userAttempts db')
       = map UserAttempt.id (userAttempts dbSolvedByA)
    /\ (forall r, In r (userAttempts dbSolvedByA) ->
                  Prisma.attempt_solvedOfProblem
                    (Problem.id problem7SolvedByA) r = false ->
                  In r (userAttempts db'))
    /\ (forall u, In u (users dbSolvedByA) ->
          (forall r, In r (userAttempts dbSolvedByA) ->
                     UserAttempt.userId r = User.id u ->
                     Prisma.attempt_solvedOfProblem
                       (Problem.id problem7SolvedByA) r = false) ->
          In u (users db')).
Proof.
  apply (X18_finalize_leaves_the_rest_alone dbSolvedByA 5 problem7
           problem7SolvedByA reachable_dbSolvedByA);
    reflexivity.
Defined.

(** X19: unfinalize reopens the problem and gives every solved row its
    snapshot back.  On a finalized problem of a reachable store it
    returns; the problem is stored open, without a finalization time and
    with the dynamic base score of its weighted solves (between 25 and
    34); a solved row of the problem that carried a snapshot gets it back
    as [awardedXp] with no snapshot and no delta, and every other row is
    left as it was; a second unfinalize is refused. *)
Theorem X19_unfinalize_reopens_the_problem
  (db : DB) (n : string) (p : Problem.t)
  (Hreach : reachable db)
  (Hfind : find (Prisma.problem_byNumber n) (problems db) = Some p)
  (Hfin : Problem.isFinalized p = true) :
  exists res db',
    unfinalizeProblemScoring n db = (Ok res, db')
    /\ UnfinalizeProblemResult.restoredBaseScore res
       = getDynamicBaseFromWeightedSolves (weightedSolvesOf db (Problem.id p))
    /\ 25 <= UnfinalizeProblemResult.restoredBaseScore res <= 34
    /\ find (Prisma.problem_byNumber n) (problems db')
       = Some (Problem.mk (Problem.id p) (Problem.number p)
                 (Problem.originalBaseScore p)
                 (UnfinalizeProblemResult.restoredBaseScore res)
                 (Problem.attempts p) (Problem.solves p) false None)
    /\ (forall a, In a (userAttempts db) ->
          find (Prisma.attempt_byId (UserAttempt.id a)) (userAttempts db')
          = Some (match UserAttempt.preFinalizeAwardedXp a with
                  | Some pre =>
                      if Prisma.attempt_solvedOfProblem (Problem.id p) a
                      then UserAttempt.set_pricing None pre 0 a
                      else a
                  | None => a
                  end))
    /\ unfinalizeProblemScoring n db' = (Err NotFinalized, db').
Proof.
  pose proof (reachable_wf db Hreach) as Hwf.
  eexists. eexists.
  split; [apply (unfinalizeProblemScoring_run n db p Hwf Hfind Hfin)|].
  cbn [UnfinalizeProblemResult.restoredBaseScore].
  split; [reflexivity|]. split; [apply dynamicScore_range|].
  assert (Hstored :
    find (Prisma.problem_byNumber n) (problems (afterUnfinalize p db))
    = Some (Problem.set_finalization (dynamicScoreOf db (Problem.id p))
              false None p)).
  { unfold afterUnfinalize. cbn [problems].
    rewrite (find_problem_updated _ _ _ _ p) by auto.
    now rewrite problem_byId_self. }
  split; [exact Hstored|]. split.
  - intros a Ha. unfold afterUnfinalize. cbn [userAttempts].
    rewrite find_updateWhere
      by (intros x; unfold Prisma.attempt_byId;
          now destruct (restored_keys x) as (-> & _)).
    rewrite (find_attempt_byId_own db a Hwf Ha). cbn [option_map].
    unfold restored.
    destruct (UserAttempt.preFinalizeAwardedXp a);
      now destruct (Prisma.attempt_solvedOfProblem (Problem.id p) a).
  - unfold unfinalizeProblemScoring. munfold. now rewrite Hstored.
Qed.

Lemma X19_witness :
  exists res db',
    unfinalizeProblemScoring problem7 dbFinalized = (Ok res, db')
    /\ UnfinalizeProblemResult.restoredBaseScore res
       = getDynamicBaseFromWeightedSolves
           (weightedSolvesOf dbFinalized (Problem.id problem7Finalized))
    /\ 25 <= UnfinalizeProblemResult.restoredBaseScore res <= 34
    /\ find (Prisma.problem_byNumber problem7) (problems db')
       = Some (Problem.mk (Problem.id problem7Finalized)
                 (Problem.number problem7Finalized)
                 (Problem.originalBaseScore problem7Finalized)
                 (UnfinalizeProblemResult.restoredBaseScore res)
                 (Problem.attempts problem7Finalized)
                 (Problem.solves problem7Finalized) false None)
    /\ (forall a, In a (userAttempts dbFinalized) ->
          find (Prisma.attempt_byId (UserAttempt.id a)) (userAttempts db')
          = Some (match UserAttempt.preFinalizeAwardedXp a with
                  | Some pre =>
                      if Prisma.attempt_solvedOfProblem
                           (Problem.id problem7Finalized) a
                      then UserAttempt.set_pricing None pre 0 a
                      else a
                  | None => a
                  end))
    /\ unfinalizeProblemScoring problem7 db' = (Err NotFinalized, db').
Proof.
  apply (X19_unfinalize_reopens_the_problem dbFinalized problem7
           problem7Finalized reachable_dbFinalized);
    [apply dbFinalized_problem | reflexivity].
Defined.

(* ================================================================== *)
(** ** Ranks and progress *)
(* ================================================================== *)

(** The loop and the test after it, by the interval of the balance. *)
Lemma rankAndNextThreshold_cases (xp : Z) :
  rankAndNextThreshold xp =
  if xp <? 0 then ("Unranked"%string, 100)
  else if xp <? 101 then ("Unranked"%string, 101)
  else if xp <? 201 then ("Bronze"%string, 201)
  else if xp <? 351 then ("Silver"%string, 351)
  else if xp <? 501 then ("Gold"%string, 501)
  else if xp <? 751 then ("Platinum"%string, 751)
  else if xp <? 951 then ("Diamond"%string, 951)
  else if xp <? 1201 then ("Ascendant"%string, 1201)
  else if xp <? 1501 then ("Immortal"%string, 1501)
  else ("Radiant"%string, xp + 100).
Proof.
  unfold rankAndNextThreshold, XP_THRESHOLDS. simpl.
  repeat match goal with
         | |- context [?a <? ?b] =>
             destruct (Z.ltb_spec a b); try lia
         | |- context [?a <=? ?b] =>
             destruct (Z.leb_spec a b); try lia
         end;
    reflexivity.
Qed.

Ltac rank_cases xp :=
  rewrite (rankAndNextThreshold_cases xp);
  repeat match goal with
         | |- context [xp <? ?b] => destruct (Z.ltb_spec xp b); try lia
         end.

Lemma thresholdOfRank_defined (xp : Z) :
  exists entry,
    thresholdOfRank (fst (rankAndNextThreshold xp)) = Some entry
    /\ In entry XP_THRESHOLDS
    /\ Threshold.display entry = fst (rankAndNextThreshold xp).
Proof.
  rank_cases xp; (eexists; split; [reflexivity|]; split; [|reflexivity]);
    simpl; tauto.
Qed.

(** X20: [getRankAndProgress] returns for every balance (the entry of the
    rank it computed is always found), and the rank it reports never
    drops when the balance grows.  A negative balance is "Unranked" with
    next threshold 100; from 1501 on the rank is "Radiant" and the next
    threshold is the balance plus 100. *)
Theorem X20_rank_is_defined_and_monotone (xp xp' : Z) :
  (exists info, getRankAndProgress xp = Some info
                /\ RankInfo.rank info = fst (rankAndNextThreshold xp))
  /\ (xp <= xp' ->
      (rankIndex XP_THRESHOLDS (fst (rankAndNextThreshold xp))
       <= rankIndex XP_THRESHOLDS (fst (rankAndNextThreshold xp')))%nat)
  /\ (xp < 0 -> rankAndNextThreshold xp = ("Unranked"%string, 100))
  /\ (1501 <= xp -> rankAndNextThreshold xp = ("Radiant"%string, xp + 100)).
Proof.
  splits.
  - destruct (thresholdOfRank_defined xp) as (entry & He & _).
    unfold getRankAndProgress.
    destruct (rankAndNextThreshold xp) as [rank next]. simpl in He.
    rewrite He. eexists. split; reflexivity.
  - intros Hle. rank_cases xp; rank_cases xp'; vm_compute; lia.
  - intros H. rank_cases xp. reflexivity.
  - intros H. rank_cases xp. reflexivity.
Qed.

(** X21: for a balance from 0 to 1500 the rank is the entry of
    [XP_THRESHOLDS] with the greatest threshold that the balance has
    reached, and the next threshold is the least threshold of the table
    above the balance, so the XP remaining is positive. *)
Theorem X21_rank_is_the_last_threshold_reached (xp : Z)
  (Hxp : 0 <= xp < 1501) :
  exists entry next,
    thresholdOfRank (fst (rankAndNextThreshold xp)) = Some entry
    /\ find (fun t => Z.eqb (Threshold.threshold t)
                            (snd (rankAndNextThreshold xp)))
            XP_THRESHOLDS = Some next
    /\ rankAndNextThreshold xp
       = (Threshold.display entry, Threshold.threshold next)
    /\ Threshold.threshold entry <= xp < Threshold.threshold next
    /\ (forall t, In t XP_THRESHOLDS -> Threshold.threshold t <= xp ->
                  Threshold.threshold t <= Threshold.threshold entry)
    /\ (forall t, In t XP_THRESHOLDS -> xp < Threshold.threshold t ->
                  Threshold.threshold next <= Threshold.threshold t).
Proof.
  rank_cases xp;
    (eexists; eexists; split; [reflexivity|];
     split; [reflexivity|]; split; [reflexivity|]);
    (simpl; split; [lia|]; split;
     intros t Ht; simpl in Ht;
     repeat (destruct Ht as [<-|Ht]; [simpl; lia|]);
     contradiction).
Qed.

Lemma X21_witness :
  exists entry next,
    thresholdOfRank (fst (rankAndNextThreshold 130)) = Some entry
    /\ find (fun t => Z.eqb (Threshold.threshold t)
                            (snd (rankAndNextThreshold 130)))
            XP_THRESHOLDS = Some next
    /\ rankAndNextThreshold 130
       = (Threshold.display entry, Threshold.threshold next)
    /\ Threshold.threshold entry <= 130 < Threshold.threshold next
    /\ (forall t, In t XP_THRESHOLDS -> Threshold.threshold t <= 130 ->
                  Threshold.threshold t <= Threshold.threshold entry)
    /\ (forall t, In t XP_THRESHOLDS -> 130 < Threshold.threshold t ->
                  Threshold.threshold next <= Threshold.threshold t).
Proof. apply (X21_rank_is_the_last_threshold_reached 130). lia. Defined.

Lemma In_Zrange (count : nat) (from z : Z) :
  from <= z < from + Z.of_nat count -> In z (Zrange count from).
Proof.
  revert from. induction count as [|k IH]; intros from H; [lia|].
  simpl. destruct (Z.eq_dec from z) as [->|Hne]; [now left|].
  right. apply IH. lia.
Qed.

Lemma progressInRange_checked :
  forallb progressInRange (Zrange (Z.to_nat 10001) 0) = true.
Proof. vm_compute. reflexivity. Qed.

Lemma Number_toString_floor (x : PrimFloat.float) (z : Z) :
  floorZ x = Some z -> Number_toString x = Z_toString z.
Proof.
  unfold Number_toString, floorZ.
  destruct (FloatOps.Prim2SF x) as [s|s| |s m e]; try discriminate;
    now intros [= <-].
Qed.

(** X22: the progress display, as the double arithmetic computes it.  For
    every balance from 0 to 10000 [getRankAndProgress] returns, and
    [levelProgress] is the bar, a space and a percentage that is a whole
    number from 0 to 99, equal to the exact percentage of the way to the
    next threshold or one below it (the quotient is rounded before it is
    multiplied by 100); the bar shows a tenth of it, rounded down, as
    filled squares, so never all ten. *)
Theorem X22_progress_is_a_percentage_below_100 (xp : Z)
  (Hxp : 0 <= xp <= 10000) :
  exists info entry progress filled,
    getRankAndProgress xp = Some info
    /\ thresholdOfRank (fst (rankAndNextThreshold xp)) = Some entry
    /\ RankInfo.levelProgress info
       = (String.concat " "
            (barArray
               (filledOf (progressOf xp (Threshold.threshold entry)
                                     (snd (rankAndNextThreshold xp)))))
          ++ " " ++ Z_toString progress ++ "%")%string
    /\ floorZ (progressOf xp (Threshold.threshold entry)
                          (snd (rankAndNextThreshold xp)))
       = Some progress
    /\ 0 <= progress <= 99
    /\ exactPercent xp (Threshold.threshold entry)
                    (snd (rankAndNextThreshold xp)) - 1
       <= progress
       <= exactPercent xp (Threshold.threshold entry)
                       (snd (rankAndNextThreshold xp))
    /\ floorZ (filledOf (progressOf xp (Threshold.threshold entry)
                                    (snd (rankAndNextThreshold xp))))
       = Some filled
    /\ filled = progress / 10
    /\ List.length
         (filter (String.eqb FILLED_SQUARE)
            (barArray
               (filledOf (progressOf xp (Threshold.threshold entry)
                                     (snd (rankAndNextThreshold xp))))))
       = Z.to_nat filled
    /\ 0 <= filled <= 9.
Proof.
  pose proof progressInRange_checked as Hall.
  rewrite forallb_forall in Hall.
  specialize (Hall xp (In_Zrange (Z.to_nat 10001) 0 xp ltac:(lia))).
  unfold progressInRange in Hall. unfold getRankAndProgress.
  destruct (rankAndNextThreshold xp) as [rank next]. simpl fst. simpl snd.
  destruct (thresholdOfRank rank) as [entry|]; [|discriminate].
  destruct (floorZ (progressOf xp (Threshold.threshold entry) next))
    as [progress|] eqn:Ep; [|discriminate].
  destruct (floorZ (filledOf (progressOf xp (Threshold.threshold entry) next)))
    as [filled|] eqn:Ef; [|discriminate].
  repeat (apply andb_true_iff in Hall; destruct Hall as [Hall ?]).
  eexists. exists entry, progress, filled.
  repeat match goal with
         | H : (_ <=? _) = true |- _ => apply Z.leb_le in H
         | H : (_ =? _) = true |- _ => apply Z.eqb_eq in H
         | H : Nat.eqb _ _ = true |- _ => apply Nat.eqb_eq in H
         end.
  assert (0 <= progress / 10) by (apply Z.div_pos; lia).
  assert (progress / 10 < 10) by (apply Z.div_lt_upper_bound; lia).
  split; [reflexivity|]. split; [reflexivity|].
  split.
  { cbv zeta. cbn [RankInfo.levelProgress].
    now rewrite (Number_toString_floor _ _ Ep). }
  splits; auto; lia.
Qed.

Lemma X22_witness :
  exists info entry progress filled,
    getRankAndProgress 130 = Some info
    /\ thresholdOfRank (fst (rankAndNextThreshold 130)) = Some entry
    /\ RankInfo.levelProgress info
       = (String.concat " "
            (barArray
               (filledOf (progressOf 130 (Threshold.threshold entry)
                                     (snd (rankAndNextThreshold 130)))))
          ++ " " ++ Z_toString progress ++ "%")%string
    /\ floorZ (progressOf 130 (Threshold.threshold entry)
                          (snd (rankAndNextThreshold 130)))
       = Some progress
    /\ 0 <= progress <= 99
    /\ exactPercent 130 (Threshold.threshold entry)
                    (snd (rankAndNextThreshold 130)) - 1
       <= progress
       <= exactPercent 130 (Threshold.threshold entry)
                       (snd (rankAndNextThreshold 130))
    /\ floorZ (filledOf (progressOf 130 (Threshold.threshold entry)
                                    (snd (rankAndNextThreshold 130))))
       = Some filled
    /\ filled = progress / 10
    /\ List.length
         (filter (String.eqb FILLED_SQUARE)
            (barArray
               (filledOf (progressOf 130 (Threshold.threshold entry)
                                     (snd (rankAndNextThreshold 130))))))
       = Z.to_nat filled
    /\ 0 <= filled <= 9.
Proof. apply (X22_progress_is_a_percentage_below_100 130). lia. Defined.

(** The rounding shows: at 130 XP the way from 101 to 201 is 29 percent,
    and 28 is displayed. *)
Example progress_at_130 :
  exactPercent 130 101 201 = 29
  /\ option_map RankInfo.levelProgress (getRankAndProgress 130)
     = Some (String.concat " "
               [FILLED_SQUARE; FILLED_SQUARE; EMPTY_SQUARE; EMPTY_SQUARE;
                EMPTY_SQUARE; EMPTY_SQUARE; EMPTY_SQUARE; EMPTY_SQUARE;
                EMPTY_SQUARE; EMPTY_SQUARE]
             ++ " 28%")%string.
Proof. split; vm_compute; reflexivity. Qed.

(* ================================================================== *)
(** ** Escaping *)
(* ================================================================== *)

Lemma string_app_assoc (r s t : string) :
  (r ++ (s ++ t))%string = ((r ++ s) ++ t)%string.
Proof. induction r as [|y r IH]; [reflexivity|]. simpl. now rewrite IH. Qed.

Lemma replaceAll_app c r s t :
  replaceAll c r (s ++ t)%string
  = (replaceAll c r s ++ replaceAll c r t)%string.
Proof.
  induction s as [|x s IH]; [reflexivity|].
  simpl. rewrite IH. destruct (Ascii.eqb x c); [|reflexivity].
  apply string_app_assoc.
Qed.

Lemma occurs_app c s t :
  occurs c (s ++ t)%string = occurs c s || occurs c t.
Proof.
  induction s as [|x s IH]; [reflexivity|].
  simpl. rewrite IH. now rewrite orb_assoc.
Qed.

(** The five characters, and the others. *)
Lemma escaped_cases (x : ascii) :
  x = AMPERSAND \/ x = LESS_THAN \/ x = GREATER_THAN \/ x = DOUBLE_QUOTE
  \/ x = SINGLE_QUOTE
  \/ (Ascii.eqb x AMPERSAND = false /\ Ascii.eqb x LESS_THAN = false
      /\ Ascii.eqb x GREATER_THAN = false /\ Ascii.eqb x DOUBLE_QUOTE = false
      /\ Ascii.eqb x SINGLE_QUOTE = false).
Proof.
  destruct (Ascii.eqb_spec x AMPERSAND); [tauto|].
  destruct (Ascii.eqb_spec x LESS_THAN); [tauto|].
  destruct (Ascii.eqb_spec x GREATER_THAN); [tauto|].
  destruct (Ascii.eqb_spec x DOUBLE_QUOTE); [tauto|].
  destruct (Ascii.eqb_spec x SINGLE_QUOTE); tauto.
Qed.

Ltac by_escaped_cases x :=
  destruct (escaped_cases x)
    as [->|[->|[->|[->|[->|(?E1 & ?E2 & ?E3 & ?E4 & ?E5)]]]]].

Lemma escapeHtml_cons x s :
  escapeHtml (String x s) = (escapeChar x ++ escapeHtml s)%string.
Proof.
  unfold escapeHtml, escapeChar.
  by_escaped_cases x; try reflexivity.
  cbn [replaceAll]. rewrite E1. cbn [replaceAll]. rewrite E2.
  cbn [replaceAll]. rewrite E3. cbn [replaceAll]. rewrite E4.
  cbn [replaceAll]. rewrite E5. reflexivity.
Qed.

Lemma escapeHtml_escapeEach s : escapeHtml s = escapeEach s.
Proof.
  induction s as [|x s IH]; [reflexivity|].
  rewrite escapeHtml_cons. simpl. now rewrite IH.
Qed.

Lemma escapeHtml_app s t :
  escapeHtml (s ++ t)%string = (escapeHtml s ++ escapeHtml t)%string.
Proof.
  unfold escapeHtml. now rewrite !replaceAll_app.
Qed.

Lemma occurs_escapeChar c x :
  In c [LESS_THAN; GREATER_THAN; DOUBLE_QUOTE; SINGLE_QUOTE] ->
  occurs c (escapeChar x) = false.
Proof.
  intros Hc. unfold escapeChar.
  by_escaped_cases x; try (simpl in Hc; intuition (subst; reflexivity)).
  rewrite E1, E2, E3, E4, E5. simpl.
  simpl in Hc. intuition (subst; rewrite ?E2, ?E3, ?E4, ?E5; reflexivity).
Qed.

Lemma ampersands_entity e t :
  In e ENTITIES ->
  ampersandsStartEntities (e ++ t)%string = ampersandsStartEntities t.
Proof.
  intros He. simpl in He.
  assert (Hp : forall u, String.prefix EmptyString u = true)
    by (now intros [|? ?]).
  intuition (subst; simpl; rewrite ?Hp; reflexivity).
Qed.

Lemma escapeChar_entity x :
  In (escapeChar x) ENTITIES
  \/ (escapeChar x = String x EmptyString /\ Ascii.eqb x AMPERSAND = false).
Proof.
  unfold escapeChar.
  by_escaped_cases x; try (left; simpl; tauto).
  right. now rewrite E1, E2, E3, E4, E5.
Qed.

Lemma escapeChar_nonempty x s : (escapeChar x ++ s)%string <> EmptyString.
Proof.
  unfold escapeChar.
  repeat match goal with
         | |- context [if ?b then _ else _] => destruct b
         end; discriminate.
Qed.

Lemma escapeChar_inj x y s t :
  (escapeChar x ++ s)%string = (escapeChar y ++ t)%string ->
  x = y /\ s = t.
Proof.
  unfold escapeChar.
  by_escaped_cases x; by_escaped_cases y;
    rewrite ?E1, ?E2, ?E3, ?E4, ?E5, ?E0, ?E6, ?E7, ?E8, ?E9;
    cbn; intros H; try discriminate H;
    try (injection H as -> ->; now split);
    try (injection H as ->; now split);
    try (injection H as Hx _; subst; cbn in *; discriminate).
Qed.

(** ** X23: [escapeHtml] escapes every character once *)

(** X23.  The five replacements of [escapeHtml], made one after the other
    on the whole text, amount to one pass that writes each [&], [<], [>],
    double quote and single quote as its entity and leaves every other
    character: the [&] of an entity written by an earlier replacement is
    not escaped again. *)
Theorem X23_escapeHtml_escapes_each_character_once (unsafe : string) :
  escapeHtml unsafe = escapeEach unsafe.
Proof.
  induction unsafe as [|x s IH]; [reflexivity|].
  rewrite escapeHtml_cons. cbn [escapeEach]. now rewrite IH.
Qed.

(** X24.  The text [escapeHtml] returns holds no [<], no [>], no double
    quote and no single quote, and every [&] in it starts one of the five
    entities [&amp;], [&lt;], [&gt;], [&quot;] and [&#039;]. *)
Theorem X24_escaped_text_holds_no_markup (unsafe : string) :
  occurs LESS_THAN (escapeHtml unsafe) = false
  /\ occurs GREATER_THAN (escapeHtml unsafe) = false
  /\ occurs DOUBLE_QUOTE (escapeHtml unsafe) = false
  /\ occurs SINGLE_QUOTE (escapeHtml unsafe) = false
  /\ ampersandsStartEntities (escapeHtml unsafe) = true.
Proof.
  rewrite escapeHtml_escapeEach.
  assert (Hocc : forall c,
    In c [LESS_THAN; GREATER_THAN; DOUBLE_QUOTE; SINGLE_QUOTE] ->
    occurs c (escapeEach unsafe) = false).
  { intros c Hc. induction unsafe as [|x s IH]; [reflexivity|].
    simpl escapeEach. rewrite occurs_app, IH, (occurs_escapeChar c x Hc).
    reflexivity. }
  repeat split; try (apply Hocc; simpl; tauto).
  clear Hocc. induction unsafe as [|x s IH]; [reflexivity|].
  simpl escapeEach.
  destruct (escapeChar_entity x) as [He|[-> Hx]].
  - now rewrite (ampersands_entity _ _ He).
  - simpl. now rewrite Hx, IH.
Qed.

(** X25.  [escapeHtml] loses nothing: two texts with the same escaped
    form are the same text, and the escaped form of a concatenation is
    the concatenation of the escaped forms. *)
Theorem X25_escapeHtml_is_injective (s t : string) :
  (escapeHtml s = escapeHtml t -> s = t)
  /\ escapeHtml (s ++ t)%string = (escapeHtml s ++ escapeHtml t)%string.
Proof.
  split; [|apply escapeHtml_app].
  rewrite !escapeHtml_escapeEach. revert t.
  induction s as [|x s IH]; intros [|y t] H.
  - reflexivity.
  - exfalso. symmetry in H. now apply escapeChar_nonempty in H.
  - exfalso. now apply escapeChar_nonempty in H.
  - simpl in H. apply escapeChar_inj in H as [-> H].
    now rewrite (IH _ H).
Qed.

(** ** The font size *)

(** X26.  The font size [renderLatex] picks never grows with the length
    of the text, and lies between 0.9 and 2.4. *)
Theorem X26_longer_text_never_gets_a_larger_font (m n : nat) :
  (m <= n)%nat ->
  (fontSize n <= fontSize m)%Q
  /\ (0.9 <= fontSize n)%Q /\ (fontSize n <= 2.4)%Q.
Proof.
  intros Hmn. unfold fontSize.
  repeat match goal with
         | |- context [(?a <=? ?b)%nat] => destruct (Nat.leb_spec a b)
         end;
    try lia; repeat split; apply Qle_bool_iff; reflexivity.
Qed.

Lemma X26_witness :
  (30 <= 100)%nat
  /\ ((fontSize 100 <= fontSize 30)%Q
      /\ (0.9 <= fontSize 100)%Q /\ (fontSize 100 <= 2.4)%Q).
Proof.
  split; [lia|]. apply (X26_longer_text_never_gets_a_larger_font 30 100). lia.
Defined.

(* ================================================================== *)
(** ** Review buttons *)
(* ================================================================== *)

Lemma String_split_nonempty sep s : String_split sep s <> [].
Proof.
  destruct s as [|x s]; [discriminate|].
  simpl. destruct (Ascii.eqb x sep); [discriminate|].
  destruct (String_split sep s); discriminate.
Qed.

(** A text without the separator is one part. *)
Lemma String_split_one sep s :
  occurs sep s = false -> String_split sep s = [s].
Proof.
  induction s as [|x s IH]; [reflexivity|].
  simpl. destruct (Ascii.eqb x sep); [discriminate|].
  intros H. now rewrite (IH H).
Qed.

(** The first separator ends the first part. *)
Lemma String_split_first sep a b :
  occurs sep a = false ->
  String_split sep (a ++ String sep b) = a :: String_split sep b.
Proof.
  induction a as [|x a IH]; simpl.
  - intros _. now rewrite Ascii.eqb_refl.
  - destruct (Ascii.eqb x sep); [discriminate|].
    intros H. now rewrite (IH H).
Qed.

(** [s.split(sep).join(sep)] is [s]. *)
Lemma concat_String_split sep s :
  String.concat (String sep EmptyString) (String_split sep s) = s.
Proof.
  induction s as [|x s IH]; [reflexivity|].
  simpl String_split.
  destruct (Ascii.eqb_spec x sep) as [->|Hx].
  - destruct (String_split sep s) as [|p ps] eqn:E;
      [now apply String_split_nonempty in E|].
    change (String.concat (String sep EmptyString) (EmptyString :: p :: ps))
      with (String sep (String.concat (String sep EmptyString) (p :: ps))).
    now rewrite IH.
  - destruct (String_split sep s) as [|p ps] eqn:E;
      [now apply String_split_nonempty in E|].
    destruct ps as [|q ps].
    + simpl in *. now rewrite IH.
    + change (String.concat (String sep EmptyString) (String x p :: q :: ps))
        with (String x (String.concat (String sep EmptyString) (p :: q :: ps))).
      now rewrite IH.
Qed.

Lemma getCurrentProblemNumber_nonempty active :
  String.eqb (getCurrentProblemNumber active) "" = false.
Proof.
  destruct active as [n|]; [|reflexivity].
  simpl. now destruct (String.eqb n "") eqn:E.
Qed.

Lemma eqb_empty_false (s : string) :
  s <> EmptyString -> String.eqb s "" = false.
Proof. intros H. now apply String.eqb_neq. Qed.

(** The parts of the three custom ids. *)
Lemma correctButtonId_parts userId problemNumber :
  occurs UNDERSCORE userId = false ->
  String_split UNDERSCORE (correctButtonId userId problemNumber)
  = "correct"%string :: userId :: String_split UNDERSCORE problemNumber.
Proof.
  intros Hsep. unfold correctButtonId.
  change ("correct_" ++ userId ++ "_" ++ problemNumber)%string
    with ("correct" ++ String UNDERSCORE
                         (userId ++ String UNDERSCORE problemNumber))%string.
  rewrite String_split_first by reflexivity.
  now rewrite String_split_first by exact Hsep.
Qed.

Lemma wrongButtonId_parts userId problemNumber :
  occurs UNDERSCORE userId = false ->
  String_split UNDERSCORE (wrongButtonId userId problemNumber)
  = "wrong"%string :: userId :: String_split UNDERSCORE problemNumber.
Proof.
  intros Hsep. unfold wrongButtonId.
  change ("wrong_" ++ userId ++ "_" ++ problemNumber)%string
    with ("wrong" ++ String UNDERSCORE
                       (userId ++ String UNDERSCORE problemNumber))%string.
  rewrite String_split_first by reflexivity.
  now rewrite String_split_first by exact Hsep.
Qed.

Lemma resetButtonId_parts problemNumber :
  String_split UNDERSCORE (resetButtonId problemNumber)
  = "reset"%string :: String_split UNDERSCORE problemNumber.
Proof.
  unfold resetButtonId.
  change ("reset_" ++ problemNumber)%string
    with ("reset" ++ String UNDERSCORE problemNumber)%string.
  now rewrite String_split_first by reflexivity.
Qed.

(** ** X27: the ids of the buttons carry their arguments *)

(** X27.  A curator's click on a review button reaches [recordAttempt]
    with the author and the problem number the button was made for (the
    problem current when the answer was forwarded), whatever problem is
    active at the click, provided the author's id is not empty and holds
    no underscore; a click on a reset button reaches [resetProblemStats]
    with the number of the problem shown, provided that number is not
    empty.  The problem number may itself hold underscores. *)
Theorem X27_button_ids_carry_their_arguments
  (activeThen activeNow : option string) (authorId number : string) :
  authorId <> EmptyString -> occurs UNDERSCORE authorId = false ->
  number <> EmptyString ->
  let currentProblemNumber := getCurrentProblemNumber activeThen in
  routeButton activeNow true (correctButtonId authorId currentProblemNumber)
  = Review authorId currentProblemNumber true
  /\ routeButton activeNow true (wrongButtonId authorId currentProblemNumber)
     = Review authorId currentProblemNumber false
  /\ routeButton activeNow true (resetButtonId number) = ResetStats number.
Proof.
  intros Hu Hsep Hn current.
  pose proof (getCurrentProblemNumber_nonempty activeThen) as Hcur.
  fold current in Hcur.
  unfold routeButton.
  rewrite (correctButtonId_parts _ current Hsep),
          (wrongButtonId_parts _ current Hsep), resetButtonId_parts.
  cbn [tl]. unfold UNDERSCORE.
  rewrite !concat_String_split, Hcur, (eqb_empty_false _ Hu),
          (eqb_empty_false _ Hn).
  repeat split.
Qed.

Lemma X27_witness :
  routeButton None true (correctButtonId "4242" (getCurrentProblemNumber (Some "7_b"%string)))
  = Review "4242" (getCurrentProblemNumber (Some "7_b"%string)) true
  /\ routeButton None true (wrongButtonId "4242" (getCurrentProblemNumber (Some "7_b"%string)))
     = Review "4242" (getCurrentProblemNumber (Some "7_b"%string)) false
  /\ routeButton None true (resetButtonId "7_b") = ResetStats "7_b".
Proof.
  apply (X27_button_ids_carry_their_arguments (Some "7_b"%string) None
           "4242" "7_b");
    [discriminate|reflexivity|discriminate].
Defined.

(** ** X28: the buttons are for curators *)

(** X28.  A click by a member without the Curator role reaches neither
    [recordAttempt] nor [resetProblemStats], whatever the id of the
    button; and a curator's click reaches [recordAttempt] only with a
    user id and a problem number that are not empty, and
    [resetProblemStats] only with a problem number that is not empty. *)
Theorem X28_buttons_are_for_curators
  (activeProblemNumber : option string) (hasCuratorRole : bool)
  (customId : string) :
  (routeButton activeProblemNumber false customId = Ignored
   \/ routeButton activeProblemNumber false customId = OnlyCurators)
  /\ (forall userId problemNumber isCorrect,
        routeButton activeProblemNumber hasCuratorRole customId
        = Review userId problemNumber isCorrect ->
        hasCuratorRole = true /\ userId <> EmptyString
        /\ problemNumber <> EmptyString)
  /\ (forall problemNumber,
        routeButton activeProblemNumber hasCuratorRole customId
        = ResetStats problemNumber ->
        hasCuratorRole = true /\ problemNumber <> EmptyString).
Proof.
  unfold routeButton.
  destruct (String_split UNDERSCORE customId) as [|action parts].
  { repeat split; (discriminate || auto). }
  destruct (String.eqb action "done").
  { repeat split; (discriminate || auto). }
  cbn [negb]. split; [now right|].
  destruct hasCuratorRole; cbn [negb].
  2: { repeat split; discriminate. }
  destruct (String.eqb action "reset").
  { destruct (String.eqb_spec (String.concat "_" parts) "") as [E|E].
    - repeat split; discriminate.
    - split; [discriminate|].
      intros n [= <-]. now split. }
  destruct (negb (String.eqb action "correct")
            && negb (String.eqb action "wrong")).
  { repeat split; discriminate. }
  destruct parts as [|userId parts].
  { repeat split; discriminate. }
  destruct (String.eqb_spec userId "") as [E|E].
  { repeat split; discriminate. }
  split; [|discriminate].
  intros u n c [= <- <- _]. repeat split; [exact E|].
  cbn [tl].
  destruct (String.eqb_spec (String.concat "_" parts) "") as [E'|E'];
    [|exact E'].
  apply String.eqb_neq, getCurrentProblemNumber_nonempty.
Qed.

(* ================================================================== *)
(** ** The problem sheet *)
(* ================================================================== *)

Section StripSpaces.
Variables (sp1 : ascii -> bool) (sp2 : ascii -> ascii -> bool)
          (sp3 : ascii -> ascii -> ascii -> bool).

(** What is stripped is a prefix, and what is left starts with no
    white space. *)
Lemma stripSpaces_spec (l : list ascii) :
  (exists w, l = w ++ stripSpaces sp1 sp2 sp3 l)
  /\ headClean sp1 sp2 sp3 (stripSpaces sp1 sp2 sp3 l) = true.
Proof.
  remember (List.length l) as k eqn:Hk.
  assert (Hle : (List.length l <= k)%nat) by lia. clear Hk.
  revert l Hle. induction k as [|k IH]; intros l Hle.
  { destruct l; [|simpl in Hle; lia]. split; [now exists []|reflexivity]. }
  destruct l as [|c1 l1]; [split; [now exists []|reflexivity]|].
  simpl in Hle. simpl.
  destruct (sp1 c1) eqn:E1.
  { destruct (IH l1 ltac:(lia)) as [[w Hw] Hc].
    split; [|exact Hc]. exists (c1 :: w). simpl. now rewrite <- Hw. }
  destruct l1 as [|c2 l2].
  { split; [now exists []|]. simpl. now rewrite E1. }
  simpl in Hle.
  destruct (sp2 c1 c2) eqn:E2.
  { destruct (IH l2 ltac:(lia)) as [[w Hw] Hc].
    split; [|exact Hc]. exists (c1 :: c2 :: w). simpl. now rewrite <- Hw. }
  destruct l2 as [|c3 l3].
  { split; [now exists []|]. simpl. now rewrite E1, E2. }
  simpl in Hle.
  destruct (sp3 c1 c2 c3) eqn:E3.
  { destruct (IH l3 ltac:(lia)) as [[w Hw] Hc].
    split; [|exact Hc]. exists (c1 :: c2 :: c3 :: w). simpl.
    now rewrite <- Hw. }
  split; [now exists []|]. simpl. now rewrite E1, E2, E3.
Qed.

(** Nothing is stripped from a text that starts with no white space. *)
Lemma stripSpaces_clean (l : list ascii) :
  headClean sp1 sp2 sp3 l = true -> stripSpaces sp1 sp2 sp3 l = l.
Proof.
  destruct l as [|c1 [|c2 [|c3 l3]]]; simpl; [reflexivity|..].
  - now destruct (sp1 c1).
  - destruct (sp1 c1); [discriminate|]. now destruct (sp2 c1 c2).
  - destruct (sp1 c1); [discriminate|].
    destruct (sp2 c1 c2); [discriminate|]. now destruct (sp3 c1 c2 c3).
Qed.

(** A prefix of such a text starts with no white space either. *)
Lemma headClean_prefix (l w : list ascii) :
  headClean sp1 sp2 sp3 (l ++ w) = true -> headClean sp1 sp2 sp3 l = true.
Proof.
  destruct l as [|c1 [|c2 [|c3 l3]]]; simpl; [reflexivity|..].
  - now destruct (sp1 c1).
  - destruct (sp1 c1); [discriminate|]. now destruct (sp2 c1 c2).
  - auto.
Qed.
End StripSpaces.

(** [trim] on the bytes. *)
Lemma trim_bytes (s : string) :
  trim s
  = string_of_list_ascii
      (rev (trimEndBytes (rev (trimStartBytes (list_ascii_of_string s))))).
Proof.
  unfold trim, trimEnd, trimStart.
  now rewrite list_ascii_of_string_of_list_ascii.
Qed.

(** A trimmed text is left as it is by [trim]. *)
Lemma trim_trim (s : string) : trim (trim s) = trim s.
Proof.
  rewrite (trim_bytes (trim s)), (trim_bytes s).
  rewrite list_ascii_of_string_of_list_ascii.
  set (b := trimStartBytes (list_ascii_of_string s)).
  set (e := trimEndBytes (rev b)).
  assert (Hb : headClean isSpace1 isSpace2 isSpace3 b = true)
    by apply stripSpaces_spec.
  destruct (stripSpaces_spec isSpace1 (fun c1 c2 => isSpace2 c2 c1)
              (fun c1 c2 c3 => isSpace3 c3 c2 c1) (rev b)) as [[w Hw] He].
  fold trimEndBytes in Hw, He. fold e in Hw, He.
  assert (Hbe : b = rev e ++ rev w).
  { rewrite <- rev_app_distr, <- Hw. now rewrite rev_involutive. }
  rewrite Hbe in Hb. apply headClean_prefix in Hb.
  unfold trimStartBytes at 1. rewrite (stripSpaces_clean _ _ _ _ Hb).
  rewrite rev_involutive.
  unfold trimEndBytes at 1. now rewrite (stripSpaces_clean _ _ _ _ He).
Qed.

Lemma find_first {A} (f : A -> bool) (before after : list A) (x : A) :
  forallb (fun y => negb (f y)) before = true -> f x = true ->
  find f (before ++ x :: after) = Some x.
Proof.
  intros Hb Hx. induction before as [|y before IH]; simpl.
  - now rewrite Hx.
  - simpl in Hb. apply andb_true_iff in Hb as [Hy Hb].
    apply negb_true_iff in Hy. rewrite Hy. now apply IH.
Qed.

Lemma orElse_missing (value : option string) (fallback : string) :
  value = None \/ value = Some EmptyString -> orElse value fallback = fallback.
Proof. now intros [->| ->]. Qed.

Lemma getProblemByNumber_first before after row problemNumber :
  forallb (fun r => negb (rowHasNumber (trim problemNumber) r)) before = true ->
  rowHasNumber (trim problemNumber) row = true ->
  getProblemByNumber (before ++ row :: after) problemNumber
  = Some (SheetProblem.mk (trim problemNumber)
            (orElse (row "Problem Statement"%string) "")
            (orElse (row "Base Score"%string) "10")).
Proof.
  intros Hb Hrow. unfold getProblemByNumber. cbv zeta.
  now rewrite (find_first _ _ _ _ Hb Hrow).
Qed.

(** ** X29: the sheet lookup *)

(** X29.  [getProblemByNumber] answers from the first row whose Number,
    without the white space around it, is the number asked for without
    the white space around it: [number] is the number asked for, trimmed,
    the problem text and the base score are those of that row, [''] and
    ['10'] standing in for a missing or empty cell; later rows with the
    same number are not read, and white space around the number asked for
    makes no difference.  The lookup fails exactly when no row has the
    number. *)
Theorem X29_sheet_lookup_takes_the_first_matching_row
  (before after : list Row) (row : Row) (problemNumber : string) :
  forallb (fun r => negb (rowHasNumber (trim problemNumber) r)) before = true ->
  rowHasNumber (trim problemNumber) row = true ->
  getProblemByNumber (before ++ row :: after) problemNumber
  = Some (SheetProblem.mk (trim problemNumber)
            (orElse (row "Problem Statement"%string) "")
            (orElse (row "Base Score"%string) "10"))
  /\ getProblemByNumber (before ++ row :: after) (trim problemNumber)
     = getProblemByNumber (before ++ row :: after) problemNumber
  /\ (exists v, row "Number"%string = Some v /\ trim v = trim problemNumber)
  /\ (forall rows,
        getProblemByNumber rows problemNumber = None
        <-> forall r, In r rows -> rowHasNumber (trim problemNumber) r = false).
Proof.
  intros Hb Hrow.
  split; [now apply getProblemByNumber_first|].
  split; [unfold getProblemByNumber; cbv zeta; now rewrite trim_trim|].
  split.
  - unfold rowHasNumber in Hrow.
    destruct (row "Number"%string) as [v|]; [|discriminate].
    exists v. split; [reflexivity|]. now apply String.eqb_eq.
  - intros rows. rewrite <- find_none_iff. unfold getProblemByNumber.
    cbv zeta.
    destruct (find (rowHasNumber (trim problemNumber)) rows);
      split; congruence.
Qed.

Lemma X29_witness :
  getProblemByNumber ([rowOf6] ++ rowOf7 :: [rowOf6]) "7 "
  = Some (SheetProblem.mk (trim "7 ")
            (orElse (rowOf7 "Problem Statement"%string) "")
            (orElse (rowOf7 "Base Score"%string) "10"))
  /\ getProblemByNumber ([rowOf6] ++ rowOf7 :: [rowOf6]) (trim "7 ")
     = getProblemByNumber ([rowOf6] ++ rowOf7 :: [rowOf6]) "7 "
  /\ (exists v, rowOf7 "Number"%string = Some v /\ trim v = trim "7 ")
  /\ (forall rows,
        getProblemByNumber rows "7 " = None
        <-> forall r, In r rows -> rowHasNumber (trim "7 ") r = false).
Proof.
  apply (X29_sheet_lookup_takes_the_first_matching_row
           [rowOf6] [rowOf6] rowOf7 "7 ");
    reflexivity.
Defined.

(** ** X30: a row without a base score *)

(** X30.  A problem that is not stored yet and whose row in the sheet has
    no base score, or an empty one, is priced 10: the sheet answers ['10'],
    [recordAttempt] reads it as 10, returns, and stores the problem with
    the original base score 10. *)
Theorem X30_missing_base_score_is_priced_10
  (before after : list Row) (row : Row) (d n : string) (c : bool) (db : DB)
  (Hreach : reachable db)
  (Hnew : find (Prisma.problem_byNumber n) (problems db) = None)
  (Hbefore : forallb (fun r => negb (rowHasNumber (trim n) r)) before = true)
  (Hrow : rowHasNumber (trim n) row = true)
  (Hmissing : row "Base Score"%string = None
              \/ row "Base Score"%string = Some EmptyString) :
  sheetBaseScore (before ++ row :: after) n = Some 10
  /\ exists res db' p,
       recordAttempt (sheetBaseScore (before ++ row :: after)) d n c db
       = (Ok res, db')
       /\ AttemptResult.originalBaseScore res = 10
       /\ find (Prisma.problem_byNumber n) (problems db') = Some p
       /\ Problem.originalBaseScore p = 10.
Proof.
  pose proof (reachable_wf db Hreach) as Hwf.
  assert (Hsheet : sheetBaseScore (before ++ row :: after) n = Some 10).
  { unfold sheetBaseScore.
    rewrite (getProblemByNumber_first _ _ _ _ Hbefore Hrow).
    cbn [SheetProblem.baseScore]. now rewrite (orElse_missing _ _ Hmissing). }
  split; [exact Hsheet|].
  set (sheet := sheetBaseScore (before ++ row :: after)) in *.
  set (p := Problem.mk (nextId db) n 10 10 0 0 false None).
  assert (Hp : resolvedProblem sheet n db = Some p).
  { unfold resolvedProblem. now rewrite Hnew, Hsheet. }
  pose proof (recordAttempt_run sheet d n c db p Hwf Hp eq_refl) as Hrun.
  cbv zeta in Hrun.
  destruct (recordAttempt_resolved sheet d n db p Hwf Hp eq_refl)
    as (_ & _ & Hfp & _ & _).
  do 3 eexists. split; [exact Hrun|]. split; [reflexivity|].
  split; [apply (recordedStore_problem c d n p _ _ _ Hfp)|reflexivity].
Qed.

Lemma X30_witness :
  sheetBaseScore ([rowOf6] ++ rowOf7 :: []) problem7 = Some 10
  /\ exists res db' p,
       recordAttempt (sheetBaseScore ([rowOf6] ++ rowOf7 :: []))
                     userA problem7 true initialDB
       = (Ok res, db')
       /\ AttemptResult.originalBaseScore res = 10
       /\ find (Prisma.problem_byNumber problem7) (problems db') = Some p
       /\ Problem.originalBaseScore p = 10.
Proof.
  apply (X30_missing_base_score_is_priced_10 [rowOf6] [] rowOf7
           userA problem7 true initialDB reachable_init);
    [reflexivity | reflexivity | reflexivity | left; reflexivity].
Defined.
